(** * ScaleCache scxfs: the directory data block (libscxfs)

    A shallow embedding of [scxfs_dir2_data.c] and of the data-block part of
    [scxfs_da_format.c].  A block is the byte buffer [bp->b_addr]; every
    pointer into it ([hdr], [dup], [dep], [bf], [p], [endp]) is modelled as
    its byte offset from [hdr], so [hdr] itself is offset 0.  On-disk
    fields are big-endian and read byte by byte. *)

From Stdlib Require Import ZArith List Bool Lia Permutation.
Import ListNotations.
Open Scope Z_scope.

(** ** Bytes and big-endian fields *)

Definition buf := list Z.

(** The byte at offset [i]; offsets outside the buffer read as 0. *)
Definition rd (b : buf) (i : Z) : Z :=
  if i <? 0 then 0 else (nth (Z.to_nat i) b 0) mod 256.

Fixpoint upd (n : nat) (v : Z) (b : buf) : buf :=
  match b, n with
  | [], _ => []
  | _ :: t, O => v :: t
  | x :: t, S n' => x :: upd n' v t
  end.

(** Store the low eight bits of [v] at offset [i]; a store outside the
    buffer leaves it as it is. *)
Definition wr (b : buf) (i v : Z) : buf :=
  if i <? 0 then b else upd (Z.to_nat i) (v mod 256) b.

Definition blen (b : buf) : Z := Z.of_nat (length b).

(** Wrap-around of the unsigned C types. *)
Definition u16 (x : Z) : Z := x mod 65536.
Definition u32 (x : Z) : Z := x mod 4294967296.
Definition u64 (x : Z) : Z := x mod 18446744073709551616.

(** [be16_to_cpu] of the field at offset [o]. *)
Definition get_be16 (b : buf) (o : Z) : Z := rd b o * 256 + rd b (o + 1).

(** Store [cpu_to_be16 v] in the field at offset [o]: the two low bytes of
    [v], most significant first. *)
Definition put_be16 (b : buf) (o v : Z) : buf :=
  wr (wr b o (v / 256)) (o + 1) v.

Definition get_be32 (b : buf) (o : Z) : Z :=
  get_be16 b o * 65536 + get_be16 b (o + 2).

Definition put_be32 (b : buf) (o v : Z) : buf :=
  put_be16 (put_be16 b o (v / 65536)) (o + 2) v.

Definition get_be64 (b : buf) (o : Z) : Z :=
  get_be32 b o * 4294967296 + get_be32 b (o + 4).

Definition put_be64 (b : buf) (o v : Z) : buf :=
  put_be32 (put_be32 b o (v / 4294967296)) (o + 4) v.

(** [memset(hdr + o, 0, n)]. *)
Fixpoint memset0 (b : buf) (o : Z) (n : nat) : buf :=
  match n with
  | O => b
  | S n' => memset0 (wr b o 0) (o + 1) n'
  end.

(** [memcpy(hdr + o, src, |src|)]. *)
Fixpoint memcpy (b : buf) (o : Z) (src : list Z) : buf :=
  match src with
  | [] => b
  | x :: t => memcpy (wr b o x) (o + 1) t
  end.

(** ** On-disk constants and layout

    [scxfs_da_format.h] is not among the sources; the values below are the
    ones the specification gives. *)

(** Modelled from the spec: the free-tag sentinel of an unused region. *)
Definition SCXFS_DIR2_DATA_FREE_TAG : Z := 65535.
(** Modelled from the spec: the number of best-free slots. *)
Definition SCXFS_DIR2_DATA_FD_COUNT : Z := 3.
(** Modelled from the spec: the alignment granularity of records. *)
Definition SCXFS_DIR2_DATA_ALIGN : Z := 8.
(** Modelled from the spec: the four magic numbers. *)
Definition SCXFS_DIR2_DATA_MAGIC : Z := 1480864324.   (* 0x58443244 XD2D *)
Definition SCXFS_DIR2_BLOCK_MAGIC : Z := 1480864322.  (* 0x58443242 XD2B *)
Definition SCXFS_DIR3_DATA_MAGIC : Z := 1480868915.   (* 0x58444433 XDD3 *)
Definition SCXFS_DIR3_BLOCK_MAGIC : Z := 1480868403.  (* 0x58444233 XDB3 *)
(** Modelled from the spec: the address of a stale leaf entry. *)
Definition SCXFS_DIR2_NULL_DATAPTR : Z := 4294967295.

(** Modelled from the spec: [struct scxfs_dir2_data_free] is a pair of
    16-bit words, [offset] then [length]. *)
Definition sizeof_scxfs_dir2_data_free : Z := 2 + 2.

(** Modelled from the spec: the legacy header [struct scxfs_dir2_data_hdr]
    is the 4-byte magic followed by the three best-free pairs. *)
Definition offsetof_dir2_bestfree : Z := 4.
Definition sizeof_scxfs_dir2_data_hdr : Z :=
  4 + SCXFS_DIR2_DATA_FD_COUNT * sizeof_scxfs_dir2_data_free.

(** Modelled from the spec: [struct scxfs_dir3_blk_hdr] is magic, CRC,
    block number, LSN, UUID and owner; the v3 data header adds 4 bytes of
    padding and the three best-free pairs. *)
Definition sizeof_scxfs_dir3_blk_hdr : Z := 4 + 4 + 8 + 8 + 16 + 8.
Definition offsetof_dir3_blkno : Z := 8.
Definition offsetof_dir3_uuid : Z := 24.
Definition offsetof_dir3_owner : Z := 40.
Definition offsetof_dir3_best_free : Z := sizeof_scxfs_dir3_blk_hdr + 4.
Definition sizeof_scxfs_dir3_data_hdr : Z :=
  sizeof_scxfs_dir3_blk_hdr + 4
  + SCXFS_DIR2_DATA_FD_COUNT * sizeof_scxfs_dir2_data_free.

(** Modelled from the spec: an active entry is an 8-byte inode number, a
    1-byte name length and the name; [offsetof(struct scxfs_dir2_data_entry,
    name[0])] is therefore 9. *)
Definition offsetof_entry_namelen : Z := 8.
Definition offsetof_entry_name : Z := 9.

(** Modelled from the spec: the block-format trailer is a [(count, stale)]
    tail of two 32-bit words at the end of the block, preceded by [count]
    leaf entries [(hashval, address)] of 8 bytes each. *)
Definition sizeof_scxfs_dir2_block_tail : Z := 8.
Definition sizeof_scxfs_dir2_leaf_entry : Z := 8.

Record scxfs_da_geometry := {
  blksize : Z;    (* da block size in bytes *)
  datablk : Z     (* blockno of dir data v2 *)
}.

Definition scxfs_dir2_block_tail_p (geo : scxfs_da_geometry) : Z :=
  blksize geo - sizeof_scxfs_dir2_block_tail.

Definition btp_count (b : buf) (btp : Z) : Z := get_be32 b btp.
Definition btp_stale (b : buf) (btp : Z) : Z := get_be32 b (btp + 4).

Definition scxfs_dir2_block_leaf_p (b : buf) (btp : Z) : Z :=
  btp - sizeof_scxfs_dir2_leaf_entry * btp_count b btp.

Definition lep_hashval (b : buf) (lep i : Z) : Z :=
  get_be32 b (lep + sizeof_scxfs_dir2_leaf_entry * i).
Definition lep_address (b : buf) (lep i : Z) : Z :=
  get_be32 b (lep + sizeof_scxfs_dir2_leaf_entry * i + 4).

Definition hdr_magic (b : buf) : Z := get_be32 b 0.

(** Fields of the unused record at offset [dup]. *)
Definition dup_freetag (b : buf) (dup : Z) : Z := get_be16 b dup.
Definition dup_length (b : buf) (dup : Z) : Z := get_be16 b (dup + 2).

(** Modelled from the spec: the tag of an unused region is the last 16-bit
    word of the region ([scxfs_dir2_data_unused_tag_p] is declared in the
    absent header). *)
Definition scxfs_dir2_data_unused_tag_p (b : buf) (dup : Z) : Z :=
  dup + dup_length b dup - 2.

(** Fields of the entry at offset [dep]. *)
Definition dep_inumber (b : buf) (dep : Z) : Z := get_be64 b dep.
Definition dep_namelen (b : buf) (dep : Z) : Z :=
  rd b (dep + offsetof_entry_namelen).
Definition dep_name (b : buf) (dep : Z) : list Z :=
  map (fun i => rd b (dep + offsetof_entry_name + Z.of_nat i))
      (seq 0 (Z.to_nat (dep_namelen b dep))).

(** Slot [i] of the best-free table at offset [bf]. *)
Definition bf_offset (b : buf) (bf i : Z) : Z :=
  get_be16 b (bf + sizeof_scxfs_dir2_data_free * i).
Definition bf_length (b : buf) (bf i : Z) : Z :=
  get_be16 b (bf + sizeof_scxfs_dir2_data_free * i + 2).

(** The struct assignment [bf[i] = bf[j]]: four bytes are copied. *)
Definition bf_copy (b : buf) (bf i j : Z) : buf :=
  let s := bf + sizeof_scxfs_dir2_data_free * j in
  let d := bf + sizeof_scxfs_dir2_data_free * i in
  wr (wr (wr (wr b d (rd b s)) (d + 1) (rd b (s + 1)))
         (d + 2) (rd b (s + 2))) (d + 3) (rd b (s + 3)).

(** [bf[i].offset = cpu_to_be16(off); bf[i].length = cpu_to_be16(len)]. *)
Definition bf_set (b : buf) (bf i off len : Z) : buf :=
  put_be16 (put_be16 b (bf + sizeof_scxfs_dir2_data_free * i) off)
           (bf + sizeof_scxfs_dir2_data_free * i + 2) len.

(** ** Format dispatch ([scxfs_da_format.c]) *)

(** [round_up(x, y)] of the kernel, for [y] a power of two. *)
Definition round_up (x y : Z) : Z := Z.lor (x - 1) (y - 1) + 1.

Definition SCXFS_DIR2_DATA_ENTSIZE (n : Z) : Z :=
  round_up (offsetof_entry_name + n + 2) SCXFS_DIR2_DATA_ALIGN.

Definition SCXFS_DIR3_DATA_ENTSIZE (n : Z) : Z :=
  round_up (offsetof_entry_name + n + 2 + 1) SCXFS_DIR2_DATA_ALIGN.

Definition scxfs_dir2_data_entsize (n : Z) : Z := SCXFS_DIR2_DATA_ENTSIZE n.
Definition scxfs_dir3_data_entsize (n : Z) : Z := SCXFS_DIR3_DATA_ENTSIZE n.

(** The data-block members of [struct scxfs_dir_ops]. *)
Record scxfs_dir_ops := {
  data_entsize : Z -> Z;
  data_get_ftype : buf -> Z -> Z;
  data_put_ftype : buf -> Z -> Z -> buf;
  data_entry_tag_p : buf -> Z -> Z;
  data_bestfree_p : Z;
  data_entry_offset : Z;
  data_entry_p : Z;
  data_unused_p : Z
}.

Section Format.

(** The file-type codes are macros of the absent header: they are taken as
    parameters. *)
Variable SCXFS_DIR3_FT_UNKNOWN : Z.
Variable SCXFS_DIR3_FT_MAX : Z.

Definition scxfs_dir2_data_get_ftype (b : buf) (dep : Z) : Z :=
  SCXFS_DIR3_FT_UNKNOWN.

Definition scxfs_dir2_data_put_ftype (b : buf) (dep ftype : Z) : buf := b.

Definition scxfs_dir3_data_get_ftype (b : buf) (dep : Z) : Z :=
  let ftype := rd b (dep + offsetof_entry_name + dep_namelen b dep) in
  if ftype >=? SCXFS_DIR3_FT_MAX then SCXFS_DIR3_FT_UNKNOWN else ftype.

Definition scxfs_dir3_data_put_ftype (b : buf) (dep type : Z) : buf :=
  wr b (dep + offsetof_entry_name + dep_namelen b dep) type.

Definition scxfs_dir2_data_entry_tag_p (b : buf) (dep : Z) : Z :=
  dep + scxfs_dir2_data_entsize (dep_namelen b dep) - 2.

Definition scxfs_dir3_data_entry_tag_p (b : buf) (dep : Z) : Z :=
  dep + scxfs_dir3_data_entsize (dep_namelen b dep) - 2.

Definition scxfs_dir2_ops : scxfs_dir_ops := {|
  data_entsize := scxfs_dir2_data_entsize;
  data_get_ftype := scxfs_dir2_data_get_ftype;
  data_put_ftype := scxfs_dir2_data_put_ftype;
  data_entry_tag_p := scxfs_dir2_data_entry_tag_p;
  data_bestfree_p := offsetof_dir2_bestfree;
  data_entry_offset := sizeof_scxfs_dir2_data_hdr;
  data_entry_p := sizeof_scxfs_dir2_data_hdr;
  data_unused_p := sizeof_scxfs_dir2_data_hdr
|}.

Definition scxfs_dir2_ftype_ops : scxfs_dir_ops := {|
  data_entsize := scxfs_dir3_data_entsize;
  data_get_ftype := scxfs_dir3_data_get_ftype;
  data_put_ftype := scxfs_dir3_data_put_ftype;
  data_entry_tag_p := scxfs_dir3_data_entry_tag_p;
  data_bestfree_p := offsetof_dir2_bestfree;
  data_entry_offset := sizeof_scxfs_dir2_data_hdr;
  data_entry_p := sizeof_scxfs_dir2_data_hdr;
  data_unused_p := sizeof_scxfs_dir2_data_hdr
|}.

Definition scxfs_dir3_ops : scxfs_dir_ops := {|
  data_entsize := scxfs_dir3_data_entsize;
  data_get_ftype := scxfs_dir3_data_get_ftype;
  data_put_ftype := scxfs_dir3_data_put_ftype;
  data_entry_tag_p := scxfs_dir3_data_entry_tag_p;
  data_bestfree_p := offsetof_dir3_best_free;
  data_entry_offset := sizeof_scxfs_dir3_data_hdr;
  data_entry_p := sizeof_scxfs_dir3_data_hdr;
  data_unused_p := sizeof_scxfs_dir3_data_hdr
|}.

(** [scxfs_dir_get_ops(mp, NULL)] before [m_dir_inode_ops] is set: the
    selection by feature bits. *)
Definition scxfs_dir_get_ops (hascrc hasftype : bool) : scxfs_dir_ops :=
  if hascrc then scxfs_dir3_ops
  else if hasftype then scxfs_dir2_ftype_ops
  else scxfs_dir2_ops.

End Format.

(** ** Buffers and the journal hooks *)

(** A block buffer together with the byte ranges [first..last] handed to
    [scxfs_trans_log_buf] so far. *)
Record scxfs_buf := {
  b_addr : buf;
  b_logged : list (Z * Z)
}.

Definition set_addr (bp : scxfs_buf) (b : buf) : scxfs_buf :=
  {| b_addr := b; b_logged := b_logged bp |}.

Definition scxfs_trans_log_buf (bp : scxfs_buf) (first last : Z) : scxfs_buf :=
  {| b_addr := b_addr bp; b_logged := b_logged bp ++ [(first, last)] |}.

(** What the operations read of [struct scxfs_da_args]: the geometry and
    the directory's format table [args->dp->d_ops]. *)
Record scxfs_da_args := {
  geo : scxfs_da_geometry;
  d_ops : scxfs_dir_ops
}.

Definition scxfs_dir2_data_log_entry (args : scxfs_da_args) (bp : scxfs_buf)
    (dep : Z) : scxfs_buf :=
  scxfs_trans_log_buf bp (u32 dep)
    (u32 (data_entry_tag_p (d_ops args) (b_addr bp) dep + 2 - 1)).

Definition scxfs_dir2_data_log_header (args : scxfs_da_args) (bp : scxfs_buf)
    : scxfs_buf :=
  scxfs_trans_log_buf bp 0 (data_entry_offset (d_ops args) - 1).

Definition scxfs_dir2_data_log_unused (args : scxfs_da_args) (bp : scxfs_buf)
    (dup : Z) : scxfs_buf :=
  let bp1 := scxfs_trans_log_buf bp (u32 dup) (u32 (dup + 2 + 2 - 1)) in
  let tagp := scxfs_dir2_data_unused_tag_p (b_addr bp) dup in
  scxfs_trans_log_buf bp1 (u32 tagp) (u32 (tagp + 2 - 1)).

(** ** The best-free engine *)

(** The slots [&bf[0] .. &bf[SCXFS_DIR2_DATA_FD_COUNT - 1]] in loop order.
    A slot pointer [dfp] is modelled as [Some i] for [&bf[i]] and [None]
    for [NULL]. *)
Definition bf_slots : list Z := [0; 1; 2].

Fixpoint freefind_loop (b : buf) (bf off : Z) (slots : list Z) : option Z :=
  match slots with
  | [] => None
  | i :: rest =>
      if bf_offset b bf i =? 0 then None
      else if bf_offset b bf i =? off then Some i
      else freefind_loop b bf off rest
  end.

Definition scxfs_dir2_data_freefind (b : buf) (bf dup : Z) : option Z :=
  let off := u32 dup in
  if dup_length b dup <? bf_length b bf (SCXFS_DIR2_DATA_FD_COUNT - 1)
  then None
  else freefind_loop b bf off bf_slots.

(** The result is the buffer, the slot written (or [None]) and the value
    of [*loghead] afterwards. *)
Definition scxfs_dir2_data_freeinsert (b : buf) (dfp dup loghead : Z)
    : buf * option Z * Z :=
  let new_length := dup_length b dup in
  let new_offset := dup in
  if new_length >? bf_length b dfp 0 then
    let b1 := bf_copy b dfp 2 1 in
    let b2 := bf_copy b1 dfp 1 0 in
    let b3 := bf_set b2 dfp 0 new_offset new_length in
    (b3, Some 0, 1)
  else if new_length >? bf_length b dfp 1 then
    let b1 := bf_copy b dfp 2 1 in
    let b2 := bf_set b1 dfp 1 new_offset new_length in
    (b2, Some 1, 1)
  else if new_length >? bf_length b dfp 2 then
    let b1 := bf_set b dfp 2 new_offset new_length in
    (b1, Some 2, 1)
  else (b, None, loghead).

(** Any pointer other than [&bf[0]] and [&bf[1]] takes the last branch,
    whose assertion is compiled out. *)
Definition scxfs_dir2_data_freeremove (b : buf) (bf : Z) (dfp : option Z)
    : buf * Z :=
  let b1 :=
    match dfp with
    | Some 0 => bf_copy (bf_copy b bf 0 1) bf 1 2
    | Some 1 => bf_copy b bf 1 2
    | _ => b
    end in
  (bf_set b1 bf 2 0 0, 1).

(** [scxfs_dir3_data_endp]: [None] is the [NULL] of an unknown magic. *)
Definition scxfs_dir3_data_endp (g : scxfs_da_geometry) (b : buf) : option Z :=
  let m := hdr_magic b in
  if (m =? SCXFS_DIR3_BLOCK_MAGIC) || (m =? SCXFS_DIR2_BLOCK_MAGIC) then
    Some (scxfs_dir2_block_leaf_p b (scxfs_dir2_block_tail_p g))
  else if (m =? SCXFS_DIR3_DATA_MAGIC) || (m =? SCXFS_DIR2_DATA_MAGIC) then
    Some (blksize g)
  else None.

(** [p < endp] for a possibly null [endp]: no offset is below [NULL]. *)
Definition below_endp (p : Z) (endp : option Z) : bool :=
  match endp with
  | Some e => p <? e
  | None => false
  end.

(** The loop of [scxfs_dir2_data_freescan_int] from position [p]; [None]
    when the fuel runs out (the C loop does not advance over an unused
    record of length 0). *)
Fixpoint freescan_loop (fuel : nat) (ops : scxfs_dir_ops) (b : buf)
    (bf p : Z) (endp : option Z) (loghead : Z) : option (buf * Z) :=
  match fuel with
  | O => None
  | S fuel' =>
      if below_endp p endp then
        if dup_freetag b p =? SCXFS_DIR2_DATA_FREE_TAG then
          let '(b1, _, lh) := scxfs_dir2_data_freeinsert b bf p loghead in
          freescan_loop fuel' ops b1 bf (p + dup_length b1 p) endp lh
        else
          freescan_loop fuel' ops b bf
            (p + data_entsize ops (dep_namelen b p)) endp loghead
      else Some (b, loghead)
  end.

Definition scan_fuel (g : scxfs_da_geometry) : nat :=
  S (S (Z.to_nat (blksize g))).

Definition scxfs_dir2_data_freescan_int (g : scxfs_da_geometry)
    (ops : scxfs_dir_ops) (b : buf) : option (buf * Z) :=
  let bf := data_bestfree_p ops in
  let b1 := memset0 b bf
              (Z.to_nat (sizeof_scxfs_dir2_data_free * SCXFS_DIR2_DATA_FD_COUNT)) in
  freescan_loop (scan_fuel g) ops b1 bf (data_entry_p ops)
                (scxfs_dir3_data_endp g b1) 1.

(** ** The space engine *)

Definition be16_add_cpu (b : buf) (o v : Z) : buf :=
  put_be16 b o (get_be16 b o + u16 v).

(** [dup] is free: the pointer stays, otherwise it becomes [NULL]. *)
Definition free_or_null (b : buf) (dup : Z) : option Z :=
  if dup_freetag b dup =? SCXFS_DIR2_DATA_FREE_TAG then Some dup else None.

(** Write a fresh unused record of [len] bytes at [dup]: free tag, length
    and the trailing tag. *)
Definition new_unused (b : buf) (dup len : Z) : buf :=
  let b1 := put_be16 b dup SCXFS_DIR2_DATA_FREE_TAG in
  let b2 := put_be16 b1 (dup + 2) len in
  put_be16 b2 (scxfs_dir2_data_unused_tag_p b2 dup) dup.

(** The result is the buffer, [*needlogp] and [*needscanp]. *)
Definition scxfs_dir2_data_make_free (args : scxfs_da_args) (bp : scxfs_buf)
    (offset len needlog : Z) : scxfs_buf * Z * Z :=
  let ops := d_ops args in
  let b := b_addr bp in
  let endptr := scxfs_dir3_data_endp (geo args) b in
  let prevdup :=
    if offset >? data_entry_offset ops
    then free_or_null b (get_be16 b (offset - 2))
    else None in
  let postdup :=
    if below_endp (offset + len) endptr
    then free_or_null b (offset + len)
    else None in
  let bf := data_bestfree_p ops in
  match prevdup, postdup with
  | Some prev, Some post =>
      let dfp := scxfs_dir2_data_freefind b bf prev in
      let dfp2 := scxfs_dir2_data_freefind b bf post in
      let needscan := negb (bf_length b bf 2 =? 0) in
      let b1 := be16_add_cpu b (prev + 2) (len + dup_length b post) in
      let b2 := put_be16 b1 (scxfs_dir2_data_unused_tag_p b1 prev) prev in
      let bp2 := scxfs_dir2_data_log_unused args (set_addr bp b2) prev in
      if needscan then (bp2, needlog, 1)
      else
        let '(dfp, dfp2) :=
          match dfp with
          | Some 1 => (Some 0, Some 1)
          | _ => (dfp, dfp2)
          end in
        let '(b3, nl3) := scxfs_dir2_data_freeremove b2 bf dfp2 in
        let '(b4, nl4) := scxfs_dir2_data_freeremove b3 bf dfp in
        let '(b5, _, nl5) := scxfs_dir2_data_freeinsert b4 bf prev nl4 in
        (set_addr bp2 b5, nl5, 0)
  | Some prev, None =>
      let dfp := scxfs_dir2_data_freefind b bf prev in
      let b1 := be16_add_cpu b (prev + 2) len in
      let b2 := put_be16 b1 (scxfs_dir2_data_unused_tag_p b1 prev) prev in
      let bp2 := scxfs_dir2_data_log_unused args (set_addr bp b2) prev in
      match dfp with
      | Some _ =>
          let '(b3, nl3) := scxfs_dir2_data_freeremove b2 bf dfp in
          let '(b4, _, nl4) := scxfs_dir2_data_freeinsert b3 bf prev nl3 in
          (set_addr bp2 b4, nl4, 0)
      | None =>
          (bp2, needlog,
           if dup_length b2 prev >? bf_length b2 bf 2 then 1 else 0)
      end
  | None, Some post =>
      let dfp := scxfs_dir2_data_freefind b bf post in
      let newdup := offset in
      let b0 := put_be16 b newdup SCXFS_DIR2_DATA_FREE_TAG in
      let b0' := put_be16 b0 (newdup + 2) (len + dup_length b0 post) in
      let b1 := put_be16 b0' (scxfs_dir2_data_unused_tag_p b0' newdup) newdup in
      let bp1 := scxfs_dir2_data_log_unused args (set_addr bp b1) newdup in
      match dfp with
      | Some _ =>
          let '(b2, nl2) := scxfs_dir2_data_freeremove b1 bf dfp in
          let '(b3, _, nl3) := scxfs_dir2_data_freeinsert b2 bf newdup nl2 in
          (set_addr bp1 b3, nl3, 0)
      | None =>
          (bp1, needlog,
           if dup_length b1 newdup >? bf_length b1 bf 2 then 1 else 0)
      end
  | None, None =>
      let newdup := offset in
      let b1 := new_unused b newdup len in
      let bp1 := scxfs_dir2_data_log_unused args (set_addr bp b1) newdup in
      let '(b2, _, nl2) := scxfs_dir2_data_freeinsert b1 bf newdup needlog in
      (set_addr bp1 b2, nl2, 0)
  end.

(** A failure address [__this_address] is modelled as the source line of
    the [return] that produced it; [None] is [NULL]. *)
Definition scxfs_failaddr_t := option Z.

Definition is_data_magic (m : Z) : bool :=
  (m =? SCXFS_DIR2_DATA_MAGIC) || (m =? SCXFS_DIR3_DATA_MAGIC)
  || (m =? SCXFS_DIR2_BLOCK_MAGIC) || (m =? SCXFS_DIR3_BLOCK_MAGIC).

Definition scxfs_dir2_data_check_free (b : buf) (dup offset len : Z)
    : scxfs_failaddr_t :=
  if negb (is_data_magic (hdr_magic b)) then Some 967
  else if negb (dup_freetag b dup =? SCXFS_DIR2_DATA_FREE_TAG) then Some 969
  else if offset <? dup then Some 971
  else if u32 (offset + len) >? dup + dup_length b dup then Some 973
  else if negb (dup =? get_be16 b (scxfs_dir2_data_unused_tag_p b dup))
  then Some 976
  else None.

Definition scxfs_dir2_data_check_new_free (b : buf) (bf : Z) (dfp : option Z)
    (newdup : Z) : scxfs_failaddr_t :=
  match dfp with
  | None => Some 988
  | Some i =>
      if negb (bf_length b bf i =? dup_length b newdup) then Some 990
      else if negb (bf_offset b bf i =? newdup) then Some 992
      else None
  end.

(** The value returned by [scxfs_dir2_data_use_free]: 0, or [-EFSCORRUPTED]
    after the failure address was reported. *)
Inductive use_free_ret :=
| Ret0
| EFSCORRUPTED (fa : Z).

Definition is_slot (dfp : option Z) (i : Z) : bool :=
  match dfp with
  | Some j => j =? i
  | None => false
  end.

(** The result is the return value, the buffer, [*needlogp] and
    [*needscanp]; on the [corrupt] path [*needscanp] is not written. *)
Definition scxfs_dir2_data_use_free (args : scxfs_da_args) (bp : scxfs_buf)
    (dup offset len needlog needscan0 : Z)
    : use_free_ret * scxfs_buf * Z * Z :=
  let b := b_addr bp in
  match scxfs_dir2_data_check_free b dup offset len with
  | Some fa => (EFSCORRUPTED fa, bp, needlog, needscan0)
  | None =>
      let oldlen := dup_length b dup in
      let bf := data_bestfree_p (d_ops args) in
      let dfp := scxfs_dir2_data_freefind b bf dup in
      let matchfront := dup =? offset in
      let matchback := dup + oldlen =? u32 (offset + len) in
      if matchfront && matchback then
        match dfp with
        | Some _ =>
            if negb (bf_offset b bf 2 =? 0) then (Ret0, bp, needlog, 1)
            else
              let '(b1, nl1) := scxfs_dir2_data_freeremove b bf dfp in
              (Ret0, set_addr bp b1, nl1, 0)
        | None => (Ret0, bp, needlog, 0)
        end
      else if matchfront then
        let newdup := offset + len in
        let b1 := put_be16 b newdup SCXFS_DIR2_DATA_FREE_TAG in
        let b2 := put_be16 b1 (newdup + 2) (oldlen - len) in
        let b3 := put_be16 b2 (scxfs_dir2_data_unused_tag_p b2 newdup) newdup in
        let bp3 := scxfs_dir2_data_log_unused args (set_addr bp b3) newdup in
        match dfp with
        | Some _ =>
            let '(b4, nl4) := scxfs_dir2_data_freeremove b3 bf dfp in
            let '(b5, dfp', nl5) := scxfs_dir2_data_freeinsert b4 bf newdup nl4 in
            match scxfs_dir2_data_check_new_free b5 bf dfp' newdup with
            | Some fa => (EFSCORRUPTED fa, set_addr bp3 b5, nl5, needscan0)
            | None =>
                (Ret0, set_addr bp3 b5, nl5, if is_slot dfp' 2 then 1 else 0)
            end
        | None => (Ret0, bp3, needlog, 0)
        end
      else if matchback then
        let newdup := dup in
        let b1 := put_be16 b (newdup + 2) (offset - newdup) in
        let b2 := put_be16 b1 (scxfs_dir2_data_unused_tag_p b1 newdup) newdup in
        let bp2 := scxfs_dir2_data_log_unused args (set_addr bp b2) newdup in
        match dfp with
        | Some _ =>
            let '(b3, nl3) := scxfs_dir2_data_freeremove b2 bf dfp in
            let '(b4, dfp', nl4) := scxfs_dir2_data_freeinsert b3 bf newdup nl3 in
            match scxfs_dir2_data_check_new_free b4 bf dfp' newdup with
            | Some fa => (EFSCORRUPTED fa, set_addr bp2 b4, nl4, needscan0)
            | None =>
                (Ret0, set_addr bp2 b4, nl4, if is_slot dfp' 2 then 1 else 0)
            end
        | None => (Ret0, bp2, needlog, 0)
        end
      else
        let newdup := dup in
        let b1 := put_be16 b (newdup + 2) (offset - newdup) in
        let b2 := put_be16 b1 (scxfs_dir2_data_unused_tag_p b1 newdup) newdup in
        let bp2 := scxfs_dir2_data_log_unused args (set_addr bp b2) newdup in
        let newdup2 := offset + len in
        let b3 := put_be16 b2 newdup2 SCXFS_DIR2_DATA_FREE_TAG in
        let b4 := put_be16 b3 (newdup2 + 2)
                    (oldlen - len - dup_length b3 newdup) in
        let b5 := put_be16 b4 (scxfs_dir2_data_unused_tag_p b4 newdup2) newdup2 in
        let bp5 := scxfs_dir2_data_log_unused args (set_addr bp2 b5) newdup2 in
        match dfp with
        | Some _ =>
            if negb (bf_length b5 bf 2 =? 0) then (Ret0, bp5, needlog, 1)
            else
              let '(b6, nl6) := scxfs_dir2_data_freeremove b5 bf dfp in
              let '(b7, _, nl7) := scxfs_dir2_data_freeinsert b6 bf newdup nl6 in
              let '(b8, _, nl8) := scxfs_dir2_data_freeinsert b7 bf newdup2 nl7 in
              (Ret0, set_addr bp5 b8, nl8, 0)
        | None => (Ret0, bp5, needlog, 0)
        end
  end.

(** ** The verifier *)

(** [scxfs_dir2_data_freefind_verify]: the loop over the three slots, with
    its two flags; [Some line] is the failure address. *)
Fixpoint freefind_verify_loop (b : buf) (bf dup off : Z) (slots : list Z)
    (matched seenzero : bool) : scxfs_failaddr_t :=
  match slots with
  | [] => None
  | i :: rest =>
      if bf_offset b bf i =? 0 then
        if negb (bf_length b bf i =? 0) then Some 406
        else freefind_verify_loop b bf dup off rest matched true
      else if seenzero then Some 411
      else
        let here := bf_offset b bf i =? off in
        let bad :=
          if here then
            if negb (bf_length b bf i =? dup_length b dup) then Some 415
            else None
          else if bf_offset b bf i >? off then
            if u32 (off + dup_length b dup) >? bf_offset b bf i then Some 419
            else None
          else
            if bf_offset b bf i + bf_length b bf i >? off then Some 423
            else None in
        match bad with
        | Some fa => Some fa
        | None =>
            let matched' := matched || here in
            if negb matched' && (bf_length b bf i <? dup_length b dup)
            then Some 427
            else if (i >? 0) && (bf_length b bf (i - 1) <? bf_length b bf i)
            then Some 430
            else freefind_verify_loop b bf dup off rest matched' seenzero
        end
  end.

(** The result is the failure address and [*bf_ent]. *)
Definition scxfs_dir2_data_freefind_verify (b : buf) (bf dup : Z)
    : scxfs_failaddr_t * option Z :=
  let off := u32 dup in
  match freefind_verify_loop b bf dup off bf_slots false false with
  | Some fa => (Some fa, None)
  | None => (None, scxfs_dir2_data_freefind b bf dup)
  end.

(** The search [for (i = 0; i < count; i++)] for a leaf entry with the
    given address and hash: the index at which the loop stops. *)
Fixpoint leaf_search (b : buf) (lep addr hash i : Z) (n : nat) : Z :=
  match n with
  | O => i
  | S n' =>
      if (lep_address b lep i =? addr) && (lep_hashval b lep i =? hash)
      then i
      else leaf_search b lep addr hash (i + 1) n'
  end.

(** The closing loop over the leaf entries: the number of stale ones, or
    the failure address of a hash out of order. *)
Fixpoint leaf_scan (b : buf) (lep i stale : Z) (n : nat) : Z + Z :=
  match n with
  | O => inr stale
  | S n' =>
      let stale' :=
        if lep_address b lep i =? SCXFS_DIR2_NULL_DATAPTR
        then stale + 1 else stale in
      if (i >? 0) && (lep_hashval b lep i <? lep_hashval b lep (i - 1))
      then inl 216
      else leaf_scan b lep (i + 1) stale' n'
  end.

Inductive loop_result :=
| LFail (fa : Z)
| LDone (count freeseen : Z)
| LFuel.

Section Verifier.

Variable SCXFS_DIR3_FT_MAX : Z.
(** External collaborators: the inode-number check (0 when valid), the
    name hash of the mount and the address of a byte offset in the
    directory's address space. *)
Variable scxfs_dir_ino_validate : Z -> Z.
Variable hashname : list Z -> Z.
Variable scxfs_dir2_db_off_to_dataptr : scxfs_da_geometry -> Z -> Z -> Z.

Variable g : scxfs_da_geometry.
Variable ops : scxfs_dir_ops.

(** The body of [while (p < endp)] in [__scxfs_dir3_data_check]. *)
Fixpoint data_check_loop (fuel : nat) (b : buf) (bf endp : Z)
    (isblock : bool) (btp lep : Z) (p lastfree freeseen count : Z)
    : loop_result :=
  match fuel with
  | O => LFuel
  | S fuel' =>
      if p <? endp then
        if dup_freetag b p =? SCXFS_DIR2_DATA_FREE_TAG then
          if negb (lastfree =? 0) then LFail 142
          else if endp <? p + dup_length b p then LFail 144
          else if negb (get_be16 b (scxfs_dir2_data_unused_tag_p b p) =? p)
          then LFail 147
          else
            match scxfs_dir2_data_freefind_verify b bf p with
            | (Some fa, _) => LFail fa
            | (None, Some i) =>
                if negb (Z.land freeseen (Z.shiftl 1 i) =? 0) then LFail 154
                else
                  data_check_loop fuel' b bf endp isblock btp lep
                    (p + dup_length b p) 1
                    (Z.lor freeseen (Z.shiftl 1 i)) count
            | (None, None) =>
                if dup_length b p >? bf_length b bf 2 then LFail 159
                else
                  data_check_loop fuel' b bf endp isblock btp lep
                    (p + dup_length b p) 1 freeseen count
            end
        else
          let namelen := dep_namelen b p in
          if namelen =? 0 then LFail 173
          else if negb (scxfs_dir_ino_validate (dep_inumber b p) =? 0)
          then LFail 175
          else if endp <? p + data_entsize ops namelen then LFail 177
          else if negb (get_be16 b (data_entry_tag_p ops b p) =? p)
          then LFail 180
          else if data_get_ftype ops b p >=? SCXFS_DIR3_FT_MAX then LFail 182
          else
            let found :=
              if isblock then
                let addr := scxfs_dir2_db_off_to_dataptr g (datablk g) (u32 p) in
                let hash := hashname (dep_name b p) in
                let cnt := btp_count b btp in
                leaf_search b lep addr hash 0 (Z.to_nat cnt) <? cnt
              else true in
            if negb found then LFail 199
            else
              data_check_loop fuel' b bf endp isblock btp lep
                (p + data_entsize ops namelen) 0 freeseen (count + 1)
      else LDone count freeseen
  end.

(** The account of the zero slots before the walk (lines 107-122): the
    failure address, or the initial [freeseen]. *)
Definition zero_slots (b : buf) (bf : Z) : Z + Z :=
  let step (acc : Z + Z) (i : Z) : Z + Z :=
    match acc with
    | inl fa => inl fa
    | inr seen =>
        if bf_length b bf i =? 0 then
          if negb (bf_offset b bf i =? 0) then inl (110 + 5 * i)
          else inr (Z.lor seen (Z.shiftl 1 i))
        else inr seen
    end in
  fold_left step bf_slots (inr 0).

Inductive check_result :=
| CheckGood
| CheckBad (fa : Z)
| CheckFuel.

(** [__scxfs_dir3_data_check(NULL, bp)] as the verifier calls it: with no
    inode, [ops] is the mount's table and the first test does not fire. *)
Definition __scxfs_dir3_data_check (b : buf) : check_result :=
  let p := data_entry_p ops in
  let m := hdr_magic b in
  let isblock := (m =? SCXFS_DIR3_BLOCK_MAGIC) || (m =? SCXFS_DIR2_BLOCK_MAGIC) in
  let isdata := (m =? SCXFS_DIR3_DATA_MAGIC) || (m =? SCXFS_DIR2_DATA_MAGIC) in
  let btp := scxfs_dir2_block_tail_p g in
  let lep := scxfs_dir2_block_leaf_p b btp in
  if isblock && (btp_count b btp >=? u64 (btp - p) / sizeof_scxfs_dir2_leaf_entry)
  then CheckBad 91
  else if negb isblock && negb isdata then CheckBad 97
  else
    match scxfs_dir3_data_endp g b with
    | None => CheckBad 101
    | Some endp =>
        let bf := data_bestfree_p ops in
        match zero_slots b bf with
        | inl fa => CheckBad fa
        | inr freeseen0 =>
            if bf_length b bf 0 <? bf_length b bf 1 then CheckBad 125
            else if bf_length b bf 1 <? bf_length b bf 2 then CheckBad 127
            else
              match data_check_loop (scan_fuel g) b bf endp isblock btp lep
                                    p 0 freeseen0 0 with
              | LFuel => CheckFuel
              | LFail fa => CheckBad fa
              | LDone count freeseen =>
                  if negb (freeseen =? 7) then CheckBad 207
                  else if isblock then
                    match leaf_scan b lep 0 0 (Z.to_nat (btp_count b btp)) with
                    | inl fa => CheckBad fa
                    | inr stale =>
                        if negb (count =? u32 (btp_count b btp - btp_stale b btp))
                        then CheckBad 219
                        else if negb (stale =? btp_stale b btp) then CheckBad 221
                        else CheckGood
                    end
                  else CheckGood
              end
        end
    end.

End Verifier.

(** ** The initialiser *)
(** What [scxfs_dir3_data_init] reads besides the arguments: the CRC
    feature bit, the disk address of the buffer, the directory's inode
    number and the filesystem's metadata UUID. *)
Record init_env := {
  hascrc : bool;
  b_bn : Z;
  i_ino : Z;
  sb_meta_uuid : list Z
}.

(** [get] is the outcome of [scxfs_da_get_buf]: an error code, or the
    buffer for the block, whose contents are whatever the cache holds.
    The result is the error code and [*bpp]. *)
Definition scxfs_dir3_data_init (env : init_env) (args : scxfs_da_args)
    (get : Z + scxfs_buf) : Z * option scxfs_buf :=
  match get with
  | inl error => (error, None)
  | inr bp =>
      let ops := d_ops args in
      let b := b_addr bp in
      let b1 :=
        if hascrc env then
          let h0 := memset0 b 0 (Z.to_nat sizeof_scxfs_dir3_blk_hdr) in
          let h1 := put_be32 h0 0 SCXFS_DIR3_DATA_MAGIC in
          let h2 := put_be64 h1 offsetof_dir3_blkno (b_bn env) in
          let h3 := put_be64 h2 offsetof_dir3_owner (i_ino env) in
          memcpy h3 offsetof_dir3_uuid (firstn 16 (sb_meta_uuid env))
        else put_be32 b 0 SCXFS_DIR2_DATA_MAGIC in
      let bf := data_bestfree_p ops in
      let b2 := put_be16 b1 bf (data_entry_offset ops) in
      let b3 := fold_left
                  (fun acc i =>
                     put_be16 (put_be16 acc (bf + sizeof_scxfs_dir2_data_free * i + 2) 0)
                              (bf + sizeof_scxfs_dir2_data_free * i) 0)
                  [1; 2] b2 in
      let dup := data_unused_p ops in
      let b4 := put_be16 b3 dup SCXFS_DIR2_DATA_FREE_TAG in
      let t := blksize (geo args) - u32 (data_entry_offset ops) in
      let b5 := put_be16 b4 (bf + 2) t in
      let b6 := put_be16 b5 (dup + 2) t in
      let b7 := put_be16 b6 (scxfs_dir2_data_unused_tag_p b6 dup) dup in
      let bp7 := scxfs_dir2_data_log_header args (set_addr bp b7) in
      let bp8 := scxfs_dir2_data_log_unused args bp7 dup in
      (0, Some bp8)
  end.

(** ** The records of a block

    Both loops over a block (lines 131-202 and 595-615) step through it in
    the same way: a record that starts with the free tag is an unused
    region and is skipped by its length, any other record is an entry and
    is skipped by [data_entsize] of its name length.  [data_records] lists
    the records met from [p] up to [endp]. *)
Inductive record :=
| RUnused (off len : Z)
| REntry (off len : Z).

Definition rec_off (r : record) : Z :=
  match r with RUnused o _ => o | REntry o _ => o end.
Definition rec_len (r : record) : Z :=
  match r with RUnused _ l => l | REntry _ l => l end.
Definition is_unused (r : record) : bool :=
  match r with RUnused _ _ => true | REntry _ _ => false end.

Fixpoint data_records (fuel : nat) (ops : scxfs_dir_ops) (b : buf)
    (p : Z) (endp : option Z) : list record :=
  match fuel with
  | O => []
  | S fuel' =>
      if below_endp p endp then
        if dup_freetag b p =? SCXFS_DIR2_DATA_FREE_TAG then
          RUnused p (dup_length b p)
            :: data_records fuel' ops b (p + dup_length b p) endp
        else
          let n := data_entsize ops (dep_namelen b p) in
          REntry p n :: data_records fuel' ops b (p + n) endp
      else []
  end.

(** The records of the whole block. *)
Definition block_records (g : scxfs_da_geometry) (ops : scxfs_dir_ops)
    (b : buf) : list record :=
  data_records (scan_fuel g) ops b (data_entry_p ops) (scxfs_dir3_data_endp g b).

(** The unused regions of the block, as [(offset, length)] pairs in
    address order. *)
Definition unused_regions (g : scxfs_da_geometry) (ops : scxfs_dir_ops)
    (b : buf) : list (Z * Z) :=
  flat_map (fun r => match r with
                     | RUnused o l => [(o, l)]
                     | REntry _ _ => []
                     end) (block_records g ops b).

(** The best-free table as three [(offset, length)] pairs. *)
Definition bf_table (b : buf) (bf : Z) : list (Z * Z) :=
  map (fun i => (bf_offset b bf i, bf_length b bf i)) bf_slots.

(** ** The table read as values

    Slot [i] as a pair, and the effect of the two table operations on the
    three pairs; the byte-level functions above are related to these
    below. *)
Definition slot := (Z * Z)%type.

Definition slot_at (b : buf) (bf i : Z) : slot :=
  (bf_offset b bf i, bf_length b bf i).

Definition table_insert (t : list slot) (new : slot) : list slot * option Z :=
  match t with
  | [s0; s1; s2] =>
      if snd new >? snd s0 then ([new; s0; s1], Some 0)
      else if snd new >? snd s1 then ([s0; new; s1], Some 1)
      else if snd new >? snd s2 then ([s0; s1; new], Some 2)
      else (t, None)
  | _ => (t, None)
  end.

Definition table_remove (t : list slot) (dfp : option Z) : list slot :=
  match t with
  | [s0; s1; s2] =>
      match dfp with
      | Some 0 => [s1; s2; (0, 0)]
      | Some 1 => [s0; s2; (0, 0)]
      | _ => [s0; s1; (0, 0)]
      end
  | _ => t
  end.

(** The bytes of [b'] and [b] agree outside [lo, hi), and the buffers have
    the same size. *)
Definition same_outside (lo hi : Z) (b b' : buf) : Prop :=
  blen b' = blen b /\ forall x, x < lo \/ hi <= x -> rd b' x = rd b x.

(** The table at [bf] lies inside the buffer. *)
Definition table_in (b : buf) (bf : Z) : Prop :=
  0 <= bf /\ bf + 12 <= blen b.

(** The slot invariant of the table: lengths do not increase, a slot of
    length 0 is the pair (0, 0), and no empty slot precedes a used one. *)
Definition slot_invariant (t : list slot) : Prop :=
  match t with
  | [s0; s1; s2] =>
      snd s1 <= snd s0 /\ snd s2 <= snd s1
      /\ (forall s, In s t -> snd s = 0 -> s = (0, 0))
      /\ (s0 = (0, 0) -> s1 = (0, 0))
      /\ (s1 = (0, 0) -> s2 = (0, 0))
  | _ => False
  end.

(** What the proofs use of a format table: the best-free table lies
    between the magic and the first record, the first record follows the
    header, an entry is at least 16 bytes long and its tag is its last
    16-bit word. *)
Definition ops_layout (ops : scxfs_dir_ops) : Prop :=
  4 <= data_bestfree_p ops
  /\ data_bestfree_p ops + 12 <= data_entry_offset ops
  /\ data_entry_offset ops < 65536
  /\ data_entry_p ops = data_entry_offset ops
  /\ data_unused_p ops = data_entry_offset ops
  /\ (forall n, 0 <= n < 256 -> 16 <= data_entsize ops n)
  /\ (forall b dep,
        data_entry_tag_p ops b dep
        = dep + data_entsize ops (dep_namelen b dep) - 2).

(** The three directory format tables. *)
Definition format_variants (ftu ftm : Z) : list scxfs_dir_ops :=
  [scxfs_dir2_ops ftu; scxfs_dir2_ftype_ops ftu ftm; scxfs_dir3_ops ftu ftm].

(** ** Sample blocks

    Small blocks on which the operations are run below.  The file-type
    codes are those of the format (unknown 0, nine codes in all) and the
    table is the legacy one with file types. *)
Definition sample_ops : scxfs_dir_ops := scxfs_dir2_ftype_ops 0 9.
Definition sample_geo : scxfs_da_geometry := {| blksize := 128; datablk := 0 |}.
Definition sample_args : scxfs_da_args :=
  {| geo := sample_geo; d_ops := sample_ops |}.

(** An entry with a one-byte name at [dep]. *)
Definition put_entry1 (b : buf) (dep ino name ftype : Z) : buf :=
  let b1 := put_be64 b dep ino in
  let b2 := wr b1 (dep + offsetof_entry_namelen) 1 in
  let b3 := wr b2 (dep + offsetof_entry_name) name in
  let b4 := data_put_ftype sample_ops b3 dep ftype in
  put_be16 b4 (data_entry_tag_p sample_ops b4 dep) dep.

(** Entries at 16, 48 and 80; unused regions at 32 and 64 (16 bytes each)
    and at 96 (32 bytes); the table lists 96, then 64, then 32. *)
Definition sample_block : buf :=
  let b0 := put_be32 (repeat 0 128%nat) 0 SCXFS_DIR2_DATA_MAGIC in
  let b1 := bf_set (bf_set (bf_set b0 4 0 96 32) 4 1 64 16) 4 2 32 16 in
  let b2 := put_entry1 (put_entry1 (put_entry1 b1 16 256 97 1) 48 257 98 2)
                       80 258 99 1 in
  new_unused (new_unused (new_unused b2 32 16) 64 16) 96 32.

Definition sample_buf : scxfs_buf :=
  {| b_addr := sample_block; b_logged := [] |}.

(** A 64-byte legacy block whose slot 0 names offset 8, inside the header,
    where the bytes of slot 1 read as an unused record of 56 bytes. *)
Definition overlap_block : buf :=
  let b0 := put_be32 (repeat 0 64%nat) 0 SCXFS_DIR2_DATA_MAGIC in
  let b1 := bf_set (bf_set b0 4 0 8 56) 4 1 65535 56 in
  put_be16 b1 62 8.

Definition overlap_args : scxfs_da_args :=
  {| geo := {| blksize := 64; datablk := 0 |}; d_ops := scxfs_dir2_ops 0 |}.

Definition sample_env : init_env :=
  {| hascrc := false; b_bn := 0; i_ino := 128; sb_meta_uuid := [] |}.

Definition fresh_buf : scxfs_buf :=
  {| b_addr := repeat 0 128%nat; b_logged := [] |}.

(** ** The walk of the verifier, as a relation

    [checked b ops bf e p lastfree freeseen freeseen' recs]: from position
    [p] with the given flags the loop of [__scxfs_dir3_data_check] passes
    every test, meets the records [recs] and leaves with [freeseen']. *)
Inductive checked (b : buf) (ops : scxfs_dir_ops) (bf e : Z)
    : Z -> Z -> Z -> Z -> list record -> Prop :=
| ck_end p lf fs :
    e <= p -> checked b ops bf e p lf fs fs []
| ck_tracked p lf fs fs' i recs :
    p < e ->
    dup_freetag b p = SCXFS_DIR2_DATA_FREE_TAG ->
    lf = 0 ->
    p + dup_length b p <= e ->
    get_be16 b (scxfs_dir2_data_unused_tag_p b p) = p ->
    scxfs_dir2_data_freefind_verify b bf p = (None, Some i) ->
    Z.land fs (Z.shiftl 1 i) = 0 ->
    checked b ops bf e (p + dup_length b p) 1 (Z.lor fs (Z.shiftl 1 i)) fs' recs ->
    checked b ops bf e p lf fs fs' (RUnused p (dup_length b p) :: recs)
| ck_untracked p lf fs fs' recs :
    p < e ->
    dup_freetag b p = SCXFS_DIR2_DATA_FREE_TAG ->
    lf = 0 ->
    p + dup_length b p <= e ->
    get_be16 b (scxfs_dir2_data_unused_tag_p b p) = p ->
    scxfs_dir2_data_freefind_verify b bf p = (None, None) ->
    dup_length b p <= bf_length b bf 2 ->
    checked b ops bf e (p + dup_length b p) 1 fs fs' recs ->
    checked b ops bf e p lf fs fs' (RUnused p (dup_length b p) :: recs)
| ck_entry p lf fs fs' recs :
    p < e ->
    dup_freetag b p <> SCXFS_DIR2_DATA_FREE_TAG ->
    p + data_entsize ops (dep_namelen b p) <= e ->
    get_be16 b (data_entry_tag_p ops b p) = p ->
    checked b ops bf e (p + data_entsize ops (dep_namelen b p)) 0 fs fs' recs ->
    checked b ops bf e p lf fs fs'
      (REntry p (data_entsize ops (dep_namelen b p)) :: recs).

(** The records tile the block from [p]: each starts where the one before
    ends, has a positive length, and no unused region follows another
    ([lastfree] tells whether the record before [p] is unused). *)
Fixpoint tiled (p : Z) (lastfree : bool) (recs : list record) : Prop :=
  match recs with
  | [] => True
  | r :: rest =>
      rec_off r = p /\ 0 < rec_len r
      /\ (is_unused r = true -> lastfree = false)
      /\ tiled (p + rec_len r) (is_unused r) rest
  end.

(** Two unused records next to each other in a list of records. *)
Fixpoint adjacent_unused (recs : list record) : bool :=
  match recs with
  | r1 :: ((r2 :: _) as rest) =>
      (is_unused r1 && is_unused r2) || adjacent_unused rest
  | _ => false
  end.

(** The lengths of the unused records. *)
Definition unused_lengths (recs : list record) : list Z :=
  flat_map (fun r => match r with
                     | RUnused _ l => [l]
                     | REntry _ _ => []
                     end) recs.

Definition regions_of (recs : list record) : list (Z * Z) :=
  flat_map (fun r => match r with
                     | RUnused o l => [(o, l)]
                     | REntry _ _ => []
                     end) recs.

(** The slots that [freeseen] does not mark yet. *)
Definition unseen (freeseen : Z) : list Z :=
  filter (fun i => Z.land freeseen (Z.shiftl 1 i) =? 0) bf_slots.

(** [table_insert] on the lengths alone. *)
Definition len_insert (t : list Z) (l : Z) : list Z :=
  match t with
  | [l0; l1; l2] =>
      if l >? l0 then [l; l0; l1]
      else if l >? l1 then [l0; l; l1]
      else if l >? l2 then [l0; l1; l]
      else t
  | _ => t
  end.

(** [walks ops b e p recs q]: stepping through the block from [p] as the
    two loops do meets the records [recs] and arrives at [q]. *)
Inductive walks (ops : scxfs_dir_ops) (b : buf) (e : Z)
    : Z -> list record -> Z -> Prop :=
| w_nil p : walks ops b e p [] p
| w_unused p recs q :
    p < e ->
    dup_freetag b p = SCXFS_DIR2_DATA_FREE_TAG ->
    walks ops b e (p + dup_length b p) recs q ->
    walks ops b e p (RUnused p (dup_length b p) :: recs) q
| w_entry p recs q :
    p < e ->
    dup_freetag b p <> SCXFS_DIR2_DATA_FREE_TAG ->
    walks ops b e (p + data_entsize ops (dep_namelen b p)) recs q ->
    walks ops b e p (REntry p (data_entsize ops (dep_namelen b p)) :: recs) q.

(** What the verifier has checked of one record: it ends inside the data
    area and its last 16-bit word is its own offset. *)
Definition rec_ok (b : buf) (e : Z) (r : record) : Prop :=
  rec_off r + rec_len r <= e
  /\ get_be16 b (rec_off r + rec_len r - 2) = rec_off r.

(** The bytes the walk reads of a record: the free tag and the length of
    an unused region, the free tag and the name length of an entry. *)
Definition reads_end (r : record) : Z :=
  match r with
  | RUnused o _ => o + 4
  | REntry o _ => o + 9
  end.

(** The neighbour lookups of [scxfs_dir2_data_make_free] (lines 811-830)
    and the record it writes (the first statements of each of its four
    cases), without the table update that follows. *)
Definition mf_prevdup (ops : scxfs_dir_ops) (b : buf) (offset : Z) : option Z :=
  if offset >? data_entry_offset ops
  then free_or_null b (get_be16 b (offset - 2))
  else None.

Definition mf_postdup (g : scxfs_da_geometry) (b : buf) (offset len : Z)
    : option Z :=
  if below_endp (offset + len) (scxfs_dir3_data_endp g b)
  then free_or_null b (offset + len)
  else None.

Definition make_free_writes (g : scxfs_da_geometry) (ops : scxfs_dir_ops)
    (b : buf) (offset len : Z) : buf :=
  match mf_prevdup ops b offset, mf_postdup g b offset len with
  | Some prev, Some post =>
      let b1 := be16_add_cpu b (prev + 2) (len + dup_length b post) in
      put_be16 b1 (scxfs_dir2_data_unused_tag_p b1 prev) prev
  | Some prev, None =>
      let b1 := be16_add_cpu b (prev + 2) len in
      put_be16 b1 (scxfs_dir2_data_unused_tag_p b1 prev) prev
  | None, Some post =>
      let b0 := put_be16 b offset SCXFS_DIR2_DATA_FREE_TAG in
      let b0' := put_be16 b0 (offset + 2) (len + dup_length b0 post) in
      put_be16 b0' (scxfs_dir2_data_unused_tag_p b0' offset) offset
  | None, None => new_unused b offset len
  end.

(** The bytes spanned by a list of records, and whether a list that comes
    after a record of kind [lastfree] ends with an unused record. *)
Fixpoint span (recs : list record) : Z :=
  match recs with
  | [] => 0
  | r :: rest => rec_len r + span rest
  end.

Fixpoint last_free (lastfree : bool) (recs : list record) : bool :=
  match recs with
  | [] => lastfree
  | r :: rest => last_free (is_unused r) rest
  end.

(** No two unused regions touch or overlap. *)
Definition no_adjacent (regions : list (Z * Z)) : Prop :=
  forall u1 u2, In u1 regions -> In u2 regions ->
                fst u1 < fst u2 -> fst u1 + snd u1 < fst u2.

(** The records around an entry: with [pre] the records before it and
    [post] those after it, the unused record just before and just after
    (if any), the records that stay when the entry is freed, and the
    unused record that takes the place of the entry and of its unused
    neighbours. *)
Definition prev_free (pre : list record) : option (Z * Z) :=
  match last pre (REntry 0 0) with
  | RUnused o l => Some (o, l)
  | REntry _ _ => None
  end.

Definition post_free (post : list record) : option (Z * Z) :=
  match post with
  | RUnused o l :: _ => Some (o, l)
  | _ => None
  end.

Definition pre_kept (pre : list record) : list record :=
  match prev_free pre with
  | Some _ => removelast pre
  | None => pre
  end.

Definition post_kept (post : list record) : list record :=
  match post_free post with
  | Some _ => tl post
  | None => post
  end.

Definition merged_off (pre : list record) (offset : Z) : Z :=
  match prev_free pre with
  | Some (o, _) => o
  | None => offset
  end.

Definition merged_len (pre post : list record) (len : Z) : Z :=
  match prev_free pre with Some (_, l) => l | None => 0 end
  + len
  + match post_free post with Some (_, l) => l | None => 0 end.

Definition merged_records (pre : list record) (offset len : Z)
    (post : list record) : list record :=
  pre_kept pre
    ++ RUnused (merged_off pre offset) (merged_len pre post len)
    :: post_kept post.

(** The records that [scxfs_dir2_data_use_free] writes in its four cases
    (nothing on an exact match), without the table update that follows. *)
Definition use_free_writes (b : buf) (dup offset len : Z) : buf :=
  let oldlen := dup_length b dup in
  let matchfront := dup =? offset in
  let matchback := dup + oldlen =? u32 (offset + len) in
  if matchfront && matchback then b
  else if matchfront then
    let newdup := offset + len in
    let b1 := put_be16 b newdup SCXFS_DIR2_DATA_FREE_TAG in
    let b2 := put_be16 b1 (newdup + 2) (oldlen - len) in
    put_be16 b2 (scxfs_dir2_data_unused_tag_p b2 newdup) newdup
  else if matchback then
    let b1 := put_be16 b (dup + 2) (offset - dup) in
    put_be16 b1 (scxfs_dir2_data_unused_tag_p b1 dup) dup
  else
    let b1 := put_be16 b (dup + 2) (offset - dup) in
    let b2 := put_be16 b1 (scxfs_dir2_data_unused_tag_p b1 dup) dup in
    let newdup2 := offset + len in
    let b3 := put_be16 b2 newdup2 SCXFS_DIR2_DATA_FREE_TAG in
    let b4 := put_be16 b3 (newdup2 + 2) (oldlen - len - dup_length b3 dup) in
    put_be16 b4 (scxfs_dir2_data_unused_tag_p b4 newdup2) newdup2.

Definition sample_verify : buf -> check_result :=
  __scxfs_dir3_data_check 9 (fun _ => 0) (fun _ => 0) (fun _ _ o => o / 8)
    sample_geo sample_ops.

(** Entries at 16, 48, 80, 96 and 112; unused regions of 16 bytes at 32 and
    at 64; the table lists 64, then 32. *)
Definition tie_block : buf :=
  let b0 := put_be32 (repeat 0 128%nat) 0 SCXFS_DIR2_DATA_MAGIC in
  let b1 := bf_set (bf_set b0 4 0 64 16) 4 1 32 16 in
  let b2 := put_entry1 (put_entry1 (put_entry1 (put_entry1 (put_entry1
              b1 16 256 97 1) 48 257 98 2) 80 258 99 1) 96 259 100 1)
              112 260 101 1 in
  new_unused (new_unused b2 32 16) 64 16.

Definition tie_buf : scxfs_buf := {| b_addr := tie_block; b_logged := [] |}.

(** Three lengths in non-increasing order. *)
Definition sorted3 (t : list Z) : Prop :=
  match t with
  | [l0; l1; l2] => l1 <= l0 /\ l2 <= l1
  | _ => False
  end.

(** The block is the whole buffer, its size leaves room for a trailer
    after the header and is within reach of 16-bit offsets. *)
Definition block_ok (g : scxfs_da_geometry) (ops : scxfs_dir_ops) (b : buf)
    : Prop :=
  blen b = blksize g /\ data_entry_offset ops + 8 <= blksize g <= 65536.

(** ** Further notions used in the statements

    The block-format trailer: the leaves [i .. i+n-1] whose address is the
    stale sentinel, and the number of entries among a list of records. *)
Fixpoint stale_leaves (b : buf) (lep i : Z) (n : nat) : Z :=
  match n with
  | O => 0
  | S n' =>
      (if lep_address b lep i =? SCXFS_DIR2_NULL_DATAPTR then 1 else 0)
      + stale_leaves b lep (i + 1) n'
  end.

Definition entry_count (recs : list record) : Z :=
  Z.of_nat (length (filter (fun r => negb (is_unused r)) recs)).

Section EntryChecks.

Variable SCXFS_DIR3_FT_MAX : Z.
Variable scxfs_dir_ino_validate : Z -> Z.
Variable hashname : list Z -> Z.
Variable scxfs_dir2_db_off_to_dataptr : scxfs_da_geometry -> Z -> Z -> Z.
Variable g : scxfs_da_geometry.
Variable ops : scxfs_dir_ops.

(** The tests of lines 172-200 on the entry at [o], all passed. *)
Definition entry_ok (b : buf) (e : Z) (isblock : bool) (o : Z) : Prop :=
  dep_namelen b o <> 0
  /\ scxfs_dir_ino_validate (dep_inumber b o) = 0
  /\ o + data_entsize ops (dep_namelen b o) <= e
  /\ get_be16 b (data_entry_tag_p ops b o) = o
  /\ data_get_ftype ops b o < SCXFS_DIR3_FT_MAX
  /\ (isblock = true ->
      let btp := scxfs_dir2_block_tail_p g in
      let lep := scxfs_dir2_block_leaf_p b btp in
      exists k, 0 <= k < btp_count b btp
                /\ lep_address b lep k
                   = scxfs_dir2_db_off_to_dataptr g (datablk g) (u32 o)
                /\ lep_hashval b lep k = hashname (dep_name b o)).

End EntryChecks.

(** A block-format block of 128 bytes: one entry at 16, an unused region
    of 80 bytes at 32, one leaf (hash 0, address 2) at 112 and the tail
    (count 1, stale 0) at 120. *)
Definition leaf_block : buf :=
  let b0 := put_be32 (repeat 0 128%nat) 0 SCXFS_DIR2_BLOCK_MAGIC in
  let b1 := bf_set b0 4 0 32 80 in
  let b2 := put_entry1 b1 16 256 97 1 in
  let b3 := new_unused b2 32 80 in
  let b4 := put_be32 (put_be32 b3 112 0) 116 2 in
  put_be32 (put_be32 b4 120 1) 124 0.

(** A data block whose first record carries the free tag and length 0. *)
Definition spin_block : buf :=
  put_be16 (put_be32 (repeat 0 128%nat) 0 SCXFS_DIR2_DATA_MAGIC) 16
    SCXFS_DIR2_DATA_FREE_TAG.

(** The members of [struct scxfs_dir_ops] for the entries "." and ".." of
    block 0 (lines 286-359 and the three tables): the three fixed offsets
    and the three pointer functions, the latter as offsets from [hdr]. *)
Record scxfs_dir_ops_dots := {
  data_dot_offset : Z;
  data_dotdot_offset : Z;
  data_first_offset : Z;
  data_dot_entry_p : Z;
  data_dotdot_entry_p : Z;
  data_first_entry_p : Z
}.

Definition scxfs_dir2_data_dot_entry_p : Z := sizeof_scxfs_dir2_data_hdr.
Definition scxfs_dir2_data_dotdot_entry_p : Z :=
  sizeof_scxfs_dir2_data_hdr + SCXFS_DIR2_DATA_ENTSIZE 1.
Definition scxfs_dir2_data_first_entry_p : Z :=
  sizeof_scxfs_dir2_data_hdr + SCXFS_DIR2_DATA_ENTSIZE 1
  + SCXFS_DIR2_DATA_ENTSIZE 2.
Definition scxfs_dir2_ftype_data_dotdot_entry_p : Z :=
  sizeof_scxfs_dir2_data_hdr + SCXFS_DIR3_DATA_ENTSIZE 1.
Definition scxfs_dir2_ftype_data_first_entry_p : Z :=
  sizeof_scxfs_dir2_data_hdr + SCXFS_DIR3_DATA_ENTSIZE 1
  + SCXFS_DIR3_DATA_ENTSIZE 2.
Definition scxfs_dir3_data_dot_entry_p : Z := sizeof_scxfs_dir3_data_hdr.
Definition scxfs_dir3_data_dotdot_entry_p : Z :=
  sizeof_scxfs_dir3_data_hdr + SCXFS_DIR3_DATA_ENTSIZE 1.
Definition scxfs_dir3_data_first_entry_p : Z :=
  sizeof_scxfs_dir3_data_hdr + SCXFS_DIR3_DATA_ENTSIZE 1
  + SCXFS_DIR3_DATA_ENTSIZE 2.

Definition scxfs_dir2_ops_dots : scxfs_dir_ops_dots := {|
  data_dot_offset := sizeof_scxfs_dir2_data_hdr;
  data_dotdot_offset := sizeof_scxfs_dir2_data_hdr + SCXFS_DIR2_DATA_ENTSIZE 1;
  data_first_offset := sizeof_scxfs_dir2_data_hdr + SCXFS_DIR2_DATA_ENTSIZE 1
                       + SCXFS_DIR2_DATA_ENTSIZE 2;
  data_dot_entry_p := scxfs_dir2_data_dot_entry_p;
  data_dotdot_entry_p := scxfs_dir2_data_dotdot_entry_p;
  data_first_entry_p := scxfs_dir2_data_first_entry_p
|}.

Definition scxfs_dir2_ftype_ops_dots : scxfs_dir_ops_dots := {|
  data_dot_offset := sizeof_scxfs_dir2_data_hdr;
  data_dotdot_offset := sizeof_scxfs_dir2_data_hdr + SCXFS_DIR3_DATA_ENTSIZE 1;
  data_first_offset := sizeof_scxfs_dir2_data_hdr + SCXFS_DIR3_DATA_ENTSIZE 1
                       + SCXFS_DIR3_DATA_ENTSIZE 2;
  data_dot_entry_p := scxfs_dir2_data_dot_entry_p;
  data_dotdot_entry_p := scxfs_dir2_ftype_data_dotdot_entry_p;
  data_first_entry_p := scxfs_dir2_ftype_data_first_entry_p
|}.

Definition scxfs_dir3_ops_dots : scxfs_dir_ops_dots := {|
  data_dot_offset := sizeof_scxfs_dir3_data_hdr;
  data_dotdot_offset := sizeof_scxfs_dir3_data_hdr + SCXFS_DIR3_DATA_ENTSIZE 1;
  data_first_offset := sizeof_scxfs_dir3_data_hdr + SCXFS_DIR3_DATA_ENTSIZE 1
                       + SCXFS_DIR3_DATA_ENTSIZE 2;
  data_dot_entry_p := scxfs_dir3_data_dot_entry_p;
  data_dotdot_entry_p := scxfs_dir3_data_dotdot_entry_p;
  data_first_entry_p := scxfs_dir3_data_first_entry_p
|}.

(** The three tables, each with its members for "." and "..". *)
Definition format_tables (ftu ftm : Z) : list (scxfs_dir_ops * scxfs_dir_ops_dots) :=
  [(scxfs_dir2_ops ftu, scxfs_dir2_ops_dots);
   (scxfs_dir2_ftype_ops ftu ftm, scxfs_dir2_ftype_ops_dots);
   (scxfs_dir3_ops ftu ftm, scxfs_dir3_ops_dots)].

(** ** Shortform entries ([scxfs_da_format.c], lines 17-188) *)

Section Shortform.

(** [struct scxfs_dir2_sf_hdr], [struct scxfs_dir2_sf_entry] and the two
    inode-number sizes are declared in the absent header: the offsets of
    the fields that the code reads and the sizes are parameters. *)
Variable offsetof_sf_i8count : Z.
Variable offsetof_sf_parent : Z.
Variable sizeof_scxfs_dir2_sf_entry : Z.
Variable offsetof_sfe_namelen : Z.
Variable offsetof_sfe_name : Z.
Variable SCXFS_INO64_SIZE : Z.
Variable SCXFS_INO32_SIZE : Z.
Variable SCXFS_DIR3_FT_UNKNOWN : Z.
Variable SCXFS_DIR3_FT_MAX : Z.

(** [hdr->i8count] and [sfep->namelen], one byte each. *)
Definition sf_i8count (b : buf) (hdr : Z) : Z := rd b (hdr + offsetof_sf_i8count).
Definition sfe_namelen (b : buf) (sfep : Z) : Z :=
  rd b (sfep + offsetof_sfe_namelen).

Definition scxfs_dir2_sf_entsize (b : buf) (hdr len : Z) : Z :=
  let count := sizeof_scxfs_dir2_sf_entry in
  let count := count + len in
  let count :=
    count + (if negb (sf_i8count b hdr =? 0)
             then SCXFS_INO64_SIZE else SCXFS_INO32_SIZE) in
  count.

Definition scxfs_dir3_sf_entsize (b : buf) (hdr len : Z) : Z :=
  scxfs_dir2_sf_entsize b hdr len + 1.

Definition scxfs_dir2_sf_nextentry (b : buf) (hdr sfep : Z) : Z :=
  sfep + scxfs_dir2_sf_entsize b hdr (sfe_namelen b sfep).

Definition scxfs_dir3_sf_nextentry (b : buf) (hdr sfep : Z) : Z :=
  sfep + scxfs_dir3_sf_entsize b hdr (sfe_namelen b sfep).

Definition scxfs_dir2_sfe_get_ftype (b : buf) (sfep : Z) : Z :=
  SCXFS_DIR3_FT_UNKNOWN.

Definition scxfs_dir2_sfe_put_ftype (b : buf) (sfep ftype : Z) : buf := b.

Definition scxfs_dir3_sfe_get_ftype (b : buf) (sfep : Z) : Z :=
  let ftype := rd b (sfep + offsetof_sfe_name + sfe_namelen b sfep) in
  if ftype >=? SCXFS_DIR3_FT_MAX then SCXFS_DIR3_FT_UNKNOWN else ftype.

Definition scxfs_dir3_sfe_put_ftype (b : buf) (sfep ftype : Z) : buf :=
  wr b (sfep + offsetof_sfe_name + sfe_namelen b sfep) ftype.

(** [from] and [to] are offsets into the buffer that holds the header. *)
Definition scxfs_dir2_sf_get_ino (b : buf) (hdr from : Z) : Z :=
  if negb (sf_i8count b hdr =? 0)
  then Z.land (get_be64 b from) 72057594037927935   (* 0x00ffffffffffffff *)
  else get_be32 b from.

Definition scxfs_dir2_sf_put_ino (b : buf) (hdr to ino : Z) : buf :=
  if negb (sf_i8count b hdr =? 0)
  then put_be64 b to ino
  else put_be32 b to ino.

Definition scxfs_dir2_sf_get_parent_ino (b : buf) (hdr : Z) : Z :=
  scxfs_dir2_sf_get_ino b hdr (hdr + offsetof_sf_parent).

Definition scxfs_dir2_sf_put_parent_ino (b : buf) (hdr ino : Z) : buf :=
  scxfs_dir2_sf_put_ino b hdr (hdr + offsetof_sf_parent) ino.

Definition scxfs_dir2_sfe_get_ino (b : buf) (hdr sfep : Z) : Z :=
  scxfs_dir2_sf_get_ino b hdr (sfep + offsetof_sfe_name + sfe_namelen b sfep).

Definition scxfs_dir2_sfe_put_ino (b : buf) (hdr sfep ino : Z) : buf :=
  scxfs_dir2_sf_put_ino b hdr (sfep + offsetof_sfe_name + sfe_namelen b sfep) ino.

Definition scxfs_dir3_sfe_get_ino (b : buf) (hdr sfep : Z) : Z :=
  scxfs_dir2_sf_get_ino b hdr
    (sfep + offsetof_sfe_name + (sfe_namelen b sfep + 1)).

Definition scxfs_dir3_sfe_put_ino (b : buf) (hdr sfep ino : Z) : buf :=
  scxfs_dir2_sf_put_ino b hdr
    (sfep + offsetof_sfe_name + (sfe_namelen b sfep + 1)) ino.

End Shortform.

(** ** Leaf, node and free-block headers ([scxfs_da_format.c], lines 432-684)

    The in-core headers hold the fields that the conversions copy.  The
    conversions also assert the magic number, in debug builds only. *)
Record scxfs_dir3_icleaf_hdr := {
  icl_forw : Z; icl_back : Z; icl_magic : Z; icl_count : Z; icl_stale : Z
}.

Record scxfs_da3_icnode_hdr := {
  icn_forw : Z; icn_back : Z; icn_magic : Z; icn_count : Z; icn_level : Z
}.

Record scxfs_dir3_icfree_hdr := {
  icf_magic : Z; icf_firstdb : Z; icf_nvalid : Z; icf_nused : Z
}.

(** The on-disk structures are declared in the absent header.  The byte
    offsets of the fields that the conversions touch are parameters: one
    set of offsets for each of the six on-disk headers. *)
Record leaf_hdr_offsets := {
  lo_forw : Z; lo_back : Z; lo_magic : Z; lo_count : Z; lo_stale : Z
}.

Record node_hdr_offsets := {
  no_forw : Z; no_back : Z; no_magic : Z; no_count : Z; no_level : Z
}.

Record free_hdr_offsets := {
  fo_magic : Z; fo_firstdb : Z; fo_nvalid : Z; fo_nused : Z
}.

(** [forw] and [back] are 32-bit fields, [magic], [count], [stale] and
    [level] 16-bit ones; the free header has four 32-bit fields.  The
    version-2 and version-3 conversions have the same body over their own
    structure, so each pair is one function of the offsets. *)
Definition leaf_hdr_from_disk (L : leaf_hdr_offsets) (b : buf) (from : Z)
    : scxfs_dir3_icleaf_hdr :=
  {| icl_forw := get_be32 b (from + lo_forw L);
     icl_back := get_be32 b (from + lo_back L);
     icl_magic := get_be16 b (from + lo_magic L);
     icl_count := get_be16 b (from + lo_count L);
     icl_stale := get_be16 b (from + lo_stale L) |}.

Definition leaf_hdr_to_disk (L : leaf_hdr_offsets) (b : buf) (to : Z)
    (from : scxfs_dir3_icleaf_hdr) : buf :=
  let b1 := put_be32 b (to + lo_forw L) (icl_forw from) in
  let b2 := put_be32 b1 (to + lo_back L) (icl_back from) in
  let b3 := put_be16 b2 (to + lo_magic L) (icl_magic from) in
  let b4 := put_be16 b3 (to + lo_count L) (icl_count from) in
  put_be16 b4 (to + lo_stale L) (icl_stale from).

Definition node_hdr_from_disk (L : node_hdr_offsets) (b : buf) (from : Z)
    : scxfs_da3_icnode_hdr :=
  {| icn_forw := get_be32 b (from + no_forw L);
     icn_back := get_be32 b (from + no_back L);
     icn_magic := get_be16 b (from + no_magic L);
     icn_count := get_be16 b (from + no_count L);
     icn_level := get_be16 b (from + no_level L) |}.

Definition node_hdr_to_disk (L : node_hdr_offsets) (b : buf) (to : Z)
    (from : scxfs_da3_icnode_hdr) : buf :=
  let b1 := put_be32 b (to + no_forw L) (icn_forw from) in
  let b2 := put_be32 b1 (to + no_back L) (icn_back from) in
  let b3 := put_be16 b2 (to + no_magic L) (icn_magic from) in
  let b4 := put_be16 b3 (to + no_count L) (icn_count from) in
  put_be16 b4 (to + no_level L) (icn_level from).

Definition free_hdr_from_disk (L : free_hdr_offsets) (b : buf) (from : Z)
    : scxfs_dir3_icfree_hdr :=
  {| icf_magic := get_be32 b (from + fo_magic L);
     icf_firstdb := get_be32 b (from + fo_firstdb L);
     icf_nvalid := get_be32 b (from + fo_nvalid L);
     icf_nused := get_be32 b (from + fo_nused L) |}.

Definition free_hdr_to_disk (L : free_hdr_offsets) (b : buf) (to : Z)
    (from : scxfs_dir3_icfree_hdr) : buf :=
  let b1 := put_be32 b (to + fo_magic L) (icf_magic from) in
  let b2 := put_be32 b1 (to + fo_firstdb L) (icf_firstdb from) in
  let b3 := put_be32 b2 (to + fo_nvalid L) (icf_nvalid from) in
  put_be32 b3 (to + fo_nused L) (icf_nused from).

Section DiskHeaders.

Variable dir2_leaf_hdr : leaf_hdr_offsets.   (* struct scxfs_dir2_leaf_hdr *)
Variable dir3_leaf_hdr : leaf_hdr_offsets.   (* struct scxfs_dir3_leaf_hdr *)
Variable da_node_hdr : node_hdr_offsets.     (* struct scxfs_da_node_hdr *)
Variable da3_node_hdr : node_hdr_offsets.    (* struct scxfs_da3_node_hdr *)
Variable dir2_free_hdr : free_hdr_offsets.   (* struct scxfs_dir2_free_hdr *)
Variable dir3_free_hdr : free_hdr_offsets.   (* struct scxfs_dir3_free_hdr *)

Definition scxfs_dir2_leaf_hdr_from_disk := leaf_hdr_from_disk dir2_leaf_hdr.
Definition scxfs_dir2_leaf_hdr_to_disk := leaf_hdr_to_disk dir2_leaf_hdr.
Definition scxfs_dir3_leaf_hdr_from_disk := leaf_hdr_from_disk dir3_leaf_hdr.
Definition scxfs_dir3_leaf_hdr_to_disk := leaf_hdr_to_disk dir3_leaf_hdr.
Definition scxfs_da2_node_hdr_from_disk := node_hdr_from_disk da_node_hdr.
Definition scxfs_da2_node_hdr_to_disk := node_hdr_to_disk da_node_hdr.
Definition scxfs_da3_node_hdr_from_disk := node_hdr_from_disk da3_node_hdr.
Definition scxfs_da3_node_hdr_to_disk := node_hdr_to_disk da3_node_hdr.
Definition scxfs_dir2_free_hdr_from_disk := free_hdr_from_disk dir2_free_hdr.
Definition scxfs_dir2_free_hdr_to_disk := free_hdr_to_disk dir2_free_hdr.
Definition scxfs_dir3_free_hdr_from_disk := free_hdr_from_disk dir3_free_hdr.
Definition scxfs_dir3_free_hdr_to_disk := free_hdr_to_disk dir3_free_hdr.

End DiskHeaders.

(** Fields given as (offset, width) pairs that start at or after 0 and do
    not overlap, as the members of a C structure. *)
Fixpoint fields_disjoint (fs : list (Z * Z)) : Prop :=
  match fs with
  | [] => True
  | f :: rest =>
      0 <= fst f
      /\ Forall (fun f' => fst f + snd f <= fst f' \/ fst f' + snd f' <= fst f)
                rest
      /\ fields_disjoint rest
  end.

Definition leaf_fields (L : leaf_hdr_offsets) : list (Z * Z) :=
  [(lo_forw L, 4); (lo_back L, 4); (lo_magic L, 2); (lo_count L, 2);
   (lo_stale L, 2)].

Definition node_fields (L : node_hdr_offsets) : list (Z * Z) :=
  [(no_forw L, 4); (no_back L, 4); (no_magic L, 2); (no_count L, 2);
   (no_level L, 2)].

Definition free_fields (L : free_hdr_offsets) : list (Z * Z) :=
  [(fo_magic L, 4); (fo_firstdb L, 4); (fo_nvalid L, 4); (fo_nused L, 4)].

(** The fields of the structure at [p] lie inside the buffer. *)
Definition fields_in (b : buf) (p : Z) (fs : list (Z * Z)) : Prop :=
  0 <= p /\ Forall (fun f => p + fst f + snd f <= blen b) fs.
(** The values of an in-core header fit the widths of the disk fields. *)
Definition icleaf_fits (h : scxfs_dir3_icleaf_hdr) : Prop :=
  0 <= icl_forw h < 4294967296 /\ 0 <= icl_back h < 4294967296
  /\ 0 <= icl_magic h < 65536 /\ 0 <= icl_count h < 65536
  /\ 0 <= icl_stale h < 65536.

Definition icnode_fits (h : scxfs_da3_icnode_hdr) : Prop :=
  0 <= icn_forw h < 4294967296 /\ 0 <= icn_back h < 4294967296
  /\ 0 <= icn_magic h < 65536 /\ 0 <= icn_count h < 65536
  /\ 0 <= icn_level h < 65536.

Definition icfree_fits (h : scxfs_dir3_icfree_hdr) : Prop :=
  0 <= icf_magic h < 4294967296 /\ 0 <= icf_firstdb h < 4294967296
  /\ 0 <= icf_nvalid h < 4294967296 /\ 0 <= icf_nused h < 4294967296.

(** ** Leaf and free-block capacities ([scxfs_da_format.c], lines 403-635) *)

(** The conversion of an unsigned value to [int]. *)
Definition to_int (x : Z) : Z :=
  (x + 2147483648) mod 4294967296 - 2147483648.

(** Modelled from the spec: offsets inside a block are 16-bit words, so
    [sizeof(scxfs_dir2_data_off_t)] is 2. *)
Definition sizeof_scxfs_dir2_data_off_t : Z := 2.

Section Capacities.

(** The sizes of the leaf and free headers, the offset of the free space
    in the directory's address space and the conversion of a byte offset
    to a directory block number come from the absent headers. *)
Variable sizeof_scxfs_dir2_leaf_hdr : Z.
Variable sizeof_scxfs_dir3_leaf_hdr : Z.
Variable sizeof_scxfs_dir2_free_hdr : Z.
Variable sizeof_scxfs_dir3_free_hdr : Z.
Variable SCXFS_DIR2_FREE_OFFSET : Z.
Variable scxfs_dir2_byte_to_db : scxfs_da_geometry -> Z -> Z.

(** [blksize] is an [int] and [sizeof] a [size_t] of 64 bits: the
    subtraction and the division are done on 64-bit unsigned values and
    the quotient is returned as an [int]. *)
Definition scxfs_dir2_max_leaf_ents (geo : scxfs_da_geometry) : Z :=
  to_int (u64 (blksize geo - sizeof_scxfs_dir2_leaf_hdr)
          / u32 sizeof_scxfs_dir2_leaf_entry).

Definition scxfs_dir3_max_leaf_ents (geo : scxfs_da_geometry) : Z :=
  to_int (u64 (blksize geo - sizeof_scxfs_dir3_leaf_hdr)
          / u32 sizeof_scxfs_dir2_leaf_entry).

Definition scxfs_dir2_free_max_bests (geo : scxfs_da_geometry) : Z :=
  to_int (u64 (blksize geo - sizeof_scxfs_dir2_free_hdr)
          / sizeof_scxfs_dir2_data_off_t).

Definition scxfs_dir3_free_max_bests (geo : scxfs_da_geometry) : Z :=
  to_int (u64 (blksize geo - sizeof_scxfs_dir3_free_hdr)
          / sizeof_scxfs_dir2_data_off_t).

(** The array [bests] behind the header of the free block at [free]. *)
Definition scxfs_dir2_free_bests_p (free : Z) : Z :=
  free + sizeof_scxfs_dir2_free_hdr.

Definition scxfs_dir3_free_bests_p (free : Z) : Z :=
  free + sizeof_scxfs_dir3_free_hdr.

(** [db] is an unsigned 32-bit block number; the [int] it is divided by
    is converted to unsigned. *)
Definition scxfs_dir2_db_to_fdb (geo : scxfs_da_geometry) (db : Z) : Z :=
  u32 (scxfs_dir2_byte_to_db geo SCXFS_DIR2_FREE_OFFSET
       + u32 db / u32 (scxfs_dir2_free_max_bests geo)).

Definition scxfs_dir2_db_to_fdindex (geo : scxfs_da_geometry) (db : Z) : Z :=
  to_int (u32 db mod u32 (scxfs_dir2_free_max_bests geo)).

Definition scxfs_dir3_db_to_fdb (geo : scxfs_da_geometry) (db : Z) : Z :=
  u32 (scxfs_dir2_byte_to_db geo SCXFS_DIR2_FREE_OFFSET
       + u32 db / u32 (scxfs_dir3_free_max_bests geo)).

Definition scxfs_dir3_db_to_fdindex (geo : scxfs_da_geometry) (db : Z) : Z :=
  to_int (u32 db mod u32 (scxfs_dir3_free_max_bests geo)).

End Capacities.

(** A shortform directory with 4-byte inode numbers, for the layout
    [count], [i8count], [parent] of the header and [namelen], [offset],
    [name] of an entry: parent 128 and one entry "ab" at offset 6, with room
    for its type byte and inode number. *)
Definition sample_sf : buf :=
  [1; 0; 0; 0; 0; 128;
   2; 0; 96; 97; 98; 0; 0; 0; 0; 0].

(** The field offsets of the six headers where [struct scxfs_da_blkinfo]
    has 12 bytes, [struct scxfs_da3_blkinfo] 56 and
    [struct scxfs_dir3_blk_hdr] 48. *)
Definition sample_dir2_leaf_hdr : leaf_hdr_offsets :=
  {| lo_forw := 0; lo_back := 4; lo_magic := 8; lo_count := 12; lo_stale := 14 |}.
Definition sample_dir3_leaf_hdr : leaf_hdr_offsets :=
  {| lo_forw := 0; lo_back := 4; lo_magic := 8; lo_count := 56; lo_stale := 58 |}.
Definition sample_da_node_hdr : node_hdr_offsets :=
  {| no_forw := 0; no_back := 4; no_magic := 8; no_count := 12; no_level := 14 |}.
Definition sample_da3_node_hdr : node_hdr_offsets :=
  {| no_forw := 0; no_back := 4; no_magic := 8; no_count := 56; no_level := 58 |}.
Definition sample_dir2_free_hdr : free_hdr_offsets :=
  {| fo_magic := 0; fo_firstdb := 4; fo_nvalid := 8; fo_nused := 12 |}.
Definition sample_dir3_free_hdr : free_hdr_offsets :=
  {| fo_magic := 0; fo_firstdb := 48; fo_nvalid := 52; fo_nused := 56 |}.

(** A geometry with blocks of 4096 bytes. *)
Definition geo_4k : scxfs_da_geometry := {| blksize := 4096; datablk := 0 |}.

(** ** Names without case ([scxfs_dir2.c], lines 51-95) *)

Inductive scxfs_dacmp :=
| SCXFS_CMP_DIFFERENT
| SCXFS_CMP_EXACT
| SCXFS_CMP_CASE.

Section AsciiCi.

(** [tolower] and [rol32] are the kernel's. *)
Variable tolower : Z -> Z.
Variable rol32 : Z -> Z -> Z.

(** The loop of [scxfs_ascii_ci_hashname] from index [i] for [n] more
    bytes; the hash is an unsigned 32-bit value. *)
Fixpoint ascii_ci_hash_loop (name : list Z) (i hash : Z) (n : nat) : Z :=
  match n with
  | O => hash
  | S n' =>
      ascii_ci_hash_loop name (i + 1)
        (u32 (Z.lxor (tolower (rd name i)) (rol32 hash 7))) n'
  end.

(** [name->name] and [name->len]. *)
Definition scxfs_ascii_ci_hashname (name : list Z) (len : Z) : Z :=
  ascii_ci_hash_loop name 0 0 (Z.to_nat len).

Fixpoint ascii_ci_comp_loop (args_name name : list Z) (i : Z)
    (result : scxfs_dacmp) (n : nat) : scxfs_dacmp :=
  match n with
  | O => result
  | S n' =>
      if rd args_name i =? rd name i
      then ascii_ci_comp_loop args_name name (i + 1) result n'
      else if negb (tolower (rd args_name i) =? tolower (rd name i))
      then SCXFS_CMP_DIFFERENT
      else ascii_ci_comp_loop args_name name (i + 1) SCXFS_CMP_CASE n'
  end.

(** [args->name] and [args->namelen] against [name] and [len]. *)
Definition scxfs_ascii_ci_compname (args_name : list Z) (args_namelen : Z)
    (name : list Z) (len : Z) : scxfs_dacmp :=
  if negb (args_namelen =? len) then SCXFS_CMP_DIFFERENT
  else ascii_ci_comp_loop args_name name 0 SCXFS_CMP_EXACT (Z.to_nat len).

End AsciiCi.

(** The ASCII [tolower] and the rotation, to run the two functions. *)
Definition ascii_tolower (c : Z) : Z :=
  if (65 <=? c) && (c <=? 90) then c + 32 else c.

Definition rotate_left32 (w s : Z) : Z :=
  u32 (Z.lor (Z.shiftl w s) (Z.shiftr w (32 - s))).

(** The two ranges that [scxfs_dir2_data_log_unused] hands to the journal
    for the unused record at [dup] of the buffer [b]. *)
Definition logged_of_unused (b : buf) (dup : Z) : list (Z * Z) :=
  [(u32 dup, u32 (dup + 2 + 2 - 1));
   (u32 (scxfs_dir2_data_unused_tag_p b dup),
    u32 (scxfs_dir2_data_unused_tag_p b dup + 2 - 1))].

(** The ranges that [scxfs_dir2_data_use_free] logs in its four cases. *)
Definition use_free_logged (b : buf) (dup offset len : Z) : list (Z * Z) :=
  let oldlen := dup_length b dup in
  let matchfront := dup =? offset in
  let matchback := dup + oldlen =? u32 (offset + len) in
  if matchfront && matchback then []
  else if matchfront then
    logged_of_unused (use_free_writes b dup offset len) (offset + len)
  else if matchback then
    logged_of_unused (use_free_writes b dup offset len) dup
  else
    let b1 := put_be16 b (dup + 2) (offset - dup) in
    let b2 := put_be16 b1 (scxfs_dir2_data_unused_tag_p b1 dup) dup in
    logged_of_unused b2 dup
    ++ logged_of_unused (use_free_writes b dup offset len) (offset + len).

(** Two buffers of one size that read alike at every offset. *)
Definition reads_alike (b c : buf) : Prop :=
  blen c = blen b /\ forall x, rd c x = rd b x.

(** ** Blocks that the verifier accepts

    A slot is empty or names a region; a region either is the one at
    [(p, len)] or lies apart from it. *)
Definition slot_apart (s : slot) (p len : Z) : Prop :=
  (fst s = 0 /\ snd s = 0)
  \/ (fst s <> 0 /\ 0 < snd s
      /\ ((fst s = p /\ snd s = len) \/ p + len <= fst s \/ fst s + snd s <= p)).
(** Slot [s] is accounted for when the walk stands at [p]: it is empty, or
    its region starts before [p]; [seen_mask] is the value of [freeseen]
    that says so for the three slots. *)
Definition slot_mark (s : slot) (p : Z) : bool :=
  (snd s =? 0) || (fst s <? p).

Definition seen_mask (t : list slot) (p : Z) : Z :=
  match t with
  | [s0; s1; s2] =>
      (if slot_mark s0 p then 1 else 0) + (if slot_mark s1 p then 2 else 0)
      + (if slot_mark s2 p then 4 else 0)
  | _ => 0
  end.

(** The table fits the unused regions [regions]: lengths do not increase,
    every slot is empty or is one of the regions, no region is listed
    twice, and a region that is not listed is not longer than slot 2. *)
Definition table_fits (t : list slot) (regions : list (Z * Z)) : Prop :=
  match t with
  | [s0; s1; s2] =>
      snd s1 <= snd s0 /\ snd s2 <= snd s1
      /\ (forall s, In s t -> s = (0, 0) \/ In s regions)
      /\ (s0 = (0, 0) \/ (s0 <> s1 /\ s0 <> s2))
      /\ (s1 = (0, 0) \/ s1 <> s2)
      /\ (forall r, In r regions -> In r t \/ snd r <= snd s2)
  | _ => False
  end.

(** The table after the regions have been offered to it one after the
    other, as the scan does. *)
Definition insert_all (t : list slot) (regions : list (Z * Z)) : list slot :=
  fold_left (fun t r => fst (table_insert t r)) regions t.

(** [sample_block] with slot 0 of its table cleared: the region at 96 is
    longer than what slot 2 lists and is not in the table. *)
Definition stale_block : buf := bf_set sample_block 4 0 0 0.

(** Slot [i] of the table holds the region [r]. *)
Definition listed_at (t : list slot) (i : Z) (r : slot) : Prop :=
  match t with
  | [s0; s1; s2] => (i = 0 /\ s0 = r) \/ (i = 1 /\ s1 = r) \/ (i = 2 /\ s2 = r)
  | _ => False
  end.

(** What [scxfs_dir2_data_freefind] answers about the region [r]: its
    slot, or that the table does not hold it. *)
Definition found_at (t : list slot) (dfp : option Z) (r : slot) : Prop :=
  match dfp with
  | Some i => listed_at t i r
  | None => ~ In r t
  end.

(** The table update of [scxfs_dir2_data_make_free] on the table read as
    values, with its [*needscanp]: [prev] and [post] are the neighbours
    found, [dfp] and [dfp2] what [freefind] answered for them, and [new]
    is the region that now covers the freed entry. *)
Definition make_free_table (t : list slot) (prev post dfp dfp2 : option Z)
    (new : slot) : list slot * Z :=
  match t with
  | [s0; s1; s2] =>
      match prev, post with
      | Some _, Some _ =>
          if negb (snd s2 =? 0) then (t, 1)
          else
            let d := match dfp with
                     | Some 1 => (Some 0, Some 1)
                     | _ => (dfp, dfp2)
                     end in
            (fst (table_insert (table_remove (table_remove t (snd d)) (fst d))
                    new), 0)
      | Some _, None =>
          match dfp with
          | Some _ => (fst (table_insert (table_remove t dfp) new), 0)
          | None => (t, if snd new >? snd s2 then 1 else 0)
          end
      | None, Some _ =>
          match dfp2 with
          | Some _ => (fst (table_insert (table_remove t dfp2) new), 0)
          | None => (t, if snd new >? snd s2 then 1 else 0)
          end
      | None, None => (fst (table_insert t new), 0)
      end
  | _ => (t, 0)
  end.

(** The table update of [scxfs_dir2_data_use_free] on the table read as
    values, with its [*needscanp]: [dfp] is what [freefind] answered for
    the region used, [n1] the piece of it left in front of the range and
    [n2] the piece left behind it. *)
Definition use_free_table (t : list slot) (dfp : option Z)
    (matchfront matchback : bool) (n1 n2 : slot) : list slot * Z :=
  match t with
  | [s0; s1; s2] =>
      match dfp with
      | None => (t, 0)
      | Some _ =>
          if matchfront && matchback then
            if negb (fst s2 =? 0) then (t, 1) else (table_remove t dfp, 0)
          else if matchfront then
            let ti := table_insert (table_remove t dfp) n2 in
            (fst ti, if is_slot (snd ti) 2 then 1 else 0)
          else if matchback then
            let ti := table_insert (table_remove t dfp) n1 in
            (fst ti, if is_slot (snd ti) 2 then 1 else 0)
          else if negb (snd s2 =? 0) then (t, 1)
          else
            (fst (table_insert (fst (table_insert (table_remove t dfp) n1)) n2),
             0)
      end
  | _ => (t, 0)
  end.

(** The records once the [len] bytes at [offset], taken from the unused
    record [(dup, l)], hold an entry: what is left of the record in front
    of the entry and behind it. *)
Definition front_piece (dup offset : Z) : list record :=
  if dup <? offset then [RUnused dup (offset - dup)] else [].

Definition back_piece (dup l offset len : Z) : list record :=
  if offset + len <? dup + l
  then [RUnused (offset + len) (dup + l - (offset + len))]
  else [].

Definition used_records (pre post : list record) (dup l offset len : Z)
    : list record :=
  pre ++ front_piece dup offset
      ++ REntry offset len :: back_piece dup l offset len ++ post.

(** The sixteen bytes of an entry at offset 32: inode 259, the one-byte
    name "d", file type 1, padding, and the tag. *)
Definition sample_entry_bytes : list Z :=
  [0; 0; 0; 0; 0; 0; 1; 3; 1; 100; 1; 0; 0; 0; 0; 32].

(** * Properties *)

(** ** Bytes *)

Lemma rd_range (b : buf) (i : Z) : 0 <= rd b i < 256.
Proof.
  unfold rd. destruct (i <? 0); [lia|].
  apply Z.mod_pos_bound; lia.
Qed.

Lemma length_upd (n : nat) (v : Z) (b : buf) : length (upd n v b) = length b.
Proof.
  revert n; induction b as [|x t IH]; intros [|n]; simpl; auto.
Qed.

Lemma nth_upd (n m : nat) (v : Z) (b : buf) :
  nth m (upd n v b) 0 =
  if (Nat.eqb m n && Nat.ltb n (length b))%bool then v else nth m b 0.
Proof.
  revert n m; induction b as [|x t IH]; intros [|n] [|m]; simpl; auto.
  - destruct (Nat.eqb m n); reflexivity.
Qed.

Lemma blen_wr (b : buf) (i v : Z) : blen (wr b i v) = blen b.
Proof.
  unfold blen, wr. destruct (i <? 0); [reflexivity|].
  now rewrite length_upd.
Qed.

Lemma rd_wr (b : buf) (i v j : Z) :
  rd (wr b i v) j =
  if ((j =? i) && (0 <=? i) && (i <? blen b))%bool then v mod 256 else rd b j.
Proof.
  unfold rd, wr, blen.
  destruct (Z.ltb_spec i 0) as [Hi|Hi].
  - destruct (Z.eqb_spec j i); destruct (Z.leb_spec 0 i); simpl; try lia; reflexivity.
  - destruct (Z.ltb_spec j 0) as [Hj|Hj].
    + destruct (Z.eqb_spec j i); [lia|reflexivity].
    + rewrite nth_upd.
      destruct (Z.eqb_spec j i) as [->|Hne].
      * rewrite Nat.eqb_refl. simpl.
        destruct (Z.leb_spec 0 i); [|lia]. simpl.
        destruct (Nat.ltb_spec (Z.to_nat i) (length b));
          destruct (Z.ltb_spec i (Z.of_nat (length b))); try lia; auto.
        now rewrite Z.mod_mod by lia.
      * destruct (Nat.eqb_spec (Z.to_nat j) (Z.to_nat i)); [lia|reflexivity].
Qed.

Lemma rd_wr_same (b : buf) (i v : Z) :
  0 <= i < blen b -> rd (wr b i v) i = v mod 256.
Proof.
  intros H. rewrite rd_wr, Z.eqb_refl.
  destruct (Z.leb_spec 0 i); destruct (Z.ltb_spec i (blen b)); simpl; lia.
Qed.

Lemma rd_wr_other (b : buf) (i v j : Z) : j <> i -> rd (wr b i v) j = rd b j.
Proof.
  intros H. rewrite rd_wr. destruct (Z.eqb_spec j i); [lia|reflexivity].
Qed.

Lemma get_be16_range (b : buf) (o : Z) : 0 <= get_be16 b o < 65536.
Proof.
  unfold get_be16. pose proof (rd_range b o). pose proof (rd_range b (o + 1)). lia.
Qed.

Lemma blen_put_be16 (b : buf) (o v : Z) : blen (put_be16 b o v) = blen b.
Proof. unfold put_be16. now rewrite !blen_wr. Qed.

Lemma rd_put_be16_other (b : buf) (o v j : Z) :
  j <> o -> j <> o + 1 -> rd (put_be16 b o v) j = rd b j.
Proof.
  intros H1 H2. unfold put_be16. rewrite !rd_wr_other by lia. reflexivity.
Qed.

Lemma get_put_be16_same (b : buf) (o v : Z) :
  0 <= o -> o + 1 < blen b -> get_be16 (put_be16 b o v) o = u16 v.
Proof.
  intros H1 H2. unfold get_be16, put_be16, u16.
  rewrite rd_wr_same by (rewrite blen_wr; lia).
  rewrite rd_wr_other by lia. rewrite rd_wr_same by lia.
  pose proof (Z.div_mod v 256 ltac:(lia)) as E1.
  pose proof (Z.div_mod (v / 256) 256 ltac:(lia)) as E2.
  pose proof (Z.mod_pos_bound v 256 ltac:(lia)).
  pose proof (Z.mod_pos_bound (v / 256) 256 ltac:(lia)).
  apply Z.mod_unique with (q := v / 256 / 256); lia.
Qed.

Lemma get_put_be16_other (b : buf) (o v o' : Z) :
  o' + 1 < o \/ o + 1 < o' -> get_be16 (put_be16 b o v) o' = get_be16 b o'.
Proof.
  intros H. unfold get_be16. rewrite !rd_put_be16_other by lia. reflexivity.
Qed.

Lemma u16_small (x : Z) : 0 <= x < 65536 -> u16 x = x.
Proof. intros H. unfold u16. apply Z.mod_small; lia. Qed.

Lemma u32_small (x : Z) : 0 <= x < 4294967296 -> u32 x = x.
Proof. intros H. unfold u32. apply Z.mod_small; lia. Qed.

Lemma u16_get_be16 (b : buf) (o : Z) : u16 (get_be16 b o) = get_be16 b o.
Proof. apply u16_small, get_be16_range. Qed.

(** The bytes of a 16-bit field are determined by its value. *)
Lemma get_be16_bytes (b : buf) (o v : Z) :
  get_be16 b o = v -> rd b o = (v / 256) mod 256 /\ rd b (o + 1) = v mod 256.
Proof.
  unfold get_be16. intros <-.
  pose proof (rd_range b o). pose proof (rd_range b (o + 1)).
  replace (rd b o * 256 + rd b (o + 1)) with (rd b (o + 1) + rd b o * 256) by lia.
  rewrite Z.div_add, Z.mod_add by lia.
  rewrite (Z.div_small (rd b (o + 1))), (Z.mod_small (rd b (o + 1))) by lia.
  rewrite Z.add_0_l, Z.mod_small by lia. auto.
Qed.

(** ** The best-free table *)

Ltac rdwr :=
  repeat (rewrite ?rd_wr, ?blen_wr);
  repeat match goal with
         | |- context [Z.eqb ?a ?b] => destruct (Z.eqb_spec a b); try lia
         | |- context [Z.leb ?a ?b] => destruct (Z.leb_spec a b); try lia
         | |- context [Z.ltb ?a ?b] => destruct (Z.ltb_spec a b); try lia
         end;
  cbn [andb orb negb]; try reflexivity; try lia.

Lemma same_outside_refl (lo hi : Z) (b : buf) : same_outside lo hi b b.
Proof. split; auto. Qed.

Lemma same_outside_trans (lo hi : Z) (b1 b2 b3 : buf) :
  same_outside lo hi b1 b2 -> same_outside lo hi b2 b3 ->
  same_outside lo hi b1 b3.
Proof.
  intros [L1 H1] [L2 H2]. split; [congruence|].
  intros x Hx. rewrite H2, H1; auto.
Qed.

Lemma same_outside_weaken (lo hi lo' hi' : Z) (b b' : buf) :
  lo' <= lo -> hi <= hi' -> same_outside lo hi b b' ->
  same_outside lo' hi' b b'.
Proof.
  intros Hlo Hhi [L H]. split; [exact L|]. intros x Hx. apply H. lia.
Qed.

Lemma same_outside_wr (lo hi : Z) (b : buf) (i v : Z) :
  lo <= i < hi -> same_outside lo hi b (wr b i v).
Proof.
  intros H. split; [apply blen_wr|]. intros x Hx. apply rd_wr_other. lia.
Qed.

Lemma same_outside_put_be16 (lo hi : Z) (b : buf) (o v : Z) :
  lo <= o -> o + 2 <= hi -> same_outside lo hi b (put_be16 b o v).
Proof.
  intros H1 H2. split; [apply blen_put_be16|].
  intros x Hx. apply rd_put_be16_other; lia.
Qed.

Lemma get_be16_same_outside (lo hi : Z) (b b' : buf) (o : Z) :
  same_outside lo hi b b' -> o + 2 <= lo \/ hi <= o ->
  get_be16 b' o = get_be16 b o.
Proof.
  intros [_ H] Ho. unfold get_be16. rewrite !H by lia. reflexivity.
Qed.

Lemma table_in_same (lo hi : Z) (b b' : buf) (bf : Z) :
  same_outside lo hi b b' -> table_in b bf -> table_in b' bf.
Proof. intros [L _] [H1 H2]. split; [lia|]. rewrite L. lia. Qed.

Lemma bf_table_slots (b : buf) (bf : Z) :
  bf_table b bf = [slot_at b bf 0; slot_at b bf 1; slot_at b bf 2].
Proof. reflexivity. Qed.

Lemma slot_at_bf_copy (b : buf) (bf i j k : Z) :
  table_in b bf -> 0 <= i <= 2 -> 0 <= j <= 2 -> 0 <= k <= 2 -> i <> j ->
  slot_at (bf_copy b bf i j) bf k =
  if k =? i then slot_at b bf j else slot_at b bf k.
Proof.
  intros [H1 H2] Hi Hj Hk Hij.
  unfold slot_at, bf_offset, bf_length, get_be16, bf_copy,
    sizeof_scxfs_dir2_data_free.
  pose proof (rd_range b (bf + (2 + 2) * j)).
  pose proof (rd_range b (bf + (2 + 2) * j + 1)).
  pose proof (rd_range b (bf + (2 + 2) * j + 2)).
  pose proof (rd_range b (bf + (2 + 2) * j + 3)).
  destruct (Z.eqb_spec k i) as [->|Hne].
  - rewrite !rd_wr, !blen_wr.
    repeat match goal with
           | |- context [Z.eqb ?a ?b] => destruct (Z.eqb_spec a b); try lia
           | |- context [Z.leb ?a ?b] => destruct (Z.leb_spec a b); try lia
           | |- context [Z.ltb ?a ?b] => destruct (Z.ltb_spec a b); try lia
           end; cbn [andb].
    rewrite !Z.mod_small by lia.
    replace (bf + (2 + 2) * j + 2 + 1) with (bf + (2 + 2) * j + 3) by lia.
    reflexivity.
  - rewrite !rd_wr_other by lia. reflexivity.
Qed.

Lemma same_outside_bf_copy (b : buf) (bf i j : Z) :
  0 <= i <= 2 -> same_outside bf (bf + 12) b (bf_copy b bf i j).
Proof.
  intros Hi. unfold bf_copy, sizeof_scxfs_dir2_data_free.
  repeat (eapply same_outside_trans; [|apply same_outside_wr; lia]).
  apply same_outside_refl.
Qed.

Lemma slot_at_bf_set (b : buf) (bf i off len k : Z) :
  table_in b bf -> 0 <= i <= 2 -> 0 <= k <= 2 ->
  slot_at (bf_set b bf i off len) bf k =
  if k =? i then (u16 off, u16 len) else slot_at b bf k.
Proof.
  intros [H1 H2] Hi Hk.
  unfold slot_at, bf_offset, bf_length, bf_set, sizeof_scxfs_dir2_data_free.
  destruct (Z.eqb_spec k i) as [->|Hne].
  - rewrite get_put_be16_same by (rewrite ?blen_put_be16; lia).
    rewrite get_put_be16_other by lia.
    rewrite get_put_be16_same by lia. reflexivity.
  - rewrite !get_put_be16_other by lia. reflexivity.
Qed.

Lemma same_outside_bf_set (b : buf) (bf i off len : Z) :
  0 <= i <= 2 -> same_outside bf (bf + 12) b (bf_set b bf i off len).
Proof.
  intros Hi. unfold bf_set, sizeof_scxfs_dir2_data_free.
  eapply same_outside_trans; apply same_outside_put_be16; lia.
Qed.

Lemma slot_at_length_range (b : buf) (bf i : Z) :
  0 <= snd (slot_at b bf i) < 65536.
Proof. apply get_be16_range. Qed.

Lemma bf_table_eq (b' : buf) (bf : Z) (s0 s1 s2 : slot) :
  slot_at b' bf 0 = s0 -> slot_at b' bf 1 = s1 -> slot_at b' bf 2 = s2 ->
  bf_table b' bf = [s0; s1; s2].
Proof. intros <- <- <-. reflexivity. Qed.

Ltac table_eq :=
  apply bf_table_eq;
  repeat (first [rewrite slot_at_bf_set by (auto; lia)
                | rewrite slot_at_bf_copy by (auto; lia)];
          cbn [Z.eqb Pos.eqb]);
  unfold dup_length; rewrite ?u16_get_be16; reflexivity.

Lemma freeinsert_spec (b : buf) (bf dup lh : Z) :
  table_in b bf ->
  let r := scxfs_dir2_data_freeinsert b bf dup lh in
  let ti := table_insert (bf_table b bf) (u16 dup, dup_length b dup) in
  bf_table (fst (fst r)) bf = fst ti
  /\ snd (fst r) = snd ti
  /\ same_outside bf (bf + 12) b (fst (fst r))
  /\ (snd (fst r) = None -> fst (fst r) = b /\ snd r = lh).
Proof.
  intros Hin. cbv zeta.
  rewrite (bf_table_slots b bf).
  unfold scxfs_dir2_data_freeinsert, table_insert.
  change (bf_length b bf 0) with (snd (slot_at b bf 0)).
  change (bf_length b bf 1) with (snd (slot_at b bf 1)).
  change (bf_length b bf 2) with (snd (slot_at b bf 2)).
  cbn [snd].
  pose proof (same_outside_bf_copy b bf 2 1 ltac:(lia)) as F1.
  pose proof (table_in_same _ _ _ _ _ F1 Hin) as I1.
  destruct (dup_length b dup >? snd (slot_at b bf 0)).
  { cbn [fst snd].
    pose proof (same_outside_bf_copy (bf_copy b bf 2 1) bf 1 0 ltac:(lia)) as F2.
    pose proof (table_in_same _ _ _ _ _ F2 I1) as I2.
    split; [table_eq|]. split; [reflexivity|]. split; [|discriminate].
    eapply same_outside_trans; [|apply same_outside_bf_set; lia].
    eapply same_outside_trans; eauto. }
  destruct (dup_length b dup >? snd (slot_at b bf 1)).
  { cbn [fst snd].
    split; [table_eq|]. split; [reflexivity|]. split; [|discriminate].
    eapply same_outside_trans; [|apply same_outside_bf_set; lia]. apply F1. }
  destruct (dup_length b dup >? snd (slot_at b bf 2)).
  { cbn [fst snd].
    split; [table_eq|]. split; [reflexivity|]. split; [|discriminate].
    apply same_outside_bf_set; lia. }
  cbn [fst snd]. split; [reflexivity|]. split; [reflexivity|].
  split; [apply same_outside_refl|auto].
Qed.

Lemma freeremove_spec (b : buf) (bf : Z) (dfp : option Z) :
  table_in b bf ->
  let r := scxfs_dir2_data_freeremove b bf dfp in
  bf_table (fst r) bf = table_remove (bf_table b bf) dfp
  /\ same_outside bf (bf + 12) b (fst r)
  /\ snd r = 1.
Proof.
  intros Hin. cbv zeta.
  rewrite (bf_table_slots b bf).
  unfold scxfs_dir2_data_freeremove, table_remove. cbn [fst snd].
  pose proof (same_outside_bf_copy b bf 0 1 ltac:(lia)) as F1.
  pose proof (table_in_same _ _ _ _ _ F1 Hin) as I1.
  pose proof (same_outside_bf_copy b bf 1 2 ltac:(lia)) as F2.
  pose proof (table_in_same _ _ _ _ _ F2 Hin) as I2.
  pose proof (same_outside_bf_copy (bf_copy b bf 0 1) bf 1 2 ltac:(lia)) as F3.
  pose proof (table_in_same _ _ _ _ _ F3 I1) as I3.
  assert (Hz : u16 0 = 0) by reflexivity.
  destruct dfp as [[|[p|p|]|p]|]; (split; [|split; [|reflexivity]]);
    try table_eq;
    try (eapply same_outside_trans; [|apply same_outside_bf_set; lia]);
    eauto using same_outside_trans, same_outside_refl.
Qed.

(** ** Format dispatch *)

(** C9, as amended: the legacy data-block header, the 4-byte magic followed
    by the three 4-byte best-free pairs, occupies 16 bytes, and
    [data_entry_offset] of both legacy tables equals that header size. *)
Theorem legacy_header_size :
  sizeof_scxfs_dir2_data_hdr = 16
  /\ (forall ftu, data_entry_offset (scxfs_dir2_ops ftu)
                  = sizeof_scxfs_dir2_data_hdr)
  /\ (forall ftu ftm, data_entry_offset (scxfs_dir2_ftype_ops ftu ftm)
                      = sizeof_scxfs_dir2_data_hdr).
Proof. repeat split. Qed.

(** C9 as stated fails: the legacy header does not occupy 32 bytes. *)
Lemma legacy_header_not_32 :
  ~ (sizeof_scxfs_dir2_data_hdr = 32
     /\ data_entry_offset (scxfs_dir2_ops 0) = sizeof_scxfs_dir2_data_hdr).
Proof. intros [H _]. discriminate H. Qed.

(** C10: on the tables with file types [data_get_ftype] returns the stored
    byte when it is below [SCXFS_DIR3_FT_MAX] and [SCXFS_DIR3_FT_UNKNOWN]
    otherwise, so its value is the unknown code or is in range; on the
    legacy table it returns [SCXFS_DIR3_FT_UNKNOWN] for every entry and
    [data_put_ftype] changes no byte, so the type put is not read back. *)
Theorem data_get_ftype_in_range (ftu ftm : Z) (b : buf) (dep : Z) :
  let stored := rd b (dep + offsetof_entry_name + dep_namelen b dep) in
  (forall ops, In ops [scxfs_dir2_ftype_ops ftu ftm; scxfs_dir3_ops ftu ftm] ->
     (ftm <= stored -> data_get_ftype ops b dep = ftu)
     /\ (stored < ftm -> data_get_ftype ops b dep = stored)
     /\ (data_get_ftype ops b dep = ftu \/ data_get_ftype ops b dep < ftm))
  /\ data_get_ftype (scxfs_dir2_ops ftu) b dep = ftu
  /\ (forall t,
        data_put_ftype (scxfs_dir2_ops ftu) b dep t = b
        /\ data_get_ftype (scxfs_dir2_ops ftu)
             (data_put_ftype (scxfs_dir2_ops ftu) b dep t) dep = ftu).
Proof.
  cbv zeta. split; [|split; [reflexivity|intros t; split; reflexivity]].
  intros ops [<-|[<-|[]]]; cbn [data_get_ftype scxfs_dir2_ftype_ops scxfs_dir3_ops];
    unfold scxfs_dir3_data_get_ftype;
    destruct (Z.geb_spec (rd b (dep + offsetof_entry_name + dep_namelen b dep)) ftm);
    repeat split; intros; auto; lia.
Qed.

(** ** The best-free engine *)

(** C6: [freeinsert] compares the region's length with the slots in order
    0, 1, 2; at the first slot that is strictly shorter it moves that slot
    and the later ones down by one, dropping the last, writes the region's
    (offset, length) there and returns that slot; when no slot is strictly
    shorter it changes nothing and returns null. *)
Theorem freeinsert_first_shorter_slot (b : buf) (bf dup lh : Z) :
  table_in b bf -> 0 <= dup < 65536 ->
  let len := dup_length b dup in
  let s0 := slot_at b bf 0 in
  let s1 := slot_at b bf 1 in
  let s2 := slot_at b bf 2 in
  let b' := fst (fst (scxfs_dir2_data_freeinsert b bf dup lh)) in
  let ret := snd (fst (scxfs_dir2_data_freeinsert b bf dup lh)) in
  (snd s0 < len ->
     bf_table b' bf = [(dup, len); s0; s1] /\ ret = Some 0)
  /\ (len <= snd s0 -> snd s1 < len ->
     bf_table b' bf = [s0; (dup, len); s1] /\ ret = Some 1)
  /\ (len <= snd s0 -> len <= snd s1 -> snd s2 < len ->
     bf_table b' bf = [s0; s1; (dup, len)] /\ ret = Some 2)
  /\ (len <= snd s0 -> len <= snd s1 -> len <= snd s2 ->
     b' = b /\ ret = None).
Proof.
  intros Hin Hdup. cbv zeta.
  destruct (freeinsert_spec b bf dup lh Hin) as (Ht & Hr & _ & Hn).
  rewrite (bf_table_slots b bf) in Ht, Hr.
  unfold table_insert in Ht, Hr. cbn [snd] in Ht, Hr.
  rewrite (u16_small dup Hdup) in Ht, Hr.
  repeat split; intros;
    repeat match type of Ht with
           | context [?x >? ?y] => destruct (Z.gtb_spec x y); try lia
           end;
    cbn [fst snd] in Ht, Hr; auto; try (apply Hn; assumption).
Qed.

Lemma freeinsert_first_shorter_slot_witness :
  let b := fst (scxfs_dir2_data_freeremove sample_block 4 (Some 0)) in
  table_in b 4 /\ 0 <= 96 < 65536
  /\ snd (slot_at b 4 0) < dup_length b 96
  /\ bf_table (fst (fst (scxfs_dir2_data_freeinsert b 4 96 0))) 4
     = [(96, dup_length b 96); slot_at b 4 0; slot_at b 4 1]
  /\ snd (fst (scxfs_dir2_data_freeinsert b 4 96 0)) = Some 0.
Proof.
  cbv zeta.
  assert (Hin : table_in (fst (scxfs_dir2_data_freeremove sample_block 4 (Some 0))) 4)
    by (split; vm_compute; congruence).
  assert (Hlt : snd (slot_at (fst (scxfs_dir2_data_freeremove sample_block 4 (Some 0))) 4 0)
                < dup_length (fst (scxfs_dir2_data_freeremove sample_block 4 (Some 0))) 96)
    by (vm_compute; reflexivity).
  split; [exact Hin|]. split; [lia|]. split; [exact Hlt|].
  apply (freeinsert_first_shorter_slot _ 4 96 0 Hin ltac:(lia)). exact Hlt.
Defined.

(** C8: a table that satisfies the slot invariant (lengths not increasing,
    empty slots equal to (0,0) and only in trailing positions) satisfies it
    again after one call of [freeinsert] or of [freeremove]. *)
Theorem slot_invariant_preserved (b : buf) (bf : Z) :
  table_in b bf ->
  slot_invariant (bf_table b bf) ->
  (forall dup lh,
     slot_invariant
       (bf_table (fst (fst (scxfs_dir2_data_freeinsert b bf dup lh))) bf))
  /\ (forall dfp,
     slot_invariant (bf_table (fst (scxfs_dir2_data_freeremove b bf dfp)) bf)).
Proof.
  intros Hin Hinv.
  pose proof (slot_at_length_range b bf 0) as R0.
  pose proof (slot_at_length_range b bf 1) as R1.
  pose proof (slot_at_length_range b bf 2) as R2.
  rewrite bf_table_slots in Hinv.
  destruct Hinv as (L1 & L2 & Hz & T1 & T2).
  split.
  - intros dup lh.
    destruct (freeinsert_spec b bf dup lh Hin) as (Ht & _).
    rewrite Ht, (bf_table_slots b bf). unfold table_insert. cbn [snd].
    pose proof (get_be16_range b (dup + 2)) as RL. fold (dup_length b dup) in RL.
    repeat match goal with
           | |- context [?x >? ?y] => destruct (Z.gtb_spec x y)
           end; cbn [fst slot_invariant snd].
    + repeat split; try lia.
      * intros s [<-|[<-|[<-|[]]]] Hs; cbn [snd] in Hs; try lia;
          apply Hz; auto; cbn; auto.
      * intros E. inversion E. lia.
      * exact T1.
    + repeat split; try lia.
      * intros s [<-|[<-|[<-|[]]]] Hs; cbn [snd] in Hs; try lia;
          apply Hz; auto; cbn; auto.
      * intros E. rewrite E in *. cbn [snd] in *. lia.
      * intros E. inversion E. lia.
    + repeat split; try lia.
      * intros s [<-|[<-|[<-|[]]]] Hs; cbn [snd] in Hs; try lia;
          apply Hz; auto; cbn; auto.
      * exact T1.
      * intros E. rewrite E in *. cbn [snd] in *. lia.
    + repeat split; auto.
  - intros dfp.
    destruct (freeremove_spec b bf dfp Hin) as (Ht & _).
    rewrite Ht, (bf_table_slots b bf). unfold table_remove.
    destruct dfp as [[|[p|p|]|p]|]; cbn [slot_invariant snd];
      (repeat split; try lia; auto;
       try (intros s [<-|[<-|[<-|[]]]] Hs; auto; apply Hz; auto; cbn; auto)).
Qed.

Lemma slot_invariant_preserved_witness :
  slot_invariant (bf_table sample_block 4)
  /\ slot_invariant
       (bf_table (fst (fst (scxfs_dir2_data_freeinsert sample_block 4 96 0))) 4)
  /\ slot_invariant
       (bf_table (fst (scxfs_dir2_data_freeremove sample_block 4 (Some 1))) 4).
Proof.
  assert (Hin : table_in sample_block 4) by (split; vm_compute; congruence).
  assert (Hinv : slot_invariant (bf_table sample_block 4)).
  { vm_compute. repeat split; try congruence.
    intros s [<-|[<-|[<-|[]]]] H; discriminate H. }
  split; [exact Hinv|].
  destruct (slot_invariant_preserved sample_block 4 Hin Hinv) as [Hi Hr].
  split; [apply Hi|apply Hr].
Defined.

(** ** The space engine: [use_free] *)

Lemma check_free_dup_range (b : buf) (dup offset len : Z) :
  scxfs_dir2_data_check_free b dup offset len = None ->
  0 <= dup < 65536 /\ dup <= offset
  /\ u32 (offset + len) <= dup + dup_length b dup
  /\ dup_freetag b dup = SCXFS_DIR2_DATA_FREE_TAG
  /\ get_be16 b (scxfs_dir2_data_unused_tag_p b dup) = dup.
Proof.
  unfold scxfs_dir2_data_check_free. intros H.
  destruct (is_data_magic (hdr_magic b)); [|discriminate]. cbn [negb] in H.
  destruct (Z.eqb_spec (dup_freetag b dup) SCXFS_DIR2_DATA_FREE_TAG);
    [|discriminate]. cbn [negb] in H.
  destruct (Z.ltb_spec offset dup); [discriminate|].
  destruct (Z.gtb_spec (u32 (offset + len)) (dup + dup_length b dup));
    [discriminate|].
  destruct (Z.eqb_spec dup (get_be16 b (scxfs_dir2_data_unused_tag_p b dup)))
    as [E|]; [|discriminate].
  pose proof (get_be16_range b (scxfs_dir2_data_unused_tag_p b dup)).
  repeat split; auto; lia.
Qed.

(** C3, as amended: on an exact match of a tracked region [use_free]
    returns needscan true if and only if slot 2 was in use before the call;
    the region's slot is removed from the table only when slot 2 was empty,
    and when slot 2 was in use the block is left as it was, table included. *)
Theorem use_free_exact_match (args : scxfs_da_args) (bp : scxfs_buf)
    (dup offset len nl ns i : Z) :
  let b := b_addr bp in
  let bf := data_bestfree_p (d_ops args) in
  let r := scxfs_dir2_data_use_free args bp dup offset len nl ns in
  table_in b bf ->
  scxfs_dir2_data_check_free b dup offset len = None ->
  0 <= len ->
  offset = dup -> offset + len = dup + dup_length b dup ->
  scxfs_dir2_data_freefind b bf dup = Some i ->
  fst (fst (fst r)) = Ret0
  /\ (snd r = 1 <-> bf_offset b bf 2 <> 0)
  /\ (bf_offset b bf 2 = 0 ->
        bf_table (b_addr (snd (fst (fst r)))) bf
        = table_remove (bf_table b bf) (Some i)
        /\ b_logged (snd (fst (fst r))) = b_logged bp
        /\ snd r = 0)
  /\ (bf_offset b bf 2 <> 0 -> snd (fst (fst r)) = bp /\ snd (fst r) = nl).
Proof.
  cbv zeta. intros Hin Hchk Hlen Hoff Hend Hfind.
  destruct (check_free_dup_range _ _ _ _ Hchk) as (Hd & _).
  pose proof (get_be16_range (b_addr bp) (dup + 2)) as HL.
  fold (dup_length (b_addr bp) dup) in HL.
  unfold scxfs_dir2_data_use_free. rewrite Hchk, Hfind.
  rewrite u32_small by lia.
  subst offset. rewrite Z.eqb_refl.
  destruct (Z.eqb_spec (dup + dup_length (b_addr bp) dup) (dup + len)); [|lia].
  cbn [andb].
  destruct (Z.eqb_spec (bf_offset (b_addr bp) (data_bestfree_p (d_ops args)) 2) 0)
    as [E|E]; cbn [negb].
  - destruct (freeremove_spec (b_addr bp) (data_bestfree_p (d_ops args))
                (Some i) Hin) as (Ht & _ & _).
    destruct (scxfs_dir2_data_freeremove (b_addr bp)
                (data_bestfree_p (d_ops args)) (Some i)) as [b1 nl1].
    cbn [fst snd] in *. repeat split; auto; try lia; try congruence.
  - cbn [fst snd]. repeat split; auto; try lia; try congruence.
Qed.

Lemma use_free_exact_match_witness :
  let r := scxfs_dir2_data_use_free sample_args
             (set_addr sample_buf
                (fst (scxfs_dir2_data_freeremove sample_block 4 (Some 2))))
             64 64 16 0 0 in
  fst (fst (fst r)) = Ret0 /\ snd r = 0
  /\ bf_table (b_addr (snd (fst (fst r)))) 4 = [(96, 32); (0, 0); (0, 0)].
Proof.
  cbv zeta.
  pose proof (use_free_exact_match sample_args
                (set_addr sample_buf
                   (fst (scxfs_dir2_data_freeremove sample_block 4 (Some 2))))
                64 64 16 0 0 1) as H.
  cbv zeta in H.
  destruct H as (H1 & _ & H3 & _).
  - split; vm_compute; congruence.
  - vm_compute. reflexivity.
  - lia.
  - reflexivity.
  - vm_compute. reflexivity.
  - vm_compute. reflexivity.
  - destruct H3 as (Ht & _ & Hs); [vm_compute; reflexivity|].
    split; [exact H1|]. split; [exact Hs|].
    change (data_bestfree_p (d_ops sample_args)) with 4 in Ht.
    rewrite Ht. vm_compute. reflexivity.
Defined.

(** C3 as stated fails: on [sample_block] the region at 32 is tracked in
    slot 2 and is used exactly; the call returns needscan true and leaves
    the table as it was, the region's slot included. *)
Lemma use_free_exact_match_keeps_slot :
  let r := scxfs_dir2_data_use_free sample_args sample_buf 32 32 16 0 0 in
  scxfs_dir2_data_check_free sample_block 32 32 16 = None
  /\ 32 + dup_length sample_block 32 = 32 + 16
  /\ scxfs_dir2_data_freefind sample_block 4 32 = Some 2
  /\ fst (fst (fst r)) = Ret0
  /\ snd r = 1
  /\ bf_table (b_addr (snd (fst (fst r)))) 4 = bf_table sample_block 4
  /\ In (32, 16) (bf_table (b_addr (snd (fst (fst r)))) 4)
  /\ bf_table (b_addr (snd (fst (fst r)))) 4
     <> table_remove (bf_table sample_block 4) (Some 2).
Proof.
  cbv zeta. vm_compute.
  repeat split; try reflexivity; try discriminate.
  right. right. left. reflexivity.
Qed.

Lemma log_unused_logged (args : scxfs_da_args) (bp : scxfs_buf) (dup : Z) :
  exists r1 r2,
    b_logged (scxfs_dir2_data_log_unused args bp dup) = b_logged bp ++ [r1; r2]
    /\ b_addr (scxfs_dir2_data_log_unused args bp dup) = b_addr bp.
Proof.
  unfold scxfs_dir2_data_log_unused, scxfs_trans_log_buf. cbn [b_logged b_addr].
  rewrite <- app_assoc. cbn [app]. eauto.
Qed.

(** C4, as amended: [use_free] returns [EFSCORRUPTED] in two ways.  When
    [check_free] fails, the buffer, the log and the two flags are as before
    the call.  Every other [EFSCORRUPTED] is the failure address of
    [check_new_free], and by then the block has been modified and nothing
    is rolled back: the region was found in slot [i] of the table and the
    range lies at its front or at its back, not both; the residual record
    has been written (its free tag and new length behind the range, or the
    new length in place, and the tag in its last two bytes), giving [W];
    the buffer returned is [W] with slot [i] removed from the table and
    the residual record inserted, so it agrees with [W] outside the table
    and its table is the table of [W] with that one replacement; the two
    ranges of the residual record are logged, [*needlogp] is 1 and
    [*needscanp] is as before. *)
Theorem use_free_corrupted (args : scxfs_da_args) (bp bp' : scxfs_buf)
    (dup offset len nl ns fa nl' ns' : Z) :
  scxfs_dir2_data_use_free args bp dup offset len nl ns
    = (EFSCORRUPTED fa, bp', nl', ns') ->
  let b := b_addr bp in
  let bf := data_bestfree_p (d_ops args) in
  (scxfs_dir2_data_check_free b dup offset len = Some fa
   /\ bp' = bp /\ nl' = nl /\ ns' = ns)
  \/ (scxfs_dir2_data_check_free b dup offset len = None
      /\ exists i,
           scxfs_dir2_data_freefind b bf dup = Some i
           /\ xorb (dup =? offset)
                   (dup + dup_length b dup =? u32 (offset + len)) = true
           /\ let newdup := if dup =? offset then offset + len else dup in
              let W :=
                if dup =? offset then
                  let b1 := put_be16 b newdup SCXFS_DIR2_DATA_FREE_TAG in
                  let b2 := put_be16 b1 (newdup + 2) (dup_length b dup - len) in
                  put_be16 b2 (scxfs_dir2_data_unused_tag_p b2 newdup) newdup
                else
                  let b1 := put_be16 b (newdup + 2) (offset - newdup) in
                  put_be16 b1 (scxfs_dir2_data_unused_tag_p b1 newdup) newdup in
              let b4 := fst (scxfs_dir2_data_freeremove W bf (Some i)) in
              let r5 := scxfs_dir2_data_freeinsert b4 bf newdup 1 in
              b_addr bp' = fst (fst r5)
              /\ scxfs_dir2_data_check_new_free (b_addr bp') bf
                   (snd (fst r5)) newdup = Some fa
              /\ (table_in b bf ->
                  same_outside bf (bf + 12) W (b_addr bp')
                  /\ bf_table (b_addr bp') bf
                     = fst (table_insert
                              (table_remove (bf_table W bf) (Some i))
                              (u16 newdup, dup_length b4 newdup)))
              /\ b_logged bp' = b_logged bp ++ logged_of_unused W newdup
              /\ nl' = 1 /\ ns' = ns).
Proof.
  cbv zeta. unfold scxfs_dir2_data_use_free.
  destruct (scxfs_dir2_data_check_free (b_addr bp) dup offset len) as [fa0|].
  { intros H. inversion H; subst. left. auto. }
  intros H. right. split; [reflexivity|].
  cbv zeta in H.
  set (bf := data_bestfree_p (d_ops args)) in *.
  destruct (scxfs_dir2_data_freefind (b_addr bp) bf dup) as [i|].
  2:{ repeat match type of H with
             | (if ?c then _ else _) = _ => destruct c
             end; discriminate H. }
  exists i. split; [reflexivity|].
  destruct (dup =? offset);
    destruct (dup + dup_length (b_addr bp) dup =? u32 (offset + len));
    cbn [andb xorb negb] in *.
  1, 4: exfalso;
    repeat match type of H with
           | (if ?c then _ else _) = _ => destruct c
           | (match ?x with _ => _ end) = _ => destruct x
           end; discriminate H.
  all: split; [reflexivity|].
  all: match type of H with
       | context [scxfs_dir2_data_freeremove ?w ?t ?s] =>
           set (W := w) in *;
           assert (Hnl : snd (scxfs_dir2_data_freeremove W t s) = 1)
             by reflexivity;
           pose proof (fun Hin => freeremove_spec W t s Hin) as RS;
           destruct (scxfs_dir2_data_freeremove W t s) as [b4 nl4]
       end.
  all: cbn [fst snd] in *; subst nl4.
  all: match type of H with
       | context [scxfs_dir2_data_freeinsert ?w ?t ?d 1] =>
           pose proof (fun Hin => freeinsert_spec w t d 1 Hin) as IS;
           assert (Hnl5 : snd (scxfs_dir2_data_freeinsert w t d 1) = 1)
             by (unfold scxfs_dir2_data_freeinsert;
                 repeat match goal with
                        | |- context [if ?c then _ else _] => destruct c
                        end; reflexivity);
           destruct (scxfs_dir2_data_freeinsert w t d 1) as [[b5 d5] nl5]
       end.
  all: cbn [fst snd] in *; subst nl5.
  all: match type of H with
       | match ?c with _ => _ end = _ =>
           destruct c as [fa1|] eqn:Hc; [|discriminate H]
       end.
  all: inversion H; subst; cbn [b_addr set_addr].
  all: split; [reflexivity|]; split; [exact Hc|].
  all: split;
    [ intros Hin;
      assert (HinW : table_in W (data_bestfree_p (d_ops args)))
        by (revert Hin; unfold table_in, W; rewrite !blen_put_be16; auto);
      destruct (RS HinW) as (T1 & F1 & _);
      destruct (IS (table_in_same _ _ _ _ _ F1 HinW)) as (T2 & _ & F2 & _);
      split;
      [ exact (same_outside_trans _ _ _ _ _ F1 F2)
      | rewrite T2, T1; reflexivity ]
    | split; [|auto];
      unfold scxfs_dir2_data_log_unused, scxfs_trans_log_buf, logged_of_unused;
      cbn [b_logged b_addr set_addr]; rewrite <- app_assoc; reflexivity ].
Qed.

Lemma use_free_corrupted_witness :
  let bp := {| b_addr := overlap_block; b_logged := [] |} in
  let r := scxfs_dir2_data_use_free overlap_args bp 8 32 32 0 0 in
  let bp' := snd (fst (fst r)) in
  (scxfs_dir2_data_use_free sample_args sample_buf 16 16 16 0 0
     = (EFSCORRUPTED 969, sample_buf, 0, 0)
   /\ scxfs_dir2_data_check_free (b_addr sample_buf) 16 16 16 = Some 969)
  /\ r = (EFSCORRUPTED 988, bp', 1, 0)
  /\ scxfs_dir2_data_check_free overlap_block 8 32 32 = None
  /\ exists i,
       scxfs_dir2_data_freefind overlap_block 4 8 = Some i
       /\ let W := put_be16 (put_be16 overlap_block 10 24) 30 8 in
          let b4 := fst (scxfs_dir2_data_freeremove W 4 (Some i)) in
          let r5 := scxfs_dir2_data_freeinsert b4 4 8 1 in
          b_addr bp' = fst (fst r5)
          /\ b_addr bp' <> overlap_block
          /\ scxfs_dir2_data_check_new_free (b_addr bp') 4 (snd (fst r5)) 8
             = Some 988
          /\ b_logged bp' = [(8, 11); (30, 31)].
Proof.
  cbv zeta.
  assert (H1 : scxfs_dir2_data_use_free sample_args sample_buf 16 16 16 0 0
               = (EFSCORRUPTED 969, sample_buf, 0, 0))
    by (vm_compute; reflexivity).
  assert (H2 : scxfs_dir2_data_use_free overlap_args
                 {| b_addr := overlap_block; b_logged := [] |} 8 32 32 0 0
               = (EFSCORRUPTED 988,
                  snd (fst (fst (scxfs_dir2_data_use_free overlap_args
                     {| b_addr := overlap_block; b_logged := [] |}
                     8 32 32 0 0))), 1, 0))
    by (vm_compute; reflexivity).
  split.
  { split; [exact H1|].
    destruct (use_free_corrupted _ _ _ _ _ _ _ _ _ _ _ H1)
      as [[E _]|[E _]]; [exact E|].
    vm_compute in E. discriminate E. }
  split; [exact H2|].
  destruct (use_free_corrupted _ _ _ _ _ _ _ _ _ _ _ H2)
    as [[E _]|[E (i & Hf & _ & Ha & Hc & _ & Hl & _)]].
  { vm_compute in E. discriminate E. }
  split; [exact E|]. exists i. split; [exact Hf|].
  split; [exact Ha|]. split.
  { vm_compute. intros F. discriminate F. }
  split; [exact Hc|]. exact Hl.
Defined.

(** C4 as stated fails: on [overlap_block] the call passes [check_free],
    trims the record at offset 8 to 24 bytes, logs it and rewrites the
    table, and only then fails in [check_new_free]; it returns
    [EFSCORRUPTED] with bytes of the buffer changed and two ranges
    logged. *)
Lemma use_free_corrupted_after_write :
  let bp := {| b_addr := overlap_block; b_logged := [] |} in
  let r := scxfs_dir2_data_use_free overlap_args bp 8 32 32 0 0 in
  scxfs_dir2_data_check_free overlap_block 8 32 32 = None
  /\ fst (fst (fst r)) = EFSCORRUPTED 988
  /\ b_addr (snd (fst (fst r))) <> overlap_block
  /\ rd (b_addr (snd (fst (fst r)))) 30 + 256 * rd (b_addr (snd (fst (fst r)))) 31
     <> rd overlap_block 30 + 256 * rd overlap_block 31
  /\ bf_table (b_addr (snd (fst (fst r)))) 4 <> bf_table overlap_block 4
  /\ b_logged (snd (fst (fst r))) = [(8, 11); (30, 31)].
Proof.
  cbv zeta. vm_compute.
  repeat split; try reflexivity; discriminate.
Qed.

(** ** Geometry of the entries *)

Lemma round_up_8 (x : Z) :
  1 <= x -> round_up x 8 = x + 7 - (x - 1) mod 8.
Proof.
  intros Hx. unfold round_up.
  pose proof (Z.add_lor_land (x - 1) (8 - 1)) as H.
  change (8 - 1) with (Z.ones 3) in H at 2.
  rewrite Z.land_ones in H by lia. change (2 ^ 3) with 8 in H. lia.
Qed.

Lemma entsize_bounds (k n : Z) :
  0 <= n -> 11 <= k ->
  16 <= round_up (k + n) 8 /\ k + n <= round_up (k + n) 8 < k + n + 8.
Proof.
  intros Hn Hk. rewrite round_up_8 by lia.
  pose proof (Z.mod_pos_bound (k + n - 1) 8 ltac:(lia)) as M.
  pose proof (Z.div_mod (k + n - 1) 8 ltac:(lia)) as D.
  lia.
Qed.

Lemma format_variants_layout (ftu ftm : Z) (ops : scxfs_dir_ops) :
  In ops (format_variants ftu ftm) -> ops_layout ops.
Proof.
  intros [<-|[<-|[<-|[]]]]; unfold ops_layout; cbn;
    (repeat split; try lia; try reflexivity).
  all: intros n Hn;
    unfold scxfs_dir2_data_entsize, scxfs_dir3_data_entsize,
      SCXFS_DIR2_DATA_ENTSIZE, SCXFS_DIR3_DATA_ENTSIZE,
      offsetof_entry_name, SCXFS_DIR2_DATA_ALIGN.
  - replace (9 + n + 2) with (11 + n) by lia. apply entsize_bounds; lia.
  - replace (9 + n + 2 + 1) with (12 + n) by lia. apply entsize_bounds; lia.
  - replace (9 + n + 2 + 1) with (12 + n) by lia. apply entsize_bounds; lia.
Qed.

(** ** The initialiser *)

Lemma blen_put_be32 (b : buf) (o v : Z) : blen (put_be32 b o v) = blen b.
Proof. unfold put_be32. now rewrite !blen_put_be16. Qed.

Lemma same_outside_put_be32 (lo hi : Z) (b : buf) (o v : Z) :
  lo <= o -> o + 4 <= hi -> same_outside lo hi b (put_be32 b o v).
Proof.
  intros H1 H2. unfold put_be32.
  eapply same_outside_trans; apply same_outside_put_be16; lia.
Qed.

Lemma same_outside_put_be64 (lo hi : Z) (b : buf) (o v : Z) :
  lo <= o -> o + 8 <= hi -> same_outside lo hi b (put_be64 b o v).
Proof.
  intros H1 H2. unfold put_be64.
  eapply same_outside_trans; apply same_outside_put_be32; lia.
Qed.

Lemma same_outside_memset0 (n : nat) (lo hi : Z) (b : buf) (o : Z) :
  lo <= o -> o + Z.of_nat n <= hi -> same_outside lo hi b (memset0 b o n).
Proof.
  revert b o; induction n as [|n IH]; intros b o H1 H2; cbn [memset0].
  - apply same_outside_refl.
  - eapply same_outside_trans; [apply same_outside_wr|apply IH]; lia.
Qed.

Lemma same_outside_memcpy (src : list Z) (lo hi : Z) (b : buf) (o : Z) :
  lo <= o -> o + Z.of_nat (length src) <= hi ->
  same_outside lo hi b (memcpy b o src).
Proof.
  revert b o; induction src as [|x t IH]; intros b o H1 H2; cbn [memcpy].
  - apply same_outside_refl.
  - cbn [length] in H2.
    eapply same_outside_trans; [apply same_outside_wr|apply IH]; lia.
Qed.

Lemma get_put_be32_same (b : buf) (o v : Z) :
  0 <= o -> o + 3 < blen b -> get_be32 (put_be32 b o v) o = u32 v.
Proof.
  intros H1 H2. unfold get_be32, put_be32.
  rewrite get_put_be16_other by lia.
  rewrite !get_put_be16_same by (rewrite ?blen_put_be16; lia).
  unfold u16, u32.
  pose proof (Z.div_mod v 65536 ltac:(lia)) as E1.
  pose proof (Z.div_mod (v / 65536) 65536 ltac:(lia)) as E2.
  pose proof (Z.mod_pos_bound v 65536 ltac:(lia)).
  pose proof (Z.mod_pos_bound (v / 65536) 65536 ltac:(lia)).
  apply Z.mod_unique with (q := v / 65536 / 65536); lia.
Qed.

Lemma get_be32_same_outside (lo hi : Z) (b b' : buf) (o : Z) :
  same_outside lo hi b b' -> o + 4 <= lo \/ hi <= o ->
  get_be32 b' o = get_be32 b o.
Proof.
  intros H Ho. unfold get_be32.
  rewrite !(get_be16_same_outside lo hi b b') by (auto; lia). reflexivity.
Qed.

Lemma endp_data_magic (g : scxfs_da_geometry) (b : buf) :
  hdr_magic b = SCXFS_DIR2_DATA_MAGIC \/ hdr_magic b = SCXFS_DIR3_DATA_MAGIC ->
  scxfs_dir3_data_endp g b = Some (blksize g).
Proof.
  unfold scxfs_dir3_data_endp. intros [->| ->]; reflexivity.
Qed.

Ltac g16 :=
  repeat first
    [ rewrite get_put_be16_same by (rewrite ?blen_put_be16; lia)
    | rewrite get_put_be16_other by lia ].

(** The header part of [scxfs_dir3_data_init]: the magic is a data magic
    and the buffer keeps its size. *)
Lemma init_header (env : init_env) (b : buf) :
  4 <= blen b ->
  let b1 :=
    if hascrc env then
      let h0 := memset0 b 0 (Z.to_nat sizeof_scxfs_dir3_blk_hdr) in
      let h1 := put_be32 h0 0 SCXFS_DIR3_DATA_MAGIC in
      let h2 := put_be64 h1 offsetof_dir3_blkno (b_bn env) in
      let h3 := put_be64 h2 offsetof_dir3_owner (i_ino env) in
      memcpy h3 offsetof_dir3_uuid (firstn 16 (sb_meta_uuid env))
    else put_be32 b 0 SCXFS_DIR2_DATA_MAGIC in
  blen b1 = blen b
  /\ (hdr_magic b1 = SCXFS_DIR2_DATA_MAGIC \/ hdr_magic b1 = SCXFS_DIR3_DATA_MAGIC).
Proof.
  intros Hb. cbv zeta. destruct (hascrc env).
  - set (h0 := memset0 b 0 (Z.to_nat sizeof_scxfs_dir3_blk_hdr)).
    assert (L0 : blen h0 = blen b)
      by (apply (same_outside_memset0 _ 0 48); [lia|reflexivity]).
    set (h1 := put_be32 h0 0 SCXFS_DIR3_DATA_MAGIC).
    assert (F : same_outside 8 48 h1
                  (memcpy (put_be64 (put_be64 h1 offsetof_dir3_blkno (b_bn env))
                                    offsetof_dir3_owner (i_ino env))
                          offsetof_dir3_uuid (firstn 16 (sb_meta_uuid env)))).
    { eapply same_outside_trans;
        [|apply same_outside_memcpy; unfold offsetof_dir3_uuid; [lia|];
          pose proof (firstn_le_length 16 (sb_meta_uuid env)); lia].
      eapply same_outside_trans;
        [|apply same_outside_put_be64; unfold offsetof_dir3_owner; lia].
      apply same_outside_put_be64; unfold offsetof_dir3_blkno; lia. }
    split.
    + destruct F as [-> _]. unfold h1. rewrite blen_put_be32. exact L0.
    + right. unfold hdr_magic.
      rewrite (get_be32_same_outside _ _ _ _ 0 F) by lia.
      unfold h1. rewrite get_put_be32_same by lia. reflexivity.
  - split; [apply blen_put_be32|].
    left. unfold hdr_magic. rewrite get_put_be32_same by lia. reflexivity.
Qed.

(** C5: for a block size [B] that leaves room for one unused record and
    that 16-bit offsets can address, and for each of the three format
    tables, the buffer returned by [data_init] holds exactly one record,
    an unused region from [data_entry_offset] of length [B -
    data_entry_offset] whose trailing tag is [data_entry_offset]; slot 0
    of the table records that region and slots 1 and 2 are (0,0). *)
Theorem data_init_single_region (ftu ftm : Z) (env : init_env)
    (args : scxfs_da_args) (bp : scxfs_buf) :
  let ops := d_ops args in
  let B := blksize (geo args) in
  let deo := data_entry_offset ops in
  In ops (format_variants ftu ftm) ->
  blen (b_addr bp) = B ->
  deo + 6 <= B <= 65536 ->
  exists bp',
    scxfs_dir3_data_init env args (inr bp) = (0, Some bp')
    /\ block_records (geo args) ops (b_addr bp') = [RUnused deo (B - deo)]
    /\ unused_regions (geo args) ops (b_addr bp') = [(deo, B - deo)]
    /\ get_be16 (b_addr bp')
         (scxfs_dir2_data_unused_tag_p (b_addr bp') deo) = deo
    /\ bf_table (b_addr bp') (data_bestfree_p ops)
       = [(deo, B - deo); (0, 0); (0, 0)].
Proof.
  cbv zeta. intros Hops Hlen HB.
  destruct (format_variants_layout _ _ _ Hops) as (L1 & L2 & L3 & L4 & L5 & _).
  unfold scxfs_dir3_data_init.
  eexists. split; [reflexivity|].
  cbn [b_addr scxfs_dir2_data_log_unused scxfs_dir2_data_log_header
        scxfs_trans_log_buf set_addr fold_left].
  destruct (init_header env (b_addr bp) ltac:(lia)) as [Hl Hm].
  cbv zeta in Hl, Hm.
  set (b1 := if hascrc env then _ else _) in *.
  rewrite L5. unfold sizeof_scxfs_dir2_data_free.
  set (bf := data_bestfree_p (d_ops args)) in *.
  set (deo := data_entry_offset (d_ops args)) in *.
  set (B := blksize (geo args)) in *.
  rewrite (u32_small deo) by lia.
  assert (Hlen1 : blen b1 = B) by lia.
  assert (Ht : u16 (B - deo) = B - deo) by (apply u16_small; lia).
  assert (Hd : u16 deo = deo) by (apply u16_small; lia).
  assert (Hz : u16 0 = 0) by reflexivity.
  assert (Hf : u16 SCXFS_DIR2_DATA_FREE_TAG = SCXFS_DIR2_DATA_FREE_TAG)
    by reflexivity.
  match goal with
  | |- context [put_be16 ?x (scxfs_dir2_data_unused_tag_p ?x deo) deo] =>
      set (b6 := x);
      assert (Hdl : dup_length b6 deo = B - deo)
        by (unfold dup_length, b6; g16; exact Ht)
  end.
  assert (Htp : scxfs_dir2_data_unused_tag_p b6 deo = B - 2)
    by (unfold scxfs_dir2_data_unused_tag_p; rewrite Hdl; lia).
  rewrite !Htp.
  set (b7 := put_be16 b6 (B - 2) deo).
  assert (Hdl7 : dup_length b7 deo = B - deo)
    by (unfold dup_length, b7, b6; g16; exact Ht).
  assert (Hft7 : dup_freetag b7 deo = SCXFS_DIR2_DATA_FREE_TAG)
    by (unfold dup_freetag, b7, b6; g16; exact Hf).
  assert (Hm7 : hdr_magic b7 = hdr_magic b1)
    by (unfold hdr_magic, get_be32, b7, b6; g16; reflexivity).
  assert (He : scxfs_dir3_data_endp (geo args) b7 = Some B)
    by (apply endp_data_magic; rewrite Hm7; exact Hm).
  assert (Hrec : block_records (geo args) (d_ops args) b7
                 = [RUnused deo (B - deo)]).
  { unfold block_records. rewrite He, L4. fold deo.
    unfold scan_fuel. cbn [data_records below_endp].
    destruct (Z.ltb_spec deo B); [|lia].
    rewrite Hft7, Z.eqb_refl, Hdl7.
    replace (deo + (B - deo)) with B by lia.
    rewrite Z.ltb_irrefl. reflexivity. }
  split; [exact Hrec|].
  split; [unfold unused_regions; rewrite Hrec; reflexivity|].
  unfold scxfs_dir2_data_unused_tag_p. rewrite Hdl7.
  replace (deo + (B - deo) - 2) with (B - 2) by lia.
  split.
  - unfold b7, b6. g16. exact Hd.
  - apply bf_table_eq; unfold slot_at, bf_offset, bf_length,
      sizeof_scxfs_dir2_data_free, b7, b6;
      rewrite ?Z.mul_0_r, ?Z.add_0_r; g16;
      rewrite ?Hd, ?Ht, ?Hz; reflexivity.
Qed.

Lemma data_init_single_region_witness :
  In (d_ops sample_args) (format_variants 0 9)
  /\ blen (b_addr fresh_buf) = blksize (geo sample_args)
  /\ data_entry_offset (d_ops sample_args) + 6 <= blksize (geo sample_args) <= 65536
  /\ exists bp',
       scxfs_dir3_data_init sample_env sample_args (inr fresh_buf) = (0, Some bp')
       /\ block_records (geo sample_args) (d_ops sample_args) (b_addr bp')
          = [RUnused 16 (128 - 16)]
       /\ unused_regions (geo sample_args) (d_ops sample_args) (b_addr bp')
          = [(16, 128 - 16)]
       /\ get_be16 (b_addr bp')
            (scxfs_dir2_data_unused_tag_p (b_addr bp') 16) = 16
       /\ bf_table (b_addr bp') (data_bestfree_p (d_ops sample_args))
          = [(16, 128 - 16); (0, 0); (0, 0)].
Proof.
  assert (H1 : In (d_ops sample_args) (format_variants 0 9))
    by (right; left; reflexivity).
  assert (H2 : blen (b_addr fresh_buf) = blksize (geo sample_args))
    by reflexivity.
  assert (H3 : data_entry_offset (d_ops sample_args) + 6
               <= blksize (geo sample_args) <= 65536)
    by (cbn; lia).
  split; [exact H1|]. split; [exact H2|]. split; [exact H3|].
  exact (data_init_single_region 0 9 sample_env sample_args fresh_buf H1 H2 H3).
Defined.

(** ** What the verifier establishes *)

Lemma freefind_loop_some (b : buf) (bf off : Z) (slots : list Z) (i : Z) :
  freefind_loop b bf off slots = Some i ->
  In i slots /\ bf_offset b bf i = off /\ bf_offset b bf i <> 0.
Proof.
  induction slots as [|j rest IH]; cbn [freefind_loop]; [discriminate|].
  destruct (Z.eqb_spec (bf_offset b bf j) 0); [discriminate|].
  destruct (Z.eqb_spec (bf_offset b bf j) off).
  - intros H. inversion H; subst. cbn. auto.
  - intros H. destruct (IH H) as (H1 & H2 & H3). cbn. auto.
Qed.

Lemma freefind_some (b : buf) (bf dup i : Z) :
  scxfs_dir2_data_freefind b bf dup = Some i ->
  In i bf_slots /\ bf_offset b bf i = u32 dup /\ bf_offset b bf i <> 0.
Proof.
  unfold scxfs_dir2_data_freefind.
  destruct (dup_length b dup <? bf_length b bf (SCXFS_DIR2_DATA_FD_COUNT - 1));
    [discriminate|].
  apply freefind_loop_some.
Qed.

Lemma freefind_verify_loop_match (b : buf) (bf dup off : Z) (slots : list Z) :
  forall matched seenzero,
    freefind_verify_loop b bf dup off slots matched seenzero = None ->
    forall j, In j slots -> bf_offset b bf j <> 0 -> bf_offset b bf j = off ->
              bf_length b bf j = dup_length b dup.
Proof.
  induction slots as [|i rest IH]; intros matched seenzero H j Hj Hnz Hoff;
    [destruct Hj|].
  cbn [freefind_verify_loop] in H.
  destruct Hj as [<-|Hj].
  - destruct (Z.eqb_spec (bf_offset b bf i) 0); [contradiction|].
    destruct seenzero; [discriminate|].
    destruct (Z.eqb_spec (bf_offset b bf i) off); [|contradiction].
    destruct (Z.eqb_spec (bf_length b bf i) (dup_length b dup)); [assumption|].
    discriminate.
  - destruct (bf_offset b bf i =? 0).
    + destruct (negb (bf_length b bf i =? 0)); [discriminate|].
      eapply IH; eauto.
    + destruct seenzero; [discriminate|].
      match type of H with
      | match ?x with Some _ => _ | None => _ end = None =>
          destruct x; [discriminate|]
      end.
      match type of H with
      | (if ?c then _ else _) = None => destruct c; [discriminate|]
      end.
      match type of H with
      | (if ?c then _ else _) = None => destruct c; [discriminate|]
      end.
      eapply IH; eauto.
Qed.

Lemma freefind_verify_tracked (b : buf) (bf p i : Z) :
  scxfs_dir2_data_freefind_verify b bf p = (None, Some i) ->
  In i bf_slots /\ bf_offset b bf i = u32 p /\ bf_offset b bf i <> 0
  /\ bf_length b bf i = dup_length b p.
Proof.
  unfold scxfs_dir2_data_freefind_verify.
  destruct (freefind_verify_loop b bf p (u32 p) bf_slots false false) eqn:E;
    [discriminate|].
  intros H. inversion H as [H1]. clear H.
  destruct (freefind_some _ _ _ _ H1) as (Hin & Ho & Hnz).
  repeat split; auto.
  eapply freefind_verify_loop_match; eauto.
Qed.

Section VerifierFacts.

Variable ftm : Z.
Variable inoval : Z -> Z.
Variable hash : list Z -> Z.
Variable dataptr : scxfs_da_geometry -> Z -> Z -> Z.
Variable g : scxfs_da_geometry.
Variable ops : scxfs_dir_ops.

Lemma check_loop_checked (b : buf) (bf e : Z) (isblock : bool) (btp lep : Z) :
  forall fuel p lf fs c c' fs',
    data_check_loop ftm inoval hash dataptr g ops fuel b bf e isblock btp lep
                    p lf fs c = LDone c' fs' ->
    checked b ops bf e p lf fs fs' (data_records fuel ops b p (Some e))
    /\ (length (data_records fuel ops b p (Some e)) < fuel)%nat.
Proof.
  induction fuel as [|fuel IH]; intros p lf fs c c' fs' H;
    cbn [data_check_loop] in H; [discriminate|].
  cbn [data_records below_endp].
  destruct (Z.ltb_spec p e) as [Hpe|Hpe].
  2:{ inversion H; subst. split; [apply ck_end; lia|cbn; lia]. }
  destruct (Z.eqb_spec (dup_freetag b p) SCXFS_DIR2_DATA_FREE_TAG) as [Hft|Hft].
  - destruct (Z.eqb_spec lf 0) as [Hlf|]; cbn [negb] in H; [|discriminate].
    destruct (Z.ltb_spec e (p + dup_length b p)); [discriminate|].
    destruct (Z.eqb_spec (get_be16 b (scxfs_dir2_data_unused_tag_p b p)) p);
      cbn [negb] in H; [|discriminate].
    destruct (scxfs_dir2_data_freefind_verify b bf p) as [[fa|] [i|]] eqn:Ev;
      try discriminate.
    + destruct (Z.eqb_spec (Z.land fs (Z.shiftl 1 i)) 0); cbn [negb] in H;
        [|discriminate].
      destruct (IH _ _ _ _ _ _ H) as [Hc Hl].
      split; [eapply ck_tracked; eauto|cbn [length]; lia].
    + destruct (Z.gtb_spec (dup_length b p) (bf_length b bf 2)); [discriminate|].
      destruct (IH _ _ _ _ _ _ H) as [Hc Hl].
      split; [eapply ck_untracked; eauto|cbn [length]; lia].
  - destruct (dep_namelen b p =? 0); [discriminate|].
    destruct (negb (inoval (dep_inumber b p) =? 0)); [discriminate|].
    destruct (Z.ltb_spec e (p + data_entsize ops (dep_namelen b p)));
      [discriminate|].
    destruct (Z.eqb_spec (get_be16 b (data_entry_tag_p ops b p)) p);
      cbn [negb] in H; [|discriminate].
    destruct (data_get_ftype ops b p >=? ftm); [discriminate|].
    match type of H with
    | (if negb ?c then _ else _) = _ => destruct c; cbn [negb] in H;
                                        [|discriminate]
    end.
    destruct (IH _ _ _ _ _ _ H) as [Hc Hl].
    split; [eapply ck_entry; eauto|cbn [length]; lia].
Qed.

End VerifierFacts.

(** ** The three largest lengths *)

Ltac gtb_cases :=
  repeat match goal with
         | |- context [?x >? ?y] => destruct (Z.gtb_spec x y)
         end.

Lemma len_insert_sorted (t : list Z) (l : Z) :
  sorted3 t -> sorted3 (len_insert t l).
Proof.
  destruct t as [|x [|y [|z [|]]]]; cbn; try tauto.
  intros [H1 H2]. gtb_cases; cbn; lia.
Qed.

Lemma len_insert_comm (t : list Z) (a c : Z) :
  sorted3 t ->
  len_insert (len_insert t a) c = len_insert (len_insert t c) a.
Proof.
  destruct t as [|x [|y [|z [|]]]]; cbn [sorted3]; try tauto.
  intros [H1 H2]. unfold len_insert.
  destruct (Z.gtb_spec a x); destruct (Z.gtb_spec c x);
    destruct (Z.gtb_spec a y); destruct (Z.gtb_spec c y);
    destruct (Z.gtb_spec a z); destruct (Z.gtb_spec c z);
    try lia; gtb_cases; try lia; try reflexivity;
    repeat (f_equal; try lia).
Qed.

Lemma fold_len_insert_sorted (ls : list Z) :
  forall t, sorted3 t -> sorted3 (fold_left len_insert ls t).
Proof.
  induction ls as [|l ls IH]; intros t Ht; cbn [fold_left]; auto.
  apply IH, len_insert_sorted, Ht.
Qed.

Lemma fold_len_insert_perm (ls ls' : list Z) :
  Permutation ls ls' ->
  forall t, sorted3 t -> fold_left len_insert ls t = fold_left len_insert ls' t.
Proof.
  induction 1 as [|x l l' HP IH|x y l|l l' l'' HP1 IH1 HP2 IH2];
    intros t Ht; cbn [fold_left].
  - reflexivity.
  - apply IH, len_insert_sorted, Ht.
  - now rewrite len_insert_comm.
  - rewrite IH1 by assumption. now apply IH2.
Qed.

Lemma fold_len_insert_small (rest : list Z) (l0 l1 l2 : Z) :
  Forall (fun r => r <= l2) rest -> l1 <= l0 -> l2 <= l1 ->
  fold_left len_insert rest [l0; l1; l2] = [l0; l1; l2].
Proof.
  induction 1 as [|r rest Hr _ IH]; intros H1 H2; cbn [fold_left]; auto.
  unfold len_insert at 2.
  destruct (Z.gtb_spec r l0); [lia|].
  destruct (Z.gtb_spec r l1); [lia|].
  destruct (Z.gtb_spec r l2); [lia|].
  now apply IH.
Qed.

(** Inserting the used lengths of a sorted table, then lengths that do not
    exceed its last one, into the empty table gives the table back. *)
Lemma fold_len_insert_table (rest : list Z) (l0 l1 l2 : Z) :
  l1 <= l0 -> l2 <= l1 -> 0 <= l2 ->
  Forall (fun r => r <= l2) rest ->
  fold_left len_insert
    (filter (fun l => negb (l =? 0)) [l0; l1; l2] ++ rest) [0; 0; 0]
  = [l0; l1; l2].
Proof.
  intros H1 H2 H3 Hrest.
  rewrite fold_left_app.
  assert (E : fold_left len_insert
                (filter (fun l => negb (l =? 0)) [l0; l1; l2]) [0; 0; 0]
              = [l0; l1; l2]).
  { cbn [filter].
    destruct (Z.eqb_spec l0 0); destruct (Z.eqb_spec l1 0);
      destruct (Z.eqb_spec l2 0); try lia; subst;
      cbn [negb fold_left]; unfold len_insert; gtb_cases; try lia;
      reflexivity. }
  rewrite E. now apply fold_len_insert_small.
Qed.

Lemma table_insert_lengths (t : list slot) (new : slot) :
  map snd (fst (table_insert t new)) = len_insert (map snd t) (snd new).
Proof.
  destruct t as [|s0 [|s1 [|s2 [|]]]]; try reflexivity.
  unfold table_insert, len_insert. cbn [map].
  gtb_cases; reflexivity.
Qed.

(** ** The marks of [freeseen] *)

Lemma freeseen_cases (fs : Z) :
  0 <= fs <= 7 ->
  fs = 0 \/ fs = 1 \/ fs = 2 \/ fs = 3 \/ fs = 4 \/ fs = 5 \/ fs = 6 \/ fs = 7.
Proof. lia. Qed.

Lemma slot_cases (i : Z) : In i bf_slots -> i = 0 \/ i = 1 \/ i = 2.
Proof. cbn. intuition. Qed.

Lemma freeseen_mark (fs i : Z) :
  0 <= fs <= 7 -> In i bf_slots -> Z.land fs (Z.shiftl 1 i) = 0 ->
  0 <= Z.lor fs (Z.shiftl 1 i) <= 7
  /\ forall f : Z -> Z,
       Permutation (map f (unseen fs))
                   (f i :: map f (unseen (Z.lor fs (Z.shiftl 1 i)))).
Proof.
  intros Hfs Hi Hland.
  destruct (freeseen_cases fs Hfs) as [E|[E|[E|[E|[E|[E|[E|E]]]]]]];
    destruct (slot_cases i Hi) as [F|[F|F]]; subst; cbn in Hland;
    try discriminate; (split; [cbn; lia|]); intros f; cbn;
    try apply Permutation_refl;
    try apply perm_swap.
  all: eapply perm_trans; [|apply perm_swap]; apply perm_skip; apply perm_swap.
Qed.

Lemma unseen_7 : unseen 7 = [].
Proof. reflexivity. Qed.

Lemma zero_slots_inr (b : buf) (bf fs0 : Z) :
  zero_slots b bf = inr fs0 ->
  0 <= fs0 <= 7
  /\ map (bf_length b bf) (unseen fs0)
     = filter (fun l => negb (l =? 0)) (map (bf_length b bf) bf_slots).
Proof.
  unfold zero_slots, bf_slots. cbn [fold_left map filter].
  destruct (Z.eqb_spec (bf_length b bf 0) 0) as [E0|E0];
    [destruct (bf_offset b bf 0 =? 0); cbn [negb]|];
    (destruct (Z.eqb_spec (bf_length b bf 1) 0) as [E1|E1];
     [destruct (bf_offset b bf 1 =? 0); cbn [negb]|]);
    (destruct (Z.eqb_spec (bf_length b bf 2) 0) as [E2|E2];
     [destruct (bf_offset b bf 2 =? 0); cbn [negb]|]);
    intros H; inversion H; subst; clear H; cbn;
    (split; [lia|]); reflexivity.
Qed.

Lemma checked_lengths (b : buf) (ops : scxfs_dir_ops) (bf e : Z) :
  forall p lf fs fs' recs,
    checked b ops bf e p lf fs fs' recs ->
    fs' = 7 -> 0 <= fs <= 7 ->
    exists rest,
      Permutation (unused_lengths recs)
                  (map (bf_length b bf) (unseen fs) ++ rest)
      /\ Forall (fun r => r <= bf_length b bf 2) rest.
Proof.
  induction 1 as [p lf fs He
                 |p lf fs fs' i recs Hpe Hft Hlf Hle Htag Hv Hland Hc IH
                 |p lf fs fs' recs Hpe Hft Hlf Hle Htag Hv Hsmall Hc IH
                 |p lf fs fs' recs Hpe Hft Hle Htag Hc IH];
    intros H7 Hfs.
  - subst fs. exists []. rewrite unseen_7. cbn. auto.
  - destruct (freefind_verify_tracked _ _ _ _ Hv) as (Hi & _ & _ & Hlen).
    destruct (freeseen_mark fs i Hfs Hi Hland) as [Hfs' Hperm].
    destruct (IH H7 Hfs') as (rest & HP & HF).
    exists rest. split; [|exact HF].
    cbn [unused_lengths flat_map app]. fold (unused_lengths recs).
    eapply perm_trans; [apply perm_skip, HP|].
    rewrite <- Hlen.
    change (bf_length b bf i
              :: map (bf_length b bf) (unseen (Z.lor fs (Z.shiftl 1 i))) ++ rest)
      with ((bf_length b bf i
              :: map (bf_length b bf) (unseen (Z.lor fs (Z.shiftl 1 i)))) ++ rest).
    apply Permutation_app_tail. symmetry. apply Hperm.
  - destruct (IH H7 Hfs) as (rest & HP & HF).
    exists (dup_length b p :: rest). split; [|constructor; auto].
    cbn [unused_lengths flat_map app]. fold (unused_lengths recs).
    eapply perm_trans; [apply perm_skip, HP|].
    apply Permutation_middle.
  - destruct (IH H7 Hfs) as (rest & HP & HF).
    exists rest. split; [|exact HF]. exact HP.
Qed.

Lemma checked_tiled (b : buf) (ops : scxfs_dir_ops) (bf e : Z) :
  ops_layout ops ->
  forall p lf fs fs' recs,
    checked b ops bf e p lf fs fs' recs ->
    tiled p (negb (lf =? 0)) recs.
Proof.
  intros (_ & _ & _ & _ & _ & Hes & _).
  assert (Hpos : forall p fs fs' recs,
             p < e -> dup_freetag b p = SCXFS_DIR2_DATA_FREE_TAG ->
             checked b ops bf e (p + dup_length b p) 1 fs fs' recs ->
             0 < dup_length b p).
  { intros p fs fs' recs Hpe Hft Hc.
    pose proof (get_be16_range b (p + 2)) as R. fold (dup_length b p) in R.
    destruct (Z.eq_dec (dup_length b p) 0) as [E|]; [|lia].
    rewrite E, Z.add_0_r in Hc.
    inversion Hc; subst; try lia; try discriminate; contradiction. }
  induction 1 as [p lf fs He
                 |p lf fs fs' i recs Hpe Hft Hlf Hle Htag Hv Hland Hc IH
                 |p lf fs fs' recs Hpe Hft Hlf Hle Htag Hv Hsmall Hc IH
                 |p lf fs fs' recs Hpe Hft Hle Htag Hc IH];
    cbn [tiled rec_off rec_len is_unused].
  - exact I.
  - subst lf. repeat split; auto. eapply Hpos; eauto.
  - subst lf. repeat split; auto. eapply Hpos; eauto.
  - repeat split; try discriminate; auto.
    pose proof (Hes (dep_namelen b p) (rd_range b _)). lia.
Qed.

(** ** [freescan] *)

Lemma rd_memset0 (n : nat) (b : buf) (o x : Z) :
  0 <= o -> o + Z.of_nat n <= blen b -> o <= x < o + Z.of_nat n ->
  rd (memset0 b o n) x = 0.
Proof.
  revert b o; induction n as [|n IH]; intros b o Ho Hn Hx; [lia|].
  cbn [memset0].
  destruct (Z.eq_dec x o) as [->|Hne].
  - destruct (same_outside_memset0 n (o + 1) (o + 1 + Z.of_nat n) (wr b o 0) (o + 1)
                ltac:(lia) ltac:(lia)) as [_ F].
    rewrite F by lia. rewrite rd_wr_same by lia. reflexivity.
  - apply IH; rewrite ?blen_wr; lia.
Qed.

Lemma bf_table_memset0 (b : buf) (bf : Z) :
  table_in b bf ->
  bf_table (memset0 b bf
              (Z.to_nat (sizeof_scxfs_dir2_data_free * SCXFS_DIR2_DATA_FD_COUNT))) bf
  = [(0, 0); (0, 0); (0, 0)].
Proof.
  intros [H1 H2].
  change (Z.to_nat (sizeof_scxfs_dir2_data_free * SCXFS_DIR2_DATA_FD_COUNT))
    with 12%nat.
  apply bf_table_eq;
    unfold slot_at, bf_offset, bf_length, get_be16, sizeof_scxfs_dir2_data_free;
    rewrite !rd_memset0 by lia; reflexivity.
Qed.

Lemma endp_same_outside (g : scxfs_da_geometry) (lo hi : Z) (b b' : buf) :
  same_outside lo hi b b' -> 4 <= lo -> hi <= scxfs_dir2_block_tail_p g ->
  scxfs_dir3_data_endp g b' = scxfs_dir3_data_endp g b.
Proof.
  intros F Hlo Hhi. unfold scxfs_dir3_data_endp, hdr_magic,
    scxfs_dir2_block_leaf_p, btp_count.
  rewrite (get_be32_same_outside lo hi b b' 0 F) by lia.
  rewrite (get_be32_same_outside lo hi b b' _ F) by lia.
  reflexivity.
Qed.

Lemma freescan_loop_records (b : buf) (ops : scxfs_dir_ops) (bf e : Z) :
  (forall n, 0 <= n < 256 -> 16 <= data_entsize ops n) ->
  forall fuel p bk lh,
    (length (data_records fuel ops b p (Some e)) < fuel)%nat ->
    same_outside bf (bf + 12) b bk -> table_in b bf -> bf + 12 <= p ->
    exists bk' lh',
      freescan_loop fuel ops bk bf p (Some e) lh = Some (bk', lh')
      /\ same_outside bf (bf + 12) b bk'
      /\ map snd (bf_table bk' bf)
         = fold_left len_insert
             (unused_lengths (data_records fuel ops b p (Some e)))
             (map snd (bf_table bk bf)).
Proof.
  intros Hes.
  induction fuel as [|fuel IH]; intros p bk lh Hl F Hin Hp; [cbn in Hl; lia|].
  cbn [data_records freescan_loop below_endp] in *.
  destruct (Z.ltb_spec p e) as [Hpe|Hpe].
  2:{ exists bk, lh. cbn. auto. }
  assert (Eft : dup_freetag bk p = dup_freetag b p)
    by (apply (get_be16_same_outside _ _ _ _ _ F); lia).
  rewrite Eft.
  destruct (Z.eqb_spec (dup_freetag b p) SCXFS_DIR2_DATA_FREE_TAG) as [Hft|Hft].
  - pose proof (table_in_same _ _ _ _ _ F Hin) as Hink.
    destruct (freeinsert_spec bk bf p lh Hink) as (Ht & _ & Fi & _).
    destruct (scxfs_dir2_data_freeinsert bk bf p lh) as [[b1 r1] lh1].
    cbn [fst snd] in Ht, Fi.
    pose proof (same_outside_trans _ _ _ _ _ F Fi) as F1.
    assert (El : dup_length b1 p = dup_length b p)
      by (apply (get_be16_same_outside _ _ _ _ _ F1); lia).
    assert (Elk : dup_length bk p = dup_length b p)
      by (apply (get_be16_same_outside _ _ _ _ _ F); lia).
    rewrite El.
    pose proof (get_be16_range b (p + 2)) as R. fold (dup_length b p) in R.
    cbn [length] in Hl.
    destruct (IH (p + dup_length b p) b1 lh1 ltac:(lia) F1 Hin ltac:(lia))
      as (bk' & lh' & E1 & E2 & E3).
    exists bk', lh'. split; [exact E1|]. split; [exact E2|].
    rewrite E3. cbn [unused_lengths flat_map app fold_left].
    fold (unused_lengths (data_records fuel ops b (p + dup_length b p) (Some e))).
    rewrite Ht, table_insert_lengths. cbn [snd]. rewrite Elk. reflexivity.
  - assert (En : dep_namelen bk p = dep_namelen b p).
    { unfold dep_namelen, offsetof_entry_namelen. destruct F as [_ F].
      apply F. lia. }
    rewrite En. cbn [length] in Hl.
    pose proof (Hes (dep_namelen b p) (rd_range b _)) as Hsz.
    destruct (IH (p + data_entsize ops (dep_namelen b p)) bk lh
                ltac:(lia) F Hin ltac:(lia)) as (bk' & lh' & E1 & E2 & E3).
    exists bk', lh'. split; [exact E1|]. split; [exact E2|].
    rewrite E3. reflexivity.
Qed.


Section Accepted.

Variable ftm : Z.
Variable inoval : Z -> Z.
Variable hash : list Z -> Z.
Variable dataptr : scxfs_da_geometry -> Z -> Z -> Z.
Variable g : scxfs_da_geometry.
Variable ops : scxfs_dir_ops.

Let verify := __scxfs_dir3_data_check ftm inoval hash dataptr g ops.

Lemma check_good_inv (b : buf) :
  verify b = CheckGood ->
  exists e fs0,
    scxfs_dir3_data_endp g b = Some e
    /\ zero_slots b (data_bestfree_p ops) = inr fs0
    /\ bf_length b (data_bestfree_p ops) 1 <= bf_length b (data_bestfree_p ops) 0
    /\ bf_length b (data_bestfree_p ops) 2 <= bf_length b (data_bestfree_p ops) 1
    /\ checked b ops (data_bestfree_p ops) e (data_entry_p ops) 0 fs0 7
               (block_records g ops b)
    /\ (length (block_records g ops b) < scan_fuel g)%nat.
Proof.
  unfold verify, __scxfs_dir3_data_check, block_records. intros H.
  match type of H with
  | (if ?c then _ else _) = _ => destruct c; [discriminate|]
  end.
  match type of H with
  | (if ?c then _ else _) = _ => destruct c; [discriminate|]
  end.
  destruct (scxfs_dir3_data_endp g b) as [e|]; [|discriminate].
  destruct (zero_slots b (data_bestfree_p ops)) as [fa|fs0]; [discriminate|].
  destruct (Z.ltb_spec (bf_length b (data_bestfree_p ops) 0)
                       (bf_length b (data_bestfree_p ops) 1)); [discriminate|].
  destruct (Z.ltb_spec (bf_length b (data_bestfree_p ops) 1)
                       (bf_length b (data_bestfree_p ops) 2)); [discriminate|].
  match type of H with
  | match ?x with LFail _ => _ | LDone _ _ => _ | LFuel => _ end = _ =>
      destruct x as [fa|count fs|] eqn:El; try discriminate
  end.
  destruct (Z.eqb_spec fs 7) as [->|]; cbn [negb] in H; [|discriminate].
  apply check_loop_checked in El. destruct El as [Hc Hl].
  exists e, fs0. repeat split; auto; lia.
Qed.

End Accepted.

(** ** Records of an accepted block *)

Lemma tiled_app (l1 l2 : list record) :
  forall p lf,
    tiled p lf (l1 ++ l2) <->
    tiled p lf l1 /\ tiled (p + span l1) (last_free lf l1) l2.
Proof.
  induction l1 as [|r l1 IH]; intros p lf; cbn [app tiled span last_free].
  - rewrite Z.add_0_r. tauto.
  - rewrite IH. rewrite Z.add_assoc. tauto.
Qed.

Lemma tiled_off_ge (recs : list record) :
  forall p lf r, tiled p lf recs -> In r recs -> p <= rec_off r.
Proof.
  induction recs as [|r0 recs IH]; intros p lf r Ht Hin; [destruct Hin|].
  cbn [tiled] in Ht. destruct Ht as (Ho & Hl & _ & Ht).
  destruct Hin as [<-|Hin]; [lia|].
  specialize (IH _ _ _ Ht Hin). lia.
Qed.

Lemma regions_of_in (recs : list record) (o l : Z) :
  In (o, l) (regions_of recs) <-> In (RUnused o l) recs.
Proof.
  induction recs as [|r recs IH]; cbn [regions_of flat_map]; [tauto|].
  fold (regions_of recs). rewrite in_app_iff, IH.
  destruct r as [o' l'|o' l']; cbn; split; intros H.
  - destruct H as [[H|[]]|H]; [inversion H; auto|auto].
  - destruct H as [H|H]; [inversion H; auto|auto].
  - destruct H as [[]|H]; auto.
  - destruct H as [H|H]; [discriminate|auto].
Qed.

(** In a tiled list of records no two unused regions touch. *)
Lemma tiled_no_adjacent (recs : list record) :
  forall p lf, tiled p lf recs -> no_adjacent (regions_of recs).
Proof.
  induction recs as [|r recs IH]; intros p lf Ht [o1 l1] [o2 l2] H1 H2 Hlt;
    [destruct H1|].
  cbn [fst snd] in *.
  apply regions_of_in in H1, H2.
  pose proof Ht as Ht0.
  cbn [tiled] in Ht. destruct Ht as (Ho & Hl & Hf & Ht).
  destruct H1 as [->|H1]; destruct H2 as [E2|H2].
  - inversion E2; subst. lia.
  - cbn [rec_off rec_len is_unused] in *. subst o1.
    destruct recs as [|r' recs']; [destruct H2|].
    cbn [tiled] in Ht. destruct Ht as (Ho' & Hl' & Hf' & Ht').
    destruct H2 as [->|H2].
    + cbn [is_unused] in Hf'. specialize (Hf' eq_refl). discriminate.
    + pose proof (tiled_off_ge _ _ _ _ Ht' H2) as Hge.
      cbn [rec_off] in Hge. lia.
  - subst r. cbn [rec_off rec_len] in *.
    pose proof (tiled_off_ge _ _ _ _ Ht H1) as Hge. cbn [rec_off] in Hge. lia.
  - apply (IH _ _ Ht (o1, l1) (o2, l2)); auto; apply regions_of_in; auto.
Qed.

Lemma tiled_not_adjacent_unused (recs : list record) :
  forall p lf, tiled p lf recs -> adjacent_unused recs = false.
Proof.
  induction recs as [|r recs IH]; intros p lf Ht; [reflexivity|].
  cbn [tiled] in Ht. destruct Ht as (_ & _ & _ & Ht).
  destruct recs as [|r' recs']; [reflexivity|].
  pose proof (IH _ _ Ht) as E.
  change (adjacent_unused (r :: r' :: recs'))
    with ((is_unused r && is_unused r') || adjacent_unused (r' :: recs')).
  rewrite E, orb_false_r.
  cbn [tiled] in Ht. destruct Ht as (_ & _ & Hf & _).
  destruct (is_unused r'); [|apply andb_false_r].
  rewrite (Hf eq_refl). reflexivity.
Qed.

Lemma checked_walks (b : buf) (ops : scxfs_dir_ops) (bf e : Z) :
  ops_layout ops ->
  forall p lf fs fs' recs,
    checked b ops bf e p lf fs fs' recs ->
    exists q, walks ops b e p recs q /\ e <= q /\ Forall (rec_ok b e) recs.
Proof.
  intros (_ & _ & _ & _ & _ & _ & Htp).
  induction 1 as [p lf fs He
                 |p lf fs fs' i recs Hpe Hft Hlf Hle Htag Hv Hland Hc IH
                 |p lf fs fs' recs Hpe Hft Hlf Hle Htag Hv Hsmall Hc IH
                 |p lf fs fs' recs Hpe Hft Hle Htag Hc IH].
  - exists p. repeat split; auto. constructor.
  - destruct IH as (q & Hw & Hq & Hok). exists q.
    repeat split; auto; [now constructor|].
    constructor; auto. split; cbn [rec_off rec_len]; auto.
  - destruct IH as (q & Hw & Hq & Hok). exists q.
    repeat split; auto; [now constructor|].
    constructor; auto. split; cbn [rec_off rec_len]; auto.
  - destruct IH as (q & Hw & Hq & Hok). exists q.
    repeat split; auto; [now constructor|].
    constructor; auto. split; cbn [rec_off rec_len]; auto.
    rewrite Htp in Htag. exact Htag.
Qed.

Lemma walks_app (ops : scxfs_dir_ops) (b : buf) (e : Z) (l1 l2 : list record) :
  forall p q,
    walks ops b e p (l1 ++ l2) q <->
    exists m, walks ops b e p l1 m /\ walks ops b e m l2 q.
Proof.
  induction l1 as [|r l1 IH]; intros p q; cbn [app].
  - split.
    + intros H. exists p. split; [constructor|exact H].
    + intros (m & H1 & H2). inversion H1; subst. exact H2.
  - split.
    + intros H.
      inversion H as [|p' r' q' Hpe Hft Hw|p' r' q' Hpe Hft Hw]; subst;
        apply IH in Hw; destruct Hw as (m & H1 & H2);
        exists m; (split; [now constructor|exact H2]).
    + intros (m & H1 & H2).
      inversion H1 as [|p' r' q' Hpe Hft Hw|p' r' q' Hpe Hft Hw]; subst;
        constructor; auto; apply IH; eauto.
Qed.

Lemma walks_span (ops : scxfs_dir_ops) (b : buf) (e : Z) :
  forall p recs q, walks ops b e p recs q -> q = p + span recs.
Proof.
  induction 1; cbn [span rec_len]; lia.
Qed.

Lemma walks_records (ops : scxfs_dir_ops) (b : buf) (e : Z) :
  forall p recs q,
    walks ops b e p recs q -> e <= q ->
    forall fuel, (length recs < fuel)%nat ->
                 data_records fuel ops b p (Some e) = recs.
Proof.
  induction 1 as [p|p recs q Hpe Hft Hw IH|p recs q Hpe Hft Hw IH];
    intros He fuel Hl; (destruct fuel as [|fuel]; [cbn in Hl; lia|]);
    cbn [data_records below_endp].
  - destruct (Z.ltb_spec p e); [lia|reflexivity].
  - destruct (Z.ltb_spec p e); [|lia].
    rewrite Hft, Z.eqb_refl. f_equal. apply IH; auto. cbn in Hl. lia.
  - destruct (Z.ltb_spec p e); [|lia].
    destruct (Z.eqb_spec (dup_freetag b p) SCXFS_DIR2_DATA_FREE_TAG);
      [contradiction|].
    f_equal. apply IH; auto. cbn in Hl. lia.
Qed.

(** The walk depends only on the bytes it reads. *)
Lemma walks_frame (ops : scxfs_dir_ops) (b b' : buf) (e : Z) :
  forall p recs q,
    walks ops b e p recs q ->
    Forall (fun r => forall x, rec_off r <= x < reads_end r -> rd b' x = rd b x)
           recs ->
    walks ops b' e p recs q.
Proof.
  induction 1 as [p|p recs q Hpe Hft Hw IH|p recs q Hpe Hft Hw IH];
    intros HF; [constructor| |];
    inversion HF as [|r rs Hr Hrs]; subst; cbn [rec_off reads_end] in Hr.
  - assert (E1 : dup_freetag b' p = dup_freetag b p)
      by (unfold dup_freetag, get_be16; rewrite !Hr by lia; reflexivity).
    assert (E2 : dup_length b' p = dup_length b p)
      by (unfold dup_length, get_be16; rewrite !Hr by lia; reflexivity).
    rewrite <- E2. constructor; auto; try congruence.
    rewrite E2. auto.
  - assert (E1 : dup_freetag b' p = dup_freetag b p)
      by (unfold dup_freetag, get_be16; rewrite !Hr by lia; reflexivity).
    assert (E2 : dep_namelen b' p = dep_namelen b p)
      by (unfold dep_namelen, offsetof_entry_namelen; rewrite Hr by lia;
          reflexivity).
    rewrite <- E2. constructor; auto; try congruence.
    rewrite E2. auto.
Qed.

Lemma endp_le_blksize (g : scxfs_da_geometry) (b : buf) (e : Z) :
  scxfs_dir3_data_endp g b = Some e ->
  e <= blksize g /\ is_data_magic (hdr_magic b) = true.
Proof.
  unfold scxfs_dir3_data_endp, is_data_magic.
  destruct (Z.eqb_spec (hdr_magic b) SCXFS_DIR3_BLOCK_MAGIC) as [E1|E1];
    destruct (Z.eqb_spec (hdr_magic b) SCXFS_DIR2_BLOCK_MAGIC) as [E2|E2];
    destruct (Z.eqb_spec (hdr_magic b) SCXFS_DIR3_DATA_MAGIC) as [E3|E3];
    destruct (Z.eqb_spec (hdr_magic b) SCXFS_DIR2_DATA_MAGIC) as [E4|E4];
    cbn [orb]; intros H; inversion H; subst; clear H;
    (split; [|reflexivity]);
    unfold scxfs_dir2_block_leaf_p, scxfs_dir2_block_tail_p, btp_count,
      sizeof_scxfs_dir2_block_tail, sizeof_scxfs_dir2_leaf_entry, get_be32;
    try lia.
  all: match goal with
       | |- context [get_be16 ?b ?o * 65536 + get_be16 ?b ?o'] =>
           pose proof (get_be16_range b o); pose proof (get_be16_range b o')
       end; lia.
Qed.

(** The end pointer is read from the magic and, in block format, from the
    trailer, which lies behind it. *)
Lemma endp_same_below (g : scxfs_da_geometry) (lo hi : Z) (b b' : buf) (e : Z) :
  same_outside lo hi b b' -> 4 <= lo ->
  scxfs_dir3_data_endp g b = Some e -> hi <= e ->
  scxfs_dir3_data_endp g b' = Some e.
Proof.
  intros F Hlo He Hhi.
  assert (Em : hdr_magic b' = hdr_magic b)
    by (apply (get_be32_same_outside lo hi); auto; lia).
  revert He. unfold scxfs_dir3_data_endp. rewrite Em.
  destruct ((hdr_magic b =? SCXFS_DIR3_BLOCK_MAGIC)
            || (hdr_magic b =? SCXFS_DIR2_BLOCK_MAGIC))%bool; [|auto].
  intros H. inversion H as [He]. f_equal.
  unfold scxfs_dir2_block_leaf_p, btp_count in *.
  pose proof (get_be16_range b (scxfs_dir2_block_tail_p g)).
  pose proof (get_be16_range b (scxfs_dir2_block_tail_p g + 2)).
  rewrite (get_be32_same_outside lo hi b b' _ F); [reflexivity|].
  unfold get_be32, sizeof_scxfs_dir2_leaf_entry in *. lia.
Qed.

Lemma last_snoc (l : list record) (r d : record) : last (l ++ [r]) d = r.
Proof. apply last_last. Qed.

Lemma tiled_span_nonneg (recs : list record) :
  forall p lf, tiled p lf recs -> 0 <= span recs.
Proof.
  induction recs as [|r recs IH]; intros p lf Ht; cbn [span]; [lia|].
  cbn [tiled] in Ht. destruct Ht as (_ & Hl & _ & Ht).
  specialize (IH _ _ Ht). lia.
Qed.

Lemma tiled_flag (recs : list record) (p : Z) (lf lf' : bool) :
  tiled p lf recs ->
  match recs with r :: _ => is_unused r = false | [] => True end ->
  tiled p lf' recs.
Proof.
  destruct recs as [|r recs]; [auto|].
  cbn [tiled]. intros (H1 & H2 & _ & H4) Hr. repeat split; auto.
  rewrite Hr. discriminate.
Qed.

(** The walk reads nothing at or behind its end when it does not end with
    an unused record. *)
Lemma reads_before_end (ops : scxfs_dir_ops) (b : buf) (e : Z) :
  (forall n, 0 <= n < 256 -> 16 <= data_entsize ops n) ->
  forall recs p lf q,
    walks ops b e p recs q -> tiled p lf recs ->
    last_free false recs = false ->
    Forall (fun r => p <= rec_off r /\ reads_end r <= q) recs.
Proof.
  intros Hes.
  induction recs as [|r recs IH]; intros p lf q Hw Ht Hlast; [constructor|].
  pose proof (walks_span _ _ _ _ _ _ Hw) as Hq. cbn [span] in Hq.
  inversion Hw as [|p' rs q' Hpe Hft Hw'|p' rs q' Hpe Hft Hw']; subst p' rs q' r;
    cbn [tiled rec_off rec_len is_unused last_free reads_end] in *;
    destruct Ht as (_ & Hl & Hf & Ht);
    pose proof (tiled_span_nonneg _ _ _ Ht) as Hsp.
  - constructor.
    + cbn [rec_off reads_end]. split; [lia|].
      destruct recs as [|r' recs']; [cbn in Hlast; discriminate|].
      pose proof Ht as Ht1.
      cbn [tiled] in Ht1. destruct Ht1 as (Ho' & Hl' & Hf' & Ht').
      pose proof (tiled_span_nonneg _ _ _ Ht') as Hsp'.
      cbn [span] in Hq, Hsp.
      inversion Hw' as [|p' rs q' Hpe' Hft' Hw''|p' rs q' Hpe' Hft' Hw''];
        subst p' rs q' r'.
      * cbn [is_unused] in Hf'. specialize (Hf' eq_refl). discriminate.
      * cbn [rec_len] in *.
        pose proof (Hes (dep_namelen b (p + dup_length b p)) (rd_range b _)).
        lia.
    + destruct recs as [|r' recs']; [constructor|].
      eapply Forall_impl; [|eapply (IH _ _ _ Hw' Ht Hlast)].
      cbn beta. intros a [Ha1 Ha2]. split; lia.
  - constructor.
    + cbn [rec_off reads_end]. split; [lia|].
      pose proof (Hes (dep_namelen b p) (rd_range b _)). lia.
    + destruct recs as [|r' recs']; [constructor|].
      eapply Forall_impl; [|eapply (IH _ _ _ Hw' Ht Hlast)].
      cbn beta. intros a [Ha1 Ha2]. split; lia.
Qed.

Lemma list_eq_dec_nil (l : list record) : {l = []} + {l <> []}.
Proof. destruct l; [left; reflexivity|right; discriminate]. Qed.

Lemma walks_entry_inv (ops : scxfs_dir_ops) (b : buf) (e p o l q : Z)
    (rs : list record) :
  walks ops b e p (REntry o l :: rs) q ->
  o = p /\ l = data_entsize ops (dep_namelen b p) /\ p < e
  /\ dup_freetag b p <> SCXFS_DIR2_DATA_FREE_TAG
  /\ walks ops b e (p + l) rs q.
Proof. intros H. inversion H; subst. auto. Qed.

Lemma walks_unused_inv (ops : scxfs_dir_ops) (b : buf) (e p o l q : Z)
    (rs : list record) :
  walks ops b e p (RUnused o l :: rs) q ->
  o = p /\ l = dup_length b p /\ p < e
  /\ dup_freetag b p = SCXFS_DIR2_DATA_FREE_TAG
  /\ walks ops b e (p + l) rs q.
Proof. intros H. inversion H; subst. auto. Qed.

Lemma walks_nil_inv (ops : scxfs_dir_ops) (b : buf) (e p q : Z) :
  walks ops b e p [] q -> q = p.
Proof. intros H. inversion H; subst. auto. Qed.

Lemma last_free_entry (l : list record) (o n : Z) (lf : bool) :
  last_free lf (l ++ [REntry o n]) = false.
Proof. revert lf; induction l as [|a l IH]; intros lf; cbn; auto. Qed.

(** ** [make_free] on an entry of an accepted block *)

Section MakeFree.

Variable g : scxfs_da_geometry.
Variable ops : scxfs_dir_ops.
Variable b : buf.
Variables e qend : Z.
Variables pre post : list record.
Variables offset len : Z.

Hypothesis Hlay : ops_layout ops.
Hypothesis Hok : block_ok g ops b.
Hypothesis He : scxfs_dir3_data_endp g b = Some e.
Hypothesis Hw :
  walks ops b e (data_entry_offset ops) (pre ++ REntry offset len :: post) qend.
Hypothesis Hqe : e <= qend.
Hypothesis Ht :
  tiled (data_entry_offset ops) false (pre ++ REntry offset len :: post).
Hypothesis Hrok : Forall (rec_ok b e) (pre ++ REntry offset len :: post).

Lemma ctx_entry :
  walks ops b e (data_entry_offset ops) pre offset
  /\ offset < e
  /\ dup_freetag b offset <> SCXFS_DIR2_DATA_FREE_TAG
  /\ 16 <= len
  /\ walks ops b e (offset + len) post qend
  /\ offset + len <= e
  /\ get_be16 b (offset + len - 2) = offset
  /\ tiled (data_entry_offset ops) false pre
  /\ tiled (offset + len) false post
  /\ offset = data_entry_offset ops + span pre.
Proof.
  destruct Hlay as (_ & _ & _ & _ & _ & Hes & _).
  pose proof Hw as Hw0. apply walks_app in Hw0. destruct Hw0 as (m & Hw1 & Hw2).
  pose proof Ht as Ht0. apply tiled_app in Ht0. destruct Ht0 as (Ht1 & Ht2).
  pose proof Hrok as Hr0. apply Forall_app in Hr0. destruct Hr0 as [_ Hr2].
  inversion Hr2 as [|r rs [Hr1 Hr1'] _]. clear Hr2.
  cbn [rec_off rec_len] in Hr1, Hr1'.
  cbn [tiled rec_off rec_len is_unused] in Ht2.
  destruct Ht2 as (Ho & _ & _ & Ht2).
  pose proof (walks_span _ _ _ _ _ _ Hw1) as Hm.
  destruct (walks_entry_inv _ _ _ _ _ _ _ _ Hw2) as (Em & El & Hpe & Hft & Hw').
  pose proof (Hes (dep_namelen b m) (rd_range b _)).
  rewrite <- Em in *.
  repeat split; auto; try lia.
  rewrite Ho at 1. exact Ht2.
Qed.

Lemma ctx_prev :
  match prev_free pre with
  | Some (o, l) =>
      exists pre0,
        pre = pre0 ++ [RUnused o l]
        /\ o + l = offset /\ data_entry_offset ops <= o /\ 0 < l
        /\ dup_freetag b o = SCXFS_DIR2_DATA_FREE_TAG
        /\ dup_length b o = l
        /\ get_be16 b (offset - 2) = o
        /\ walks ops b e (data_entry_offset ops) pre0 o
        /\ tiled (data_entry_offset ops) false pre0
        /\ last_free false pre0 = false
  | None =>
      last_free false pre = false
      /\ (pre = [] /\ offset = data_entry_offset ops
          \/ exists pre0 o l,
               pre = pre0 ++ [REntry o l]
               /\ data_entry_offset ops < offset
               /\ get_be16 b (offset - 2) = o
               /\ dup_freetag b o <> SCXFS_DIR2_DATA_FREE_TAG)
  end.
Proof.
  destruct ctx_entry as (Hw1 & _ & _ & _ & _ & _ & _ & Ht1 & _ & _).
  pose proof Hrok as Hr0. apply Forall_app in Hr0. destruct Hr0 as [Hr1 _].
  unfold prev_free.
  destruct (list_eq_dec_nil pre) as [Epre|Hne].
  { rewrite Epre in *. cbn. split; [reflexivity|]. left. split; [reflexivity|].
    apply walks_nil_inv in Hw1. exact Hw1. }
  destruct (exists_last Hne) as (pre0 & r & E).
  rewrite E in *.
  rewrite last_snoc.
  apply walks_app in Hw1. destruct Hw1 as (m & Hw0 & Hwr).
  apply tiled_app in Ht1. destruct Ht1 as (Ht0 & Htr).
  apply Forall_app in Hr1. destruct Hr1 as [_ Hr].
  inversion Hr as [|r' rs [Hra Hrb] _]. clear Hr.
  pose proof (walks_span _ _ _ _ _ _ Hw0) as Hm.
  pose proof (tiled_span_nonneg _ _ _ Ht0) as Hsp.
  cbn [tiled] in Htr. destruct Htr as (Ho & Hl & Hf & _).
  destruct r as [o l|o l]; cbn [rec_off rec_len is_unused] in *.
  - destruct (walks_unused_inv _ _ _ _ _ _ _ _ Hwr) as (Eo & El & Hpe & Hft & Hw').
    apply walks_nil_inv in Hw'.
    exists pre0. specialize (Hf eq_refl).
    rewrite Eo in *.
    repeat split; auto; try lia.
    replace (offset - 2) with (m + l - 2) by lia. exact Hrb.
  - destruct (walks_entry_inv _ _ _ _ _ _ _ _ Hwr) as (Eo & El & Hpe & Hft & Hw').
    apply walks_nil_inv in Hw'.
    split; [apply last_free_entry|].
    right. exists pre0, o, l. rewrite Eo in *.
    repeat split; auto; try lia.
    replace (offset - 2) with (m + l - 2) by lia. exact Hrb.
Qed.

Lemma ctx_post :
  match post_free post with
  | Some (o, l) =>
      exists post0,
        post = RUnused o l :: post0
        /\ o = offset + len /\ o < e /\ 0 < l
        /\ dup_freetag b o = SCXFS_DIR2_DATA_FREE_TAG
        /\ dup_length b o = l
        /\ o + l <= e
        /\ get_be16 b (o + l - 2) = o
        /\ walks ops b e (o + l) post0 qend
        /\ tiled (o + l) true post0
  | None =>
      match post with r :: _ => is_unused r = false | [] => True end
      /\ (post = [] /\ e <= offset + len
          \/ exists o l post0,
               post = REntry o l :: post0
               /\ o = offset + len /\ o < e
               /\ dup_freetag b o <> SCXFS_DIR2_DATA_FREE_TAG)
  end.
Proof.
  destruct ctx_entry as (_ & _ & _ & _ & Hw2 & _ & _ & _ & Ht2 & _).
  pose proof Hrok as Hr0. apply Forall_app in Hr0. destruct Hr0 as [_ Hr].
  inversion Hr as [|r' rs _ Hr2]. clear Hr.
  unfold post_free.
  destruct post as [|[o l|o l] post0].
  - split; [exact I|]. left. split; [reflexivity|].
    apply walks_nil_inv in Hw2. lia.
  - destruct (walks_unused_inv _ _ _ _ _ _ _ _ Hw2) as (Eo & El & Hpe & Hft & Hw').
    exists post0.
    inversion Hr2 as [|r'' rs' [Hra Hrb] _].
    cbn [tiled rec_off rec_len is_unused] in *.
    destruct Ht2 as (_ & Hl & _ & Ht2).
    rewrite Eo in *.
    repeat split; auto.
  - destruct (walks_entry_inv _ _ _ _ _ _ _ _ Hw2) as (Eo & El & Hpe & Hft & Hw').
    split; [reflexivity|]. right.
    exists o, l, post0. rewrite Eo in *.
    repeat split; auto.
Qed.

Lemma mf_prevdup_eq :
  mf_prevdup ops b offset = option_map fst (prev_free pre).
Proof.
  pose proof ctx_prev as H. unfold mf_prevdup, free_or_null.
  destruct (prev_free pre) as [[o l]|]; cbn [option_map fst].
  - destruct H as (pre0 & _ & H1 & H2 & H3 & H4 & _ & H5 & _).
    destruct (Z.gtb_spec offset (data_entry_offset ops)); [|lia].
    rewrite H5, H4, Z.eqb_refl. reflexivity.
  - destruct H as [_ [[_ H]|(pre0 & o & l & _ & H1 & H2 & H3)]].
    + destruct (Z.gtb_spec offset (data_entry_offset ops)); [lia|reflexivity].
    + destruct (Z.gtb_spec offset (data_entry_offset ops)); [|lia].
      rewrite H2.
      destruct (Z.eqb_spec (dup_freetag b o) SCXFS_DIR2_DATA_FREE_TAG);
        [contradiction|reflexivity].
Qed.

Lemma mf_postdup_eq :
  mf_postdup g b offset len = option_map fst (post_free post).
Proof.
  pose proof ctx_post as H. unfold mf_postdup, free_or_null.
  rewrite He. cbn [below_endp].
  destruct (post_free post) as [[o l]|]; cbn [option_map fst].
  - destruct H as (post0 & _ & H1 & H2 & _ & H4 & _).
    subst o. destruct (Z.ltb_spec (offset + len) e); [|lia].
    rewrite H4, Z.eqb_refl. reflexivity.
  - destruct H as [_ [[_ H]|(o & l & post0 & _ & H1 & H2 & H3)]].
    + destruct (Z.ltb_spec (offset + len) e); [lia|reflexivity].
    + subst o. destruct (Z.ltb_spec (offset + len) e); [|lia].
      destruct (Z.eqb_spec (dup_freetag b (offset + len)) SCXFS_DIR2_DATA_FREE_TAG);
        [contradiction|reflexivity].
Qed.

Lemma merged_bounds :
  data_entry_offset ops <= merged_off pre offset <= offset
  /\ offset + len <= merged_off pre offset + merged_len pre post len
  /\ merged_off pre offset + merged_len pre post len <= e
  /\ e <= blksize g
  /\ 16 <= merged_len pre post len
  /\ merged_off pre offset = data_entry_offset ops + span (pre_kept pre)
  /\ merged_off pre offset + merged_len pre post len
     = offset + len + (span post - span (post_kept post)).
Proof.
  destruct ctx_entry as (Hw1 & Hoe & _ & Hlen & _ & Hle & _ & Ht1 & _ & Hsp).
  pose proof ctx_prev as Hp. pose proof ctx_post as Hq.
  destruct (endp_le_blksize _ _ _ He) as [HeB _].
  unfold merged_off, merged_len, pre_kept, post_kept.
  destruct (prev_free pre) as [[o l]|]; destruct (post_free post) as [[o2 l2]|].
  - destruct Hp as (pre0 & E & P1 & P2 & P3 & _ & _ & _ & Hw0 & _).
    destruct Hq as (post0 & E2 & Q1 & Q2 & Q3 & _ & _ & Q4 & _).
    apply walks_span in Hw0. rewrite E, removelast_last, E2. cbn [tl span rec_len].
    repeat split; lia.
  - destruct Hp as (pre0 & E & P1 & P2 & P3 & _ & _ & _ & Hw0 & _).
    apply walks_span in Hw0. rewrite E, removelast_last.
    repeat split; lia.
  - destruct Hq as (post0 & E2 & Q1 & Q2 & Q3 & _ & _ & Q4 & _).
    rewrite E2. cbn [tl span rec_len].
    pose proof (tiled_span_nonneg _ _ _ Ht1).
    repeat split; lia.
  - pose proof (tiled_span_nonneg _ _ _ Ht1).
    repeat split; lia.
Qed.

Lemma writes_spec :
  let q := merged_off pre offset in
  let L := merged_len pre post len in
  let bw := make_free_writes g ops b offset len in
  same_outside q (q + L) b bw
  /\ dup_freetag bw q = SCXFS_DIR2_DATA_FREE_TAG
  /\ dup_length bw q = L
  /\ get_be16 bw (q + L - 2) = q.
Proof.
  cbv zeta.
  destruct merged_bounds as (B1 & B2 & B3 & B4 & B5 & _).
  destruct Hok as [Hlen HB].
  destruct Hlay as (L1 & L2 & _).
  destruct ctx_entry as (_ & _ & _ & Hl16 & _).
  pose proof ctx_prev as Hp. pose proof ctx_post as Hq.
  unfold make_free_writes. rewrite mf_prevdup_eq, mf_postdup_eq.
  revert B1 B2 B3 B5. unfold merged_off, merged_len.
  destruct (prev_free pre) as [[o l]|]; destruct (post_free post) as [[o2 l2]|];
    cbn [option_map fst]; intros B1 B2 B3 B5.
  - destruct Hp as (pre0 & _ & P1 & P2 & P3 & P4 & P5 & _).
    destruct Hq as (post0 & _ & Q1 & Q2 & Q3 & Q4 & Q5 & _).
    unfold be16_add_cpu. fold (dup_length b o). rewrite P5, Q5.
    rewrite (u16_small (len + l2)) by lia.
    set (b1 := put_be16 b (o + 2) (l + (len + l2))).
    assert (D1 : dup_length b1 o = l + len + l2).
    { unfold dup_length, b1. rewrite get_put_be16_same by lia.
      rewrite u16_small; lia. }
    unfold scxfs_dir2_data_unused_tag_p. rewrite D1.
    split; [|split; [|split]].
    + eapply same_outside_trans; apply same_outside_put_be16; lia.
    + unfold dup_freetag, b1. rewrite !get_put_be16_other by lia. exact P4.
    + unfold dup_length. rewrite get_put_be16_other by lia. exact D1.
    + rewrite get_put_be16_same by (unfold b1; rewrite ?blen_put_be16; lia).
      apply u16_small. lia.
  - destruct Hp as (pre0 & _ & P1 & P2 & P3 & P4 & P5 & _).
    unfold be16_add_cpu. fold (dup_length b o). rewrite P5.
    rewrite (u16_small len) by lia.
    set (b1 := put_be16 b (o + 2) (l + len)).
    assert (D1 : dup_length b1 o = l + len + 0).
    { unfold dup_length, b1. rewrite get_put_be16_same by lia.
      rewrite u16_small; lia. }
    unfold scxfs_dir2_data_unused_tag_p. rewrite D1.
    split; [|split; [|split]].
    + eapply same_outside_trans; apply same_outside_put_be16; lia.
    + unfold dup_freetag, b1. rewrite !get_put_be16_other by lia. exact P4.
    + unfold dup_length. rewrite get_put_be16_other by lia. exact D1.
    + rewrite get_put_be16_same by (unfold b1; rewrite ?blen_put_be16; lia).
      apply u16_small. lia.
  - destruct Hq as (post0 & _ & Q1 & Q2 & Q3 & Q4 & Q5 & _).
    set (b0 := put_be16 b offset SCXFS_DIR2_DATA_FREE_TAG).
    assert (D0 : dup_length b0 o2 = l2).
    { unfold dup_length, b0. rewrite get_put_be16_other by lia. exact Q5. }
    rewrite D0.
    set (b1 := put_be16 b0 (offset + 2) (len + l2)).
    assert (D1 : dup_length b1 offset = 0 + len + l2).
    { unfold dup_length, b1, b0.
      rewrite get_put_be16_same by (rewrite ?blen_put_be16; lia).
      rewrite u16_small; lia. }
    unfold scxfs_dir2_data_unused_tag_p. rewrite D1.
    split; [|split; [|split]].
    + eapply same_outside_trans; [eapply same_outside_trans|];
        apply same_outside_put_be16; lia.
    + unfold dup_freetag, b1, b0. rewrite !get_put_be16_other by lia.
      rewrite get_put_be16_same by lia. reflexivity.
    + unfold dup_length. rewrite get_put_be16_other by lia. exact D1.
    + rewrite get_put_be16_same
        by (unfold b1, b0; rewrite ?blen_put_be16; lia).
      apply u16_small. lia.
  - unfold new_unused.
    set (b0 := put_be16 b offset SCXFS_DIR2_DATA_FREE_TAG).
    set (b1 := put_be16 b0 (offset + 2) len).
    assert (D1 : dup_length b1 offset = 0 + len + 0).
    { unfold dup_length, b1, b0.
      rewrite get_put_be16_same by (rewrite ?blen_put_be16; lia).
      rewrite u16_small; lia. }
    unfold scxfs_dir2_data_unused_tag_p. rewrite D1.
    split; [|split; [|split]].
    + eapply same_outside_trans; [eapply same_outside_trans|];
        apply same_outside_put_be16; lia.
    + unfold dup_freetag, b1, b0. rewrite !get_put_be16_other by lia.
      rewrite get_put_be16_same by lia. reflexivity.
    + unfold dup_length. rewrite get_put_be16_other by lia. exact D1.
    + rewrite get_put_be16_same
        by (unfold b1, b0; rewrite ?blen_put_be16; lia).
      apply u16_small. lia.
Qed.

(** [make_free] writes the length field of the merged record, its tag
    and, when no unused record precedes the entry, the free tag. *)
Lemma writes_frame :
  let q := merged_off pre offset in
  let L := merged_len pre post len in
  let bw := make_free_writes g ops b offset len in
  forall x,
    ~ (q + 2 <= x < q + 4) -> ~ (q + L - 2 <= x < q + L) ->
    (prev_free pre = None -> ~ (offset <= x < offset + 2)) ->
    rd bw x = rd b x.
Proof.
  cbv zeta.
  destruct merged_bounds as (B1 & B2 & B3 & B4 & B5 & _).
  destruct Hok as [Hlen HB].
  destruct Hlay as (L1 & L2 & _).
  destruct ctx_entry as (_ & _ & _ & Hl16 & _).
  pose proof ctx_prev as Hp. pose proof ctx_post as Hq.
  unfold make_free_writes. rewrite mf_prevdup_eq, mf_postdup_eq.
  revert B1 B2 B3 B5. unfold merged_off, merged_len.
  destruct (prev_free pre) as [[o l]|]; destruct (post_free post) as [[o2 l2]|];
    cbn [option_map fst]; intros B1 B2 B3 B5 x X1 X2 X3.
  - destruct Hp as (pre0 & _ & P1 & P2 & P3 & P4 & P5 & _).
    destruct Hq as (post0 & _ & Q1 & Q2 & Q3 & Q4 & Q5 & _).
    unfold be16_add_cpu. fold (dup_length b o). rewrite P5, Q5.
    rewrite (u16_small (len + l2)) by lia.
    set (b1 := put_be16 b (o + 2) (l + (len + l2))).
    assert (D1 : dup_length b1 o = l + len + l2).
    { unfold dup_length, b1. rewrite get_put_be16_same by lia.
      rewrite u16_small; lia. }
    unfold scxfs_dir2_data_unused_tag_p. rewrite D1.
    unfold b1. rewrite !rd_put_be16_other by lia. reflexivity.
  - destruct Hp as (pre0 & _ & P1 & P2 & P3 & P4 & P5 & _).
    unfold be16_add_cpu. fold (dup_length b o). rewrite P5.
    rewrite (u16_small len) by lia.
    set (b1 := put_be16 b (o + 2) (l + len)).
    assert (D1 : dup_length b1 o = l + len + 0).
    { unfold dup_length, b1. rewrite get_put_be16_same by lia.
      rewrite u16_small; lia. }
    unfold scxfs_dir2_data_unused_tag_p. rewrite D1.
    unfold b1. rewrite !rd_put_be16_other by lia. reflexivity.
  - destruct Hq as (post0 & _ & Q1 & Q2 & Q3 & Q4 & Q5 & _).
    specialize (X3 eq_refl).
    set (b0 := put_be16 b offset SCXFS_DIR2_DATA_FREE_TAG).
    assert (D0 : dup_length b0 o2 = l2).
    { unfold dup_length, b0. rewrite get_put_be16_other by lia. exact Q5. }
    rewrite D0.
    set (b1 := put_be16 b0 (offset + 2) (len + l2)).
    assert (D1 : dup_length b1 offset = 0 + len + l2).
    { unfold dup_length, b1, b0.
      rewrite get_put_be16_same by (rewrite ?blen_put_be16; lia).
      rewrite u16_small; lia. }
    unfold scxfs_dir2_data_unused_tag_p. rewrite D1.
    unfold b1, b0. rewrite !rd_put_be16_other by lia. reflexivity.
  - specialize (X3 eq_refl). unfold new_unused.
    set (b0 := put_be16 b offset SCXFS_DIR2_DATA_FREE_TAG).
    set (b1 := put_be16 b0 (offset + 2) len).
    assert (D1 : dup_length b1 offset = 0 + len + 0).
    { unfold dup_length, b1, b0.
      rewrite get_put_be16_same by (rewrite ?blen_put_be16; lia).
      rewrite u16_small; lia. }
    unfold scxfs_dir2_data_unused_tag_p. rewrite D1.
    unfold b1, b0. rewrite !rd_put_be16_other by lia. reflexivity.
Qed.

Lemma pre_kept_walk :
  walks ops b e (data_entry_offset ops) (pre_kept pre) (merged_off pre offset)
  /\ tiled (data_entry_offset ops) false (pre_kept pre)
  /\ last_free false (pre_kept pre) = false.
Proof.
  destruct ctx_entry as (Hw1 & _ & _ & _ & _ & _ & _ & Ht1 & _).
  pose proof ctx_prev as Hp.
  unfold pre_kept, merged_off.
  destruct (prev_free pre) as [[o l]|].
  - destruct Hp as (pre0 & E & _ & _ & _ & _ & _ & _ & Hw0 & Ht0 & Hl0).
    rewrite E, removelast_last. auto.
  - destruct Hp as [Hl _]. auto.
Qed.

Lemma post_kept_walk :
  let q := merged_off pre offset in
  let L := merged_len pre post len in
  walks ops b e (q + L) (post_kept post) qend
  /\ tiled (q + L) true (post_kept post).
Proof.
  cbv zeta.
  destruct ctx_entry as (_ & _ & _ & _ & Hw2 & _ & _ & _ & Ht2 & _).
  destruct merged_bounds as (_ & _ & _ & _ & _ & _ & B7).
  pose proof ctx_post as Hq. rewrite B7. clear B7.
  unfold post_kept.
  destruct (post_free post) as [[o2 l2]|].
  - destruct Hq as (post0 & E & Q1 & _ & _ & _ & _ & _ & _ & Hw0 & Ht0).
    rewrite E. cbn [tl span rec_len].
    replace (offset + len + (l2 + span post0 - span post0)) with (o2 + l2) by lia.
    auto.
  - destruct Hq as [Hh _].
    replace (offset + len + (span post - span post)) with (offset + len) by lia.
    split; [exact Hw2|]. eapply tiled_flag; eauto.
Qed.

Lemma merged_tiled :
  tiled (data_entry_offset ops) false (merged_records pre offset len post).
Proof.
  destruct pre_kept_walk as (_ & Ht1 & Hl1).
  destruct post_kept_walk as (_ & Ht2).
  destruct merged_bounds as (_ & _ & _ & _ & B5 & B6 & _).
  unfold merged_records. apply tiled_app. split; [exact Ht1|].
  cbn [tiled rec_off rec_len is_unused]. rewrite Hl1, <- B6.
  repeat split; auto. lia.
Qed.

Lemma merged_walk (b' : buf) :
  let q := merged_off pre offset in
  let L := merged_len pre post len in
  (forall x, data_entry_offset ops <= x -> ~ (q <= x < q + L) ->
             rd b' x = rd b x) ->
  dup_freetag b' q = SCXFS_DIR2_DATA_FREE_TAG ->
  dup_length b' q = L ->
  walks ops b' e (data_entry_offset ops) (merged_records pre offset len post) qend.
Proof.
  cbv zeta. intros Hsame Hft Hdl.
  destruct pre_kept_walk as (Hw1 & Ht1 & Hl1).
  destruct post_kept_walk as (Hw2 & Ht2).
  destruct merged_bounds as (B1 & B2 & B3 & B4 & B5 & _).
  destruct ctx_entry as (_ & Hoe & _).
  destruct Hlay as (_ & _ & _ & _ & _ & Hes & _).
  unfold merged_records. apply walks_app.
  exists (merged_off pre offset). split.
  - apply (walks_frame ops b b' e _ _ _ Hw1).
    pose proof (reads_before_end ops b e Hes _ _ _ _ Hw1 Ht1 Hl1) as HF.
    eapply Forall_impl; [|exact HF].
    cbn beta. intros r [Hr1 Hr2] x Hx. apply Hsame; lia.
  - rewrite <- Hdl. constructor; [lia|exact Hft|]. rewrite Hdl.
    apply (walks_frame ops b b' e _ _ _ Hw2).
    apply Forall_forall. intros r Hr x Hx.
    pose proof (tiled_off_ge _ _ _ _ Ht2 Hr).
    apply Hsame; lia.
Qed.

End MakeFree.

Lemma table_in_blen (b b' : buf) (bf : Z) :
  blen b' = blen b -> table_in b bf -> table_in b' bf.
Proof. unfold table_in. intros ->. auto. Qed.

Lemma freeremove_frame (b : buf) (bf : Z) (dfp : option Z) :
  table_in b bf ->
  same_outside bf (bf + 12) b (fst (scxfs_dir2_data_freeremove b bf dfp)).
Proof. intros H. apply (freeremove_spec b bf dfp H). Qed.

Lemma freeinsert_frame (b : buf) (bf dup lh : Z) :
  table_in b bf ->
  same_outside bf (bf + 12) b (fst (fst (scxfs_dir2_data_freeinsert b bf dup lh))).
Proof. intros H. apply (freeinsert_spec b bf dup lh H). Qed.

Lemma b_addr_log_unused (args : scxfs_da_args) (bp : scxfs_buf) (dup : Z) :
  b_addr (scxfs_dir2_data_log_unused args bp dup) = b_addr bp.
Proof. reflexivity. Qed.

Lemma blen_make_free_writes (g : scxfs_da_geometry) (ops : scxfs_dir_ops)
    (b : buf) (offset len : Z) :
  blen (make_free_writes g ops b offset len) = blen b.
Proof.
  unfold make_free_writes, be16_add_cpu, new_unused.
  destruct (mf_prevdup ops b offset); destruct (mf_postdup g b offset len);
    rewrite ?blen_put_be16; reflexivity.
Qed.

(** The buffer that [make_free] returns is the buffer with the record
    written, up to the bytes of the best-free table. *)
Lemma make_free_buffer (args : scxfs_da_args) (bp : scxfs_buf)
    (offset len needlog : Z) :
  table_in (b_addr bp) (data_bestfree_p (d_ops args)) ->
  same_outside (data_bestfree_p (d_ops args)) (data_bestfree_p (d_ops args) + 12)
    (make_free_writes (geo args) (d_ops args) (b_addr bp) offset len)
    (b_addr (fst (fst (scxfs_dir2_data_make_free args bp offset len needlog)))).
Proof.
  intros Hin.
  pose proof (blen_make_free_writes (geo args) (d_ops args) (b_addr bp) offset len)
    as Hbl.
  pose proof (table_in_blen _ _ _ Hbl Hin) as Hinw.
  revert Hbl Hinw.
  unfold scxfs_dir2_data_make_free, make_free_writes, mf_prevdup, mf_postdup,
    new_unused.
  cbv zeta.
  set (bf := data_bestfree_p (d_ops args)).
  destruct (if offset >? data_entry_offset (d_ops args)
            then free_or_null (b_addr bp) (get_be16 (b_addr bp) (offset - 2))
            else None) as [prev|];
    destruct (if below_endp (offset + len)
                   (scxfs_dir3_data_endp (geo args) (b_addr bp))
              then free_or_null (b_addr bp) (offset + len)
              else None) as [post|];
    intros Hbl Hinw.
  - destruct (negb (bf_length (b_addr bp) bf 2 =? 0)).
    { cbn [fst]. rewrite b_addr_log_unused. apply same_outside_refl. }
    destruct (scxfs_dir2_data_freefind (b_addr bp) bf prev) as [i|];
      [destruct i as [|[p|p|]|p]|]; cbv iota beta.
    all: match goal with
         | |- context [scxfs_dir2_data_freeremove ?x ?t ?d2] =>
             pose proof (freeremove_frame x t d2 Hinw) as F1;
             destruct (scxfs_dir2_data_freeremove x t d2) as [b3 nl3]
         end;
      cbn [fst] in F1;
      pose proof (table_in_same _ _ _ _ _ F1 Hinw) as Hin3;
      match goal with
      | |- context [scxfs_dir2_data_freeremove ?x ?t ?d1] =>
          pose proof (freeremove_frame x t d1 Hin3) as F2;
          destruct (scxfs_dir2_data_freeremove x t d1) as [b4 nl4]
      end;
      cbn [fst] in F2;
      pose proof (table_in_same _ _ _ _ _ F2 Hin3) as Hin4;
      pose proof (freeinsert_frame b4 bf prev nl4 Hin4) as F3;
      destruct (scxfs_dir2_data_freeinsert b4 bf prev nl4) as [[b5 r5] nl5];
      cbn [fst set_addr b_addr] in *;
      eauto using same_outside_trans.
  - destruct (scxfs_dir2_data_freefind (b_addr bp) bf prev) as [i|].
    2:{ cbn [fst]. rewrite b_addr_log_unused. apply same_outside_refl. }
    match goal with
    | |- context [scxfs_dir2_data_freeremove ?x ?t ?d] =>
        pose proof (freeremove_frame x t d Hinw) as F1;
        destruct (scxfs_dir2_data_freeremove x t d) as [b3 nl3]
    end.
    cbn [fst] in F1.
    pose proof (table_in_same _ _ _ _ _ F1 Hinw) as Hin3.
    pose proof (freeinsert_frame b3 bf prev nl3 Hin3) as F3.
    destruct (scxfs_dir2_data_freeinsert b3 bf prev nl3) as [[b5 r5] nl5].
    cbn [fst set_addr b_addr] in *.
    eauto using same_outside_trans.
  - destruct (scxfs_dir2_data_freefind (b_addr bp) bf post) as [i|].
    2:{ cbn [fst]. rewrite b_addr_log_unused. apply same_outside_refl. }
    match goal with
    | |- context [scxfs_dir2_data_freeremove ?x ?t ?d] =>
        pose proof (freeremove_frame x t d Hinw) as F1;
        destruct (scxfs_dir2_data_freeremove x t d) as [b3 nl3]
    end.
    cbn [fst] in F1.
    pose proof (table_in_same _ _ _ _ _ F1 Hinw) as Hin3.
    pose proof (freeinsert_frame b3 bf offset nl3 Hin3) as F3.
    destruct (scxfs_dir2_data_freeinsert b3 bf offset nl3) as [[b5 r5] nl5].
    cbn [fst set_addr b_addr] in *.
    eauto using same_outside_trans.
  - match goal with
    | |- context [scxfs_dir2_data_freeinsert ?x ?t offset needlog] =>
        pose proof (freeinsert_frame x t offset needlog Hinw) as F3;
        destruct (scxfs_dir2_data_freeinsert x t offset needlog) as [[b5 r5] nl5]
    end.
    cbn [fst set_addr b_addr] in *. exact F3.
Qed.

Ltac use_ctx H :=
  repeat match type of H with
         | ?A -> _ =>
             let X := fresh in
             assert (X : A) by assumption; specialize (H X); clear X
         end.

Lemma merged_records_length (pre post : list record) (offset len : Z) :
  (length (merged_records pre offset len post)
   <= length (pre ++ REntry offset len :: post))%nat.
Proof.
  unfold merged_records, pre_kept, post_kept.
  rewrite !length_app. cbn [length].
  assert (H1 : (length (removelast pre) <= length pre)%nat).
  { clear. induction pre as [|a [|a' l] IH]; cbn [removelast length] in *; lia. }
  assert (H2 : (length (tl post) <= length post)%nat)
    by (destruct post; cbn; lia).
  destruct (prev_free pre); destruct (post_free post); lia.
Qed.

Section AcceptedRecords.

Variable ftm : Z.
Variable inoval : Z -> Z.
Variable hash : list Z -> Z.
Variable dataptr : scxfs_da_geometry -> Z -> Z -> Z.
Variable g : scxfs_da_geometry.
Variable ops : scxfs_dir_ops.

Let verify := __scxfs_dir3_data_check ftm inoval hash dataptr g ops.

Lemma accepted_records (b : buf) :
  ops_layout ops -> verify b = CheckGood ->
  exists e qend,
    scxfs_dir3_data_endp g b = Some e
    /\ walks ops b e (data_entry_offset ops) (block_records g ops b) qend
    /\ e <= qend
    /\ Forall (rec_ok b e) (block_records g ops b)
    /\ tiled (data_entry_offset ops) false (block_records g ops b)
    /\ (length (block_records g ops b) < scan_fuel g)%nat.
Proof.
  intros Hlay Hv.
  destruct (check_good_inv ftm inoval hash dataptr g ops b Hv)
    as (e & fs0 & He & _ & _ & _ & Hc & Hl).
  pose proof Hlay as (_ & _ & _ & L4 & _).
  rewrite L4 in Hc.
  destruct (checked_walks _ _ _ _ Hlay _ _ _ _ _ Hc) as (qend & Hw & Hq & Hok).
  pose proof (checked_tiled _ _ _ _ Hlay _ _ _ _ _ Hc) as Ht.
  exists e, qend. repeat split; auto.
Qed.

(** C7: a block that the verifier accepts has no two unused regions that
    touch: for regions u1, u2 with offset(u1) < offset(u2),
    offset(u1)+length(u1) < offset(u2); the verifier rejects a block in
    which an unused record immediately follows another; and [make_free]
    of an entry of an accepted block leaves the records before and after
    as they are and puts one unused record in place of the entry and of
    the unused records next to it, so that again no two unused regions
    touch. *)
Theorem no_adjacent_unused_regions (b : buf) :
  ops_layout ops ->
  (verify b = CheckGood -> no_adjacent (unused_regions g ops b))
  /\ (adjacent_unused (block_records g ops b) = true -> verify b <> CheckGood)
  /\ (verify b = CheckGood -> block_ok g ops b ->
      forall pre post offset len bp needlog,
        b_addr bp = b ->
        block_records g ops b = pre ++ REntry offset len :: post ->
        let b' := b_addr (fst (fst (scxfs_dir2_data_make_free
                                      {| geo := g; d_ops := ops |}
                                      bp offset len needlog))) in
        block_records g ops b' = merged_records pre offset len post
        /\ no_adjacent (unused_regions g ops b')).
Proof.
  intros Hlay. split; [|split].
  - intros Hv.
    destruct (accepted_records b Hlay Hv) as (e & qend & _ & _ & _ & _ & Ht & _).
    exact (tiled_no_adjacent _ _ _ Ht).
  - intros Hadj Hv.
    destruct (accepted_records b Hlay Hv) as (e & qend & _ & _ & _ & _ & Ht & _).
    rewrite (tiled_not_adjacent_unused _ _ _ Ht) in Hadj. discriminate.
  - intros Hv Hok pre post offset len bp needlog Hbp Hrecs. cbv zeta.
    destruct (accepted_records b Hlay Hv)
      as (e & qend & He & Hw & Hqe & Hrok & Ht & Hfuel).
    rewrite Hrecs in Hw, Hrok, Ht, Hfuel.
    pose proof Hlay as (L1 & L2 & L3 & L4 & L5 & Hes & _).
    pose proof Hok as [Hlen HB].
    pose proof (writes_spec g ops b e qend pre post offset len) as HW.
    use_ctx HW. destruct HW as (W1 & W2 & W3 & W4).
    pose proof (merged_bounds g ops b e qend pre post offset len) as HB0.
    use_ctx HB0. destruct HB0 as (B1 & B2 & B3 & B4 & B5 & _).
    assert (Hin : table_in (b_addr bp) (data_bestfree_p ops))
      by (rewrite Hbp; split; lia).
    pose proof (make_free_buffer {| geo := g; d_ops := ops |} bp offset len
                  needlog Hin) as F.
    cbn [geo d_ops] in F. rewrite Hbp in F.
    set (b' := b_addr (fst (fst (scxfs_dir2_data_make_free
                                   {| geo := g; d_ops := ops |}
                                   bp offset len needlog)))) in *.
    set (bw := make_free_writes g ops b offset len) in *.
    set (q := merged_off pre offset) in *.
    set (L := merged_len pre post len) in *.
    assert (Hft : dup_freetag b' q = SCXFS_DIR2_DATA_FREE_TAG).
    { unfold dup_freetag. rewrite (get_be16_same_outside _ _ _ _ _ F) by lia.
      exact W2. }
    assert (Hdl : dup_length b' q = L).
    { unfold dup_length. rewrite (get_be16_same_outside _ _ _ _ _ F) by lia.
      exact W3. }
    assert (Hsame : forall x, data_entry_offset ops <= x -> ~ (q <= x < q + L) ->
                              rd b' x = rd b x).
    { intros x Hx Hnot. destruct F as [_ F]. destruct W1 as [_ W1].
      rewrite F by lia. apply W1. lia. }
    pose proof (merged_walk g ops b e qend pre post offset len) as Hw'.
    use_ctx Hw'. specialize (Hw' b' Hsame Hft Hdl).
    pose proof (merged_tiled g ops b e qend pre post offset len) as Ht'.
    use_ctx Ht'.
    assert (He' : scxfs_dir3_data_endp g b' = Some e).
    { apply (endp_same_below g _ _ bw b' e F); try lia.
      apply (endp_same_below g _ _ b bw e W1); auto; lia. }
    assert (Hrec' : block_records g ops b' = merged_records pre offset len post).
    { unfold block_records. rewrite He', L4.
      apply (walks_records ops b' e _ _ _ Hw' Hqe).
      pose proof (merged_records_length pre post offset len). lia. }
    split; [exact Hrec'|].
    unfold unused_regions. rewrite Hrec'.
    exact (tiled_no_adjacent _ _ _ Ht').
Qed.

End AcceptedRecords.

(** ** [use_free] after [make_free] *)

Lemma table_remove_last (t : list slot) (dfp : option Z) (s0 s1 s2 : slot) :
  t = [s0; s1; s2] -> exists a c, table_remove t dfp = [a; c; (0, 0)].
Proof.
  intros ->. unfold table_remove.
  destruct dfp as [[|[p|p|]|p]|]; eauto.
Qed.

(** After a slot was removed, a record of positive length below 64 KiB is
    inserted and passes [check_new_free]. *)
Lemma check_new_free_after_remove (b : buf) (bf newdup nl : Z) (dfp : option Z) :
  table_in b bf -> bf + 12 <= newdup < 65536 -> 0 < dup_length b newdup ->
  let b4 := fst (scxfs_dir2_data_freeremove b bf dfp) in
  let r := scxfs_dir2_data_freeinsert b4 bf newdup nl in
  scxfs_dir2_data_check_new_free (fst (fst r)) bf (snd (fst r)) newdup = None
  /\ same_outside bf (bf + 12) b (fst (fst r)).
Proof.
  intros Hin Hnd Hpos. cbv zeta.
  destruct (freeremove_spec b bf dfp Hin) as (Ht4 & F4 & _).
  set (b4 := fst (scxfs_dir2_data_freeremove b bf dfp)) in *.
  pose proof (table_in_same _ _ _ _ _ F4 Hin) as Hin4.
  destruct (freeinsert_spec b4 bf newdup nl Hin4) as (Ht5 & Hr5 & F5 & _).
  set (r := scxfs_dir2_data_freeinsert b4 bf newdup nl) in *.
  pose proof (table_in_same _ _ _ _ _ F5 Hin4) as Hin5.
  assert (E4 : dup_length b4 newdup = dup_length b newdup)
    by (apply (get_be16_same_outside _ _ _ _ _ F4); lia).
  assert (E5 : dup_length (fst (fst r)) newdup = dup_length b newdup).
  { unfold dup_length. rewrite (get_be16_same_outside _ _ _ _ _ F5) by lia.
    exact E4. }
  split; [|eapply same_outside_trans; eauto].
  destruct (table_remove_last (bf_table b bf) dfp _ _ _ (bf_table_slots b bf))
    as (a & c & Er).
  rewrite Er in Ht4. rewrite Ht4 in Ht5, Hr5.
  pose proof Hin as [Hbf0 _].
  rewrite E4, (u16_small newdup) in Ht5, Hr5 by lia.
  unfold table_insert in Ht5, Hr5. cbn [snd] in Ht5, Hr5.
  unfold scxfs_dir2_data_check_new_free. rewrite E5.
  rewrite bf_table_slots in Ht5.
  destruct (dup_length b newdup >? snd a);
    [|destruct (dup_length b newdup >? snd c);
      [|destruct (Z.gtb_spec (dup_length b newdup) 0); [|lia]]];
    cbn [fst snd] in Ht5, Hr5; rewrite Hr5;
    inversion Ht5 as [[E0 E1 E2]];
    unfold slot_at in *.
  all: rewrite !Z.eqb_refl; reflexivity.
Qed.

Lemma blen_use_free_writes (b : buf) (dup offset len : Z) :
  blen (use_free_writes b dup offset len) = blen b.
Proof.
  unfold use_free_writes.
  repeat match goal with
         | |- context [if ?c then _ else _] => destruct c
         end; rewrite ?blen_put_be16; reflexivity.
Qed.

(** [use_free] returns 0, and its buffer is the buffer with the records
    written, up to the bytes of the best-free table. *)
Lemma use_free_buffer (args : scxfs_da_args) (bp : scxfs_buf)
    (dup offset len nl ns : Z) :
  let b := b_addr bp in
  let bf := data_bestfree_p (d_ops args) in
  let W := use_free_writes b dup offset len in
  let r := scxfs_dir2_data_use_free args bp dup offset len nl ns in
  table_in b bf ->
  scxfs_dir2_data_check_free b dup offset len = None ->
  bf + 12 <= dup -> 0 <= len ->
  (dup = offset -> dup + dup_length b dup <> u32 (offset + len) ->
   offset + len < 65536 /\ 0 < dup_length W (offset + len)) ->
  (dup <> offset -> dup + dup_length b dup = u32 (offset + len) ->
   0 < dup_length W dup) ->
  fst (fst (fst r)) = Ret0
  /\ same_outside bf (bf + 12) W (b_addr (snd (fst (fst r)))).
Proof.
  cbv zeta. intros Hin Hchk Hdup Hlen Hp1 Hp2.
  pose proof (blen_use_free_writes (b_addr bp) dup offset len) as Hbl.
  pose proof (table_in_blen _ _ _ Hbl Hin) as HinW.
  revert Hp1 Hp2 Hbl HinW.
  unfold scxfs_dir2_data_use_free, use_free_writes. rewrite Hchk. cbv zeta.
  set (bf := data_bestfree_p (d_ops args)) in *.
  destruct (check_free_dup_range _ _ _ _ Hchk) as (Hd & Hge & _).
  destruct (scxfs_dir2_data_freefind (b_addr bp) bf dup) as [i|] eqn:Ef.
  2:{ repeat match goal with
             | |- context [if ?c then _ else _] => destruct c
             end; intros; cbn [fst snd b_addr set_addr];
      rewrite ?b_addr_log_unused; cbn [fst snd b_addr set_addr];
      split; try reflexivity; apply same_outside_refl. }
  destruct (Z.eqb_spec dup offset) as [Eo|Eo];
    destruct (Z.eqb_spec (dup + dup_length (b_addr bp) dup) (u32 (offset + len)))
      as [Eb|Eb];
    cbn [andb]; intros Hp1 Hp2 Hbl HinW.
  - destruct (negb (bf_offset (b_addr bp) bf 2 =? 0)); cbn [fst snd];
      [split; [reflexivity|apply same_outside_refl]|].
    pose proof (freeremove_frame (b_addr bp) bf (Some i) Hin) as F.
    destruct (scxfs_dir2_data_freeremove (b_addr bp) bf (Some i)) as [b1 nl1].
    cbn [fst snd b_addr set_addr] in *. split; [reflexivity|exact F].
  - destruct (Hp1 Eo Eb) as [Hlt Hp1'].
    match goal with
    | |- context [scxfs_dir2_data_freeremove ?w ?t ?d] =>
        pose proof (fun n => check_new_free_after_remove w t (offset + len) n d
                               HinW ltac:(lia) Hp1') as HC;
        destruct (scxfs_dir2_data_freeremove w t d) as [b4 nl4]
    end.
    cbn [fst snd] in HC. specialize (HC nl4). destruct HC as [HC F].
    destruct (scxfs_dir2_data_freeinsert b4 bf (offset + len) nl4)
      as [[b5 d5] nl5].
    cbn [fst snd] in HC, F. rewrite HC.
    cbn [fst snd b_addr set_addr]. split; [reflexivity|exact F].
  - specialize (Hp2 Eo Eb).
    match goal with
    | |- context [scxfs_dir2_data_freeremove ?w ?t ?d] =>
        pose proof (fun n => check_new_free_after_remove w t dup n d
                               HinW ltac:(lia) Hp2) as HC;
        destruct (scxfs_dir2_data_freeremove w t d) as [b4 nl4]
    end.
    cbn [fst snd] in HC. specialize (HC nl4). destruct HC as [HC F].
    destruct (scxfs_dir2_data_freeinsert b4 bf dup nl4) as [[b5 d5] nl5].
    cbn [fst snd] in HC, F. rewrite HC.
    cbn [fst snd b_addr set_addr]. split; [reflexivity|exact F].
  - match goal with
    | |- context [negb (bf_length ?w ?t 2 =? 0)] =>
        destruct (negb (bf_length w t 2 =? 0))
    end.
    { cbn [fst snd]. rewrite b_addr_log_unused. cbn [b_addr set_addr].
      split; [reflexivity|apply same_outside_refl]. }
    match goal with
    | |- context [scxfs_dir2_data_freeremove ?w ?t ?d] =>
        pose proof (freeremove_frame w t d HinW) as F1;
        destruct (scxfs_dir2_data_freeremove w t d) as [b6 nl6]
    end.
    cbn [fst] in F1.
    pose proof (table_in_same _ _ _ _ _ F1 HinW) as Hin6.
    pose proof (freeinsert_frame b6 bf dup nl6 Hin6) as F2.
    destruct (scxfs_dir2_data_freeinsert b6 bf dup nl6) as [[b7 d7] nl7].
    cbn [fst] in F2.
    pose proof (table_in_same _ _ _ _ _ F2 Hin6) as Hin7.
    pose proof (freeinsert_frame b7 bf (offset + len) nl7 Hin7) as F3.
    destruct (scxfs_dir2_data_freeinsert b7 bf (offset + len) nl7)
      as [[b8 d8] nl8].
    cbn [fst snd b_addr set_addr] in *.
    split; [reflexivity|eauto using same_outside_trans].
Qed.

Lemma rd_oob (b : buf) (i : Z) : blen b <= i -> rd b i = 0.
Proof.
  intros H. unfold rd, blen in *.
  destruct (Z.ltb_spec i 0); [reflexivity|].
  rewrite nth_overflow by lia. reflexivity.
Qed.

(** The length field of an unused record that ends inside the buffer lies
    inside the buffer. *)
Lemma region_fields_in (b : buf) (p : Z) :
  0 <= p -> 0 < dup_length b p -> p + dup_length b p <= blen b ->
  p + 4 <= blen b.
Proof.
  intros Hp Hpos Hle.
  destruct (Z.le_gt_cases (p + 4) (blen b)) as [|Hgt]; [assumption|].
  exfalso. unfold dup_length, get_be16 in *.
  replace (p + 2 + 1) with (p + 3) in * by lia.
  rewrite (rd_oob b (p + 3)) in * by lia.
  pose proof (rd_range b (p + 2)) as R.
  destruct (Z.le_gt_cases (blen b) (p + 2)) as [Ho|Hi].
  - rewrite (rd_oob b (p + 2)) in * by lia. lia.
  - lia.
Qed.

Lemma rd_put_be16 (b : buf) (o v x : Z) :
  0 <= o -> o + 2 <= blen b ->
  rd (put_be16 b o v) x =
  if x =? o + 1 then v mod 256
  else if x =? o then (v / 256) mod 256
  else rd b x.
Proof.
  intros H1 H2. unfold put_be16. rewrite !rd_wr, !blen_wr.
  destruct (Z.eqb_spec x (o + 1)); destruct (Z.eqb_spec x o);
    destruct (Z.leb_spec 0 (o + 1)); destruct (Z.ltb_spec (o + 1) (blen b));
    destruct (Z.leb_spec 0 o); destruct (Z.ltb_spec o (blen b));
    cbn [andb]; try lia; reflexivity.
Qed.

Lemma u16_bytes (v : Z) :
  u16 v mod 256 = v mod 256 /\ (u16 v / 256) mod 256 = (v / 256) mod 256.
Proof.
  unfold u16.
  pose proof (Z.div_mod v 65536 ltac:(lia)) as D.
  set (r := v mod 65536) in *. set (k := v / 65536) in *.
  assert (E : v = r + (256 * k) * 256) by lia.
  split.
  - rewrite E at 1. rewrite Z.mod_add by lia. reflexivity.
  - rewrite E at 1. rewrite Z.div_add by lia.
    replace (r / 256 + 256 * k) with (r / 256 + k * 256) by lia.
    rewrite Z.mod_add by lia. reflexivity.
Qed.

(** Writing into a buffer the value that a field has in [b] extends the
    agreement with [b] to the bytes of the field. *)
Lemma agree_put_same (b c : buf) (P : Z -> Prop) (o v : Z) :
  (forall x, P x -> rd c x = rd b x) ->
  get_be16 b o = u16 v -> 0 <= o -> o + 2 <= blen c ->
  forall x, P x \/ o <= x < o + 2 -> rd (put_be16 c o v) x = rd b x.
Proof.
  intros HA Hv H1 H2 x Hx.
  destruct (get_be16_bytes _ _ _ Hv) as [B1 B2].
  destruct (u16_bytes v) as [U1 U2].
  rewrite rd_put_be16 by assumption.
  destruct (Z.eqb_spec x (o + 1)) as [->|N1]; [congruence|].
  destruct (Z.eqb_spec x o) as [->|N2]; [congruence|].
  apply HA. destruct Hx as [|]; [assumption|lia].
Qed.

Lemma agree_put_other (b c : buf) (P : Z -> Prop) (o v : Z) :
  (forall x, P x -> rd c x = rd b x) ->
  forall x, P x /\ ~ (o <= x < o + 2) -> rd (put_be16 c o v) x = rd b x.
Proof.
  intros HA x [Hx Hn]. rewrite rd_put_be16_other by lia. auto.
Qed.

(** A field reads the same in two buffers that agree on its bytes. *)
Lemma get_be16_agree (b c : buf) (P : Z -> Prop) (o : Z) :
  (forall x, P x -> rd c x = rd b x) -> P o -> P (o + 1) ->
  get_be16 c o = get_be16 b o.
Proof. intros HA H1 H2. unfold get_be16. rewrite !HA by assumption. reflexivity. Qed.

Section Restore.

Variable g : scxfs_da_geometry.
Variable ops : scxfs_dir_ops.
Variable b : buf.
Variables e qend : Z.
Variables pre post : list record.
Variables offset len : Z.
Variable b1 : buf.

Hypothesis Hlay : ops_layout ops.
Hypothesis Hok : block_ok g ops b.
Hypothesis He : scxfs_dir3_data_endp g b = Some e.
Hypothesis Hw :
  walks ops b e (data_entry_offset ops) (pre ++ REntry offset len :: post) qend.
Hypothesis Hqe : e <= qend.
Hypothesis Ht :
  tiled (data_entry_offset ops) false (pre ++ REntry offset len :: post).
Hypothesis Hrok : Forall (rec_ok b e) (pre ++ REntry offset len :: post).
Hypothesis HF :
  same_outside (data_bestfree_p ops) (data_bestfree_p ops + 12)
    (make_free_writes g ops b offset len) b1.

(** What [use_free] finds after [make_free]: the merged record passes
    [check_free], and the buffer differs from the one before [make_free]
    in the table and in the fields that [make_free] wrote. *)
Lemma freed_record :
  let q := merged_off pre offset in
  let L := merged_len pre post len in
  blen b1 = blen b
  /\ dup_length b1 q = L
  /\ scxfs_dir2_data_check_free b1 q offset len = None
  /\ forall x,
       ~ (data_bestfree_p ops <= x < data_bestfree_p ops + 12) ->
       ~ (q + 2 <= x < q + 4) -> ~ (q + L - 2 <= x < q + L) ->
       (prev_free pre = None -> ~ (offset <= x < offset + 2)) ->
       rd b1 x = rd b x.
Proof.
  cbv zeta.
  pose proof (writes_spec g ops b e qend pre post offset len) as HW.
  use_ctx HW. cbv zeta in HW. destruct HW as (W1 & W2 & W3 & W4).
  pose proof (writes_frame g ops b e qend pre post offset len) as HWf.
  use_ctx HWf. cbv zeta in HWf.
  pose proof (merged_bounds g ops b e qend pre post offset len) as HB0.
  use_ctx HB0. destruct HB0 as (B1 & B2 & B3 & B4 & B5 & _).
  pose proof (ctx_entry ops b e qend pre post offset len) as HC.
  use_ctx HC. destruct HC as (_ & _ & _ & Hl16 & _).
  pose proof Hlay as (L1 & L2 & L3 & _).
  pose proof Hok as [Hlen HB].
  destruct (endp_le_blksize _ _ _ He) as [_ Hmag].
  set (q := merged_off pre offset) in *.
  set (L := merged_len pre post len) in *.
  set (bw := make_free_writes g ops b offset len) in *.
  assert (Hft : dup_freetag b1 q = SCXFS_DIR2_DATA_FREE_TAG).
  { unfold dup_freetag. rewrite (get_be16_same_outside _ _ _ _ _ HF) by lia.
    exact W2. }
  assert (Hdl : dup_length b1 q = L).
  { unfold dup_length. rewrite (get_be16_same_outside _ _ _ _ _ HF) by lia.
    exact W3. }
  assert (Htag : get_be16 b1 (q + L - 2) = q).
  { rewrite (get_be16_same_outside _ _ _ _ _ HF) by lia. exact W4. }
  assert (Hm : hdr_magic b1 = hdr_magic b).
  { unfold hdr_magic.
    rewrite (get_be32_same_outside _ _ _ _ _ HF) by lia.
    apply (get_be32_same_outside _ _ _ _ _ W1). lia. }
  split; [|split; [exact Hdl|split]].
  - destruct HF as [E1 _]. destruct W1 as [E2 _]. lia.
  - unfold scxfs_dir2_data_check_free, scxfs_dir2_data_unused_tag_p.
    rewrite Hm, Hmag, Hft, Hdl, Htag, Z.eqb_refl. cbn [negb].
    rewrite u32_small by lia.
    destruct (Z.ltb_spec offset q); [lia|].
    destruct (Z.gtb_spec (offset + len) (q + L)); [lia|].
    rewrite Z.eqb_refl. reflexivity.
  - intros x X0 X1 X2 X3. destruct HF as [_ F]. rewrite F by lia.
    apply HWf; assumption.
Qed.

(** [use_free] of the entry's range on the merged record writes back the
    fields of the unused neighbours; what stays changed outside the table
    is the head of the range when no unused record preceded the entry, and
    its last two bytes when none followed. *)
Lemma restore_outside :
  let q := merged_off pre offset in
  let L := merged_len pre post len in
  let W := use_free_writes b1 q offset len in
  (forall x,
     ~ (data_bestfree_p ops <= x < data_bestfree_p ops + 12) ->
     (prev_free pre = None -> ~ (offset <= x < offset + 4)) ->
     (post_free post = None -> ~ (offset + len - 2 <= x < offset + len)) ->
     rd W x = rd b x)
  /\ (q = offset -> q + L <> offset + len -> 0 < dup_length W (offset + len))
  /\ (q <> offset -> q + L = offset + len -> 0 < dup_length W q).
Proof.
  cbv zeta.
  pose proof freed_record as HR. cbv zeta in HR.
  destruct HR as (Hbl & Hdl & _ & HA).
  pose proof (merged_bounds g ops b e qend pre post offset len) as HB0.
  use_ctx HB0. destruct HB0 as (B1 & B2 & B3 & B4 & B5 & _).
  pose proof (ctx_entry ops b e qend pre post offset len) as HC.
  use_ctx HC. destruct HC as (_ & _ & _ & Hl16 & _ & Hle & _).
  pose proof (ctx_prev ops b e qend pre post offset len) as Hp. use_ctx Hp.
  pose proof (ctx_post ops b e qend pre post offset len) as Hq. use_ctx Hq.
  pose proof Hlay as (L1 & L2 & L3 & _).
  pose proof Hok as [Hlen HB].
  unfold use_free_writes. rewrite Hdl. clear Hdl.
  revert HA B1 B2 B3 B5. unfold merged_off, merged_len.
  destruct (prev_free pre) as [[o l]|]; destruct (post_free post) as [[o2 l2]|];
    intros HA B1 B2 B3 B5; rewrite u32_small by lia.
  - destruct Hp as (pre0 & _ & P1 & P2 & P3 & P4 & P5 & P6 & _).
    destruct Hq as (post0 & _ & Q1 & Q2 & Q3 & Q4 & Q5 & Q6 & Q7 & _).
    pose proof (region_fields_in b o2 ltac:(lia) ltac:(lia) ltac:(lia)) as Q8.
    destruct (Z.eqb_spec o offset); [lia|].
    destruct (Z.eqb_spec (o + (l + len + l2)) (offset + len)); [lia|].
    cbn [andb]. cbv zeta.
    split; [|split; intros; lia].
    assert (A0 : forall x,
               ~ (data_bestfree_p ops <= x < data_bestfree_p ops + 12)
               /\ ~ (o + 2 <= x < o + 4)
               /\ ~ (o + (l + len + l2) - 2 <= x < o + (l + len + l2)) ->
               rd b1 x = rd b x).
    { intros x (X0 & X1 & X2). apply HA; auto. discriminate. }
    clear HA.
    unfold scxfs_dir2_data_unused_tag_p.
    assert (E1 : get_be16 b (o + 2) = u16 (offset - o)).
    { rewrite u16_small by lia. unfold dup_length in P5. lia. }
    pose proof (agree_put_same b b1 _ (o + 2) (offset - o) A0 E1
                  ltac:(lia) ltac:(lia)) as A1.
    set (c1 := put_be16 b1 (o + 2) (offset - o)) in *.
    assert (D1 : dup_length c1 o = l).
    { unfold dup_length.
      rewrite (get_be16_agree b c1 _ (o + 2) A1) by (right; lia). exact P5. }
    rewrite D1.
    assert (E2 : get_be16 b (o + l - 2) = u16 o).
    { rewrite u16_small by lia. rewrite <- P6. f_equal. lia. }
    pose proof (agree_put_same b c1 _ (o + l - 2) o A1 E2 ltac:(lia)
                  ltac:(unfold c1; rewrite blen_put_be16; lia)) as A2.
    set (c2 := put_be16 c1 (o + l - 2) o) in *.
    assert (E3 : get_be16 b (offset + len) = u16 SCXFS_DIR2_DATA_FREE_TAG).
    { rewrite <- Q1. exact Q4. }
    pose proof (agree_put_same b c2 _ (offset + len) SCXFS_DIR2_DATA_FREE_TAG
                  A2 E3 ltac:(lia)
                  ltac:(unfold c2, c1; rewrite !blen_put_be16; lia)) as A3.
    set (c3 := put_be16 c2 (offset + len) SCXFS_DIR2_DATA_FREE_TAG) in *.
    assert (D3 : dup_length c3 o = l).
    { unfold dup_length.
      rewrite (get_be16_agree b c3 _ (o + 2) A3) by (left; left; right; lia).
      exact P5. }
    rewrite D3.
    assert (E4 : get_be16 b (offset + len + 2) = u16 (l + len + l2 - len - l)).
    { rewrite u16_small by lia. unfold dup_length in Q5. rewrite Q1 in Q5. lia. }
    pose proof (agree_put_same b c3 _ (offset + len + 2) _ A3 E4 ltac:(lia)
                  ltac:(unfold c3, c2, c1; rewrite !blen_put_be16; lia)) as A4.
    set (c4 := put_be16 c3 (offset + len + 2) (l + len + l2 - len - l)) in *.
    assert (D4 : dup_length c4 (offset + len) = l2).
    { unfold dup_length.
      rewrite (get_be16_agree b c4 _ (offset + len + 2) A4) by (right; lia).
      unfold dup_length in Q5. rewrite Q1 in Q5. exact Q5. }
    rewrite D4.
    assert (E5 : get_be16 b (offset + len + l2 - 2) = u16 (offset + len)).
    { rewrite u16_small by lia. rewrite Q1 in Q7. exact Q7. }
    pose proof (agree_put_same b c4 _ (offset + len + l2 - 2) _ A4 E5 ltac:(lia)
                  ltac:(unfold c4, c3, c2, c1; rewrite !blen_put_be16; lia)) as A5.
    intros x X0 _ _. apply A5. cbv beta. lia.
  - destruct Hp as (pre0 & _ & P1 & P2 & P3 & P4 & P5 & P6 & _).
    destruct (Z.eqb_spec o offset); [lia|].
    destruct (Z.eqb_spec (o + (l + len + 0)) (offset + len)); [|lia].
    cbn [andb]. cbv zeta.
    assert (A0 : forall x,
               ~ (data_bestfree_p ops <= x < data_bestfree_p ops + 12)
               /\ ~ (o + 2 <= x < o + 4)
               /\ ~ (o + (l + len + 0) - 2 <= x < o + (l + len + 0)) ->
               rd b1 x = rd b x).
    { intros x (X0 & X1 & X2). apply HA; auto. discriminate. }
    clear HA.
    unfold scxfs_dir2_data_unused_tag_p.
    assert (E1 : get_be16 b (o + 2) = u16 (offset - o)).
    { rewrite u16_small by lia. unfold dup_length in P5. lia. }
    pose proof (agree_put_same b b1 _ (o + 2) (offset - o) A0 E1
                  ltac:(lia) ltac:(lia)) as A1.
    set (c1 := put_be16 b1 (o + 2) (offset - o)) in *.
    assert (D1 : dup_length c1 o = l).
    { unfold dup_length.
      rewrite (get_be16_agree b c1 _ (o + 2) A1) by (right; lia). exact P5. }
    rewrite D1.
    assert (E2 : get_be16 b (o + l - 2) = u16 o).
    { rewrite u16_small by lia. rewrite <- P6. f_equal. lia. }
    pose proof (agree_put_same b c1 _ (o + l - 2) o A1 E2 ltac:(lia)
                  ltac:(unfold c1; rewrite blen_put_be16; lia)) as A2.
    set (c2 := put_be16 c1 (o + l - 2) o) in *.
    split; [|split; [intros; lia|]].
    + intros x X0 _ X2. specialize (X2 eq_refl). apply A2. cbv beta. lia.
    + intros _ _. unfold dup_length.
      rewrite (get_be16_agree b c2 _ (o + 2) A2) by (left; right; lia).
      fold (dup_length b o). lia.
  - destruct Hq as (post0 & _ & Q1 & Q2 & Q3 & Q4 & Q5 & Q6 & Q7 & _).
    pose proof (region_fields_in b o2 ltac:(lia) ltac:(lia) ltac:(lia)) as Q8.
    rewrite Z.eqb_refl.
    destruct (Z.eqb_spec (offset + (0 + len + l2)) (offset + len)); [lia|].
    cbn [andb]. cbv zeta.
    assert (A0 : forall x,
               ~ (data_bestfree_p ops <= x < data_bestfree_p ops + 12)
               /\ ~ (offset <= x < offset + 4)
               /\ ~ (offset + (0 + len + l2) - 2 <= x < offset + (0 + len + l2)) ->
               rd b1 x = rd b x).
    { intros x (X0 & X1 & X2). apply HA; auto; lia. }
    clear HA.
    unfold scxfs_dir2_data_unused_tag_p.
    assert (E3 : get_be16 b (offset + len) = u16 SCXFS_DIR2_DATA_FREE_TAG).
    { rewrite <- Q1. exact Q4. }
    pose proof (agree_put_same b b1 _ (offset + len) SCXFS_DIR2_DATA_FREE_TAG
                  A0 E3 ltac:(lia) ltac:(lia)) as A1.
    set (c1 := put_be16 b1 (offset + len) SCXFS_DIR2_DATA_FREE_TAG) in *.
    assert (E4 : get_be16 b (offset + len + 2) = u16 (0 + len + l2 - len)).
    { rewrite u16_small by lia. unfold dup_length in Q5. rewrite Q1 in Q5. lia. }
    pose proof (agree_put_same b c1 _ (offset + len + 2) _ A1 E4 ltac:(lia)
                  ltac:(unfold c1; rewrite !blen_put_be16; lia)) as A2.
    set (c2 := put_be16 c1 (offset + len + 2) (0 + len + l2 - len)) in *.
    assert (D2 : dup_length c2 (offset + len) = l2).
    { unfold dup_length.
      rewrite (get_be16_agree b c2 _ (offset + len + 2) A2) by (right; lia).
      unfold dup_length in Q5. rewrite Q1 in Q5. exact Q5. }
    rewrite D2.
    assert (E5 : get_be16 b (offset + len + l2 - 2) = u16 (offset + len)).
    { rewrite u16_small by lia. rewrite Q1 in Q7. exact Q7. }
    pose proof (agree_put_same b c2 _ (offset + len + l2 - 2) _ A2 E5 ltac:(lia)
                  ltac:(unfold c2, c1; rewrite !blen_put_be16; lia)) as A3.
    set (c3 := put_be16 c2 (offset + len + l2 - 2) (offset + len)) in *.
    split; [|split; [|intros; lia]].
    + intros x X0 X1 _. specialize (X1 eq_refl). apply A3. cbv beta. lia.
    + intros _ _. unfold dup_length.
      rewrite (get_be16_agree b c3 _ (offset + len + 2) A3)
        by (left; right; lia).
      unfold dup_length in Q5. rewrite Q1 in Q5. lia.
  - rewrite Z.eqb_refl.
    destruct (Z.eqb_spec (offset + (0 + len + 0)) (offset + len)); [|lia].
    cbn [andb].
    split; [|split; intros; lia].
    intros x X0 X1 X2. specialize (X1 eq_refl). specialize (X2 eq_refl).
    apply HA; auto; lia.
Qed.

End Restore.

Section RoundTrip.

Variable ftm : Z.
Variable inoval : Z -> Z.
Variable hash : list Z -> Z.
Variable dataptr : scxfs_da_geometry -> Z -> Z -> Z.
Variable g : scxfs_da_geometry.
Variable ops : scxfs_dir_ops.

Let verify := __scxfs_dir3_data_check ftm inoval hash dataptr g ops.

(** C1, as amended: for a block that the verifier accepts and an entry of
    it at [offset, offset+len), [make_free] of the range followed by
    [use_free] of the same range on the unused record that now covers it
    returns 0 and restores every byte that lies outside the best-free
    table and outside the range; inside the range only its first four
    bytes (free tag and length of the record written when no unused record
    preceded the entry) and its last two (the tag of the record written
    when none followed) can differ. *)
Theorem make_free_use_free_restores (b : buf) :
  ops_layout ops -> block_ok g ops b -> verify b = CheckGood ->
  forall pre post offset len bp needlog,
    b_addr bp = b ->
    block_records g ops b = pre ++ REntry offset len :: post ->
    let args := {| geo := g; d_ops := ops |} in
    let r1 := scxfs_dir2_data_make_free args bp offset len needlog in
    let r2 := scxfs_dir2_data_use_free args (fst (fst r1))
                (merged_off pre offset) offset len (snd (fst r1)) (snd r1) in
    let b2 := b_addr (snd (fst (fst r2))) in
    fst (fst (fst r2)) = Ret0
    /\ blen b2 = blen b
    /\ forall x,
         ~ (data_bestfree_p ops <= x < data_bestfree_p ops + 12) ->
         ~ (offset <= x < offset + 4) ->
         ~ (offset + len - 2 <= x < offset + len) ->
         rd b2 x = rd b x.
Proof.
  intros Hlay Hok Hv pre post offset len bp needlog Hbp Hrecs. cbv zeta.
  destruct (accepted_records ftm inoval hash dataptr g ops b Hlay Hv)
    as (e & qend & He & Hw & Hqe & Hrok & Ht & _).
  rewrite Hrecs in Hw, Hrok, Ht.
  pose proof Hlay as (L1 & L2 & L3 & _).
  pose proof Hok as [Hlen HB].
  assert (Hin : table_in (b_addr bp) (data_bestfree_p ops))
    by (rewrite Hbp; split; lia).
  pose proof (make_free_buffer {| geo := g; d_ops := ops |} bp offset len
                needlog Hin) as F.
  cbn [geo d_ops] in F. rewrite Hbp in F.
  set (r1 := scxfs_dir2_data_make_free {| geo := g; d_ops := ops |}
               bp offset len needlog) in *.
  set (b1 := b_addr (fst (fst r1))) in *.
  pose proof (freed_record g ops b e qend pre post offset len b1) as HR.
  use_ctx HR. cbv zeta in HR. destruct HR as (Hbl & Hdl & Hchk & _).
  pose proof (restore_outside g ops b e qend pre post offset len b1) as HO.
  use_ctx HO. cbv zeta in HO. destruct HO as (O1 & O2 & O3).
  pose proof (merged_bounds g ops b e qend pre post offset len) as HB0.
  use_ctx HB0. destruct HB0 as (B1 & B2 & B3 & B4 & B5 & _).
  pose proof (ctx_entry ops b e qend pre post offset len) as HC.
  use_ctx HC. destruct HC as (_ & _ & _ & Hl16 & _ & Hle & _).
  set (q := merged_off pre offset) in *.
  set (L := merged_len pre post len) in *.
  assert (Hin1 : table_in b1 (data_bestfree_p ops))
    by (split; lia).
  pose proof (use_free_buffer {| geo := g; d_ops := ops |} (fst (fst r1))
                q offset len (snd (fst r1)) (snd r1)) as HU.
  cbv zeta in HU. cbn [geo d_ops] in HU. fold b1 in HU.
  rewrite Hdl in HU. rewrite (u32_small (offset + len)) in HU by lia.
  assert (O2' : q = offset -> q + L <> offset + len ->
                offset + len < 65536 /\ 0 < dup_length
                  (use_free_writes b1 q offset len) (offset + len))
    by (intros E1 E2; split; [lia|exact (O2 E1 E2)]).
  specialize (HU Hin1 Hchk ltac:(lia) ltac:(lia) O2' O3).
  destruct HU as [U1 [U2 U3]].
  split; [exact U1|split].
  - rewrite U2, blen_use_free_writes. lia.
  - intros x X0 X1 X2. rewrite U3 by lia. apply O1; auto.
Qed.

End RoundTrip.

(** ** The results on the sample blocks *)

Lemma sample_layout : ops_layout sample_ops.
Proof. apply (format_variants_layout 0 9). right. left. reflexivity. Qed.

Lemma sample_block_ok : block_ok sample_geo sample_ops sample_block.
Proof. split; [reflexivity|cbn; lia]. Qed.

Lemma sample_accepted : sample_verify sample_block = CheckGood.
Proof. vm_compute. reflexivity. Qed.

(** C2 as stated fails: [sample_block] is accepted by the verifier with
    the two regions of 16 bytes listed as 64, then 32; the scan meets 32
    first and lists them as 32, then 64. *)
Lemma freescan_reorders_equal_lengths :
  sample_verify sample_block = CheckGood
  /\ bf_table sample_block 4 = [(96, 32); (64, 16); (32, 16)]
  /\ exists b' loghead,
       scxfs_dir2_data_freescan_int sample_geo sample_ops sample_block
       = Some (b', loghead)
       /\ bf_table b' 4 = [(96, 32); (32, 16); (64, 16)]
       /\ bf_table b' 4 <> bf_table sample_block 4.
Proof.
  split; [exact sample_accepted|]. split; [vm_compute; reflexivity|].
  destruct (scxfs_dir2_data_freescan_int sample_geo sample_ops sample_block)
    as [[b' lh]|] eqn:E; [|vm_compute in E; discriminate].
  exists b', lh. split; [reflexivity|].
  assert (Et : bf_table b' 4 = [(96, 32); (32, 16); (64, 16)]).
  { vm_compute in E. inversion E. vm_compute. reflexivity. }
  split; [exact Et|]. rewrite Et. vm_compute. discriminate.
Qed.

Lemma no_adjacent_unused_regions_witness :
  ops_layout sample_ops
  /\ no_adjacent (unused_regions sample_geo sample_ops sample_block)
  /\ (let b' := b_addr (fst (fst (scxfs_dir2_data_make_free sample_args
                                    sample_buf 48 16 0))) in
      block_records sample_geo sample_ops b'
      = [REntry 16 16; RUnused 32 48; REntry 80 16; RUnused 96 32]
      /\ no_adjacent (unused_regions sample_geo sample_ops b')).
Proof.
  split; [exact sample_layout|].
  destruct (no_adjacent_unused_regions 9 (fun _ => 0) (fun _ => 0)
              (fun _ _ o => o / 8) sample_geo sample_ops sample_block
              sample_layout) as (H1 & _ & H3).
  split; [exact (H1 sample_accepted)|].
  exact (H3 sample_accepted sample_block_ok
           [REntry 16 16; RUnused 32 16]
           [RUnused 64 16; REntry 80 16; RUnused 96 32]
           48 16 sample_buf 0 eq_refl
           ltac:(vm_compute; reflexivity)).
Defined.

Lemma make_free_use_free_restores_witness :
  ops_layout sample_ops /\ block_ok sample_geo sample_ops sample_block
  /\ sample_verify sample_block = CheckGood
  /\ block_records sample_geo sample_ops sample_block
     = [REntry 16 16; RUnused 32 16]
         ++ REntry 48 16 :: [RUnused 64 16; REntry 80 16; RUnused 96 32]
  /\ (let r1 := scxfs_dir2_data_make_free sample_args sample_buf 48 16 0 in
      let r2 := scxfs_dir2_data_use_free sample_args (fst (fst r1))
                  32 48 16 (snd (fst r1)) (snd r1) in
      let b2 := b_addr (snd (fst (fst r2))) in
      fst (fst (fst r2)) = Ret0
      /\ blen b2 = blen sample_block
      /\ forall x, ~ (4 <= x < 4 + 12) -> ~ (48 <= x < 48 + 4) ->
                   ~ (48 + 16 - 2 <= x < 48 + 16) ->
                   rd b2 x = rd sample_block x).
Proof.
  assert (Hr : block_records sample_geo sample_ops sample_block
               = [REntry 16 16; RUnused 32 16]
                   ++ REntry 48 16 :: [RUnused 64 16; REntry 80 16; RUnused 96 32])
    by (vm_compute; reflexivity).
  split; [exact sample_layout|]. split; [exact sample_block_ok|].
  split; [exact sample_accepted|]. split; [exact Hr|].
  exact (make_free_use_free_restores 9 (fun _ => 0) (fun _ => 0)
           (fun _ _ o => o / 8) sample_geo sample_ops sample_block
           sample_layout sample_block_ok sample_accepted
           [REntry 16 16; RUnused 32 16]
           [RUnused 64 16; REntry 80 16; RUnused 96 32]
           48 16 sample_buf 0 eq_refl Hr).
Defined.

(** C1 as stated fails.  On [sample_block] the entry at 16 is freed and
    the range taken again from the merged record: both calls succeed, and
    the first bytes of the range hold the free tag and the length that
    [make_free] wrote, not the entry's inode number.  On [tie_block] the
    entry at 80 is freed and taken again: the table listed the two regions
    of 16 bytes as 64, then 32, and lists them as 32, then 64 afterwards. *)
Lemma make_free_use_free_changes_bytes :
  (sample_verify sample_block = CheckGood
   /\ In (REntry 16 16) (block_records sample_geo sample_ops sample_block)
   /\ let r1 := scxfs_dir2_data_make_free sample_args sample_buf 16 16 0 in
      let r2 := scxfs_dir2_data_use_free sample_args (fst (fst r1))
                  16 16 16 (snd (fst r1)) (snd r1) in
      let b2 := b_addr (snd (fst (fst r2))) in
      block_records sample_geo sample_ops (b_addr (fst (fst r1)))
      = [RUnused 16 32; REntry 48 16; RUnused 64 16; REntry 80 16;
         RUnused 96 32]
      /\ fst (fst (fst r2)) = Ret0
      /\ map (rd b2) [16; 17; 18; 19] = [255; 255; 0; 32]
      /\ map (rd sample_block) [16; 17; 18; 19] = [0; 0; 0; 0]
      /\ b2 <> sample_block)
  /\ (sample_verify tie_block = CheckGood
      /\ In (REntry 80 16) (block_records sample_geo sample_ops tie_block)
      /\ let r1 := scxfs_dir2_data_make_free sample_args tie_buf 80 16 0 in
         let r2 := scxfs_dir2_data_use_free sample_args (fst (fst r1))
                     64 80 16 (snd (fst r1)) (snd r1) in
         let b2 := b_addr (snd (fst (fst r2))) in
         block_records sample_geo sample_ops (b_addr (fst (fst r1)))
         = [REntry 16 16; RUnused 32 16; REntry 48 16; RUnused 64 32;
            REntry 96 16; REntry 112 16]
         /\ fst (fst (fst r2)) = Ret0
         /\ bf_table tie_block 4 = [(64, 16); (32, 16); (0, 0)]
         /\ bf_table b2 4 = [(32, 16); (64, 16); (0, 0)]).
Proof.
  cbv zeta. split.
  - split; [exact sample_accepted|].
    split; [vm_compute; left; reflexivity|].
    split; [vm_compute; reflexivity|].
    split; [vm_compute; reflexivity|].
    split; [vm_compute; reflexivity|].
    split; [vm_compute; reflexivity|].
    intros E. apply (f_equal (fun c => rd c 16)) in E.
    vm_compute in E. discriminate.
  - split; [vm_compute; reflexivity|].
    split; [vm_compute; tauto|].
    repeat split; vm_compute; reflexivity.
Qed.

(** * Further properties of the code *)

(** ** The table: insert, remove, look up *)

Lemma bf_table_inv (b : buf) (bf : Z) (s0 s1 s2 : slot) :
  bf_table b bf = [s0; s1; s2] ->
  slot_at b bf 0 = s0 /\ slot_at b bf 1 = s1 /\ slot_at b bf 2 = s2.
Proof. rewrite bf_table_slots. intros H. inversion H. auto. Qed.

Lemma slot_at_fields (b : buf) (bf i : Z) (s : slot) :
  slot_at b bf i = s -> bf_offset b bf i = fst s /\ bf_length b bf i = snd s.
Proof. intros <-. auto. Qed.

(** Insert, then look up: when [freeinsert] enters a region that the table
    did not hold yet and returns a slot, [freefind] of the same region on
    the new table returns that slot.  The table is as the verifier wants
    it: slot 1 is not longer than slot 0 and a slot without offset has no
    length. *)
Theorem freefind_after_freeinsert (b : buf) (bf dup lh i : Z) :
  table_in b bf -> bf + 12 <= dup < 65536 ->
  bf_length b bf 1 <= bf_length b bf 0 ->
  (forall j, In j bf_slots -> bf_offset b bf j = 0 -> bf_length b bf j = 0) ->
  (forall j, In j bf_slots -> bf_offset b bf j <> dup) ->
  snd (fst (scxfs_dir2_data_freeinsert b bf dup lh)) = Some i ->
  scxfs_dir2_data_freefind
    (fst (fst (scxfs_dir2_data_freeinsert b bf dup lh))) bf dup = Some i.
Proof.
  intros Hin Hdup Hs Hz Hnew Hret.
  destruct (freeinsert_spec b bf dup lh Hin) as (Ht & Hr & F & _).
  set (b' := fst (fst (scxfs_dir2_data_freeinsert b bf dup lh))) in *.
  rewrite Hret in Hr.
  pose proof Hin as [Hbf0 _].
  assert (Hl : dup_length b' dup = dup_length b dup)
    by (apply (get_be16_same_outside _ _ _ _ _ F); lia).
  pose proof (get_be16_range b (dup + 2)) as RL. fold (dup_length b dup) in RL.
  pose proof (Hz 0 ltac:(cbn; auto)) as Z0. pose proof (Hz 1 ltac:(cbn; auto)) as Z1.
  pose proof (Hnew 0 ltac:(cbn; auto)) as N0.
  pose proof (Hnew 1 ltac:(cbn; auto)) as N1.
  pose proof (get_be16_range b (bf + sizeof_scxfs_dir2_data_free * 0 + 2)) as R0.
  pose proof (get_be16_range b (bf + sizeof_scxfs_dir2_data_free * 1 + 2)) as R1.
  pose proof (get_be16_range b (bf + sizeof_scxfs_dir2_data_free * 2 + 2)) as R2.
  fold (bf_length b bf 0) in R0. fold (bf_length b bf 1) in R1.
  fold (bf_length b bf 2) in R2.
  rewrite (bf_table_slots b bf) in Ht, Hr.
  unfold table_insert, slot_at in Ht, Hr. cbn [snd fst] in Ht, Hr.
  rewrite (u16_small dup) in Ht by lia.
  unfold scxfs_dir2_data_freefind, bf_slots, freefind_loop.
  rewrite Hl, (u32_small dup) by lia.
  change (SCXFS_DIR2_DATA_FD_COUNT - 1) with 2.
  destruct (Z.gtb_spec (dup_length b dup) (bf_length b bf 0));
    [|destruct (Z.gtb_spec (dup_length b dup) (bf_length b bf 1));
      [|destruct (Z.gtb_spec (dup_length b dup) (bf_length b bf 2))]];
    cbn [fst snd] in Ht, Hr; inversion Hr; subst i;
    destruct (bf_table_inv _ _ _ _ _ Ht) as (T0 & T1 & T2);
    apply slot_at_fields in T0, T1, T2; cbn [fst snd] in T0, T1, T2;
    destruct T0 as [O0 L0]; destruct T1 as [O1 L1]; destruct T2 as [O2 L2];
    rewrite ?O0, ?O1, ?O2, ?L0, ?L1, ?L2.
  - destruct (Z.ltb_spec (dup_length b dup) (bf_length b bf 1)); [lia|].
    destruct (Z.eqb_spec dup 0); [lia|]. rewrite Z.eqb_refl. reflexivity.
  - destruct (Z.ltb_spec (dup_length b dup) (bf_length b bf 1)); [lia|].
    destruct (Z.eqb_spec (bf_offset b bf 0) 0) as [E|]; [specialize (Z0 E); lia|].
    destruct (Z.eqb_spec (bf_offset b bf 0) dup); [contradiction|].
    destruct (Z.eqb_spec dup 0); [lia|]. rewrite Z.eqb_refl. reflexivity.
  - rewrite Z.ltb_irrefl.
    destruct (Z.eqb_spec (bf_offset b bf 0) 0) as [E|]; [specialize (Z0 E); lia|].
    destruct (Z.eqb_spec (bf_offset b bf 0) dup); [contradiction|].
    destruct (Z.eqb_spec (bf_offset b bf 1) 0) as [E|]; [specialize (Z1 E); lia|].
    destruct (Z.eqb_spec (bf_offset b bf 1) dup); [contradiction|].
    destruct (Z.eqb_spec dup 0); [lia|]. rewrite Z.eqb_refl. reflexivity.
Qed.

(** Remove, then look up: after [freeremove] of the slot that [freefind]
    gave for a region, [freefind] of the region returns null, provided no
    other slot names the same offset. *)
Theorem freefind_after_freeremove (b : buf) (bf dup i : Z) :
  table_in b bf -> bf + 12 <= dup ->
  scxfs_dir2_data_freefind b bf dup = Some i ->
  (forall j, In j bf_slots -> j <> i -> bf_offset b bf j <> u32 dup) ->
  scxfs_dir2_data_freefind
    (fst (scxfs_dir2_data_freeremove b bf (Some i))) bf dup = None.
Proof.
  intros Hin Hdup Hf Hd.
  destruct (freefind_some _ _ _ _ Hf) as (Hi & Ho & Hnz).
  destruct (freeremove_spec b bf (Some i) Hin) as (Ht & F & _).
  set (b' := fst (scxfs_dir2_data_freeremove b bf (Some i))) in *.
  pose proof Hin as [Hbf0 _].
  pose proof (get_be16_range b' (dup + 2)) as RL. fold (dup_length b' dup) in RL.
  rewrite (bf_table_slots b bf) in Ht. unfold table_remove, slot_at in Ht.
  unfold scxfs_dir2_data_freefind, bf_slots, freefind_loop.
  change (SCXFS_DIR2_DATA_FD_COUNT - 1) with 2.
  pose proof (Hd 0 ltac:(cbn; auto)) as D0.
  pose proof (Hd 1 ltac:(cbn; auto)) as D1.
  pose proof (Hd 2 ltac:(cbn; auto)) as D2.
  destruct (slot_cases i Hi) as [-> | [-> | ->]];
    destruct (bf_table_inv _ _ _ _ _ Ht) as (T0 & T1 & T2);
    apply slot_at_fields in T0, T1, T2; cbn [fst snd] in T0, T1, T2;
    destruct T0 as [O0 L0]; destruct T1 as [O1 L1]; destruct T2 as [O2 L2];
    rewrite ?O0, ?O1, ?O2, ?L0, ?L1, ?L2;
    (destruct (Z.ltb_spec (dup_length b' dup) 0); [lia|]);
    repeat match goal with
           | |- context [Z.eqb ?x ?y] =>
               destruct (Z.eqb_spec x y); try reflexivity; try lia
           end.
Qed.

(** Insert, then remove: [freeremove] of the slot that [freeinsert] returned
    brings slots 0 and 1 back to what they were and leaves slot 2 empty;
    what was in slot 2 before the insertion is lost.  No byte outside the
    table changes. *)
Theorem freeremove_after_freeinsert (b : buf) (bf dup lh i : Z) :
  table_in b bf ->
  snd (fst (scxfs_dir2_data_freeinsert b bf dup lh)) = Some i ->
  let b1 := fst (fst (scxfs_dir2_data_freeinsert b bf dup lh)) in
  let b2 := fst (scxfs_dir2_data_freeremove b1 bf (Some i)) in
  bf_table b2 bf = [slot_at b bf 0; slot_at b bf 1; (0, 0)]
  /\ same_outside bf (bf + 12) b b2.
Proof.
  intros Hin Hret. cbv zeta.
  destruct (freeinsert_spec b bf dup lh Hin) as (Ht & Hr & F & _).
  set (b1 := fst (fst (scxfs_dir2_data_freeinsert b bf dup lh))) in *.
  pose proof (table_in_same _ _ _ _ _ F Hin) as Hin1.
  destruct (freeremove_spec b1 bf (Some i) Hin1) as (Ht2 & F2 & _).
  split; [|eapply same_outside_trans; eauto].
  rewrite Ht2, Ht. rewrite Hret in Hr.
  rewrite (bf_table_slots b bf) in *. unfold table_insert in *.
  cbn [snd] in *.
  repeat match type of Hr with
         | context [?x >? ?y] => destruct (x >? y)
         end; cbn [fst snd] in *; inversion Hr; subst i; reflexivity.
Qed.

Lemma get_be16_eq_bytes (b b' : buf) (o : Z) :
  get_be16 b' o = get_be16 b o ->
  rd b' o = rd b o /\ rd b' (o + 1) = rd b (o + 1).
Proof.
  intros H.
  destruct (get_be16_bytes b' o _ H) as [A1 A2].
  destruct (get_be16_bytes b o _ eq_refl) as [B1 B2].
  split; congruence.
Qed.

Lemma table_bytes_eq (b b' : buf) (bf : Z) :
  bf_table b' bf = bf_table b bf ->
  forall x, bf <= x < bf + 12 -> rd b' x = rd b x.
Proof.
  intros H x Hx. rewrite !bf_table_slots in H. unfold slot_at in H.
  inversion H as [[O0 L0 O1 L1 O2 L2]]. clear H.
  unfold bf_offset, bf_length, sizeof_scxfs_dir2_data_free in *.
  apply get_be16_eq_bytes in O0, L0, O1, L1, O2, L2.
  destruct O0 as [A0 A1]. destruct L0 as [A2 A3].
  destruct O1 as [A4 A5]. destruct L1 as [A6 A7].
  destruct O2 as [A8 A9]. destruct L2 as [A10 A11].
  assert (C : x = bf + (2 + 2) * 0 \/ x = bf + (2 + 2) * 0 + 1
              \/ x = bf + (2 + 2) * 0 + 2 \/ x = bf + (2 + 2) * 0 + 2 + 1
              \/ x = bf + (2 + 2) * 1 \/ x = bf + (2 + 2) * 1 + 1
              \/ x = bf + (2 + 2) * 1 + 2 \/ x = bf + (2 + 2) * 1 + 2 + 1
              \/ x = bf + (2 + 2) * 2 \/ x = bf + (2 + 2) * 2 + 1
              \/ x = bf + (2 + 2) * 2 + 2 \/ x = bf + (2 + 2) * 2 + 2 + 1) by lia.
  repeat (destruct C as [-> | C]); try subst x; assumption.
Qed.

(** Remove, then insert: when slot [i] holds the region at [dup], the
    lengths do not increase along the table and the next slot is strictly
    shorter, [freeremove] of slot [i] followed by [freeinsert] of the
    region puts it back in slot [i] and every byte of the buffer is as
    before. *)
Theorem freeinsert_after_freeremove (b : buf) (bf dup lh i : Z) :
  table_in b bf -> bf + 12 <= dup < 65536 ->
  In i bf_slots ->
  slot_at b bf i = (dup, dup_length b dup) ->
  0 < dup_length b dup ->
  bf_length b bf 1 <= bf_length b bf 0 ->
  bf_length b bf 2 <= bf_length b bf 1 ->
  (i < 2 -> bf_length b bf (i + 1) < bf_length b bf i) ->
  let b1 := fst (scxfs_dir2_data_freeremove b bf (Some i)) in
  let r := scxfs_dir2_data_freeinsert b1 bf dup lh in
  bf_table (fst (fst r)) bf = bf_table b bf
  /\ snd (fst r) = Some i
  /\ forall x, rd (fst (fst r)) x = rd b x.
Proof.
  intros Hin Hdup Hi Hs Hpos S1 S2 Hstrict. cbv zeta.
  destruct (freeremove_spec b bf (Some i) Hin) as (Ht1 & F1 & _).
  set (b1 := fst (scxfs_dir2_data_freeremove b bf (Some i))) in *.
  pose proof (table_in_same _ _ _ _ _ F1 Hin) as Hin1.
  destruct (freeinsert_spec b1 bf dup lh Hin1) as (Ht2 & Hr2 & F2 & _).
  set (r := scxfs_dir2_data_freeinsert b1 bf dup lh) in *.
  pose proof Hin as [Hbf0 _].
  assert (Hl : dup_length b1 dup = dup_length b dup)
    by (apply (get_be16_same_outside _ _ _ _ _ F1); lia).
  rewrite Ht1, Hl, (u16_small dup) in Ht2, Hr2 by lia.
  assert (Ht : bf_table (fst (fst r)) bf = bf_table b bf /\ snd (fst r) = Some i).
  { rewrite Ht2, Hr2. rewrite (bf_table_slots b bf).
    unfold table_remove, table_insert.
    apply slot_at_fields in Hs. cbn [fst snd] in Hs. destruct Hs as [Ho Hlen].
    unfold slot_at in *.
    destruct (slot_cases i Hi) as [-> | [-> | ->]]; cbn [fst snd];
      try specialize (Hstrict ltac:(lia)); cbn [Z.add Pos.add Pos.succ] in *;
      rewrite ?Ho, ?Hlen in *;
      repeat match goal with
             | |- context [?x >? ?y] => destruct (Z.gtb_spec x y); try lia
             end; cbn [fst snd]; split; reflexivity. }
  destruct Ht as [Ht Hr]. split; [exact Ht|]. split; [exact Hr|].
  intros x.
  destruct (Z.lt_ge_cases x bf) as [|Hge];
    [destruct F1 as [_ F1]; destruct F2 as [_ F2]; rewrite F2, F1 by lia;
     reflexivity|].
  destruct (Z.lt_ge_cases x (bf + 12)) as [Hlt|];
    [|destruct F1 as [_ F1]; destruct F2 as [_ F2]; rewrite F2, F1 by lia;
      reflexivity].
  apply (table_bytes_eq _ _ bf Ht). lia.
Qed.

(** ** The table check of the verifier *)

Ltac bool_hyps :=
  repeat match goal with
         | H : (_ =? _) = true |- _ => apply Z.eqb_eq in H
         | H : (_ =? _) = false |- _ => apply Z.eqb_neq in H
         | H : (_ <? _) = true |- _ => apply Z.ltb_lt in H
         | H : (_ <? _) = false |- _ => apply Z.ltb_ge in H
         | H : (_ >? _) = true |- _ => rewrite Z.gtb_ltb in H; apply Z.ltb_lt in H
         | H : (_ >? _) = false |- _ => rewrite Z.gtb_ltb in H; apply Z.ltb_ge in H
         end.

(** What [freefind_verify] has checked when it reports no error: the
    lengths of the table do not increase, a slot without offset has no
    length and only such slots follow it, every used slot either is the
    region itself (same offset, same length) or lies entirely before or
    after it, the used slots met before the region's own are at least as
    long as the region, and the slot handed back is the one [freefind]
    gives. *)
Theorem freefind_verify_accepts (b : buf) (bf dup : Z) (r : option Z) :
  scxfs_dir2_data_freefind_verify b bf dup = (None, r) ->
  let off := u32 dup in
  let len := dup_length b dup in
  bf_length b bf 1 <= bf_length b bf 0
  /\ bf_length b bf 2 <= bf_length b bf 1
  /\ (forall i, In i bf_slots -> bf_offset b bf i = 0 -> bf_length b bf i = 0)
  /\ (bf_offset b bf 0 = 0 -> bf_offset b bf 1 = 0)
  /\ (bf_offset b bf 1 = 0 -> bf_offset b bf 2 = 0)
  /\ (forall i, In i bf_slots -> bf_offset b bf i <> 0 ->
        (bf_offset b bf i = off /\ bf_length b bf i = len)
        \/ (off < bf_offset b bf i /\ u32 (off + len) <= bf_offset b bf i)
        \/ (bf_offset b bf i < off /\ bf_offset b bf i + bf_length b bf i <= off))
  /\ (forall i, In i bf_slots -> bf_offset b bf i <> 0 ->
        (forall j, 0 <= j <= i -> bf_offset b bf j <> off) ->
        len <= bf_length b bf i)
  /\ r = scxfs_dir2_data_freefind b bf dup.
Proof.
  unfold scxfs_dir2_data_freefind_verify. intros H. cbv zeta.
  destruct (freefind_verify_loop b bf dup (u32 dup) bf_slots false false)
    as [fa|] eqn:E; [discriminate|].
  inversion H. subst r. clear H.
  pose proof (get_be16_range b (bf + sizeof_scxfs_dir2_data_free * 0 + 2)) as R0.
  pose proof (get_be16_range b (bf + sizeof_scxfs_dir2_data_free * 1 + 2)) as R1.
  pose proof (get_be16_range b (bf + sizeof_scxfs_dir2_data_free * 2 + 2)) as R2.
  fold (bf_length b bf 0) in R0. fold (bf_length b bf 1) in R1.
  fold (bf_length b bf 2) in R2.
  unfold bf_slots in *. cbn [freefind_verify_loop Z.gtb Z.compare] in E.
  change (1 - 1) with 0 in E. change (2 - 1) with 1 in E.
  set (o0 := bf_offset b bf 0) in *. set (o1 := bf_offset b bf 1) in *.
  set (o2 := bf_offset b bf 2) in *.
  set (l0 := bf_length b bf 0) in *. set (l1 := bf_length b bf 1) in *.
  set (l2 := bf_length b bf 2) in *.
  set (off := u32 dup) in *. set (len := dup_length b dup) in *.
  set (e := u32 (off + len)) in *.
  assert (G : l1 <= l0 /\ l2 <= l1
              /\ (o0 = 0 -> l0 = 0) /\ (o1 = 0 -> l1 = 0) /\ (o2 = 0 -> l2 = 0)
              /\ (o0 = 0 -> o1 = 0) /\ (o1 = 0 -> o2 = 0)
              /\ (o0 <> 0 -> (o0 = off /\ l0 = len) \/ (off < o0 /\ e <= o0)
                             \/ (o0 < off /\ o0 + l0 <= off))
              /\ (o1 <> 0 -> (o1 = off /\ l1 = len) \/ (off < o1 /\ e <= o1)
                             \/ (o1 < off /\ o1 + l1 <= off))
              /\ (o2 <> 0 -> (o2 = off /\ l2 = len) \/ (off < o2 /\ e <= o2)
                             \/ (o2 < off /\ o2 + l2 <= off))
              /\ (o0 <> 0 -> o0 <> off -> len <= l0)
              /\ (o1 <> 0 -> o0 <> off -> o1 <> off -> len <= l1)
              /\ (o2 <> 0 -> o0 <> off -> o1 <> off -> o2 <> off -> len <= l2)).
  { repeat match type of E with
           | context [if ?c then _ else _] =>
               let Hc := fresh "C" in
               destruct c eqn:Hc; cbn [negb andb orb] in E; try discriminate E
           end;
    bool_hyps; repeat split; intros; try lia. }
  destruct G as (G1 & G2 & G3 & G4 & G5 & G6 & G7 & G8 & G9 & G10 & G11 & G12 & G13).
  split; [exact G1|]. split; [exact G2|].
  split; [intros i [<-|[<-|[<-|[]]]]; assumption|].
  split; [exact G6|]. split; [exact G7|].
  split; [intros i [<-|[<-|[<-|[]]]]; assumption|].
  split; [|reflexivity].
  intros i [<-|[<-|[<-|[]]]] Hnz Hj.
  - apply G11; auto. apply (Hj 0); lia.
  - apply G12; auto; [apply (Hj 0)|apply (Hj 1)]; lia.
  - apply G13; auto; [apply (Hj 0)|apply (Hj 1)|apply (Hj 2)]; lia.
Qed.

(** ** Termination of the two walks *)

Section Termination.

Variable ftm : Z.
Variable inoval : Z -> Z.
Variable hash : list Z -> Z.
Variable dataptr : scxfs_da_geometry -> Z -> Z -> Z.
Variable g : scxfs_da_geometry.
Variable ops : scxfs_dir_ops.

Lemma check_loop_fuel (b : buf) (bf e : Z) (isblock : bool) (btp lep : Z) :
  (forall n, 0 <= n < 256 -> 16 <= data_entsize ops n) ->
  forall fuel p lf fs c,
    (1 <= fuel)%nat ->
    (p < e -> e - p + (if lf =? 0 then 1 else 0) < Z.of_nat fuel) ->
    data_check_loop ftm inoval hash dataptr g ops fuel b bf e isblock btp lep
                    p lf fs c <> LFuel.
Proof.
  intros Hes.
  induction fuel as [|fuel IH]; intros p lf fs c Hf Hm; [lia|].
  cbn [data_check_loop].
  destruct (Z.ltb_spec p e) as [Hpe|Hpe]; [|discriminate].
  specialize (Hm Hpe).
  pose proof (get_be16_range b (p + 2)) as RL. fold (dup_length b p) in RL.
  pose proof (Hes (dep_namelen b p) (rd_range b _)) as He.
  destruct (dup_freetag b p =? SCXFS_DIR2_DATA_FREE_TAG).
  - destruct (Z.eqb_spec lf 0) as [Hlf|]; cbn [negb]; [|discriminate].
    destruct (e <? p + dup_length b p); [discriminate|].
    destruct (negb (get_be16 b (scxfs_dir2_data_unused_tag_p b p) =? p));
      [discriminate|].
    destruct (scxfs_dir2_data_freefind_verify b bf p) as [[fa|] [i|]];
      try discriminate.
    + destruct (negb (Z.land fs (Z.shiftl 1 i) =? 0)); [discriminate|].
      apply IH; [lia|]. intros. cbn [Z.eqb]. lia.
    + destruct (dup_length b p >? bf_length b bf 2); [discriminate|].
      apply IH; [lia|]. intros. cbn [Z.eqb]. lia.
  - destruct (dep_namelen b p =? 0); [discriminate|].
    destruct (negb (inoval (dep_inumber b p) =? 0)); [discriminate|].
    destruct (e <? p + data_entsize ops (dep_namelen b p)); [discriminate|].
    destruct (negb (get_be16 b (data_entry_tag_p ops b p) =? p)); [discriminate|].
    destruct (data_get_ftype ops b p >=? ftm); [discriminate|].
    match goal with
    | |- (if negb ?c then _ else _) <> _ => destruct c; cbn [negb]; [|discriminate]
    end.
    apply IH; [destruct (lf =? 0); lia|].
    intros. cbn [Z.eqb]. destruct (lf =? 0); lia.
Qed.

(** The walk of [__scxfs_dir3_data_check] ends on every buffer: an unused
    record of length 0 does not advance the position, but it sets
    [lastfree], and the next turn of the loop fails on it.  The fuel of
    the model is never used up. *)
Theorem data_check_terminates (b : buf) :
  ops_layout ops ->
  __scxfs_dir3_data_check ftm inoval hash dataptr g ops b <> CheckFuel.
Proof.
  intros (L1 & L2 & L3 & L4 & _ & Hes & _).
  unfold __scxfs_dir3_data_check.
  match goal with
  | |- (if ?c then _ else _) <> _ => destruct c; [discriminate|]
  end.
  match goal with
  | |- (if ?c then _ else _) <> _ => destruct c; [discriminate|]
  end.
  destruct (scxfs_dir3_data_endp g b) as [e|] eqn:He; [|discriminate].
  destruct (endp_le_blksize _ _ _ He) as [HeB _].
  destruct (zero_slots b (data_bestfree_p ops)) as [fa|fs0]; [discriminate|].
  destruct (bf_length b (data_bestfree_p ops) 0 <? bf_length b (data_bestfree_p ops) 1);
    [discriminate|].
  destruct (bf_length b (data_bestfree_p ops) 1 <? bf_length b (data_bestfree_p ops) 2);
    [discriminate|].
  match goal with
  | |- match ?x with LFail _ => _ | LDone _ _ => _ | LFuel => _ end <> _ =>
      pose proof (check_loop_fuel b (data_bestfree_p ops) e
                    ((hdr_magic b =? SCXFS_DIR3_BLOCK_MAGIC)
                     || (hdr_magic b =? SCXFS_DIR2_BLOCK_MAGIC))
                    (scxfs_dir2_block_tail_p g)
                    (scxfs_dir2_block_leaf_p b (scxfs_dir2_block_tail_p g))
                    Hes (scan_fuel g) (data_entry_p ops) 0 fs0 0) as HL;
      destruct x; try discriminate
  end.
  - destruct (negb (freeseen =? 7)); [discriminate|].
    destruct ((hdr_magic b =? SCXFS_DIR3_BLOCK_MAGIC)
              || (hdr_magic b =? SCXFS_DIR2_BLOCK_MAGIC)); [|discriminate].
    destruct (leaf_scan _ _ _ _ _); [discriminate|].
    destruct (negb _); [discriminate|]. destruct (negb _); discriminate.
  - exfalso. apply HL; [unfold scan_fuel; lia| |reflexivity].
    intros Hp. unfold scan_fuel. cbn [Z.eqb]. lia.
Qed.

End Termination.

(** [freescan] has no such guard: at a record below the end that carries
    the free tag and length 0, [freeinsert] changes nothing, the position
    stays and the loop never ends, whatever the fuel. *)
Theorem freescan_zero_length_spins (ops : scxfs_dir_ops) (b : buf)
    (bf p : Z) (endp : option Z) :
  below_endp p endp = true ->
  dup_freetag b p = SCXFS_DIR2_DATA_FREE_TAG ->
  dup_length b p = 0 ->
  forall fuel loghead, freescan_loop fuel ops b bf p endp loghead = None.
Proof.
  intros Hb Hft Hl.
  induction fuel as [|fuel IH]; intros lh; [reflexivity|].
  cbn [freescan_loop]. rewrite Hb, Hft, Z.eqb_refl.
  unfold scxfs_dir2_data_freeinsert. rewrite Hl.
  pose proof (get_be16_range b (bf + sizeof_scxfs_dir2_data_free * 0 + 2)) as R0.
  pose proof (get_be16_range b (bf + sizeof_scxfs_dir2_data_free * 1 + 2)) as R1.
  pose proof (get_be16_range b (bf + sizeof_scxfs_dir2_data_free * 2 + 2)) as R2.
  fold (bf_length b bf 0) in R0. fold (bf_length b bf 1) in R1.
  fold (bf_length b bf 2) in R2.
  destruct (Z.gtb_spec 0 (bf_length b bf 0)); [lia|].
  destruct (Z.gtb_spec 0 (bf_length b bf 1)); [lia|].
  destruct (Z.gtb_spec 0 (bf_length b bf 2)); [lia|].
  rewrite Hl, Z.add_0_r. apply IH.
Qed.

(** ** What an accepted block guarantees *)

Lemma span_within (b : buf) (e : Z) (recs : list record) :
  forall p lf, tiled p lf recs -> Forall (rec_ok b e) recs -> recs <> [] ->
               p + span recs <= e.
Proof.
  induction recs as [|r rest IH]; intros p lf Ht Hok Hne; [congruence|].
  cbn [tiled] in Ht. destruct Ht as (Ho & Hl & _ & Ht).
  inversion Hok as [|r' rs [Hr _] Hok']. subst.
  cbn [span]. destruct rest as [|r2 rest].
  - cbn [span]. lia.
  - specialize (IH _ _ Ht Hok' ltac:(discriminate)). lia.
Qed.

Lemma zero_slots_marks (b : buf) (bf fs0 : Z) :
  zero_slots b bf = inr fs0 ->
  forall i, In i bf_slots -> Z.land fs0 (Z.shiftl 1 i) <> 0 ->
            slot_at b bf i = (0, 0).
Proof.
  unfold zero_slots, bf_slots, slot_at. cbn [fold_left].
  destruct (Z.eqb_spec (bf_length b bf 0) 0) as [E0|E0];
    [destruct (Z.eqb_spec (bf_offset b bf 0) 0); cbn [negb]|];
    (destruct (Z.eqb_spec (bf_length b bf 1) 0) as [E1|E1];
     [destruct (Z.eqb_spec (bf_offset b bf 1) 0); cbn [negb]|]);
    (destruct (Z.eqb_spec (bf_length b bf 2) 0) as [E2|E2];
     [destruct (Z.eqb_spec (bf_offset b bf 2) 0); cbn [negb]|]);
    intros H; inversion H; subst; clear H;
    intros i [<-|[<-|[<-|[]]]] Hb; cbn in Hb; try congruence.
Qed.

Lemma mark_cases (fs i j : Z) :
  In i bf_slots -> In j bf_slots ->
  Z.land (Z.lor fs (Z.shiftl 1 i)) (Z.shiftl 1 j) <> 0 ->
  Z.land fs (Z.shiftl 1 j) <> 0 \/ i = j.
Proof.
  intros Hi Hj H. rewrite Z.land_lor_distr_l in H.
  destruct (Z.eq_dec (Z.land fs (Z.shiftl 1 j)) 0) as [E|]; [|auto].
  right. rewrite E, Z.lor_0_l in H.
  destruct (slot_cases i Hi) as [-> | [-> | ->]];
    destruct (slot_cases j Hj) as [-> | [-> | ->]]; cbn in H; congruence.
Qed.

Lemma checked_marks (b : buf) (ops : scxfs_dir_ops) (bf e : Z) :
  (forall n, 0 <= n < 256 -> 16 <= data_entsize ops n) ->
  e <= 4294967296 ->
  forall p lf fs fs' recs,
    checked b ops bf e p lf fs fs' recs -> 0 <= p ->
    (forall j, In j bf_slots -> Z.land fs' (Z.shiftl 1 j) <> 0 ->
       Z.land fs (Z.shiftl 1 j) <> 0 \/ In (slot_at b bf j) (regions_of recs))
    /\ (forall o l, In (RUnused o l) recs ->
          In (o, l) (bf_table b bf) \/ l <= bf_length b bf 2).
Proof.
  intros Hes He32.
  induction 1 as [p lf fs He
                 |p lf fs fs' i recs Hpe Hft Hlf Hle Htag Hv Hland Hc IH
                 |p lf fs fs' recs Hpe Hft Hlf Hle Htag Hv Hsmall Hc IH
                 |p lf fs fs' recs Hpe Hft Hle Htag Hc IH];
    intros Hp.
  - split; [auto|intros o l []].
  - pose proof (get_be16_range b (p + 2)) as RL. fold (dup_length b p) in RL.
    destruct (IH ltac:(lia)) as [IH1 IH2].
    destruct (freefind_verify_tracked _ _ _ _ Hv) as (Hi & Ho & _ & Hlen).
    rewrite u32_small in Ho by lia.
    assert (Hs : slot_at b bf i = (p, dup_length b p))
      by (unfold slot_at; congruence).
    split.
    + intros j Hj Hb. destruct (IH1 j Hj Hb) as [Hm|Hin].
      * destruct (mark_cases _ _ _ Hi Hj Hm) as [|<-]; [auto|].
        right. rewrite Hs. cbn. auto.
      * right. cbn [regions_of flat_map]. apply in_or_app. auto.
    + intros o l [Heq|Hin]; [|auto].
      inversion Heq; subst. left. rewrite <- Hs.
      unfold bf_table. apply (in_map (fun i => (bf_offset b bf i, bf_length b bf i))).
      exact Hi.
  - pose proof (get_be16_range b (p + 2)) as RL. fold (dup_length b p) in RL.
    destruct (IH ltac:(lia)) as [IH1 IH2].
    split.
    + intros j Hj Hb. destruct (IH1 j Hj Hb) as [Hm|Hin]; [auto|].
      right. cbn [regions_of flat_map]. apply in_or_app. auto.
    + intros o l [Heq|Hin]; [|auto].
      inversion Heq; subst. auto.
  - pose proof (Hes (dep_namelen b p) (rd_range b _)) as Hn.
    destruct (IH ltac:(lia)) as [IH1 IH2].
    split.
    + intros j Hj Hb. destruct (IH1 j Hj Hb) as [Hm|Hin]; [auto|].
      right. exact Hin.
    + intros o l [Heq|Hin]; [discriminate|auto].
Qed.

Section AcceptedTable.

Variable ftm : Z.
Variable inoval : Z -> Z.
Variable hash : list Z -> Z.
Variable dataptr : scxfs_da_geometry -> Z -> Z -> Z.
Variable g : scxfs_da_geometry.
Variable ops : scxfs_dir_ops.

Let verify := __scxfs_dir3_data_check ftm inoval hash dataptr g ops.

(** The records of a block that the verifier accepts cover the data area
    exactly: the first starts at [data_entry_offset], each one starts
    where the one before ends, all have positive length and the last one
    ends at the end pointer. *)
Theorem accepted_records_tile (b : buf) :
  ops_layout ops -> verify b = CheckGood ->
  exists e,
    scxfs_dir3_data_endp g b = Some e
    /\ tiled (data_entry_offset ops) false (block_records g ops b)
    /\ (data_entry_offset ops <= e ->
        data_entry_offset ops + span (block_records g ops b) = e)
    /\ forall r, In r (block_records g ops b) ->
         data_entry_offset ops <= rec_off r /\ rec_off r + rec_len r <= e.
Proof.
  intros Hlay Hv.
  destruct (accepted_records ftm inoval hash dataptr g ops b Hlay Hv)
    as (e & qend & He & Hw & Hqe & Hrok & Ht & _).
  exists e. split; [exact He|]. split; [exact Ht|].
  pose proof (walks_span _ _ _ _ _ _ Hw) as Hq.
  split.
  - intros Hde.
    destruct (list_eq_dec_nil (block_records g ops b)) as [E|Hne].
    + rewrite E in *. cbn [span] in *. lia.
    + pose proof (span_within b e _ _ _ Ht Hrok Hne). lia.
  - intros r Hr. split; [exact (tiled_off_ge _ _ _ _ Ht Hr)|].
    rewrite Forall_forall in Hrok. apply (Hrok r Hr).
Qed.

(** The best-free table of an accepted block: every slot is empty (0, 0) or
    is the (offset, length) of an unused region of the block, and an
    unused region that is not in the table is not longer than slot 2. *)
Theorem accepted_table_sound (b : buf) :
  ops_layout ops -> blksize g <= 65536 -> verify b = CheckGood ->
  (forall i, In i bf_slots ->
     slot_at b (data_bestfree_p ops) i = (0, 0)
     \/ In (slot_at b (data_bestfree_p ops) i) (unused_regions g ops b))
  /\ (forall o l, In (o, l) (unused_regions g ops b) ->
        In (o, l) (bf_table b (data_bestfree_p ops))
        \/ l <= bf_length b (data_bestfree_p ops) 2).
Proof.
  intros Hlay HB Hv.
  destruct (check_good_inv ftm inoval hash dataptr g ops b Hv)
    as (e & fs0 & He & Hz & _ & _ & Hc & _).
  pose proof Hlay as (L1 & L2 & L3 & L4 & _ & Hes & _).
  destruct (endp_le_blksize _ _ _ He) as [HeB _].
  destruct (checked_marks b ops _ e Hes ltac:(lia) _ _ _ _ _ Hc ltac:(lia))
    as [M1 M2].
  change (unused_regions g ops b) with (regions_of (block_records g ops b)).
  split.
  - intros i Hi.
    destruct (M1 i Hi) as [Hm|Hin]; [|left|right; exact Hin].
    + destruct (slot_cases i Hi) as [-> | [-> | ->]]; cbn; discriminate.
    + exact (zero_slots_marks _ _ _ Hz i Hi Hm).
  - intros o l Hin. apply regions_of_in in Hin. exact (M2 o l Hin).
Qed.

End AcceptedTable.

Lemma leaf_search_found (b : buf) (lep addr hash : Z) :
  forall n i,
    leaf_search b lep addr hash i n < i + Z.of_nat n ->
    let k := leaf_search b lep addr hash i n in
    i <= k /\ lep_address b lep k = addr /\ lep_hashval b lep k = hash.
Proof.
  induction n as [|n IH]; intros i H; cbn [leaf_search] in *; [lia|].
  destruct (Z.eqb_spec (lep_address b lep i) addr) as [Ea|];
    destruct (Z.eqb_spec (lep_hashval b lep i) hash) as [Eh|];
    cbn [andb] in *; try (split; [lia|auto]; fail);
    (destruct (IH (i + 1) ltac:(lia)) as (H1 & H2 & H3);
     split; [lia|auto]).
Qed.

Lemma leaf_search_complete (b : buf) (lep addr hash : Z) :
  forall n i,
    (exists k, i <= k < i + Z.of_nat n
               /\ lep_address b lep k = addr /\ lep_hashval b lep k = hash) ->
    leaf_search b lep addr hash i n < i + Z.of_nat n.
Proof.
  induction n as [|n IH]; intros i (k & Hk & Ha & Hh); cbn [leaf_search];
    [lia|].
  destruct ((lep_address b lep i =? addr) && (lep_hashval b lep i =? hash))
    eqn:E; [lia|].
  assert (Hne : k <> i).
  { intros ->. rewrite Ha, Hh, !Z.eqb_refl in E. discriminate E. }
  specialize (IH (i + 1) ltac:(exists k; split; [lia|auto])). lia.
Qed.

Lemma leaf_scan_ok (b : buf) (lep : Z) :
  forall n i stale s,
    leaf_scan b lep i stale n = inr s ->
    s = stale + stale_leaves b lep i n
    /\ forall k, i <= k < i + Z.of_nat n -> 0 < k ->
                 lep_hashval b lep (k - 1) <= lep_hashval b lep k.
Proof.
  induction n as [|n IH]; intros i stale s H; cbn [leaf_scan stale_leaves] in *.
  - inversion H. split; [lia|intros; lia].
  - destruct (Z.gtb_spec i 0) as [Hi|Hi];
      destruct (Z.ltb_spec (lep_hashval b lep i) (lep_hashval b lep (i - 1)));
      cbn [andb] in H; try discriminate;
      destruct (IH _ _ _ H) as [H1 H2];
      (split; [destruct (lep_address b lep i =? SCXFS_DIR2_NULL_DATAPTR); lia|]);
      intros k Hk Hk0;
      (destruct (Z.eq_dec k i) as [->|]; [try lia; assumption|apply H2; lia]).
Qed.

Section AcceptedEntries.

Variable ftm : Z.
Variable inoval : Z -> Z.
Variable hash : list Z -> Z.
Variable dataptr : scxfs_da_geometry -> Z -> Z -> Z.
Variable g : scxfs_da_geometry.
Variable ops : scxfs_dir_ops.

Let verify := __scxfs_dir3_data_check ftm inoval hash dataptr g ops.

Lemma check_loop_entries (b : buf) (bf e : Z) (isblock : bool) :
  let btp := scxfs_dir2_block_tail_p g in
  let lep := scxfs_dir2_block_leaf_p b btp in
  forall fuel p lf fs c c' fs',
    data_check_loop ftm inoval hash dataptr g ops fuel b bf e isblock btp lep
                    p lf fs c = LDone c' fs' ->
    (forall o l, In (REntry o l) (data_records fuel ops b p (Some e)) ->
                 entry_ok ftm inoval hash dataptr g ops b e isblock o)
    /\ c' = c + entry_count (data_records fuel ops b p (Some e)).
Proof.
  cbv zeta.
  induction fuel as [|fuel IH]; intros p lf fs c c' fs' H;
    cbn [data_check_loop] in H; [discriminate|].
  cbn [data_records below_endp].
  destruct (Z.ltb_spec p e) as [Hpe|Hpe].
  2:{ inversion H; subst. split; [intros o l []|unfold entry_count; cbn; lia]. }
  destruct (Z.eqb_spec (dup_freetag b p) SCXFS_DIR2_DATA_FREE_TAG) as [Hft|Hft].
  - destruct (Z.eqb_spec lf 0) as [Hlf|]; cbn [negb] in H; [|discriminate].
    destruct (Z.ltb_spec e (p + dup_length b p)); [discriminate|].
    destruct (Z.eqb_spec (get_be16 b (scxfs_dir2_data_unused_tag_p b p)) p);
      cbn [negb] in H; [|discriminate].
    destruct (scxfs_dir2_data_freefind_verify b bf p) as [[fa|] [i|]] eqn:Ev;
      try discriminate.
    + destruct (Z.eqb_spec (Z.land fs (Z.shiftl 1 i)) 0); cbn [negb] in H;
        [|discriminate].
      destruct (IH _ _ _ _ _ _ H) as [IHa IHb].
      split; [intros o l [Heq|Hin]; [discriminate|eauto]|].
      rewrite IHb. unfold entry_count. cbn [filter is_unused negb]. reflexivity.
    + destruct (Z.gtb_spec (dup_length b p) (bf_length b bf 2)); [discriminate|].
      destruct (IH _ _ _ _ _ _ H) as [IHa IHb].
      split; [intros o l [Heq|Hin]; [discriminate|eauto]|].
      rewrite IHb. unfold entry_count. cbn [filter is_unused negb]. reflexivity.
  - destruct (Z.eqb_spec (dep_namelen b p) 0) as [|Hnl]; [discriminate|].
    destruct (Z.eqb_spec (inoval (dep_inumber b p)) 0) as [Hino|];
      cbn [negb] in H; [|discriminate].
    destruct (Z.ltb_spec e (p + data_entsize ops (dep_namelen b p)));
      [discriminate|].
    destruct (Z.eqb_spec (get_be16 b (data_entry_tag_p ops b p)) p) as [Htag|];
      cbn [negb] in H; [|discriminate].
    destruct (Z.geb_spec (data_get_ftype ops b p) ftm) as [|Hfty]; [discriminate|].
    match type of H with
    | (if negb ?c then _ else _) = _ => destruct c eqn:Hfound; cbn [negb] in H;
                                        [|discriminate]
    end.
    destruct (IH _ _ _ _ _ _ H) as [IHa IHb].
    split.
    + intros o l [Heq|Hin]; [|eauto].
      inversion Heq; subst o l.
      repeat split; auto.
      intros Hb. rewrite Hb in Hfound. apply Z.ltb_lt in Hfound.
      pose proof (leaf_search_found b
                    (scxfs_dir2_block_leaf_p b (scxfs_dir2_block_tail_p g))
                    (dataptr g (datablk g) (u32 p)) (hash (dep_name b p))
                    (Z.to_nat (btp_count b (scxfs_dir2_block_tail_p g))) 0) as Hs.
      cbv zeta in Hs.
      match type of Hfound with
      | ?s < ?cnt => assert (Hc0 : 0 <= cnt)
      end.
      { unfold btp_count, get_be32.
        pose proof (get_be16_range b (scxfs_dir2_block_tail_p g)).
        pose proof (get_be16_range b (scxfs_dir2_block_tail_p g + 2)). lia. }
      rewrite Z2Nat.id in Hs by lia.
      destruct (Hs ltac:(lia)) as (S1 & S2 & S3).
      eexists. split; [split; [exact S1|exact Hfound]|]. split; assumption.
    + rewrite IHb. unfold entry_count. cbn [filter is_unused negb length].
      lia.
Qed.

Lemma check_good_loop (b : buf) :
  verify b = CheckGood ->
  let isblock := (hdr_magic b =? SCXFS_DIR3_BLOCK_MAGIC)
                 || (hdr_magic b =? SCXFS_DIR2_BLOCK_MAGIC) in
  let btp := scxfs_dir2_block_tail_p g in
  let lep := scxfs_dir2_block_leaf_p b btp in
  exists e fs0 count,
    scxfs_dir3_data_endp g b = Some e
    /\ data_check_loop ftm inoval hash dataptr g ops (scan_fuel g) b
         (data_bestfree_p ops) e isblock btp lep (data_entry_p ops) 0 fs0 0
       = LDone count 7
    /\ (isblock = true ->
        btp_count b btp
        < u64 (btp - data_entry_p ops) / sizeof_scxfs_dir2_leaf_entry
        /\ leaf_scan b lep 0 0 (Z.to_nat (btp_count b btp))
           = inr (btp_stale b btp)
        /\ count = u32 (btp_count b btp - btp_stale b btp)).
Proof.
  unfold verify, __scxfs_dir3_data_check. cbv zeta. intros H.
  set (isblock := (hdr_magic b =? SCXFS_DIR3_BLOCK_MAGIC)
                  || (hdr_magic b =? SCXFS_DIR2_BLOCK_MAGIC)) in *.
  match type of H with
  | (if isblock && ?c then _ else _) = _ => destruct c eqn:Hcnt
  end.
  { destruct isblock; cbn [andb] in H; [discriminate|].
    match type of H with
    | (if ?c then _ else _) = _ => destruct c; [discriminate|]
    end.
    destruct (scxfs_dir3_data_endp g b) as [e|]; [|discriminate].
    destruct (zero_slots b (data_bestfree_p ops)) as [fa|fs0]; [discriminate|].
    destruct (_ <? _); [discriminate|]. destruct (_ <? _); [discriminate|].
    match type of H with
    | match ?x with LFail _ => _ | LDone _ _ => _ | LFuel => _ end = _ =>
        destruct x as [fa|count fs|] eqn:El; try discriminate
    end.
    destruct (Z.eqb_spec fs 7) as [->|]; cbn [negb] in H; [|discriminate].
    exists e, fs0, count. split; [reflexivity|]. split; [exact El|].
    discriminate. }
  rewrite andb_false_r in H.
  match type of H with
  | (if ?c then _ else _) = _ => destruct c; [discriminate|]
  end.
  destruct (scxfs_dir3_data_endp g b) as [e|]; [|discriminate].
  destruct (zero_slots b (data_bestfree_p ops)) as [fa|fs0]; [discriminate|].
  destruct (_ <? _); [discriminate|]. destruct (_ <? _); [discriminate|].
  match type of H with
  | match ?x with LFail _ => _ | LDone _ _ => _ | LFuel => _ end = _ =>
      destruct x as [fa|count fs|] eqn:El; try discriminate
  end.
  destruct (Z.eqb_spec fs 7) as [->|]; cbn [negb] in H; [|discriminate].
  exists e, fs0, count. split; [reflexivity|]. split; [exact El|].
  intros Hb. rewrite Hb in H.
  destruct (leaf_scan _ _ _ _ _) as [fa|stale]; [discriminate|].
  destruct (Z.eqb_spec count
              (u32 (btp_count b (scxfs_dir2_block_tail_p g)
                    - btp_stale b (scxfs_dir2_block_tail_p g))));
    cbn [negb] in H; [|discriminate].
  destruct (Z.eqb_spec stale (btp_stale b (scxfs_dir2_block_tail_p g)));
    cbn [negb] in H; [|discriminate].
  subst stale.
  split; [|split; auto].
  destruct (Z.geb_spec (btp_count b (scxfs_dir2_block_tail_p g))
              (u64 (scxfs_dir2_block_tail_p g - data_entry_p ops)
               / sizeof_scxfs_dir2_leaf_entry)); [discriminate|lia].
Qed.

Lemma data_records_entry (b : buf) (endp : option Z) :
  forall fuel p o l,
    In (REntry o l) (data_records fuel ops b p endp) ->
    l = data_entsize ops (dep_namelen b o).
Proof.
  induction fuel as [|fuel IH]; intros p o l H; cbn [data_records] in H;
    [destruct H|].
  destruct (below_endp p endp); [|destruct H].
  destruct (dup_freetag b p =? SCXFS_DIR2_DATA_FREE_TAG).
  - destruct H as [H|H]; [discriminate|eauto].
  - destruct H as [H|H]; [inversion H; subst; reflexivity|eauto].
Qed.

(** The entries of an accepted block: the length of the record is
    [data_entsize] of the name length, the name is not empty, the inode
    number passes [scxfs_dir_ino_validate], the entry ends below the end
    pointer, its tag holds its own offset, the file type is below
    [SCXFS_DIR3_FT_MAX], and in block format a leaf holds the entry's
    address and the hash of its name. *)
Theorem accepted_entries_valid (b : buf) :
  verify b = CheckGood ->
  exists e,
    scxfs_dir3_data_endp g b = Some e
    /\ forall o l, In (REntry o l) (block_records g ops b) ->
         l = data_entsize ops (dep_namelen b o)
         /\ entry_ok ftm inoval hash dataptr g ops b e
              ((hdr_magic b =? SCXFS_DIR3_BLOCK_MAGIC)
               || (hdr_magic b =? SCXFS_DIR2_BLOCK_MAGIC)) o.
Proof.
  intros Hv.
  destruct (check_good_loop b Hv) as (e & fs0 & count & He & El & _).
  exists e. split; [exact He|].
  intros o l Hin. split; [exact (data_records_entry _ _ _ _ _ _ Hin)|].
  unfold block_records in Hin. rewrite He in Hin.
  destruct (check_loop_entries b _ e _ _ _ _ _ _ _ _ El) as [H1 _].
  exact (H1 o l Hin).
Qed.

(** The trailer of an accepted block-format block: the leaves fit between
    the first record and the tail, their hash values do not decrease,
    [stale] is the number of leaves with the null address, and the number
    of entries is [count - stale]. *)
Theorem accepted_block_trailer (b : buf) :
  verify b = CheckGood ->
  (hdr_magic b =? SCXFS_DIR3_BLOCK_MAGIC)
  || (hdr_magic b =? SCXFS_DIR2_BLOCK_MAGIC) = true ->
  let btp := scxfs_dir2_block_tail_p g in
  let lep := scxfs_dir2_block_leaf_p b btp in
  let cnt := btp_count b btp in
  cnt < u64 (btp - data_entry_p ops) / sizeof_scxfs_dir2_leaf_entry
  /\ (forall k, 0 < k < cnt -> lep_hashval b lep (k - 1) <= lep_hashval b lep k)
  /\ btp_stale b btp = stale_leaves b lep 0 (Z.to_nat cnt)
  /\ entry_count (block_records g ops b) = u32 (cnt - btp_stale b btp).
Proof.
  intros Hv Hb. cbv zeta.
  destruct (check_good_loop b Hv) as (e & fs0 & count & He & El & Ht).
  destruct (Ht Hb) as (T1 & T2 & T3).
  destruct (leaf_scan_ok _ _ _ _ _ _ T2) as [S1 S2].
  assert (Hc0 : 0 <= btp_count b (scxfs_dir2_block_tail_p g)).
  { unfold btp_count, get_be32.
    pose proof (get_be16_range b (scxfs_dir2_block_tail_p g)).
    pose proof (get_be16_range b (scxfs_dir2_block_tail_p g + 2)). lia. }
  split; [exact T1|]. split; [|split; [lia|]].
  - intros k Hk. apply S2; [rewrite Z2Nat.id by lia|]; lia.
  - destruct (check_loop_entries b _ e _ _ _ _ _ _ _ _ El) as [_ H2].
    unfold block_records. rewrite He. lia.
Qed.

End AcceptedEntries.

(** ** The properties above on the sample blocks *)

Lemma sample_table_in : table_in sample_block 4.
Proof. split; vm_compute; congruence. Qed.

Lemma freefind_after_freeinsert_witness :
  let b := fst (scxfs_dir2_data_freeremove sample_block 4 (Some 0)) in
  snd (fst (scxfs_dir2_data_freeinsert b 4 96 0)) = Some 0
  /\ scxfs_dir2_data_freefind
       (fst (fst (scxfs_dir2_data_freeinsert b 4 96 0))) 4 96 = Some 0.
Proof.
  cbv zeta.
  assert (Hr : snd (fst (scxfs_dir2_data_freeinsert
                           (fst (scxfs_dir2_data_freeremove sample_block 4 (Some 0)))
                           4 96 0)) = Some 0)
    by (vm_compute; reflexivity).
  split; [exact Hr|].
  apply (freefind_after_freeinsert _ 4 96 0 0); try exact Hr.
  - split; vm_compute; congruence.
  - lia.
  - vm_compute. congruence.
  - intros j [<-|[<-|[<-|[]]]]; vm_compute; congruence.
  - intros j [<-|[<-|[<-|[]]]]; vm_compute; congruence.
Defined.

Lemma freefind_after_freeremove_witness :
  scxfs_dir2_data_freefind sample_block 4 64 = Some 1
  /\ scxfs_dir2_data_freefind
       (fst (scxfs_dir2_data_freeremove sample_block 4 (Some 1))) 4 64 = None.
Proof.
  assert (Hf : scxfs_dir2_data_freefind sample_block 4 64 = Some 1)
    by (vm_compute; reflexivity).
  split; [exact Hf|].
  apply (freefind_after_freeremove sample_block 4 64 1 sample_table_in
           ltac:(lia) Hf).
  intros j [<-|[<-|[<-|[]]]] Hj; vm_compute; congruence.
Defined.

Lemma freeremove_after_freeinsert_witness :
  let b := fst (scxfs_dir2_data_freeremove sample_block 4 (Some 0)) in
  let b1 := fst (fst (scxfs_dir2_data_freeinsert b 4 96 0)) in
  let b2 := fst (scxfs_dir2_data_freeremove b1 4 (Some 0)) in
  bf_table b 4 = [(64, 16); (32, 16); (0, 0)]
  /\ bf_table b2 4 = [(64, 16); (32, 16); (0, 0)]
  /\ same_outside 4 (4 + 12) b b2.
Proof.
  cbv zeta.
  destruct (freeremove_after_freeinsert
              (fst (scxfs_dir2_data_freeremove sample_block 4 (Some 0)))
              4 96 0 0) as [H1 H2].
  - split; vm_compute; congruence.
  - vm_compute. reflexivity.
  - split; [vm_compute; reflexivity|]. split; [|exact H2].
    rewrite H1. vm_compute. reflexivity.
Defined.

Lemma freeinsert_after_freeremove_witness :
  let b1 := fst (scxfs_dir2_data_freeremove sample_block 4 (Some 0)) in
  let r := scxfs_dir2_data_freeinsert b1 4 96 0 in
  bf_table (fst (fst r)) 4 = bf_table sample_block 4
  /\ snd (fst r) = Some 0
  /\ forall x, rd (fst (fst r)) x = rd sample_block x.
Proof.
  apply (freeinsert_after_freeremove sample_block 4 96 0 0 sample_table_in).
  - lia.
  - cbn. auto.
  - vm_compute. reflexivity.
  - vm_compute. reflexivity.
  - vm_compute. congruence.
  - vm_compute. congruence.
  - intros _. vm_compute. reflexivity.
Defined.

Lemma freefind_verify_accepts_witness :
  scxfs_dir2_data_freefind_verify sample_block 4 32 = (None, Some 2)
  /\ bf_length sample_block 4 1 <= bf_length sample_block 4 0
  /\ bf_length sample_block 4 2 <= bf_length sample_block 4 1
  /\ Some 2 = scxfs_dir2_data_freefind sample_block 4 32.
Proof.
  assert (Hv : scxfs_dir2_data_freefind_verify sample_block 4 32 = (None, Some 2))
    by (vm_compute; reflexivity).
  split; [exact Hv|].
  destruct (freefind_verify_accepts sample_block 4 32 (Some 2) Hv)
    as (H1 & H2 & _ & _ & _ & _ & _ & H8).
  auto.
Defined.

Lemma data_check_terminates_witness :
  ops_layout sample_ops /\ sample_verify spin_block <> CheckFuel.
Proof.
  split; [exact sample_layout|].
  exact (data_check_terminates 9 (fun _ => 0) (fun _ => 0)
           (fun _ _ o => o / 8) sample_geo sample_ops spin_block sample_layout).
Defined.

Lemma freescan_zero_length_spins_witness :
  below_endp 16 (scxfs_dir3_data_endp sample_geo spin_block) = true
  /\ dup_freetag spin_block 16 = SCXFS_DIR2_DATA_FREE_TAG
  /\ dup_length spin_block 16 = 0
  /\ forall fuel loghead,
       freescan_loop fuel sample_ops spin_block 4 16
         (scxfs_dir3_data_endp sample_geo spin_block) loghead = None.
Proof.
  assert (H1 : below_endp 16 (scxfs_dir3_data_endp sample_geo spin_block) = true)
    by (vm_compute; reflexivity).
  assert (H2 : dup_freetag spin_block 16 = SCXFS_DIR2_DATA_FREE_TAG)
    by (vm_compute; reflexivity).
  assert (H3 : dup_length spin_block 16 = 0) by (vm_compute; reflexivity).
  split; [exact H1|]. split; [exact H2|]. split; [exact H3|].
  exact (freescan_zero_length_spins sample_ops spin_block 4 16 _ H1 H2 H3).
Defined.

Lemma accepted_records_tile_witness :
  ops_layout sample_ops /\ sample_verify sample_block = CheckGood
  /\ tiled 16 false (block_records sample_geo sample_ops sample_block)
  /\ 16 + span (block_records sample_geo sample_ops sample_block) = 128.
Proof.
  split; [exact sample_layout|]. split; [exact sample_accepted|].
  destruct (accepted_records_tile 9 (fun _ => 0) (fun _ => 0)
              (fun _ _ o => o / 8) sample_geo sample_ops sample_block
              sample_layout sample_accepted) as (e & He & Ht & Hs & _).
  split; [exact Ht|].
  assert (E : e = 128) by (vm_compute in He; congruence).
  rewrite E in Hs. apply Hs. vm_compute. congruence.
Defined.

Lemma accepted_table_sound_witness :
  ops_layout sample_ops /\ blksize sample_geo <= 65536
  /\ sample_verify sample_block = CheckGood
  /\ In (slot_at sample_block 4 1) (unused_regions sample_geo sample_ops sample_block).
Proof.
  assert (HB : blksize sample_geo <= 65536) by (vm_compute; congruence).
  split; [exact sample_layout|]. split; [exact HB|].
  split; [exact sample_accepted|].
  destruct (accepted_table_sound 9 (fun _ => 0) (fun _ => 0)
              (fun _ _ o => o / 8) sample_geo sample_ops sample_block
              sample_layout HB sample_accepted) as [H1 _].
  destruct (H1 1 ltac:(cbn; auto)) as [H|H]; [|exact H].
  vm_compute in H. discriminate H.
Defined.

Lemma leaf_block_accepted : sample_verify leaf_block = CheckGood.
Proof. vm_compute. reflexivity. Qed.

Lemma accepted_entries_valid_witness :
  sample_verify leaf_block = CheckGood
  /\ In (REntry 16 16) (block_records sample_geo sample_ops leaf_block)
  /\ exists e,
       entry_ok 9 (fun _ => 0) (fun _ => 0) (fun _ _ o => o / 8)
         sample_geo sample_ops leaf_block e true 16.
Proof.
  assert (Hin : In (REntry 16 16) (block_records sample_geo sample_ops leaf_block))
    by (vm_compute; auto).
  split; [exact leaf_block_accepted|]. split; [exact Hin|].
  destruct (accepted_entries_valid 9 (fun _ => 0) (fun _ => 0)
              (fun _ _ o => o / 8) sample_geo sample_ops leaf_block
              leaf_block_accepted) as (e & _ & H).
  exists e. exact (proj2 (H 16 16 Hin)).
Defined.

Lemma accepted_block_trailer_witness :
  sample_verify leaf_block = CheckGood
  /\ btp_stale leaf_block 120 = stale_leaves leaf_block 112 0 1
  /\ entry_count (block_records sample_geo sample_ops leaf_block) = 1.
Proof.
  split; [exact leaf_block_accepted|].
  destruct (accepted_block_trailer 9 (fun _ => 0) (fun _ => 0)
              (fun _ _ o => o / 8) sample_geo sample_ops leaf_block
              leaf_block_accepted ltac:(vm_compute; reflexivity))
    as (_ & _ & H3 & H4).
  split; [exact H3|]. rewrite H4. vm_compute. reflexivity.
Defined.

(** The size of an entry: both macros give a multiple of the alignment
    that holds the 9 bytes before the name, the name, the type byte (in the
    second macro) and the tag, with fewer than 8 bytes of padding; the type
    byte costs 8 bytes exactly when the entry without it had no padding. *)
Theorem data_entsize_aligned (n : Z) :
  0 <= n ->
  SCXFS_DIR2_DATA_ENTSIZE n mod SCXFS_DIR2_DATA_ALIGN = 0
  /\ offsetof_entry_name + n + 2 <= SCXFS_DIR2_DATA_ENTSIZE n
     < offsetof_entry_name + n + 2 + SCXFS_DIR2_DATA_ALIGN
  /\ SCXFS_DIR3_DATA_ENTSIZE n mod SCXFS_DIR2_DATA_ALIGN = 0
  /\ offsetof_entry_name + n + 2 + 1 <= SCXFS_DIR3_DATA_ENTSIZE n
     < offsetof_entry_name + n + 2 + 1 + SCXFS_DIR2_DATA_ALIGN
  /\ (SCXFS_DIR3_DATA_ENTSIZE n
      = if SCXFS_DIR2_DATA_ENTSIZE n =? offsetof_entry_name + n + 2
        then SCXFS_DIR2_DATA_ENTSIZE n + SCXFS_DIR2_DATA_ALIGN
        else SCXFS_DIR2_DATA_ENTSIZE n).
Proof.
  intros Hn.
  unfold SCXFS_DIR2_DATA_ENTSIZE, SCXFS_DIR3_DATA_ENTSIZE, offsetof_entry_name,
    SCXFS_DIR2_DATA_ALIGN.
  rewrite !round_up_8 by lia.
  pose proof (Z.mod_pos_bound (9 + n + 2 - 1) 8 ltac:(lia)) as M2.
  pose proof (Z.div_mod (9 + n + 2 - 1) 8 ltac:(lia)) as D2.
  pose proof (Z.mod_pos_bound (9 + n + 2 + 1 - 1) 8 ltac:(lia)) as M3.
  pose proof (Z.div_mod (9 + n + 2 + 1 - 1) 8 ltac:(lia)) as D3.
  set (q2 := (9 + n + 2 - 1) / 8) in *. set (r2 := (9 + n + 2 - 1) mod 8) in *.
  set (q3 := (9 + n + 2 + 1 - 1) / 8) in *.
  set (r3 := (9 + n + 2 + 1 - 1) mod 8) in *.
  assert (E2 : 9 + n + 2 + 7 - r2 = 8 * (q2 + 1)) by lia.
  assert (E3 : 9 + n + 2 + 1 + 7 - r3 = 8 * (q3 + 1)) by lia.
  split; [rewrite E2, Z.mul_comm; apply Z_mod_mult|].
  split; [lia|].
  split; [rewrite E3, Z.mul_comm; apply Z_mod_mult|].
  split; [lia|].
  destruct (Z.eqb_spec (9 + n + 2 + 7 - r2) (9 + n + 2)); lia.
Qed.

(** The members for "." and ".." agree with the rest of each table: "."
    is the first record, ".." follows it at the size the table's own
    [data_entsize] gives a name of one byte, the first other entry follows
    ".." at the size of a name of two bytes, and the three pointer
    functions return the three offsets. *)
Theorem dots_offsets_consistent (ftu ftm : Z) :
  Forall (fun t =>
            let ops := fst t in
            let dots := snd t in
            data_dot_offset dots = data_entry_offset ops
            /\ data_dotdot_offset dots
               = data_dot_offset dots + data_entsize ops 1
            /\ data_first_offset dots
               = data_dotdot_offset dots + data_entsize ops 2
            /\ data_dot_entry_p dots = data_dot_offset dots
            /\ data_dotdot_entry_p dots = data_dotdot_offset dots
            /\ data_first_entry_p dots = data_first_offset dots
            /\ data_first_offset dots mod SCXFS_DIR2_DATA_ALIGN = 0)
         (format_tables ftu ftm).
Proof.
  unfold format_tables.
  repeat apply Forall_cons; try apply Forall_nil; cbv zeta; cbn [fst snd];
    repeat split; try reflexivity; cbn; lia.
Qed.

(** Put, then get: on the tables with file types, a type below
    [SCXFS_DIR3_FT_MAX] that [data_put_ftype] stores is the one
    [data_get_ftype] returns, and the store changes the one byte after the
    name: the name length, the inode number and the tag of the entry stay. *)
Theorem data_put_get_ftype (ftu ftm : Z) (b : buf) (dep type : Z) :
  0 <= dep ->
  dep + offsetof_entry_name + dep_namelen b dep < blen b ->
  0 <= type < ftm -> ftm <= 256 ->
  forall ops, In ops [scxfs_dir2_ftype_ops ftu ftm; scxfs_dir3_ops ftu ftm] ->
    let b' := data_put_ftype ops b dep type in
    data_get_ftype ops b' dep = type
    /\ dep_namelen b' dep = dep_namelen b dep
    /\ dep_inumber b' dep = dep_inumber b dep
    /\ data_entry_tag_p ops b' dep = data_entry_tag_p ops b dep
    /\ get_be16 b' (data_entry_tag_p ops b dep)
       = get_be16 b (data_entry_tag_p ops b dep)
    /\ forall x, x <> dep + offsetof_entry_name + dep_namelen b dep ->
                 rd b' x = rd b x.
Proof.
  intros Hdep Hin Ht Hm ops Hops. cbv zeta.
  pose proof (rd_range b (dep + offsetof_entry_namelen)) as Rn.
  fold (dep_namelen b dep) in Rn.
  destruct (data_entsize_aligned (dep_namelen b dep) ltac:(lia))
    as (_ & _ & _ & E3 & _).
  assert (Hb : data_put_ftype ops b dep type
               = wr b (dep + offsetof_entry_name + dep_namelen b dep) type)
    by (destruct Hops as [<-|[<-|[]]]; reflexivity).
  assert (Hg : forall c, data_get_ftype ops c dep
                         = scxfs_dir3_data_get_ftype ftu ftm c dep)
    by (destruct Hops as [<-|[<-|[]]]; reflexivity).
  assert (Htp : forall c, data_entry_tag_p ops c dep
                          = dep + SCXFS_DIR3_DATA_ENTSIZE (dep_namelen c dep) - 2)
    by (destruct Hops as [<-|[<-|[]]]; reflexivity).
  rewrite Hb, Hg, !Htp.
  set (pos := dep + offsetof_entry_name + dep_namelen b dep) in *.
  assert (Hframe : forall x, x <> pos -> rd (wr b pos type) x = rd b x)
    by (intros x Hx; apply rd_wr_other; exact Hx).
  assert (Hnl : dep_namelen (wr b pos type) dep = dep_namelen b dep).
  { unfold dep_namelen at 1 2. apply Hframe.
    unfold pos, offsetof_entry_name, offsetof_entry_namelen. lia. }
  unfold offsetof_entry_name in *.
  split; [|split; [exact Hnl|split; [|split; [|split; [|exact Hframe]]]]].
  - unfold scxfs_dir3_data_get_ftype. rewrite Hnl. fold pos.
    unfold offsetof_entry_name. fold pos.
    rewrite rd_wr_same by (unfold pos; lia).
    rewrite Z.mod_small by lia.
    destruct (Z.geb_spec type ftm); [lia|reflexivity].
  - unfold dep_inumber, get_be64, get_be32, get_be16.
    rewrite !Hframe by (unfold pos; lia). reflexivity.
  - rewrite Hnl. reflexivity.
  - unfold get_be16. rewrite !Hframe by (unfold pos; lia). reflexivity.
Qed.

Lemma get_be32_range (b : buf) (o : Z) : 0 <= get_be32 b o < 4294967296.
Proof.
  unfold get_be32. pose proof (get_be16_range b o).
  pose proof (get_be16_range b (o + 2)). lia.
Qed.

Lemma get_be64_range (b : buf) (o : Z) :
  0 <= get_be64 b o < 18446744073709551616.
Proof.
  unfold get_be64. pose proof (get_be32_range b o).
  pose proof (get_be32_range b (o + 4)). lia.
Qed.

Lemma get_put_be32_other (b : buf) (o v o' : Z) :
  o' + 4 <= o \/ o + 4 <= o' -> get_be32 (put_be32 b o v) o' = get_be32 b o'.
Proof.
  intros H.
  apply (get_be32_same_outside o (o + 4) b); [apply same_outside_put_be32|]; lia.
Qed.

Lemma get_put_be64_same (b : buf) (o v : Z) :
  0 <= o -> o + 8 <= blen b -> get_be64 (put_be64 b o v) o = u64 v.
Proof.
  intros H1 H2. unfold get_be64, put_be64.
  rewrite get_put_be32_other by lia.
  rewrite !get_put_be32_same by (rewrite ?blen_put_be32; lia).
  unfold u32, u64.
  pose proof (Z.div_mod v 4294967296 ltac:(lia)) as E1.
  pose proof (Z.div_mod (v / 4294967296) 4294967296 ltac:(lia)) as E2.
  pose proof (Z.mod_pos_bound v 4294967296 ltac:(lia)).
  pose proof (Z.mod_pos_bound (v / 4294967296) 4294967296 ltac:(lia)).
  apply Z.mod_unique with (q := v / 4294967296 / 4294967296); lia.
Qed.

Lemma land_ino_mask (x : Z) :
  0 <= x -> Z.land x 72057594037927935 = x mod 72057594037927936.
Proof.
  intros Hx. change 72057594037927935 with (Z.ones 56).
  rewrite Z.land_ones by lia. reflexivity.
Qed.

Section ShortformFacts.

Variable offsetof_sf_i8count : Z.
Variable offsetof_sf_parent : Z.
Variable sizeof_scxfs_dir2_sf_entry : Z.
Variable offsetof_sfe_namelen : Z.
Variable offsetof_sfe_name : Z.
Variable SCXFS_INO64_SIZE : Z.
Variable SCXFS_INO32_SIZE : Z.
Variable ftu ftm : Z.

Let get_ino := scxfs_dir2_sf_get_ino offsetof_sf_i8count.
Let put_ino := scxfs_dir2_sf_put_ino offsetof_sf_i8count.
Let i8count := sf_i8count offsetof_sf_i8count.

(** The store of an inode number at [to] and the load from there: with
    8-byte numbers a number whose top byte is zero is read back, with
    4-byte numbers the low 32 bits are.  The store touches the 8 (or 4)
    bytes at [to] only, and a load never gives 2^56 or more. *)
Lemma sf_ino_store (b : buf) (hdr to ino : Z) :
  let w := if i8count b hdr =? 0 then 4 else 8 in
  0 <= to -> to + w <= blen b ->
  hdr + offsetof_sf_i8count < to \/ to + w <= hdr + offsetof_sf_i8count ->
  0 <= ino < 72057594037927936 ->
  let b' := put_ino b hdr to ino in
  get_ino b' hdr to
  = (if i8count b hdr =? 0 then ino mod 4294967296 else ino)
  /\ i8count b' hdr = i8count b hdr
  /\ same_outside to (to + (if i8count b hdr =? 0 then 4 else 8)) b b'.
Proof.
  cbv zeta.
  unfold put_ino, get_ino, i8count, scxfs_dir2_sf_put_ino, scxfs_dir2_sf_get_ino.
  intros Hto Hlen Hsep Hino.
  assert (F : same_outside to (to + (if sf_i8count offsetof_sf_i8count b hdr =? 0
                                     then 4 else 8)) b
                (if negb (sf_i8count offsetof_sf_i8count b hdr =? 0)
                 then put_be64 b to ino else put_be32 b to ino)).
  { destruct (sf_i8count offsetof_sf_i8count b hdr =? 0); cbn [negb];
      [apply same_outside_put_be32|apply same_outside_put_be64]; lia. }
  assert (E8 : sf_i8count offsetof_sf_i8count
                 (if negb (sf_i8count offsetof_sf_i8count b hdr =? 0)
                  then put_be64 b to ino else put_be32 b to ino) hdr
               = sf_i8count offsetof_sf_i8count b hdr).
  { unfold sf_i8count at 1 3. destruct F as [_ F]. apply F.
    destruct (sf_i8count offsetof_sf_i8count b hdr =? 0); lia. }
  split; [|split; [exact E8|exact F]].
  rewrite E8. revert Hlen Hsep.
  destruct (sf_i8count offsetof_sf_i8count b hdr =? 0); cbn [negb];
    intros Hlen Hsep.
  - rewrite get_put_be32_same by lia. reflexivity.
  - rewrite get_put_be64_same by lia. unfold u64.
    rewrite Z.mod_small by lia.
    rewrite land_ino_mask by lia. apply Z.mod_small. lia.
Qed.

Lemma sf_ino_load_other (b c : buf) (hdr lo hi from : Z) :
  same_outside lo hi b c ->
  hdr + offsetof_sf_i8count < lo \/ hi <= hdr + offsetof_sf_i8count ->
  from + (if i8count b hdr =? 0 then 4 else 8) <= lo \/ hi <= from ->
  get_ino c hdr from = get_ino b hdr from.
Proof.
  intros F Hh Hf. unfold get_ino, scxfs_dir2_sf_get_ino.
  unfold i8count in Hf.
  assert (E : sf_i8count offsetof_sf_i8count c hdr
              = sf_i8count offsetof_sf_i8count b hdr)
    by (unfold sf_i8count; destruct F as [_ F]; apply F; lia).
  rewrite E.
  destruct (sf_i8count offsetof_sf_i8count b hdr =? 0); cbn [negb].
  - apply (get_be32_same_outside lo hi b); [exact F|lia].
  - unfold get_be64.
    rewrite (get_be32_same_outside lo hi b c from) by (try exact F; lia).
    rewrite (get_be32_same_outside lo hi b c (from + 4)) by (try exact F; lia).
    reflexivity.
Qed.

(** The parent number of the header and the number of an entry without
    file type: after both were stored, each is read back ([put], then
    [get]); with 4-byte numbers the low 32 bits are read back.  Neither
    store changes [i8count] or the entry's name length, and a number read
    is always below 2^56.  [i8count] lies before [parent] in the header,
    the name length before the name in the entry, and the entry behind
    the header's 4 or 8 bytes of [parent]. *)
Theorem sf_put_get_ino (b : buf) (hdr sfep pino ino : Z) :
  let w := if i8count b hdr =? 0 then 4 else 8 in
  let nameend := sfep + offsetof_sfe_name
                 + sfe_namelen offsetof_sfe_namelen b sfep in
  0 <= hdr -> 0 <= offsetof_sf_i8count < offsetof_sf_parent ->
  0 <= offsetof_sfe_namelen < offsetof_sfe_name ->
  hdr + offsetof_sf_parent + w <= sfep ->
  nameend + w <= blen b ->
  0 <= pino < 72057594037927936 -> 0 <= ino < 72057594037927936 ->
  let b1 := scxfs_dir2_sf_put_parent_ino offsetof_sf_i8count offsetof_sf_parent
              b hdr pino in
  let b2 := scxfs_dir2_sfe_put_ino offsetof_sf_i8count offsetof_sfe_namelen
              offsetof_sfe_name b1 hdr sfep ino in
  scxfs_dir2_sf_get_parent_ino offsetof_sf_i8count offsetof_sf_parent b2 hdr
  = (if i8count b hdr =? 0 then pino mod 4294967296 else pino)
  /\ scxfs_dir2_sfe_get_ino offsetof_sf_i8count offsetof_sfe_namelen
       offsetof_sfe_name b2 hdr sfep
     = (if i8count b hdr =? 0 then ino mod 4294967296 else ino)
  /\ i8count b2 hdr = i8count b hdr
  /\ sfe_namelen offsetof_sfe_namelen b2 sfep
     = sfe_namelen offsetof_sfe_namelen b sfep
  /\ forall c,
       0 <= scxfs_dir2_sf_get_parent_ino offsetof_sf_i8count offsetof_sf_parent
              c hdr < 72057594037927936
       /\ 0 <= scxfs_dir2_sfe_get_ino offsetof_sf_i8count offsetof_sfe_namelen
                 offsetof_sfe_name c hdr sfep < 72057594037927936.
Proof.
  cbv zeta. intros Hhdr Hi8 Hnl Hsfep Hend Hpino Hino.
  unfold scxfs_dir2_sf_put_parent_ino, scxfs_dir2_sfe_put_ino,
    scxfs_dir2_sf_get_parent_ino, scxfs_dir2_sfe_get_ino.
  change (scxfs_dir2_sf_put_ino offsetof_sf_i8count) with put_ino.
  change (scxfs_dir2_sf_get_ino offsetof_sf_i8count) with get_ino.
  pose proof (rd_range b (sfep + offsetof_sfe_namelen)) as Rn.
  fold (sfe_namelen offsetof_sfe_namelen b sfep) in Rn.
  set (nl := sfe_namelen offsetof_sfe_namelen b sfep) in *.
  set (w := if i8count b hdr =? 0 then 4 else 8) in *.
  assert (Hw : w = 4 \/ w = 8) by (unfold w; destruct (i8count b hdr =? 0); auto).
  destruct (sf_ino_store b hdr (hdr + offsetof_sf_parent) pino)
    as (P1 & P2 & P3); fold w; try lia.
  fold w in P3.
  set (b1 := put_ino b hdr (hdr + offsetof_sf_parent) pino) in *.
  assert (N1 : sfe_namelen offsetof_sfe_namelen b1 sfep = nl).
  { unfold nl, sfe_namelen. destruct P3 as [_ P3]. apply P3. lia. }
  assert (L1 : blen b1 = blen b) by (destruct P3 as [P3 _]; exact P3).
  rewrite N1.
  destruct (sf_ino_store b1 hdr (sfep + offsetof_sfe_name + nl) ino)
    as (Q1 & Q2 & Q3); rewrite ?P2; fold w; try lia.
  rewrite P2 in Q1, Q3. fold w in Q3.
  set (b2 := put_ino b1 hdr (sfep + offsetof_sfe_name + nl) ino) in *.
  assert (N2 : sfe_namelen offsetof_sfe_namelen b2 sfep = nl).
  { rewrite <- N1. unfold sfe_namelen. destruct Q3 as [_ Q3]. apply Q3. lia. }
  rewrite N2.
  split; [|split; [exact Q1|split; [congruence|split; [reflexivity|]]]].
  - rewrite <- P1.
    apply (sf_ino_load_other b1 b2 hdr _ _ _ Q3); rewrite ?P2; fold w; lia.
  - assert (R : forall c from, 0 <= get_ino c hdr from < 72057594037927936).
    { intros c from. unfold get_ino, scxfs_dir2_sf_get_ino.
      destruct (negb (sf_i8count offsetof_sf_i8count c hdr =? 0)).
      - pose proof (get_be64_range c from).
        rewrite land_ino_mask by lia. apply Z.mod_pos_bound. lia.
      - pose proof (get_be32_range c from). lia. }
    intros c. split; apply R.
Qed.

(** The tail of a shortform entry with file type: the type byte and the
    inode number are stored one after the other behind the name and end
    where [sf_nextentry] puts the next entry; each is read back after both
    were stored, and no byte before the end of the name or from the next
    entry on changes.  The header fields lie before the entry, the name is
    the last member of the entry structure and the two inode-number sizes
    are 8 and 4. *)
Theorem sf3_entry_tail (b : buf) (hdr sfep t ino : Z) :
  offsetof_sfe_name = sizeof_scxfs_dir2_sf_entry ->
  0 <= offsetof_sfe_namelen < offsetof_sfe_name ->
  SCXFS_INO64_SIZE = 8 -> SCXFS_INO32_SIZE = 4 ->
  hdr + offsetof_sf_i8count < sfep -> 0 <= sfep ->
  let next := scxfs_dir3_sf_nextentry offsetof_sf_i8count
                sizeof_scxfs_dir2_sf_entry offsetof_sfe_namelen
                SCXFS_INO64_SIZE SCXFS_INO32_SIZE b hdr sfep in
  next <= blen b ->
  0 <= t < ftm -> ftm <= 256 -> 0 <= ino < 72057594037927936 ->
  let b1 := scxfs_dir3_sfe_put_ftype offsetof_sfe_namelen offsetof_sfe_name
              b sfep t in
  let b2 := scxfs_dir3_sfe_put_ino offsetof_sf_i8count offsetof_sfe_namelen
              offsetof_sfe_name b1 hdr sfep ino in
  let nameend := sfep + offsetof_sfe_name
                 + sfe_namelen offsetof_sfe_namelen b sfep in
  scxfs_dir3_sfe_get_ftype offsetof_sfe_namelen offsetof_sfe_name ftu ftm
    b2 sfep = t
  /\ scxfs_dir3_sfe_get_ino offsetof_sf_i8count offsetof_sfe_namelen
       offsetof_sfe_name b2 hdr sfep
     = (if i8count b hdr =? 0 then ino mod 4294967296 else ino)
  /\ scxfs_dir3_sf_nextentry offsetof_sf_i8count
       sizeof_scxfs_dir2_sf_entry offsetof_sfe_namelen
       SCXFS_INO64_SIZE SCXFS_INO32_SIZE b2 hdr sfep = next
  /\ same_outside nameend next b b2.
Proof.
  intros Hname Hnl H64 H32 Hhdr Hsfep. cbv zeta.
  unfold scxfs_dir3_sf_nextentry, scxfs_dir3_sf_entsize, scxfs_dir2_sf_entsize,
    scxfs_dir3_sfe_put_ino, scxfs_dir3_sfe_get_ino, scxfs_dir3_sfe_put_ftype,
    scxfs_dir3_sfe_get_ftype, i8count.
  cbv zeta. rewrite H64, H32, <- Hname.
  pose proof (rd_range b (sfep + offsetof_sfe_namelen)) as Rn.
  fold (sfe_namelen offsetof_sfe_namelen b sfep) in Rn.
  set (nl := sfe_namelen offsetof_sfe_namelen b sfep) in *.
  set (i8 := sf_i8count offsetof_sf_i8count b hdr) in *.
  set (pos := sfep + offsetof_sfe_name + nl).
  intros Hnext Ht Hm Hino.
  set (b1 := wr b pos t).
  assert (F1 : same_outside pos (pos + 1) b b1)
    by (apply same_outside_wr; lia).
  assert (N1 : sfe_namelen offsetof_sfe_namelen b1 sfep = nl).
  { unfold sfe_namelen. destruct F1 as [_ F1]. apply F1. unfold pos. lia. }
  assert (I1 : sf_i8count offsetof_sf_i8count b1 hdr = i8).
  { unfold sf_i8count. destruct F1 as [_ F1]. apply F1. unfold pos. lia. }
  rewrite N1.
  assert (W : 0 <= pos + 1 /\ pos + 1 + (if i8 =? 0 then 4 else 8) <= blen b1).
  { destruct F1 as [-> _]. unfold pos. destruct (i8 =? 0); cbn [negb] in *; lia. }
  pose proof (sf_ino_store b1 hdr (sfep + offsetof_sfe_name + (nl + 1)) ino) as P.
  cbv zeta in P. unfold put_ino, get_ino, i8count in P. rewrite I1 in P.
  replace (sfep + offsetof_sfe_name + (nl + 1)) with (pos + 1) in * by (unfold pos; lia).
  assert (Hsep : hdr + offsetof_sf_i8count < pos + 1) by (unfold pos; lia).
  specialize (P (proj1 W) (proj2 W) (or_introl Hsep) Hino).
  destruct P as (P1 & P2 & P3).
  set (b2 := scxfs_dir2_sf_put_ino offsetof_sf_i8count b1 hdr (pos + 1) ino) in *.
  assert (N2 : sfe_namelen offsetof_sfe_namelen b2 sfep = nl).
  { rewrite <- N1. unfold sfe_namelen. destruct P3 as [_ P3]. apply P3.
    unfold pos. lia. }
  rewrite N2. fold pos.
  split; [|split; [|split]].
  - destruct P3 as [_ P3]. rewrite P3 by lia. unfold b1.
    rewrite rd_wr_same
      by (unfold pos in *; destruct (i8 =? 0); cbn [negb] in *; lia).
    rewrite Z.mod_small by lia.
    destruct (Z.geb_spec t ftm); [lia|reflexivity].
  - replace (sfep + offsetof_sfe_name + (nl + 1)) with (pos + 1)
      by (unfold pos; lia).
    exact P1.
  - rewrite P2. reflexivity.
  - eapply same_outside_trans.
    + eapply same_outside_weaken; [| |exact F1]; [lia|].
      unfold pos. destruct (i8 =? 0); cbn [negb]; lia.
    + eapply same_outside_weaken; [| |exact P3]; [lia|].
      unfold pos. destruct (i8 =? 0); cbn [negb]; lia.
Qed.

End ShortformFacts.

Lemma get_be32_put_be16_other (b : buf) (o v o' : Z) :
  o' + 4 <= o \/ o + 2 <= o' -> get_be32 (put_be16 b o v) o' = get_be32 b o'.
Proof.
  intros H.
  apply (get_be32_same_outside o (o + 2) b); [apply same_outside_put_be16|]; lia.
Qed.

Lemma get_be16_put_be32_other (b : buf) (o v o' : Z) :
  o' + 2 <= o \/ o + 4 <= o' -> get_be16 (put_be32 b o v) o' = get_be16 b o'.
Proof.
  intros H.
  apply (get_be16_same_outside o (o + 4) b); [apply same_outside_put_be32|]; lia.
Qed.

(** Storing in a field the value that the field has in [b] keeps a buffer
    that reads like [b] reading like [b]. *)
Lemma rewrite_be16 (b c : buf) (o : Z) :
  (forall x, rd c x = rd b x) -> blen c = blen b ->
  forall x, rd (put_be16 c o (get_be16 b o)) x = rd b x.
Proof.
  intros HA Hl x.
  destruct (get_be16_bytes b o _ eq_refl) as [B1 B2].
  pose proof (rd_range b o) as R0. pose proof (rd_range b (o + 1)) as R1.
  unfold put_be16. rewrite !rd_wr, !blen_wr.
  destruct (Z.eqb_spec x (o + 1)); destruct (Z.eqb_spec x o);
    destruct (Z.leb_spec 0 (o + 1)); destruct (Z.ltb_spec (o + 1) (blen c));
    destruct (Z.leb_spec 0 o); destruct (Z.ltb_spec o (blen c));
    cbn [andb]; try lia; auto; subst x; congruence.
Qed.

Lemma rewrite_be32 (b c : buf) (o : Z) :
  (forall x, rd c x = rd b x) -> blen c = blen b ->
  forall x, rd (put_be32 c o (get_be32 b o)) x = rd b x.
Proof.
  intros HA Hl. unfold put_be32, get_be32.
  pose proof (get_be16_range b o) as R0.
  pose proof (get_be16_range b (o + 2)) as R1.
  replace ((get_be16 b o * 65536 + get_be16 b (o + 2)) / 65536)
    with (get_be16 b o)
    by (apply Z.div_unique with (r := get_be16 b (o + 2)); lia).
  assert (A1 := rewrite_be16 b c o HA Hl).
  intros x.
  assert (E : forall d, rd (put_be16 d (o + 2)
                              (get_be16 b o * 65536 + get_be16 b (o + 2))) x
                        = rd (put_be16 d (o + 2) (get_be16 b (o + 2))) x).
  { intros d. unfold put_be16. rewrite !rd_wr, !blen_wr.
    replace ((get_be16 b o * 65536 + get_be16 b (o + 2)) / 256 mod 256)
      with (get_be16 b (o + 2) / 256 mod 256).
    2:{ replace (get_be16 b o * 65536 + get_be16 b (o + 2))
          with (get_be16 b (o + 2) + (get_be16 b o * 256) * 256) by lia.
        rewrite Z.div_add by lia. rewrite Z.add_mod by lia.
        rewrite Z.mod_mul by lia. rewrite Z.add_0_r, Z.mod_mod by lia.
        reflexivity. }
    replace ((get_be16 b o * 65536 + get_be16 b (o + 2)) mod 256)
      with (get_be16 b (o + 2) mod 256).
    2:{ replace (get_be16 b o * 65536 + get_be16 b (o + 2))
          with (get_be16 b (o + 2) + (get_be16 b o * 256) * 256) by lia.
        rewrite Z.mod_add by lia. reflexivity. }
    reflexivity. }
  rewrite E. apply rewrite_be16; [exact A1|]. rewrite blen_put_be16. exact Hl.
Qed.

Ltac split_fields :=
  unfold fields_in, leaf_fields, node_fields, free_fields in *;
  cbn [fields_disjoint fst snd] in *;
  rewrite ?Forall_cons_iff, ?Forall_nil_iff in *;
  cbn [fst snd] in *;
  repeat match goal with
         | H : _ /\ _ |- _ => destruct H
         end.

Ltac field_get :=
  repeat first
    [ rewrite get_be32_put_be16_other by lia
    | rewrite get_be16_put_be32_other by lia
    | rewrite get_put_be32_other by lia
    | rewrite get_put_be16_other by lia ];
  first
    [ rewrite get_put_be32_same
        by (rewrite ?blen_put_be16, ?blen_put_be32; lia);
      apply u32_small; lia
    | rewrite get_put_be16_same
        by (rewrite ?blen_put_be16, ?blen_put_be32; lia);
      apply u16_small; lia ].

Lemma leaf_hdr_disk_core (L : leaf_hdr_offsets) (b : buf) (p : Z)
    (h : scxfs_dir3_icleaf_hdr) :
  fields_disjoint (leaf_fields L) -> fields_in b p (leaf_fields L) ->
  icleaf_fits h ->
  leaf_hdr_from_disk L (leaf_hdr_to_disk L b p h) p = h.
Proof.
  intros Hd Hi Hf. unfold icleaf_fits in Hf.
  destruct h as [forw back magic count stale]. cbn in Hf.
  unfold leaf_hdr_from_disk, leaf_hdr_to_disk.
  cbn [icl_forw icl_back icl_magic icl_count icl_stale].
  split_fields.
  f_equal; field_get.
Qed.

Lemma leaf_hdr_core_disk (L : leaf_hdr_offsets) (b : buf) (p : Z) :
  forall x, rd (leaf_hdr_to_disk L b p (leaf_hdr_from_disk L b p)) x = rd b x.
Proof.
  unfold leaf_hdr_from_disk, leaf_hdr_to_disk.
  cbn [icl_forw icl_back icl_magic icl_count icl_stale].
  apply rewrite_be16; [|rewrite ?blen_put_be16, ?blen_put_be32; reflexivity].
  apply rewrite_be16; [|rewrite ?blen_put_be16, ?blen_put_be32; reflexivity].
  apply rewrite_be16; [|rewrite ?blen_put_be16, ?blen_put_be32; reflexivity].
  apply rewrite_be32; [|rewrite ?blen_put_be16, ?blen_put_be32; reflexivity].
  apply rewrite_be32; [|reflexivity]. reflexivity.
Qed.

Lemma node_hdr_disk_core (L : node_hdr_offsets) (b : buf) (p : Z)
    (h : scxfs_da3_icnode_hdr) :
  fields_disjoint (node_fields L) -> fields_in b p (node_fields L) ->
  icnode_fits h ->
  node_hdr_from_disk L (node_hdr_to_disk L b p h) p = h.
Proof.
  intros Hd Hi Hf. unfold icnode_fits in Hf.
  destruct h as [forw back magic count level]. cbn in Hf.
  unfold node_hdr_from_disk, node_hdr_to_disk.
  cbn [icn_forw icn_back icn_magic icn_count icn_level].
  split_fields.
  f_equal; field_get.
Qed.

Lemma node_hdr_core_disk (L : node_hdr_offsets) (b : buf) (p : Z) :
  forall x, rd (node_hdr_to_disk L b p (node_hdr_from_disk L b p)) x = rd b x.
Proof.
  unfold node_hdr_from_disk, node_hdr_to_disk.
  cbn [icn_forw icn_back icn_magic icn_count icn_level].
  apply rewrite_be16; [|rewrite ?blen_put_be16, ?blen_put_be32; reflexivity].
  apply rewrite_be16; [|rewrite ?blen_put_be16, ?blen_put_be32; reflexivity].
  apply rewrite_be16; [|rewrite ?blen_put_be16, ?blen_put_be32; reflexivity].
  apply rewrite_be32; [|rewrite ?blen_put_be16, ?blen_put_be32; reflexivity].
  apply rewrite_be32; [|reflexivity]. reflexivity.
Qed.

Lemma free_hdr_disk_core (L : free_hdr_offsets) (b : buf) (p : Z)
    (h : scxfs_dir3_icfree_hdr) :
  fields_disjoint (free_fields L) -> fields_in b p (free_fields L) ->
  icfree_fits h ->
  free_hdr_from_disk L (free_hdr_to_disk L b p h) p = h.
Proof.
  intros Hd Hi Hf. unfold icfree_fits in Hf.
  destruct h as [magic firstdb nvalid nused]. cbn in Hf.
  unfold free_hdr_from_disk, free_hdr_to_disk.
  cbn [icf_magic icf_firstdb icf_nvalid icf_nused].
  split_fields.
  f_equal; field_get.
Qed.

Lemma free_hdr_core_disk (L : free_hdr_offsets) (b : buf) (p : Z) :
  forall x, rd (free_hdr_to_disk L b p (free_hdr_from_disk L b p)) x = rd b x.
Proof.
  unfold free_hdr_from_disk, free_hdr_to_disk.
  cbn [icf_magic icf_firstdb icf_nvalid icf_nused].
  apply rewrite_be32; [|rewrite ?blen_put_be16, ?blen_put_be32; reflexivity].
  apply rewrite_be32; [|rewrite ?blen_put_be16, ?blen_put_be32; reflexivity].
  apply rewrite_be32; [|rewrite ?blen_put_be16, ?blen_put_be32; reflexivity].
  apply rewrite_be32; [|reflexivity]. reflexivity.
Qed.

(** To disk and back, and from disk and back, for the leaf header of both
    versions: a header whose values fit the field widths is read back as
    written, and writing back the header just read changes no byte. *)
Theorem leaf_hdr_round_trip (dir2_leaf_hdr dir3_leaf_hdr : leaf_hdr_offsets)
    (b : buf) (p : Z) (h : scxfs_dir3_icleaf_hdr) :
  fields_disjoint (leaf_fields dir2_leaf_hdr) ->
  fields_disjoint (leaf_fields dir3_leaf_hdr) ->
  fields_in b p (leaf_fields dir2_leaf_hdr) ->
  fields_in b p (leaf_fields dir3_leaf_hdr) ->
  icleaf_fits h ->
  scxfs_dir2_leaf_hdr_from_disk dir2_leaf_hdr
    (scxfs_dir2_leaf_hdr_to_disk dir2_leaf_hdr b p h) p = h
  /\ scxfs_dir3_leaf_hdr_from_disk dir3_leaf_hdr
       (scxfs_dir3_leaf_hdr_to_disk dir3_leaf_hdr b p h) p = h
  /\ (forall x,
        rd (scxfs_dir2_leaf_hdr_to_disk dir2_leaf_hdr b p
              (scxfs_dir2_leaf_hdr_from_disk dir2_leaf_hdr b p)) x = rd b x)
  /\ (forall x,
        rd (scxfs_dir3_leaf_hdr_to_disk dir3_leaf_hdr b p
              (scxfs_dir3_leaf_hdr_from_disk dir3_leaf_hdr b p)) x = rd b x).
Proof.
  intros D2 D3 I2 I3 Hf.
  split; [apply leaf_hdr_disk_core; assumption|].
  split; [apply leaf_hdr_disk_core; assumption|].
  split; apply leaf_hdr_core_disk.
Qed.

(** The same for the node header of both versions. *)
Theorem node_hdr_round_trip (da_node_hdr da3_node_hdr : node_hdr_offsets)
    (b : buf) (p : Z) (h : scxfs_da3_icnode_hdr) :
  fields_disjoint (node_fields da_node_hdr) ->
  fields_disjoint (node_fields da3_node_hdr) ->
  fields_in b p (node_fields da_node_hdr) ->
  fields_in b p (node_fields da3_node_hdr) ->
  icnode_fits h ->
  scxfs_da2_node_hdr_from_disk da_node_hdr
    (scxfs_da2_node_hdr_to_disk da_node_hdr b p h) p = h
  /\ scxfs_da3_node_hdr_from_disk da3_node_hdr
       (scxfs_da3_node_hdr_to_disk da3_node_hdr b p h) p = h
  /\ (forall x,
        rd (scxfs_da2_node_hdr_to_disk da_node_hdr b p
              (scxfs_da2_node_hdr_from_disk da_node_hdr b p)) x = rd b x)
  /\ (forall x,
        rd (scxfs_da3_node_hdr_to_disk da3_node_hdr b p
              (scxfs_da3_node_hdr_from_disk da3_node_hdr b p)) x = rd b x).
Proof.
  intros D2 D3 I2 I3 Hf.
  split; [apply node_hdr_disk_core; assumption|].
  split; [apply node_hdr_disk_core; assumption|].
  split; apply node_hdr_core_disk.
Qed.

(** The same for the header of a free block of both versions. *)
Theorem free_hdr_round_trip (dir2_free_hdr dir3_free_hdr : free_hdr_offsets)
    (b : buf) (p : Z) (h : scxfs_dir3_icfree_hdr) :
  fields_disjoint (free_fields dir2_free_hdr) ->
  fields_disjoint (free_fields dir3_free_hdr) ->
  fields_in b p (free_fields dir2_free_hdr) ->
  fields_in b p (free_fields dir3_free_hdr) ->
  icfree_fits h ->
  scxfs_dir2_free_hdr_from_disk dir2_free_hdr
    (scxfs_dir2_free_hdr_to_disk dir2_free_hdr b p h) p = h
  /\ scxfs_dir3_free_hdr_from_disk dir3_free_hdr
       (scxfs_dir3_free_hdr_to_disk dir3_free_hdr b p h) p = h
  /\ (forall x,
        rd (scxfs_dir2_free_hdr_to_disk dir2_free_hdr b p
              (scxfs_dir2_free_hdr_from_disk dir2_free_hdr b p)) x = rd b x)
  /\ (forall x,
        rd (scxfs_dir3_free_hdr_to_disk dir3_free_hdr b p
              (scxfs_dir3_free_hdr_from_disk dir3_free_hdr b p)) x = rd b x).
Proof.
  intros D2 D3 I2 I3 Hf.
  split; [apply free_hdr_disk_core; assumption|].
  split; [apply free_hdr_disk_core; assumption|].
  split; apply free_hdr_core_disk.
Qed.

Lemma to_int_small (x : Z) : 0 <= x < 2147483648 -> to_int x = x.
Proof. intros H. unfold to_int. rewrite Z.mod_small by lia. lia. Qed.

Lemma capacity_div (bs hs w : Z) :
  0 <= hs <= bs -> bs < 2147483648 -> 0 < w < 4294967296 ->
  let n := to_int (u64 (bs - hs) / w) in
  n = (bs - hs) / w /\ 0 <= n < 2147483648
  /\ hs + w * n <= bs < hs + w * (n + 1).
Proof.
  intros H1 H2 Hw. cbv zeta. unfold u64.
  rewrite (Z.mod_small (bs - hs)) by lia.
  pose proof (Z.div_mod (bs - hs) w ltac:(lia)) as D.
  pose proof (Z.mod_pos_bound (bs - hs) w ltac:(lia)) as M.
  assert (Q : 0 <= (bs - hs) / w <= bs - hs).
  { split; [apply Z.div_pos; lia|]. apply Z.div_le_upper_bound; nia. }
  rewrite to_int_small by lia. nia.
Qed.

Section CapacityFacts.

Variable sizeof_scxfs_dir2_leaf_hdr : Z.
Variable sizeof_scxfs_dir3_leaf_hdr : Z.
Variable sizeof_scxfs_dir2_free_hdr : Z.
Variable sizeof_scxfs_dir3_free_hdr : Z.
Variable SCXFS_DIR2_FREE_OFFSET : Z.
Variable scxfs_dir2_byte_to_db : scxfs_da_geometry -> Z -> Z.

(** The arrays sized by [max_leaf_ents] and [free_max_bests] fill the
    block behind their header: that many elements fit and one more does
    not.  The block size is an [int] not below the header sizes. *)
Theorem block_capacities (geo : scxfs_da_geometry) :
  blksize geo < 2147483648 ->
  0 <= sizeof_scxfs_dir2_leaf_hdr <= blksize geo ->
  0 <= sizeof_scxfs_dir3_leaf_hdr <= blksize geo ->
  0 <= sizeof_scxfs_dir2_free_hdr <= blksize geo ->
  0 <= sizeof_scxfs_dir3_free_hdr <= blksize geo ->
  let fits hs w n := 0 <= n /\ hs + w * n <= blksize geo < hs + w * (n + 1) in
  fits sizeof_scxfs_dir2_leaf_hdr sizeof_scxfs_dir2_leaf_entry
       (scxfs_dir2_max_leaf_ents sizeof_scxfs_dir2_leaf_hdr geo)
  /\ fits sizeof_scxfs_dir3_leaf_hdr sizeof_scxfs_dir2_leaf_entry
          (scxfs_dir3_max_leaf_ents sizeof_scxfs_dir3_leaf_hdr geo)
  /\ fits sizeof_scxfs_dir2_free_hdr sizeof_scxfs_dir2_data_off_t
          (scxfs_dir2_free_max_bests sizeof_scxfs_dir2_free_hdr geo)
  /\ fits sizeof_scxfs_dir3_free_hdr sizeof_scxfs_dir2_data_off_t
          (scxfs_dir3_free_max_bests sizeof_scxfs_dir3_free_hdr geo).
Proof.
  intros HB H1 H2 H3 H4. cbv zeta.
  unfold scxfs_dir2_max_leaf_ents, scxfs_dir3_max_leaf_ents,
    scxfs_dir2_free_max_bests, scxfs_dir3_free_max_bests.
  change (u32 sizeof_scxfs_dir2_leaf_entry) with 8.
  change sizeof_scxfs_dir2_leaf_entry with 8.
  change sizeof_scxfs_dir2_data_off_t with 2.
  pose proof (capacity_div (blksize geo) sizeof_scxfs_dir2_leaf_hdr 8
                H1 HB ltac:(lia)) as C1.
  pose proof (capacity_div (blksize geo) sizeof_scxfs_dir3_leaf_hdr 8
                H2 HB ltac:(lia)) as C2.
  pose proof (capacity_div (blksize geo) sizeof_scxfs_dir2_free_hdr 2
                H3 HB ltac:(lia)) as C3.
  pose proof (capacity_div (blksize geo) sizeof_scxfs_dir3_free_hdr 2
                H4 HB ltac:(lia)) as C4.
  cbv zeta in C1, C2, C3, C4. lia.
Qed.

(** The free block and the slot for a data block: [db_to_fdindex] is an
    index below [free_max_bests], so the slot [bests[index]] of a free
    block that starts at [free] lies inside that block, and the data
    block number is recovered from the free block number and the index.
    Both versions; the free header leaves room for one slot at least. *)
Theorem free_slot_of_data_block (geo : scxfs_da_geometry) (db free : Z) :
  blksize geo < 2147483648 ->
  0 <= sizeof_scxfs_dir2_free_hdr -> sizeof_scxfs_dir2_free_hdr + 2 <= blksize geo ->
  0 <= sizeof_scxfs_dir3_free_hdr -> sizeof_scxfs_dir3_free_hdr + 2 <= blksize geo ->
  0 <= db < 4294967296 ->
  let base := scxfs_dir2_byte_to_db geo SCXFS_DIR2_FREE_OFFSET in
  let ok maxb bests fdb i :=
    0 <= i < maxb
    /\ free <= bests + sizeof_scxfs_dir2_data_off_t * i
    /\ bests + sizeof_scxfs_dir2_data_off_t * (i + 1) <= free + blksize geo
    /\ db = maxb * u32 (fdb - base) + i in
  ok (scxfs_dir2_free_max_bests sizeof_scxfs_dir2_free_hdr geo)
     (scxfs_dir2_free_bests_p sizeof_scxfs_dir2_free_hdr free)
     (scxfs_dir2_db_to_fdb sizeof_scxfs_dir2_free_hdr SCXFS_DIR2_FREE_OFFSET
        scxfs_dir2_byte_to_db geo db)
     (scxfs_dir2_db_to_fdindex sizeof_scxfs_dir2_free_hdr geo db)
  /\ ok (scxfs_dir3_free_max_bests sizeof_scxfs_dir3_free_hdr geo)
        (scxfs_dir3_free_bests_p sizeof_scxfs_dir3_free_hdr free)
        (scxfs_dir3_db_to_fdb sizeof_scxfs_dir3_free_hdr SCXFS_DIR2_FREE_OFFSET
           scxfs_dir2_byte_to_db geo db)
        (scxfs_dir3_db_to_fdindex sizeof_scxfs_dir3_free_hdr geo db).
Proof.
  intros HB H1 H1' H2 H2' Hdb. cbv zeta.
  unfold scxfs_dir2_db_to_fdb, scxfs_dir2_db_to_fdindex,
    scxfs_dir3_db_to_fdb, scxfs_dir3_db_to_fdindex,
    scxfs_dir2_free_bests_p, scxfs_dir3_free_bests_p,
    scxfs_dir2_free_max_bests, scxfs_dir3_free_max_bests.
  change sizeof_scxfs_dir2_data_off_t with 2.
  assert (G : forall hs, 0 <= hs -> hs + 2 <= blksize geo ->
            let maxb := to_int (u64 (blksize geo - hs) / 2) in
            let fdb := u32 (scxfs_dir2_byte_to_db geo SCXFS_DIR2_FREE_OFFSET
                            + u32 db / u32 maxb) in
            let i := to_int (u32 db mod u32 maxb) in
            0 <= i < maxb
            /\ free <= free + hs + 2 * i
            /\ free + hs + 2 * (i + 1) <= free + blksize geo
            /\ db = maxb * u32 (fdb - scxfs_dir2_byte_to_db geo
                                        SCXFS_DIR2_FREE_OFFSET) + i).
  { intros hs Hh0 Hh. cbv zeta.
    destruct (capacity_div (blksize geo) hs 2 ltac:(lia) HB ltac:(lia))
      as (E & R & F).
    set (maxb := to_int (u64 (blksize geo - hs) / 2)) in *.
    assert (Hm : 0 < maxb) by lia.
    rewrite (u32_small maxb), (u32_small db) by lia.
    pose proof (Z.mod_pos_bound db maxb Hm) as M.
    pose proof (Z.div_mod db maxb ltac:(lia)) as D.
    assert (Q : 0 <= db / maxb <= db).
    { split; [apply Z.div_pos; lia|]. apply Z.div_le_upper_bound; nia. }
    rewrite to_int_small by lia.
    assert (U : u32 (u32 (scxfs_dir2_byte_to_db geo SCXFS_DIR2_FREE_OFFSET
                          + db / maxb)
                     - scxfs_dir2_byte_to_db geo SCXFS_DIR2_FREE_OFFSET)
                = db / maxb).
    { unfold u32. rewrite Zminus_mod_idemp_l.
      replace (scxfs_dir2_byte_to_db geo SCXFS_DIR2_FREE_OFFSET + db / maxb
               - scxfs_dir2_byte_to_db geo SCXFS_DIR2_FREE_OFFSET)
        with (db / maxb) by lia.
      apply Z.mod_small. lia. }
    rewrite U. repeat split; try lia. }
  split; [apply (G sizeof_scxfs_dir2_free_hdr)|apply (G sizeof_scxfs_dir3_free_hdr)];
    assumption.
Qed.

End CapacityFacts.

(** ** The properties above on concrete inputs *)

Lemma data_entsize_aligned_witness :
  0 <= 5
  /\ SCXFS_DIR2_DATA_ENTSIZE 5 mod SCXFS_DIR2_DATA_ALIGN = 0
  /\ offsetof_entry_name + 5 + 2 <= SCXFS_DIR2_DATA_ENTSIZE 5
     < offsetof_entry_name + 5 + 2 + SCXFS_DIR2_DATA_ALIGN
  /\ SCXFS_DIR3_DATA_ENTSIZE 5 mod SCXFS_DIR2_DATA_ALIGN = 0
  /\ offsetof_entry_name + 5 + 2 + 1 <= SCXFS_DIR3_DATA_ENTSIZE 5
     < offsetof_entry_name + 5 + 2 + 1 + SCXFS_DIR2_DATA_ALIGN
  /\ (SCXFS_DIR3_DATA_ENTSIZE 5
      = if SCXFS_DIR2_DATA_ENTSIZE 5 =? offsetof_entry_name + 5 + 2
        then SCXFS_DIR2_DATA_ENTSIZE 5 + SCXFS_DIR2_DATA_ALIGN
        else SCXFS_DIR2_DATA_ENTSIZE 5).
Proof. split; [lia|apply (data_entsize_aligned 5); lia]. Defined.

Lemma data_put_get_ftype_witness :
  let ops := scxfs_dir3_ops 0 9 in
  let b' := data_put_ftype ops sample_block 16 1 in
  data_get_ftype ops b' 16 = 1
  /\ dep_namelen b' 16 = dep_namelen sample_block 16
  /\ dep_inumber b' 16 = dep_inumber sample_block 16
  /\ data_entry_tag_p ops b' 16 = data_entry_tag_p ops sample_block 16
  /\ get_be16 b' (data_entry_tag_p ops sample_block 16)
     = get_be16 sample_block (data_entry_tag_p ops sample_block 16)
  /\ forall x, x <> 16 + offsetof_entry_name + dep_namelen sample_block 16 ->
               rd b' x = rd sample_block x.
Proof.
  apply (data_put_get_ftype 0 9 sample_block 16 1).
  - lia.
  - vm_compute. reflexivity.
  - lia.
  - lia.
  - right. left. reflexivity.
Defined.

Lemma sf_put_get_ino_witness :
  let b1 := scxfs_dir2_sf_put_parent_ino 1 2 sample_sf 0 129 in
  let b2 := scxfs_dir2_sfe_put_ino 1 0 3 b1 0 6 131 in
  scxfs_dir2_sf_get_parent_ino 1 2 b2 0 = 129
  /\ scxfs_dir2_sfe_get_ino 1 0 3 b2 0 6 = 131.
Proof.
  cbv zeta.
  destruct (sf_put_get_ino 1 2 0 3 sample_sf 0 6 129 131) as (H1 & H2 & _).
  - lia.
  - lia.
  - lia.
  - vm_compute. congruence.
  - vm_compute. congruence.
  - lia.
  - lia.
  - split; [exact H1|exact H2].
Defined.

Lemma sf3_entry_tail_witness :
  let b1 := scxfs_dir3_sfe_put_ftype 0 3 sample_sf 6 1 in
  let b2 := scxfs_dir3_sfe_put_ino 1 0 3 b1 0 6 131 in
  scxfs_dir3_sfe_get_ftype 0 3 0 9 b2 6 = 1
  /\ scxfs_dir3_sfe_get_ino 1 0 3 b2 0 6 = 131
  /\ scxfs_dir3_sf_nextentry 1 3 0 8 4 b2 0 6 = 16.
Proof.
  cbv zeta.
  destruct (sf3_entry_tail 1 3 0 3 8 4 0 9 sample_sf 0 6 1 131)
    as (H1 & H2 & H3 & _).
  - reflexivity.
  - lia.
  - reflexivity.
  - reflexivity.
  - lia.
  - lia.
  - vm_compute. congruence.
  - lia.
  - lia.
  - lia.
  - split; [exact H1|]. split; [exact H2|]. exact H3.
Defined.

Lemma leaf_hdr_round_trip_witness :
  let h := {| icl_forw := 7; icl_back := 5; icl_magic := 53745;
              icl_count := 3; icl_stale := 1 |} in
  let b := repeat 0 64 in
  scxfs_dir2_leaf_hdr_from_disk sample_dir2_leaf_hdr
    (scxfs_dir2_leaf_hdr_to_disk sample_dir2_leaf_hdr b 0 h) 0 = h
  /\ scxfs_dir3_leaf_hdr_from_disk sample_dir3_leaf_hdr
       (scxfs_dir3_leaf_hdr_to_disk sample_dir3_leaf_hdr b 0 h) 0 = h.
Proof.
  cbv zeta.
  destruct (leaf_hdr_round_trip sample_dir2_leaf_hdr sample_dir3_leaf_hdr
              (repeat 0 64) 0
              {| icl_forw := 7; icl_back := 5; icl_magic := 53745;
                 icl_count := 3; icl_stale := 1 |}) as (H1 & H2 & _).
  - cbn. rewrite ?Forall_cons_iff, ?Forall_nil_iff. cbn. lia.
  - cbn. rewrite ?Forall_cons_iff, ?Forall_nil_iff. cbn. lia.
  - split; [lia|]. unfold leaf_fields, node_fields, free_fields.
    rewrite ?Forall_cons_iff, ?Forall_nil_iff.
    repeat split; vm_compute; congruence.
  - split; [lia|]. unfold leaf_fields, node_fields, free_fields.
    rewrite ?Forall_cons_iff, ?Forall_nil_iff.
    repeat split; vm_compute; congruence.
  - unfold icleaf_fits. cbn. lia.
  - split; [exact H1|exact H2].
Defined.

Lemma node_hdr_round_trip_witness :
  let h := {| icn_forw := 7; icn_back := 5; icn_magic := 65214;
              icn_count := 3; icn_level := 1 |} in
  let b := repeat 0 64 in
  scxfs_da2_node_hdr_from_disk sample_da_node_hdr
    (scxfs_da2_node_hdr_to_disk sample_da_node_hdr b 0 h) 0 = h
  /\ scxfs_da3_node_hdr_from_disk sample_da3_node_hdr
       (scxfs_da3_node_hdr_to_disk sample_da3_node_hdr b 0 h) 0 = h.
Proof.
  cbv zeta.
  destruct (node_hdr_round_trip sample_da_node_hdr sample_da3_node_hdr
              (repeat 0 64) 0
              {| icn_forw := 7; icn_back := 5; icn_magic := 65214;
                 icn_count := 3; icn_level := 1 |}) as (H1 & H2 & _).
  - cbn. rewrite ?Forall_cons_iff, ?Forall_nil_iff. cbn. lia.
  - cbn. rewrite ?Forall_cons_iff, ?Forall_nil_iff. cbn. lia.
  - split; [lia|]. unfold leaf_fields, node_fields, free_fields.
    rewrite ?Forall_cons_iff, ?Forall_nil_iff.
    repeat split; vm_compute; congruence.
  - split; [lia|]. unfold leaf_fields, node_fields, free_fields.
    rewrite ?Forall_cons_iff, ?Forall_nil_iff.
    repeat split; vm_compute; congruence.
  - unfold icnode_fits. cbn. lia.
  - split; [exact H1|exact H2].
Defined.

Lemma free_hdr_round_trip_witness :
  let h := {| icf_magic := 1480864326; icf_firstdb := 2040; icf_nvalid := 12;
              icf_nused := 9 |} in
  let b := repeat 0 64 in
  scxfs_dir2_free_hdr_from_disk sample_dir2_free_hdr
    (scxfs_dir2_free_hdr_to_disk sample_dir2_free_hdr b 0 h) 0 = h
  /\ scxfs_dir3_free_hdr_from_disk sample_dir3_free_hdr
       (scxfs_dir3_free_hdr_to_disk sample_dir3_free_hdr b 0 h) 0 = h.
Proof.
  cbv zeta.
  destruct (free_hdr_round_trip sample_dir2_free_hdr sample_dir3_free_hdr
              (repeat 0 64) 0
              {| icf_magic := 1480864326; icf_firstdb := 2040; icf_nvalid := 12;
                 icf_nused := 9 |}) as (H1 & H2 & _).
  - cbn. rewrite ?Forall_cons_iff, ?Forall_nil_iff. cbn. lia.
  - cbn. rewrite ?Forall_cons_iff, ?Forall_nil_iff. cbn. lia.
  - split; [lia|]. unfold leaf_fields, node_fields, free_fields.
    rewrite ?Forall_cons_iff, ?Forall_nil_iff.
    repeat split; vm_compute; congruence.
  - split; [lia|]. unfold leaf_fields, node_fields, free_fields.
    rewrite ?Forall_cons_iff, ?Forall_nil_iff.
    repeat split; vm_compute; congruence.
  - unfold icfree_fits. cbn. lia.
  - split; [exact H1|exact H2].
Defined.

Lemma block_capacities_witness :
  scxfs_dir2_max_leaf_ents 16 geo_4k = 510
  /\ scxfs_dir3_max_leaf_ents 64 geo_4k = 504
  /\ scxfs_dir2_free_max_bests 16 geo_4k = 2040
  /\ scxfs_dir3_free_max_bests 64 geo_4k = 2016
  /\ 64 + sizeof_scxfs_dir2_data_off_t * scxfs_dir3_free_max_bests 64 geo_4k
     <= blksize geo_4k.
Proof.
  destruct (block_capacities 16 64 16 64 geo_4k) as (_ & _ & _ & _ & H & _).
  - vm_compute. reflexivity.
  - vm_compute. split; congruence.
  - vm_compute. split; congruence.
  - vm_compute. split; congruence.
  - vm_compute. split; congruence.
  - repeat split; try (vm_compute; reflexivity). exact H.
Defined.

Lemma free_slot_of_data_block_witness :
  let byte_to_db := fun (g : scxfs_da_geometry) (by_ : Z) => by_ / blksize g in
  scxfs_dir2_db_to_fdb 16 68719476736 byte_to_db geo_4k 5000 = 16777218
  /\ scxfs_dir2_db_to_fdindex 16 geo_4k 5000 = 920
  /\ 5000 = scxfs_dir2_free_max_bests 16 geo_4k * u32 (16777218 - 16777216) + 920.
Proof.
  cbv zeta.
  destruct (free_slot_of_data_block 16 64 68719476736
              (fun g by_ => by_ / blksize g) geo_4k 5000 0)
    as ((_ & _ & _ & H) & _).
  - vm_compute. reflexivity.
  - lia.
  - vm_compute. congruence.
  - lia.
  - vm_compute. congruence.
  - lia.
  - split; [vm_compute; reflexivity|]. split; [vm_compute; reflexivity|].
    exact H.
Defined.

Section AsciiCiFacts.

Variable tolower : Z -> Z.
Variable rol32 : Z -> Z -> Z.

Lemma ascii_ci_comp_loop_inv (a c : list Z) (n : nat) :
  forall i r,
    ascii_ci_comp_loop tolower a c i r n <> SCXFS_CMP_DIFFERENT ->
    (forall k, i <= k < i + Z.of_nat n ->
               tolower (rd a k) = tolower (rd c k))
    /\ (ascii_ci_comp_loop tolower a c i r n = SCXFS_CMP_EXACT <->
        r = SCXFS_CMP_EXACT
        /\ forall k, i <= k < i + Z.of_nat n -> rd a k = rd c k).
Proof.
  induction n as [|n IH]; intros i r H.
  - cbn [ascii_ci_comp_loop] in *.
    split; [intros k Hk; lia|].
    split; [intros E; split; [exact E|intros k Hk; lia]|intros [E _]; exact E].
  - cbn [ascii_ci_comp_loop] in *.
    destruct (Z.eqb_spec (rd a i) (rd c i)) as [E|E].
    + destruct (IH _ _ H) as (T & X).
      split.
      * intros k Hk. destruct (Z.eq_dec k i) as [->|Hne];
          [rewrite E; reflexivity|apply T; lia].
      * rewrite X. split; intros [E1 E2]; (split; [exact E1|]); intros k Hk.
        -- destruct (Z.eq_dec k i) as [->|Hne]; [exact E|apply E2; lia].
        -- apply E2. lia.
    + destruct (Z.eqb_spec (tolower (rd a i)) (tolower (rd c i))) as [E'|E'];
        cbn [negb] in *; [|congruence].
      destruct (IH _ _ H) as (T & X).
      split.
      * intros k Hk. destruct (Z.eq_dec k i) as [->|Hne];
          [exact E'|apply T; lia].
      * rewrite X. split; [intros [X1 _]; discriminate|].
        intros [_ E2]. exfalso. apply E. apply E2. lia.
Qed.

Lemma ascii_ci_hash_loop_ext (a c : list Z) (n : nat) :
  forall i h,
    (forall k, i <= k < i + Z.of_nat n -> tolower (rd a k) = tolower (rd c k)) ->
    ascii_ci_hash_loop tolower rol32 a i h n
    = ascii_ci_hash_loop tolower rol32 c i h n.
Proof.
  induction n as [|n IH]; intros i h H; cbn [ascii_ci_hash_loop];
    [reflexivity|].
  rewrite (H i) by lia. apply IH. intros k Hk. apply H. lia.
Qed.

(** Names that [scxfs_ascii_ci_compname] does not tell apart have the
    hash [scxfs_ascii_ci_hashname] in common, whatever [tolower] and
    [rol32] are; the result is [SCXFS_CMP_EXACT] exactly when the two
    names have the same bytes, and [SCXFS_CMP_DIFFERENT] whenever the
    lengths differ. *)
Theorem ascii_ci_same_name_same_hash (args_name : list Z) (args_namelen : Z)
    (name : list Z) (len : Z) :
  scxfs_ascii_ci_compname tolower args_name args_namelen name len
  <> SCXFS_CMP_DIFFERENT ->
  args_namelen = len
  /\ scxfs_ascii_ci_hashname tolower rol32 args_name args_namelen
     = scxfs_ascii_ci_hashname tolower rol32 name len
  /\ (scxfs_ascii_ci_compname tolower args_name args_namelen name len
      = SCXFS_CMP_EXACT
      <-> forall k, 0 <= k < len -> rd args_name k = rd name k).
Proof.
  unfold scxfs_ascii_ci_compname, scxfs_ascii_ci_hashname.
  destruct (Z.eqb_spec args_namelen len) as [->|Hne]; cbn [negb];
    [|congruence].
  intros H. destruct (ascii_ci_comp_loop_inv _ _ _ _ _ H) as (T & X).
  split; [reflexivity|]. split.
  - apply ascii_ci_hash_loop_ext. exact T.
  - rewrite X. split.
    + intros [_ E] k Hk. apply E. lia.
    + intros E. split; [reflexivity|]. intros k Hk. apply E. lia.
Qed.

End AsciiCiFacts.

Lemma ascii_ci_same_name_same_hash_witness :
  scxfs_ascii_ci_compname ascii_tolower [82; 101; 97; 100; 77; 101] 6
    [114; 101; 97; 100; 109; 101] 6 = SCXFS_CMP_CASE
  /\ scxfs_ascii_ci_hashname ascii_tolower rotate_left32
       [82; 101; 97; 100; 77; 101] 6
     = scxfs_ascii_ci_hashname ascii_tolower rotate_left32
         [114; 101; 97; 100; 109; 101] 6.
Proof.
  split; [vm_compute; reflexivity|].
  apply (ascii_ci_same_name_same_hash ascii_tolower rotate_left32
           [82; 101; 97; 100; 77; 101] 6 [114; 101; 97; 100; 109; 101] 6).
  vm_compute. congruence.
Defined.

(** ** What [make_free] hands to the journal *)

Lemma freeinsert_loghead (b : buf) (bf dup lh : Z) :
  snd (scxfs_dir2_data_freeinsert b bf dup lh) = 1
  \/ scxfs_dir2_data_freeinsert b bf dup lh = (b, None, lh).
Proof.
  unfold scxfs_dir2_data_freeinsert. cbv zeta.
  destruct (dup_length b dup >? bf_length b bf 0); [left; reflexivity|].
  destruct (dup_length b dup >? bf_length b bf 1); [left; reflexivity|].
  destruct (dup_length b dup >? bf_length b bf 2); [left; reflexivity|].
  right. reflexivity.
Qed.

Lemma freeinsert_loghead_set (b : buf) (bf dup : Z) :
  snd (scxfs_dir2_data_freeinsert b bf dup 1) = 1.
Proof.
  destruct (freeinsert_loghead b bf dup 1) as [H|H]; [exact H|].
  rewrite H. reflexivity.
Qed.

Lemma freeremove_loghead (b : buf) (bf : Z) (dfp : option Z) :
  snd (scxfs_dir2_data_freeremove b bf dfp) = 1.
Proof. reflexivity. Qed.

(** The ranges logged by [make_free] are those of [log_unused] for the
    record written, and [*needlogp] is set unless the table was left
    alone. *)
Lemma make_free_logged (args : scxfs_da_args) (bp : scxfs_buf)
    (offset len needlog : Z) :
  let bw := make_free_writes (geo args) (d_ops args) (b_addr bp) offset len in
  let target := match mf_prevdup (d_ops args) (b_addr bp) offset with
                | Some p => p
                | None => offset
                end in
  let r := scxfs_dir2_data_make_free args bp offset len needlog in
  b_logged (fst (fst r))
  = b_logged (scxfs_dir2_data_log_unused args (set_addr bp bw) target)
  /\ (snd (fst r) = 1 \/ (snd (fst r) = needlog /\ b_addr (fst (fst r)) = bw)).
Proof.
  cbv zeta.
  unfold scxfs_dir2_data_make_free, make_free_writes, mf_prevdup, mf_postdup.
  cbv zeta.
  set (bf := data_bestfree_p (d_ops args)).
  destruct (if offset >? data_entry_offset (d_ops args)
            then free_or_null (b_addr bp) (get_be16 (b_addr bp) (offset - 2))
            else None) as [prev|];
    destruct (if below_endp (offset + len)
                   (scxfs_dir3_data_endp (geo args) (b_addr bp))
              then free_or_null (b_addr bp) (offset + len)
              else None) as [post|].
  - destruct (negb (bf_length (b_addr bp) bf 2 =? 0)).
    { cbn [fst snd]. split; [reflexivity|right; split; reflexivity]. }
    destruct (scxfs_dir2_data_freefind (b_addr bp) bf prev) as [i|];
      [destruct i as [|[p|p|]|p]|]; cbv iota beta.
    all: match goal with
         | |- context [scxfs_dir2_data_freeremove ?x ?t ?d2] =>
             pose proof (freeremove_loghead x t d2) as N1;
             destruct (scxfs_dir2_data_freeremove x t d2) as [b3 nl3]
         end;
      match goal with
      | |- context [scxfs_dir2_data_freeremove ?x ?t ?d1] =>
          pose proof (freeremove_loghead x t d1) as N2;
          destruct (scxfs_dir2_data_freeremove x t d1) as [b4 nl4]
      end;
      cbn [snd] in N1, N2; subst nl3 nl4;
      pose proof (freeinsert_loghead_set b4 bf prev) as N3;
      destruct (scxfs_dir2_data_freeinsert b4 bf prev 1) as [[b5 r5] nl5];
      cbn [fst snd set_addr b_logged] in *;
      (split; [reflexivity|left; exact N3]).
  - destruct (scxfs_dir2_data_freefind (b_addr bp) bf prev) as [i|].
    2:{ cbn [fst snd]. split; [reflexivity|right; split; reflexivity]. }
    match goal with
    | |- context [scxfs_dir2_data_freeremove ?x ?t ?d] =>
        pose proof (freeremove_loghead x t d) as N1;
        destruct (scxfs_dir2_data_freeremove x t d) as [b3 nl3]
    end.
    cbn [snd] in N1. subst nl3.
    pose proof (freeinsert_loghead_set b3 bf prev) as N3.
    destruct (scxfs_dir2_data_freeinsert b3 bf prev 1) as [[b5 r5] nl5].
    cbn [fst snd set_addr b_logged] in *.
    split; [reflexivity|left; exact N3].
  - destruct (scxfs_dir2_data_freefind (b_addr bp) bf post) as [i|].
    2:{ cbn [fst snd]. split; [reflexivity|right; split; reflexivity]. }
    match goal with
    | |- context [scxfs_dir2_data_freeremove ?x ?t ?d] =>
        pose proof (freeremove_loghead x t d) as N1;
        destruct (scxfs_dir2_data_freeremove x t d) as [b3 nl3]
    end.
    cbn [snd] in N1. subst nl3.
    pose proof (freeinsert_loghead_set b3 bf offset) as N3.
    destruct (scxfs_dir2_data_freeinsert b3 bf offset 1) as [[b5 r5] nl5].
    cbn [fst snd set_addr b_logged] in *.
    split; [reflexivity|left; exact N3].
  - match goal with
    | |- context [scxfs_dir2_data_freeinsert ?x ?t offset needlog] =>
        pose proof (freeinsert_loghead x t offset needlog) as N3;
        destruct (scxfs_dir2_data_freeinsert x t offset needlog) as [[b5 r5] nl5]
    end.
    cbn [fst snd set_addr b_logged b_addr] in *.
    split; [reflexivity|].
    destruct N3 as [N3|N3]; [left; exact N3|right].
    injection N3 as <- _ <-. split; reflexivity.
Qed.

Section Journal.

Variable ftm : Z.
Variable inoval : Z -> Z.
Variable hash : list Z -> Z.
Variable dataptr : scxfs_da_geometry -> Z -> Z -> Z.
Variable g : scxfs_da_geometry.
Variable ops : scxfs_dir_ops.

Let verify := __scxfs_dir3_data_check ftm inoval hash dataptr g ops.

(** Freeing an entry of an accepted block journals what it changes:
    [make_free] logs two ranges, the first four bytes and the last two of
    the unused record that now covers the entry and its unused
    neighbours; every byte of the block that changed lies in one of them
    or in the best-free table, and in the latter case [*needlogp] is 1, so
    that the caller logs the header.  [*needlogp] is otherwise as
    passed. *)
Theorem make_free_journals_changes (b : buf) :
  ops_layout ops -> block_ok g ops b -> verify b = CheckGood ->
  forall pre post offset len bp needlog,
    b_addr bp = b ->
    block_records g ops b = pre ++ REntry offset len :: post ->
    let r := scxfs_dir2_data_make_free {| geo := g; d_ops := ops |}
               bp offset len needlog in
    let q := merged_off pre offset in
    let L := merged_len pre post len in
    b_logged (fst (fst r))
    = b_logged bp ++ [(q, q + 3); (q + L - 2, q + L - 1)]
    /\ (snd (fst r) = 1 \/ snd (fst r) = needlog)
    /\ forall x,
         rd (b_addr (fst (fst r))) x <> rd b x ->
         q <= x <= q + 3 \/ q + L - 2 <= x <= q + L - 1
         \/ (data_bestfree_p ops <= x < data_bestfree_p ops + 12
             /\ snd (fst r) = 1).
Proof.
  intros Hlay Hok Hv pre post offset len bp needlog Hbp Hrecs. cbv zeta.
  destruct (accepted_records ftm inoval hash dataptr g ops b Hlay Hv)
    as (e & qend & He & Hw & Hqe & Hrok & Ht & Hfuel).
  rewrite Hrecs in Hw, Hrok, Ht, Hfuel.
  pose proof Hlay as (L1 & L2 & L3 & L4 & L5 & Hes & _).
  pose proof Hok as [Hlen HB].
  pose proof (writes_spec g ops b e qend pre post offset len) as HW.
  use_ctx HW. destruct HW as (W1 & W2 & W3 & W4).
  pose proof (writes_frame g ops b e qend pre post offset len) as HF.
  use_ctx HF. cbv zeta in HF.
  pose proof (merged_bounds g ops b e qend pre post offset len) as HB0.
  use_ctx HB0. destruct HB0 as (B1 & B2 & B3 & B4 & B5 & _).
  pose proof (mf_prevdup_eq ops b e qend pre post offset len) as HP.
  use_ctx HP.
  assert (Hin : table_in (b_addr bp) (data_bestfree_p ops))
    by (rewrite Hbp; split; lia).
  pose proof (make_free_buffer {| geo := g; d_ops := ops |} bp offset len
                needlog Hin) as F.
  destruct (make_free_logged {| geo := g; d_ops := ops |} bp offset len needlog)
    as [Hlog Hnl].
  cbn [geo d_ops] in F, Hlog, Hnl. rewrite Hbp in F, Hlog, Hnl.
  set (r := scxfs_dir2_data_make_free {| geo := g; d_ops := ops |}
              bp offset len needlog) in *.
  set (bw := make_free_writes g ops b offset len) in *.
  set (q := merged_off pre offset) in *.
  set (L := merged_len pre post len) in *.
  assert (Htarget : match mf_prevdup ops b offset with
                    | Some p => p
                    | None => offset
                    end = q).
  { rewrite HP. unfold q, merged_off.
    destruct (prev_free pre) as [[o l]|]; reflexivity. }
  rewrite Htarget in Hlog.
  split; [|split].
  - rewrite Hlog. unfold scxfs_dir2_data_log_unused, scxfs_trans_log_buf.
    cbn [b_logged b_addr set_addr].
    unfold scxfs_dir2_data_unused_tag_p. rewrite W3.
    rewrite <- app_assoc. cbn [app].
    rewrite !u32_small by lia.
    replace (q + 2 + 2 - 1) with (q + 3) by lia.
    replace (q + L - 2 + 2 - 1) with (q + L - 1) by lia.
    reflexivity.
  - destruct Hnl as [H|[H _]]; auto.
  - assert (Hq : prev_free pre = None -> q = offset)
      by (intros E; unfold q, merged_off; rewrite E; reflexivity).
    intros x Hx.
    destruct (Z_le_gt_dec q x) as [Q1|Q1];
      [destruct (Z_le_gt_dec x (q + 3)) as [Q2|Q2]; [left; lia|]|].
    + destruct (Z_le_gt_dec (q + L - 2) x) as [Q3|Q3];
        [destruct (Z_le_gt_dec x (q + L - 1)) as [Q4|Q4]; [right; left; lia|]|].
      * exfalso. apply Hx. destruct F as [_ F]. rewrite F by lia.
        apply HF; try lia. intros E. specialize (Hq E). lia.
      * exfalso. apply Hx. destruct F as [_ F]. rewrite F by lia.
        apply HF; try lia. intros E. specialize (Hq E). lia.
    + destruct (Z_lt_ge_dec x (data_bestfree_p ops)) as [T1|T1].
      { exfalso. apply Hx. destruct F as [_ F]. rewrite F by lia.
        apply HF; lia. }
      destruct (Z_lt_ge_dec x (data_bestfree_p ops + 12)) as [T2|T2].
      2:{ exfalso. apply Hx. destruct F as [_ F]. rewrite F by lia.
          apply HF; lia. }
      right. right. split; [lia|].
      destruct Hnl as [H|[_ H]]; [exact H|].
      exfalso. apply Hx. rewrite H. apply HF; lia.
Qed.

End Journal.

(** ** What [use_free] hands to the journal *)

Lemma b_logged_log_unused (args : scxfs_da_args) (bp : scxfs_buf) (dup : Z) :
  b_logged (scxfs_dir2_data_log_unused args bp dup)
  = b_logged bp ++ logged_of_unused (b_addr bp) dup.
Proof.
  unfold scxfs_dir2_data_log_unused, scxfs_trans_log_buf, logged_of_unused.
  cbn [b_logged b_addr]. rewrite <- app_assoc. reflexivity.
Qed.

(** The result of [use_free] once [check_free] has passed: the ranges
    logged, the buffer up to the bytes of the table, and [*needlogp]. *)
Lemma use_free_shape (args : scxfs_da_args) (bp : scxfs_buf)
    (dup offset len nl ns : Z) :
  let b := b_addr bp in
  let bf := data_bestfree_p (d_ops args) in
  let W := use_free_writes b dup offset len in
  let r := scxfs_dir2_data_use_free args bp dup offset len nl ns in
  table_in b bf ->
  scxfs_dir2_data_check_free b dup offset len = None ->
  b_logged (snd (fst (fst r))) = b_logged bp ++ use_free_logged b dup offset len
  /\ same_outside bf (bf + 12) W (b_addr (snd (fst (fst r))))
  /\ (snd (fst r) = 1 \/ (snd (fst r) = nl /\ b_addr (snd (fst (fst r))) = W)).
Proof.
  cbv zeta. intros Hin Hchk.
  pose proof (blen_use_free_writes (b_addr bp) dup offset len) as Hbl.
  pose proof (table_in_blen _ _ _ Hbl Hin) as HinW.
  revert Hbl HinW.
  unfold scxfs_dir2_data_use_free, use_free_writes, use_free_logged,
    use_free_writes.
  rewrite Hchk. cbv zeta.
  set (bf := data_bestfree_p (d_ops args)) in *.
  destruct (scxfs_dir2_data_freefind (b_addr bp) bf dup) as [i|] eqn:Ef.
  2:{ destruct (dup =? offset);
        destruct (dup + dup_length (b_addr bp) dup =? u32 (offset + len));
        cbn [andb]; intros Hbl HinW; cbn [fst snd b_addr set_addr];
        rewrite ?b_logged_log_unused, ?b_addr_log_unused;
        cbn [fst snd b_addr set_addr b_logged];
        rewrite ?b_logged_log_unused, ?b_addr_log_unused;
        cbn [fst snd b_addr set_addr b_logged];
        rewrite ?app_nil_r, ?app_assoc;
        (split; [reflexivity|]);
        (split; [apply same_outside_refl|right; split; reflexivity]). }
  destruct (dup =? offset);
    destruct (dup + dup_length (b_addr bp) dup =? u32 (offset + len));
    cbn [andb]; intros Hbl HinW.
  - destruct (negb (bf_offset (b_addr bp) bf 2 =? 0)); cbn [fst snd].
    { rewrite app_nil_r. split; [reflexivity|].
      split; [apply same_outside_refl|right; split; reflexivity]. }
    pose proof (freeremove_frame (b_addr bp) bf (Some i) Hin) as F.
    pose proof (freeremove_loghead (b_addr bp) bf (Some i)) as N.
    destruct (scxfs_dir2_data_freeremove (b_addr bp) bf (Some i)) as [b1 nl1].
    cbn [fst snd b_addr set_addr b_logged] in *. rewrite app_nil_r.
    split; [reflexivity|]. split; [exact F|left; exact N].
  - match goal with
    | |- context [scxfs_dir2_data_freeremove ?w ?t ?d] =>
        pose proof (freeremove_frame w t d HinW) as F1;
        pose proof (freeremove_loghead w t d) as N1;
        destruct (scxfs_dir2_data_freeremove w t d) as [b4 nl4]
    end.
    cbn [fst snd] in F1, N1. subst nl4.
    pose proof (table_in_same _ _ _ _ _ F1 HinW) as Hin4.
    pose proof (freeinsert_frame b4 bf (offset + len) 1 Hin4) as F2.
    pose proof (freeinsert_loghead_set b4 bf (offset + len)) as N2.
    destruct (scxfs_dir2_data_freeinsert b4 bf (offset + len) 1)
      as [[b5 d5] nl5].
    cbn [fst snd] in F2, N2.
    destruct (scxfs_dir2_data_check_new_free b5 bf d5 (offset + len));
      cbn [fst snd b_addr set_addr b_logged];
      rewrite b_logged_log_unused; cbn [b_addr set_addr b_logged];
      (split; [reflexivity|]);
      (split; [eauto using same_outside_trans|left; exact N2]).
  - match goal with
    | |- context [scxfs_dir2_data_freeremove ?w ?t ?d] =>
        pose proof (freeremove_frame w t d HinW) as F1;
        pose proof (freeremove_loghead w t d) as N1;
        destruct (scxfs_dir2_data_freeremove w t d) as [b4 nl4]
    end.
    cbn [fst snd] in F1, N1. subst nl4.
    pose proof (table_in_same _ _ _ _ _ F1 HinW) as Hin4.
    pose proof (freeinsert_frame b4 bf dup 1 Hin4) as F2.
    pose proof (freeinsert_loghead_set b4 bf dup) as N2.
    destruct (scxfs_dir2_data_freeinsert b4 bf dup 1) as [[b5 d5] nl5].
    cbn [fst snd] in F2, N2.
    destruct (scxfs_dir2_data_check_new_free b5 bf d5 dup);
      cbn [fst snd b_addr set_addr b_logged];
      rewrite b_logged_log_unused; cbn [b_addr set_addr b_logged];
      (split; [reflexivity|]);
      (split; [eauto using same_outside_trans|left; exact N2]).
  - match goal with
    | |- context [negb (bf_length ?w ?t 2 =? 0)] =>
        destruct (negb (bf_length w t 2 =? 0))
    end.
    { cbn [fst snd]. rewrite !b_logged_log_unused, !b_addr_log_unused.
      cbn [b_addr set_addr b_logged].
      rewrite !b_logged_log_unused. cbn [b_addr set_addr b_logged].
      rewrite <- app_assoc.
      split; [reflexivity|].
      split; [apply same_outside_refl|right; split; reflexivity]. }
    match goal with
    | |- context [scxfs_dir2_data_freeremove ?w ?t ?d] =>
        pose proof (freeremove_frame w t d HinW) as F1;
        pose proof (freeremove_loghead w t d) as N1;
        destruct (scxfs_dir2_data_freeremove w t d) as [b6 nl6]
    end.
    cbn [fst snd] in F1, N1. subst nl6.
    pose proof (table_in_same _ _ _ _ _ F1 HinW) as Hin6.
    pose proof (freeinsert_frame b6 bf dup 1 Hin6) as F2.
    pose proof (freeinsert_loghead_set b6 bf dup) as N2.
    destruct (scxfs_dir2_data_freeinsert b6 bf dup 1) as [[b7 d7] nl7].
    cbn [fst snd] in F2, N2. subst nl7.
    pose proof (table_in_same _ _ _ _ _ F2 Hin6) as Hin7.
    pose proof (freeinsert_frame b7 bf (offset + len) 1 Hin7) as F3.
    pose proof (freeinsert_loghead_set b7 bf (offset + len)) as N3.
    destruct (scxfs_dir2_data_freeinsert b7 bf (offset + len) 1)
      as [[b8 d8] nl8].
    cbn [fst snd b_addr set_addr b_logged] in *.
    rewrite !b_logged_log_unused. cbn [b_addr set_addr b_logged].
    rewrite !b_logged_log_unused. cbn [b_addr set_addr b_logged].
    rewrite <- app_assoc.
    split; [reflexivity|].
    split; [eauto using same_outside_trans|left; exact N3].
Qed.

(** The record written by three stores at [p]: tag, length [l], and the
    tag at the end. *)
Lemma put_unused_fields (c : buf) (p l : Z) :
  0 <= p -> 8 <= l < 65536 -> p + l <= blen c ->
  let c1 := put_be16 c (p + 2) l in
  let c2 := put_be16 c1 (scxfs_dir2_data_unused_tag_p c1 p) p in
  scxfs_dir2_data_unused_tag_p c1 p = p + l - 2
  /\ dup_length c2 p = l
  /\ scxfs_dir2_data_unused_tag_p c2 p = p + l - 2
  /\ blen c2 = blen c
  /\ forall x, ~ (p + 2 <= x < p + 4) -> ~ (p + l - 2 <= x < p + l) ->
               rd c2 x = rd c x.
Proof.
  intros Hp Hl Hin. cbv zeta.
  assert (D1 : dup_length (put_be16 c (p + 2) l) p = l).
  { unfold dup_length. rewrite get_put_be16_same by lia. apply u16_small. lia. }
  unfold scxfs_dir2_data_unused_tag_p. rewrite D1.
  assert (D2 : dup_length (put_be16 (put_be16 c (p + 2) l) (p + l - 2) p) p = l).
  { unfold dup_length. rewrite get_put_be16_other by lia. exact D1. }
  rewrite D2. rewrite !blen_put_be16.
  repeat split; try reflexivity.
  intros x X1 X2. rewrite !rd_put_be16_other by lia. reflexivity.
Qed.

Ltac ranges_eq :=
  cbn [app];
  repeat match goal with
         | |- cons _ _ = cons _ _ => apply f_equal2
         | |- pair _ _ = pair _ _ => apply f_equal2
         end;
  try reflexivity; lia.

Lemma multiple_of_8 (x : Z) : x mod 8 = 0 -> exists k, x = 8 * k.
Proof.
  intros H. exists (x / 8).
  pose proof (Z.div_mod x 8 ltac:(lia)). lia.
Qed.

(** Taking a range out of an unused record journals what it changes.
    For a record at [dup] that passes [check_free] for the range
    [offset, offset+len), with offsets and lengths multiples of 8 and the
    record inside a block of at most 64 KiB behind the table:
    [use_free] logs the first four and the last two bytes of each unused
    record that remains (before the range, after it, or both; nothing when
    the range is the whole record); every byte that changed lies in one of
    these ranges or in the best-free table, and in the latter case
    [*needlogp] is 1; the bytes of the range itself are not touched. *)
Theorem use_free_journals_changes (args : scxfs_da_args) (bp : scxfs_buf)
    (dup offset len nl ns : Z) :
  let b := b_addr bp in
  let bf := data_bestfree_p (d_ops args) in
  let oldlen := dup_length b dup in
  let r := scxfs_dir2_data_use_free args bp dup offset len nl ns in
  let b' := b_addr (snd (fst (fst r))) in
  let front := if dup <? offset
               then [(dup, dup + 3); (offset - 2, offset - 1)] else [] in
  let back := if offset + len <? dup + oldlen
              then [(offset + len, offset + len + 3);
                    (dup + oldlen - 2, dup + oldlen - 1)]
              else [] in
  table_in b bf -> bf + 12 <= dup -> dup + oldlen <= blen b ->
  blen b <= 65536 -> 0 < len -> offset + len < 4294967296 ->
  dup mod 8 = 0 -> offset mod 8 = 0 -> len mod 8 = 0 -> oldlen mod 8 = 0 ->
  scxfs_dir2_data_check_free b dup offset len = None ->
  b_logged (snd (fst (fst r))) = b_logged bp ++ front ++ back
  /\ (snd (fst r) = 1 \/ snd (fst r) = nl)
  /\ (forall x, rd b' x <> rd b x ->
        (exists rg, In rg (front ++ back) /\ fst rg <= x <= snd rg)
        \/ (bf <= x < bf + 12 /\ snd (fst r) = 1))
  /\ (forall x, offset <= x < offset + len -> rd b' x = rd b x).
Proof.
  cbv zeta.
  intros Hin Hdup Hend Hblen Hlen Hwrap A1 A2 A3 A4 Hchk.
  destruct (use_free_shape args bp dup offset len nl ns Hin Hchk)
    as (Hlog & F & Hnl).
  destruct (check_free_dup_range _ _ _ _ Hchk) as (Hd & Hge & Hle).
  rewrite (u32_small (offset + len)) in Hle by lia.
  apply multiple_of_8 in A1, A2, A3, A4.
  destruct A1 as [k1 A1]. destruct A2 as [k2 A2].
  destruct A3 as [k3 A3]. destruct A4 as [k4 A4].
  pose proof (get_be16_range (b_addr bp) (dup + 2)) as Rold.
  fold (dup_length (b_addr bp) dup) in Rold.
  pose proof Hin as [Hbf0 _].
  set (b := b_addr bp) in *.
  set (bf := data_bestfree_p (d_ops args)) in *.
  set (oldlen := dup_length b dup) in *.
  set (r := scxfs_dir2_data_use_free args bp dup offset len nl ns) in *.
  set (W := use_free_writes b dup offset len) in *.
  set (front := if dup <? offset
                then [(dup, dup + 3); (offset - 2, offset - 1)] else []).
  set (back := if offset + len <? dup + oldlen
               then [(offset + len, offset + len + 3);
                     (dup + oldlen - 2, dup + oldlen - 1)]
               else []).
  (* the writes: the ranges logged and the bytes that stay *)
  assert (HW : use_free_logged b dup offset len = front ++ back
               /\ forall x,
                    (dup < offset -> ~ (dup + 2 <= x < dup + 4)
                                     /\ ~ (offset - 2 <= x < offset)) ->
                    (offset + len < dup + oldlen ->
                     ~ (offset + len <= x < offset + len + 4)
                     /\ ~ (dup + oldlen - 2 <= x < dup + oldlen)) ->
                    rd W x = rd b x).
  { unfold W, use_free_logged, use_free_writes, front, back. cbv zeta.
    fold oldlen. rewrite (u32_small (offset + len)) by lia.
    destruct (Z.eqb_spec dup offset) as [Eo|Eo];
      destruct (Z.eqb_spec (dup + oldlen) (offset + len)) as [Eb|Eb];
      cbn [andb];
      destruct (Z.ltb_spec dup offset); try lia;
      destruct (Z.ltb_spec (offset + len) (dup + oldlen)); try lia.
    - split; [reflexivity|]. intros x _ _. reflexivity.
    - (* front match: one record after the range *)
      set (p := offset + len).
      set (c := put_be16 b p SCXFS_DIR2_DATA_FREE_TAG).
      assert (Hc : p + (oldlen - len) <= blen c)
        by (unfold c; rewrite blen_put_be16; unfold p; lia).
      destruct (put_unused_fields c p (oldlen - len) ltac:(unfold p; lia)
                  ltac:(lia) Hc) as (T1 & D2 & T2 & _ & Fr).
      cbv zeta in T1, D2, T2, Fr. rewrite T1 in *.
      split.
      + unfold logged_of_unused. rewrite T2.
        rewrite !u32_small by (unfold p; lia).
        unfold p. ranges_eq.
      + intros x _ X. specialize (X ltac:(lia)).
        rewrite Fr by (unfold p; lia).
        unfold c. rewrite rd_put_be16_other by (unfold p; lia). reflexivity.
    - (* back match: one record before the range *)
      destruct (put_unused_fields b dup (offset - dup) ltac:(lia) ltac:(lia)
                  ltac:(lia)) as (T1 & D2 & T2 & _ & Fr).
      cbv zeta in T1, D2, T2, Fr. rewrite T1 in *.
      split.
      + unfold logged_of_unused. rewrite T2.
        rewrite !u32_small by lia.
        rewrite app_nil_r. ranges_eq.
      + intros x X _. specialize (X ltac:(lia)).
        apply Fr; lia.
    - (* the range lies inside: a record before and a record after *)
      destruct (put_unused_fields b dup (offset - dup) ltac:(lia) ltac:(lia)
                  ltac:(lia)) as (T1 & D2 & T2 & Hl2 & Fr).
      cbv zeta in T1, D2, T2, Hl2, Fr. rewrite T1 in *.
      set (b2 := put_be16 (put_be16 b (dup + 2) (offset - dup))
                   (dup + (offset - dup) - 2) dup) in *.
      set (p := offset + len).
      set (b3 := put_be16 b2 p SCXFS_DIR2_DATA_FREE_TAG).
      assert (D3 : dup_length b3 dup = offset - dup).
      { unfold dup_length, b3. rewrite get_put_be16_other by (unfold p; lia).
        exact D2. }
      rewrite D3.
      replace (oldlen - len - (offset - dup)) with (dup + oldlen - p)
        by (unfold p; lia).
      assert (Hc : p + (dup + oldlen - p) <= blen b3)
        by (unfold b3; rewrite blen_put_be16, Hl2; lia).
      destruct (put_unused_fields b3 p (dup + oldlen - p) ltac:(unfold p; lia)
                  ltac:(unfold p; lia) Hc) as (U1 & E2 & U2 & _ & Fr2).
      cbv zeta in U1, E2, U2, Fr2. rewrite U1 in *.
      split.
      + unfold logged_of_unused. rewrite T2, U2.
        rewrite !u32_small by (unfold p; lia).
        unfold p. ranges_eq.
      + intros x X Y. specialize (X ltac:(lia)). specialize (Y ltac:(lia)).
        rewrite Fr2 by (unfold p; lia).
        unfold b3. rewrite rd_put_be16_other by (unfold p; lia).
        apply Fr; lia. }
  destruct HW as [HL HWf]. rewrite HL in Hlog.
  assert (Hin_rg : forall x,
            ~ (exists rg, In rg (front ++ back) /\ fst rg <= x <= snd rg) ->
            (dup < offset -> ~ (dup + 2 <= x < dup + 4)
                             /\ ~ (offset - 2 <= x < offset))
            /\ (offset + len < dup + oldlen ->
                ~ (offset + len <= x < offset + len + 4)
                /\ ~ (dup + oldlen - 2 <= x < dup + oldlen))).
  { intros x Hn. unfold front, back in Hn. split; intros Hlt.
    - destruct (Z.ltb_spec dup offset); [|lia].
      split; intros Hx; apply Hn.
      + exists (dup, dup + 3). split; [cbn; auto|cbn [fst snd]; lia].
      + exists (offset - 2, offset - 1).
        split; [cbn; auto|cbn [fst snd]; lia].
    - destruct (Z.ltb_spec (offset + len) (dup + oldlen)); [|lia].
      split; intros Hx; apply Hn.
      + exists (offset + len, offset + len + 3).
        split; [apply in_or_app; right; cbn; auto|cbn [fst snd]; lia].
      + exists (dup + oldlen - 2, dup + oldlen - 1).
        split; [apply in_or_app; right; cbn; auto|cbn [fst snd]; lia]. }
  split; [exact Hlog|]. split; [destruct Hnl as [H|[H _]]; auto|]. split.
  - intros x Hx.
    destruct (Z_lt_ge_dec x bf) as [T1|T1];
      [|destruct (Z_lt_ge_dec x (bf + 12)) as [T2|T2]].
    + left. destruct F as [_ F]. rewrite F in Hx by lia.
      exfalso. apply Hx. apply HWf; lia.
    + destruct Hnl as [H|[_ H]]; [right; split; [lia|exact H]|].
      exfalso. apply Hx. fold r in H. rewrite H. apply HWf; lia.
    + destruct F as [_ F]. rewrite F in Hx by lia.
      left.
      assert (Dec : forall l : list (Z * Z),
                (exists rg, In rg l /\ fst rg <= x <= snd rg)
                \/ ~ (exists rg, In rg l /\ fst rg <= x <= snd rg)).
      { induction l as [|a l IH].
        - right. intros (rg & [] & _).
        - destruct IH as [(rg & I & R)|IH];
            [left; exists rg; split; [right; exact I|exact R]|].
          destruct (Z_le_gt_dec (fst a) x) as [G1|G1];
            [destruct (Z_le_gt_dec x (snd a)) as [G2|G2]|].
          + left. exists a. split; [left; reflexivity|lia].
          + right. intros (rg & [<-|I] & R); [lia|apply IH; eauto].
          + right. intros (rg & [<-|I] & R); [lia|apply IH; eauto]. }
      destruct (Dec (front ++ back)) as [Y|N]; [exact Y|].
      exfalso. apply Hx. destruct (Hin_rg x N) as [P1 P2]. apply HWf; assumption.
  - intros x Hx. destruct F as [_ F]. rewrite F by lia.
    apply HWf; intros; lia.
Qed.

(** ** Scanning twice *)

Lemma reads_alike_refl (b : buf) : reads_alike b b.
Proof. split; reflexivity. Qed.

Lemma reads_alike_wr (b c : buf) (i v : Z) :
  reads_alike b c -> reads_alike (wr b i v) (wr c i v).
Proof.
  intros [L R]. split; [rewrite !blen_wr; exact L|].
  intros x. rewrite !rd_wr, L, R. reflexivity.
Qed.

Lemma reads_alike_put_be16 (b c : buf) (o v : Z) :
  reads_alike b c -> reads_alike (put_be16 b o v) (put_be16 c o v).
Proof. intros H. unfold put_be16. auto using reads_alike_wr. Qed.

Lemma reads_alike_get_be16 (b c : buf) (o : Z) :
  reads_alike b c -> get_be16 c o = get_be16 b o.
Proof. intros [_ R]. unfold get_be16. rewrite !R. reflexivity. Qed.

Lemma reads_alike_get_be32 (b c : buf) (o : Z) :
  reads_alike b c -> get_be32 c o = get_be32 b o.
Proof.
  intros H. unfold get_be32.
  rewrite !(reads_alike_get_be16 b c) by exact H. reflexivity.
Qed.

Lemma reads_alike_bf_copy (b c : buf) (bf i j : Z) :
  reads_alike b c -> reads_alike (bf_copy b bf i j) (bf_copy c bf i j).
Proof.
  intros H. unfold bf_copy. cbv zeta. destruct H as [L R].
  rewrite !R. repeat apply reads_alike_wr. split; assumption.
Qed.

Lemma reads_alike_bf_set (b c : buf) (bf i off len : Z) :
  reads_alike b c -> reads_alike (bf_set b bf i off len) (bf_set c bf i off len).
Proof. intros H. unfold bf_set. auto using reads_alike_put_be16. Qed.

Lemma reads_alike_freeinsert (b c : buf) (bf dup lh : Z) :
  reads_alike b c ->
  reads_alike (fst (fst (scxfs_dir2_data_freeinsert b bf dup lh)))
              (fst (fst (scxfs_dir2_data_freeinsert c bf dup lh)))
  /\ snd (scxfs_dir2_data_freeinsert c bf dup lh)
     = snd (scxfs_dir2_data_freeinsert b bf dup lh).
Proof.
  intros H. unfold scxfs_dir2_data_freeinsert, dup_length, bf_length. cbv zeta.
  rewrite !(reads_alike_get_be16 b c) by exact H.
  repeat match goal with
         | |- context [if ?x then _ else _] => destruct x
         end; cbn [fst snd];
    (split; [|reflexivity]);
    auto using reads_alike_bf_copy, reads_alike_bf_set.
Qed.

Lemma reads_alike_endp (g : scxfs_da_geometry) (b c : buf) :
  reads_alike b c -> scxfs_dir3_data_endp g c = scxfs_dir3_data_endp g b.
Proof.
  intros H. unfold scxfs_dir3_data_endp, hdr_magic, scxfs_dir2_block_leaf_p,
    btp_count.
  rewrite !(reads_alike_get_be32 b c) by exact H. reflexivity.
Qed.

Lemma reads_alike_freescan_loop (ops : scxfs_dir_ops) (bf : Z)
    (endp : option Z) (fuel : nat) :
  forall b c p lh,
    reads_alike b c ->
    match freescan_loop fuel ops b bf p endp lh,
          freescan_loop fuel ops c bf p endp lh with
    | Some (b1, l1), Some (c1, l2) => reads_alike b1 c1 /\ l2 = l1
    | None, None => True
    | _, _ => False
    end.
Proof.
  induction fuel as [|fuel IH]; intros b c p lh H; cbn [freescan_loop];
    [exact I|].
  destruct (below_endp p endp); [|split; [exact H|reflexivity]].
  unfold dup_freetag. rewrite (reads_alike_get_be16 b c) by exact H.
  destruct (get_be16 b p =? SCXFS_DIR2_DATA_FREE_TAG).
  - destruct (reads_alike_freeinsert b c bf p lh H) as [H1 H2].
    destruct (scxfs_dir2_data_freeinsert b bf p lh) as [[b1 d1] l1].
    destruct (scxfs_dir2_data_freeinsert c bf p lh) as [[c1 d2] l2].
    cbn [fst snd] in H1, H2. subst l2.
    unfold dup_length. rewrite (reads_alike_get_be16 b1 c1) by exact H1.
    apply IH. exact H1.
  - unfold dep_namelen. destruct H as [L R]. rewrite R.
    apply IH. split; assumption.
Qed.

Lemma freescan_loop_frame (ops : scxfs_dir_ops) (bf : Z) (endp : option Z)
    (fuel : nat) :
  forall b p lh b' lh',
    table_in b bf ->
    freescan_loop fuel ops b bf p endp lh = Some (b', lh') ->
    same_outside bf (bf + 12) b b' /\ (lh = 1 -> lh' = 1).
Proof.
  induction fuel as [|fuel IH]; intros b p lh b' lh' Hin H;
    cbn [freescan_loop] in H; [discriminate|].
  destruct (below_endp p endp).
  2:{ injection H as <- <-. split; [apply same_outside_refl|auto]. }
  destruct (dup_freetag b p =? SCXFS_DIR2_DATA_FREE_TAG).
  - pose proof (freeinsert_frame b bf p lh Hin) as F.
    pose proof (freeinsert_loghead b bf p lh) as N.
    destruct (scxfs_dir2_data_freeinsert b bf p lh) as [[b1 d1] l1].
    cbn [fst snd] in F, N.
    destruct (IH _ _ _ _ _ (table_in_same _ _ _ _ _ F Hin) H) as [F' N'].
    split; [eapply same_outside_trans; eauto|].
    intros E. apply N'. destruct N as [N|N]; [exact N|].
    injection N as _ _ ->. exact E.
  - apply (IH _ _ _ _ _ Hin H).
Qed.

Lemma reads_alike_memset0_table (b c : buf) (bf : Z) :
  table_in b bf -> same_outside bf (bf + 12) b c ->
  reads_alike (memset0 b bf 12) (memset0 c bf 12).
Proof.
  intros Hin F. pose proof Hin as [H0 H12]. destruct F as [L R].
  pose proof (same_outside_memset0 12 bf (bf + 12) b bf ltac:(lia) ltac:(lia))
    as [Lb Rb].
  pose proof (same_outside_memset0 12 bf (bf + 12) c bf ltac:(lia) ltac:(lia))
    as [Lc Rc].
  split; [congruence|].
  intros x.
  destruct (Z_lt_ge_dec x bf) as [X|X]; [rewrite Rb, Rc, R by lia; reflexivity|].
  destruct (Z_lt_ge_dec x (bf + 12)) as [Y|Y];
    [|rewrite Rb, Rc, R by lia; reflexivity].
  rewrite !rd_memset0 by lia. reflexivity.
Qed.

(** [freescan_int] rebuilds the table from the records alone.  When it
    returns, nothing outside the table has changed and [*loghead] is 1;
    on every buffer that differs from the given one in the bytes of the
    table only it returns as well, with a buffer that reads the same.  So
    a second scan of the result changes nothing. *)
Theorem freescan_idempotent (g : scxfs_da_geometry) (ops : scxfs_dir_ops)
    (b b' : buf) (lh : Z) :
  let bf := data_bestfree_p ops in
  table_in b bf ->
  scxfs_dir2_data_freescan_int g ops b = Some (b', lh) ->
  same_outside bf (bf + 12) b b'
  /\ lh = 1
  /\ (forall c, same_outside bf (bf + 12) b c ->
        exists c', scxfs_dir2_data_freescan_int g ops c = Some (c', lh)
                   /\ reads_alike b' c')
  /\ exists b'', scxfs_dir2_data_freescan_int g ops b' = Some (b'', lh)
                 /\ reads_alike b' b''.
Proof.
  cbv zeta. intros Hin H.
  set (bf := data_bestfree_p ops) in *.
  assert (Hothers : forall c, same_outside bf (bf + 12) b c ->
            exists c', scxfs_dir2_data_freescan_int g ops c = Some (c', lh)
                       /\ reads_alike b' c').
  { intros c F. unfold scxfs_dir2_data_freescan_int in *. fold bf in H |- *.
    change (Z.to_nat (sizeof_scxfs_dir2_data_free * SCXFS_DIR2_DATA_FD_COUNT))
      with 12%nat in *.
    pose proof (reads_alike_memset0_table b c bf Hin F) as A.
    rewrite (reads_alike_endp g _ _ A).
    pose proof (reads_alike_freescan_loop ops bf
                  (scxfs_dir3_data_endp g (memset0 b bf 12)) (scan_fuel g)
                  _ _ (data_entry_p ops) 1 A) as C.
    rewrite H in C.
    destruct (freescan_loop (scan_fuel g) ops (memset0 c bf 12) bf
                (data_entry_p ops) (scxfs_dir3_data_endp g (memset0 b bf 12)) 1)
      as [[c1 l2]|]; [|contradiction].
    destruct C as [C ->]. exists c1. split; [reflexivity|exact C]. }
  assert (Hfr : same_outside bf (bf + 12) b b' /\ lh = 1).
  { unfold scxfs_dir2_data_freescan_int in H. fold bf in H.
    change (Z.to_nat (sizeof_scxfs_dir2_data_free * SCXFS_DIR2_DATA_FD_COUNT))
      with 12%nat in H.
    pose proof (same_outside_memset0 12 bf (bf + 12) b bf ltac:(lia) ltac:(lia))
      as F0.
    destruct (freescan_loop_frame _ _ _ _ _ _ _ _ _
                (table_in_same _ _ _ _ _ F0 Hin) H) as [F1 N].
    split; [eapply same_outside_trans; eauto|auto]. }
  destruct Hfr as [Hfr Hlh].
  split; [exact Hfr|]. split; [exact Hlh|]. split; [exact Hothers|].
  apply Hothers. exact Hfr.
Qed.

(** ** A fresh block *)

(** The header part of [scxfs_dir3_data_init] stays below [hi]. *)
Lemma init_header_frame (env : init_env) (b : buf) (hi : Z) :
  4 <= hi -> (hascrc env = true -> sizeof_scxfs_dir3_blk_hdr <= hi) ->
  let b1 :=
    if hascrc env then
      let h0 := memset0 b 0 (Z.to_nat sizeof_scxfs_dir3_blk_hdr) in
      let h1 := put_be32 h0 0 SCXFS_DIR3_DATA_MAGIC in
      let h2 := put_be64 h1 offsetof_dir3_blkno (b_bn env) in
      let h3 := put_be64 h2 offsetof_dir3_owner (i_ino env) in
      memcpy h3 offsetof_dir3_uuid (firstn 16 (sb_meta_uuid env))
    else put_be32 b 0 SCXFS_DIR2_DATA_MAGIC in
  same_outside 0 hi b b1.
Proof.
  intros Hhi Hcrc. cbv zeta. destruct (hascrc env).
  - specialize (Hcrc eq_refl). unfold sizeof_scxfs_dir3_blk_hdr in Hcrc.
    eapply same_outside_trans;
      [|apply same_outside_memcpy; unfold offsetof_dir3_uuid; [lia|];
        pose proof (firstn_le_length 16 (sb_meta_uuid env)); lia].
    eapply same_outside_trans;
      [|apply same_outside_put_be64; unfold offsetof_dir3_owner; lia].
    eapply same_outside_trans;
      [|apply same_outside_put_be64; unfold offsetof_dir3_blkno; lia].
    eapply same_outside_trans; [|apply same_outside_put_be32; lia].
    apply same_outside_memset0; [lia|].
    unfold sizeof_scxfs_dir3_blk_hdr. lia.
  - apply same_outside_put_be32; lia.
Qed.

(** What [scxfs_dir3_data_init] leaves in the buffer and in the journal. *)
Lemma init_fields (env : init_env) (args : scxfs_da_args) (bp : scxfs_buf) :
  let ops := d_ops args in
  let B := blksize (geo args) in
  let deo := data_entry_offset ops in
  let bf := data_bestfree_p ops in
  ops_layout ops -> blen (b_addr bp) = B -> deo + 8 <= B <= 65536 ->
  (hascrc env = true -> sizeof_scxfs_dir3_blk_hdr <= deo) ->
  exists bp',
    scxfs_dir3_data_init env args (inr bp) = (0, Some bp')
    /\ (forall x, deo + 4 <= x < B - 2 -> rd (b_addr bp') x = rd (b_addr bp) x)
    /\ blen (b_addr bp') = B
    /\ (hdr_magic (b_addr bp') = SCXFS_DIR2_DATA_MAGIC
        \/ hdr_magic (b_addr bp') = SCXFS_DIR3_DATA_MAGIC)
    /\ bf_table (b_addr bp') bf = [(deo, B - deo); (0, 0); (0, 0)]
    /\ dup_freetag (b_addr bp') deo = SCXFS_DIR2_DATA_FREE_TAG
    /\ dup_length (b_addr bp') deo = B - deo
    /\ get_be16 (b_addr bp') (B - 2) = deo
    /\ b_logged bp'
       = b_logged bp ++ [(0, deo - 1); (deo, deo + 3); (B - 2, B - 1)].
Proof.
  cbv zeta. intros (L1 & L2 & L3 & L4 & L5 & _) Hlen HB Hcrc.
  unfold scxfs_dir3_data_init.
  eexists. split; [reflexivity|].
  rewrite b_logged_log_unused.
  cbn [b_addr scxfs_dir2_data_log_unused scxfs_dir2_data_log_header
        scxfs_trans_log_buf set_addr fold_left b_logged].
  destruct (init_header env (b_addr bp) ltac:(lia)) as [Hl Hm].
  pose proof (init_header_frame env (b_addr bp)
                (data_entry_offset (d_ops args)) ltac:(lia) Hcrc) as F1.
  cbv zeta in Hl, Hm, F1.
  set (b1 := if hascrc env then _ else _) in *.
  rewrite L5. unfold sizeof_scxfs_dir2_data_free.
  set (bf := data_bestfree_p (d_ops args)) in *.
  set (deo := data_entry_offset (d_ops args)) in *.
  set (B := blksize (geo args)) in *.
  rewrite (u32_small deo) by lia.
  assert (Hlen1 : blen b1 = B) by lia.
  assert (Ht : u16 (B - deo) = B - deo) by (apply u16_small; lia).
  assert (Hd : u16 deo = deo) by (apply u16_small; lia).
  assert (Hz : u16 0 = 0) by reflexivity.
  assert (Hf : u16 SCXFS_DIR2_DATA_FREE_TAG = SCXFS_DIR2_DATA_FREE_TAG)
    by reflexivity.
  match goal with
  | |- context [put_be16 ?x (scxfs_dir2_data_unused_tag_p ?x deo) deo] =>
      set (b6 := x);
      assert (Hdl : dup_length b6 deo = B - deo)
        by (unfold dup_length, b6; g16; exact Ht)
  end.
  assert (Htp : scxfs_dir2_data_unused_tag_p b6 deo = B - 2)
    by (unfold scxfs_dir2_data_unused_tag_p; rewrite Hdl; lia).
  rewrite !Htp.
  set (b7 := put_be16 b6 (B - 2) deo).
  assert (Hdl7 : dup_length b7 deo = B - deo)
    by (unfold dup_length, b7, b6; g16; exact Ht).
  assert (Hft7 : dup_freetag b7 deo = SCXFS_DIR2_DATA_FREE_TAG)
    by (unfold dup_freetag, b7, b6; g16; exact Hf).
  assert (Hm7 : hdr_magic b7 = hdr_magic b1)
    by (unfold hdr_magic, get_be32, b7, b6; g16; reflexivity).
  split.
  { intros x Hx. unfold b7. rewrite rd_put_be16_other by lia.
    assert (F6 : same_outside 0 (deo + 4) (b_addr bp) b6).
    { unfold b6.
      do 8 (eapply same_outside_trans; [|apply same_outside_put_be16; lia]).
      eapply same_outside_weaken; [| |exact F1]; lia. }
    destruct F6 as [_ F6]. apply F6. lia. }
  split; [unfold b7, b6; rewrite !blen_put_be16; exact Hlen1|].
  split; [rewrite Hm7; exact Hm|].
  split.
  { apply bf_table_eq; unfold slot_at, bf_offset, bf_length,
      sizeof_scxfs_dir2_data_free, b7, b6;
      rewrite ?Z.mul_0_r, ?Z.add_0_r; g16;
      rewrite ?Hd, ?Ht, ?Hz; reflexivity. }
  split; [exact Hft7|]. split; [exact Hdl7|].
  split; [unfold b7, b6; g16; exact Hd|].
  unfold logged_of_unused, scxfs_dir2_data_unused_tag_p. rewrite Hdl7.
  rewrite !u32_small by lia.
  rewrite <- app_assoc. cbn [app].
  f_equal. ranges_eq.
Qed.

Section FreshBlock.

Variable ftm : Z.
Variable inoval : Z -> Z.
Variable hash : list Z -> Z.
Variable dataptr : scxfs_da_geometry -> Z -> Z -> Z.
Variable g : scxfs_da_geometry.
Variable ops : scxfs_dir_ops.

Let verify := __scxfs_dir3_data_check ftm inoval hash dataptr g ops.

(** A data block that is one unused record listed in slot 0 is accepted. *)
Lemma single_region_accepted (b : buf) :
  ops_layout ops -> data_entry_offset ops + 8 <= blksize g <= 65536 ->
  hdr_magic b = SCXFS_DIR2_DATA_MAGIC \/ hdr_magic b = SCXFS_DIR3_DATA_MAGIC ->
  bf_table b (data_bestfree_p ops)
  = [(data_entry_offset ops, blksize g - data_entry_offset ops); (0, 0); (0, 0)] ->
  dup_freetag b (data_entry_offset ops) = SCXFS_DIR2_DATA_FREE_TAG ->
  dup_length b (data_entry_offset ops) = blksize g - data_entry_offset ops ->
  get_be16 b (blksize g - 2) = data_entry_offset ops ->
  verify b = CheckGood.
Proof.
  intros (L1 & L2 & L3 & L4 & L5 & _) HB Hm Ht Hft Hdl Htag.
  destruct (bf_table_inv _ _ _ _ _ Ht) as (S0 & S1 & S2).
  apply slot_at_fields in S0, S1, S2. cbn [fst snd] in S0, S1, S2.
  destruct S0 as [O0 N0]. destruct S1 as [O1 N1]. destruct S2 as [O2 N2].
  set (deo := data_entry_offset ops) in *.
  set (B := blksize g) in *.
  set (bf := data_bestfree_p ops) in *.
  unfold verify, __scxfs_dir3_data_check. cbv zeta.
  rewrite (endp_data_magic g b Hm). rewrite L4. fold bf deo.
  assert (Hib : (hdr_magic b =? SCXFS_DIR3_BLOCK_MAGIC)
                || (hdr_magic b =? SCXFS_DIR2_BLOCK_MAGIC) = false)
    by (destruct Hm as [-> | ->]; reflexivity).
  assert (Hid : (hdr_magic b =? SCXFS_DIR3_DATA_MAGIC)
                || (hdr_magic b =? SCXFS_DIR2_DATA_MAGIC) = true)
    by (destruct Hm as [-> | ->]; reflexivity).
  rewrite Hib, Hid. cbn [andb negb].
  assert (Hz : zero_slots b bf = inr 6).
  { unfold zero_slots, bf_slots. cbn [fold_left].
    rewrite N0, N1, N2, O1, O2.
    destruct (Z.eqb_spec (B - deo) 0); [lia|]. reflexivity. }
  rewrite Hz, N0, N1, N2.
  destruct (Z.ltb_spec (B - deo) 0); [lia|].
  change (0 <? 0) with false. cbv iota.
  unfold scan_fuel. cbn [data_check_loop]. fold B.
  destruct (Z.ltb_spec deo B); [|lia].
  rewrite Hft, Z.eqb_refl. change (negb (0 =? 0)) with false. cbv iota.
  rewrite Hdl.
  replace (deo + (B - deo)) with B by lia.
  rewrite Z.ltb_irrefl.
  unfold scxfs_dir2_data_unused_tag_p. rewrite Hdl.
  replace (deo + (B - deo) - 2) with (B - 2) by lia.
  rewrite Htag, Z.eqb_refl. cbn [negb].
  assert (Hfv : scxfs_dir2_data_freefind_verify b bf deo = (None, Some 0)).
  { unfold scxfs_dir2_data_freefind_verify, bf_slots.
    rewrite (u32_small deo) by lia.
    cbn [freefind_verify_loop].
    rewrite O0, O1, O2, N0, N1, N2, Hdl.
    destruct (Z.eqb_spec deo 0); [lia|].
    rewrite !Z.eqb_refl. cbn [negb orb andb].
    change (0 >? 0) with false. cbn [andb negb].
    unfold scxfs_dir2_data_freefind, bf_slots.
    change (SCXFS_DIR2_DATA_FD_COUNT - 1) with 2. rewrite N2, Hdl.
    destruct (Z.ltb_spec (B - deo) 0); [lia|].
    rewrite (u32_small deo) by lia. cbn [freefind_loop].
    rewrite O0. destruct (Z.eqb_spec deo 0); [lia|].
    rewrite Z.eqb_refl. reflexivity. }
  rewrite Hfv. reflexivity.
Qed.

End FreshBlock.

(** The block that [scxfs_dir3_data_init] sets up passes
    [__scxfs_dir3_data_check], whatever the buffer held before and for
    every inode check, name hash and address function; the three ranges
    logged are the header and the first four and last two bytes of the
    unused record, and every byte that changed lies in one of them.  The
    format table is the one selected by the CRC bit, and the block size
    leaves room for a record. *)
Theorem data_init_accepted (ftu ftm : Z) (inoval : Z -> Z) (hash : list Z -> Z)
    (dataptr : scxfs_da_geometry -> Z -> Z -> Z) (hasftype : bool)
    (env : init_env) (args : scxfs_da_args) (bp : scxfs_buf) :
  let ops := d_ops args in
  let B := blksize (geo args) in
  let deo := data_entry_offset ops in
  ops = scxfs_dir_get_ops ftu ftm (hascrc env) hasftype ->
  blen (b_addr bp) = B -> deo + 8 <= B <= 65536 ->
  exists bp',
    scxfs_dir3_data_init env args (inr bp) = (0, Some bp')
    /\ __scxfs_dir3_data_check ftm inoval hash dataptr (geo args) ops (b_addr bp')
       = CheckGood
    /\ b_logged bp'
       = b_logged bp ++ [(0, deo - 1); (deo, deo + 3); (B - 2, B - 1)]
    /\ forall x, rd (b_addr bp') x <> rd (b_addr bp) x ->
                 0 <= x <= deo + 3 \/ B - 2 <= x <= B - 1.
Proof.
  cbv zeta. intros Hops Hlen HB.
  assert (Hv : In (d_ops args) (format_variants ftu ftm)).
  { rewrite Hops. unfold scxfs_dir_get_ops, format_variants.
    destruct (hascrc env); [|destruct hasftype]; cbn; auto. }
  pose proof (format_variants_layout _ _ _ Hv) as Hlay.
  assert (Hcrc : hascrc env = true
                 -> sizeof_scxfs_dir3_blk_hdr <= data_entry_offset (d_ops args)).
  { intros E. rewrite Hops, E. cbn. lia. }
  destruct (init_fields env args bp Hlay Hlen HB Hcrc)
    as (bp' & Hi & Hfr & Hl' & Hm & Ht & Hft & Hdl & Htag & Hlog).
  exists bp'. split; [exact Hi|].
  split; [apply single_region_accepted; assumption|].
  split; [exact Hlog|].
  intros x Hx.
  destruct (Z_lt_ge_dec x 0) as [X0|X0].
  { exfalso. apply Hx. unfold rd. destruct (Z.ltb_spec x 0); [reflexivity|lia]. }
  destruct (Z_le_gt_dec x (data_entry_offset (d_ops args) + 3)) as [X1|X1];
    [left; lia|].
  destruct (Z_lt_ge_dec x (blksize (geo args) - 2)) as [X2|X2].
  2:{ destruct (Z_le_gt_dec x (blksize (geo args) - 1)) as [X3|X3];
        [right; lia|].
      exfalso. apply Hx. rewrite !rd_oob by lia. reflexivity. }
  exfalso. apply Hx. apply Hfr. lia.
Qed.

Lemma make_free_journals_changes_witness :
  let r := scxfs_dir2_data_make_free sample_args sample_buf 48 16 0 in
  sample_verify sample_block = CheckGood
  /\ b_logged (fst (fst r)) = [(32, 35); (78, 79)]
  /\ forall x,
       rd (b_addr (fst (fst r))) x <> rd sample_block x ->
       32 <= x <= 35 \/ 78 <= x <= 79
       \/ (4 <= x < 4 + 12 /\ snd (fst r) = 1).
Proof.
  assert (Hr : block_records sample_geo sample_ops sample_block
               = [REntry 16 16; RUnused 32 16]
                   ++ REntry 48 16 :: [RUnused 64 16; REntry 80 16; RUnused 96 32])
    by (vm_compute; reflexivity).
  destruct (make_free_journals_changes 9 (fun _ => 0) (fun _ => 0)
              (fun _ _ o => o / 8) sample_geo sample_ops sample_block
              sample_layout sample_block_ok sample_accepted
              [REntry 16 16; RUnused 32 16]
              [RUnused 64 16; REntry 80 16; RUnused 96 32]
              48 16 sample_buf 0 eq_refl Hr) as (H1 & _ & H3).
  split; [exact sample_accepted|]. split; [exact H1|exact H3].
Defined.

Lemma use_free_journals_changes_witness :
  let r := scxfs_dir2_data_use_free sample_args sample_buf 96 104 8 0 0 in
  b_logged (snd (fst (fst r))) = [(96, 99); (102, 103); (112, 115); (126, 127)]
  /\ forall x, 104 <= x < 104 + 8 ->
               rd (b_addr (snd (fst (fst r)))) x = rd sample_block x.
Proof.
  destruct (use_free_journals_changes sample_args sample_buf 96 104 8 0 0)
    as (H1 & _ & _ & H4).
  - split; vm_compute; congruence.
  - vm_compute. congruence.
  - vm_compute. congruence.
  - vm_compute. congruence.
  - lia.
  - lia.
  - reflexivity.
  - reflexivity.
  - reflexivity.
  - vm_compute. reflexivity.
  - vm_compute. reflexivity.
  - split; [exact H1|exact H4].
Defined.

Lemma freescan_idempotent_witness :
  exists b',
    scxfs_dir2_data_freescan_int sample_geo sample_ops sample_block = Some (b', 1)
    /\ exists b'',
         scxfs_dir2_data_freescan_int sample_geo sample_ops b' = Some (b'', 1)
         /\ reads_alike b' b''.
Proof.
  destruct (scxfs_dir2_data_freescan_int sample_geo sample_ops sample_block)
    as [[b' lh]|] eqn:E.
  - destruct (freescan_idempotent sample_geo sample_ops sample_block b' lh
                ltac:(split; vm_compute; congruence) E) as (_ & -> & _ & Hid).
    exists b'. split; [reflexivity|exact Hid].
  - vm_compute in E. discriminate.
Defined.

Lemma data_init_accepted_witness :
  exists bp',
    scxfs_dir3_data_init sample_env sample_args (inr fresh_buf) = (0, Some bp')
    /\ sample_verify (b_addr bp') = CheckGood
    /\ b_logged bp' = [(0, 15); (16, 19); (126, 127)].
Proof.
  destruct (data_init_accepted 0 9 (fun _ => 0) (fun _ => 0)
              (fun _ _ o => o / 8) true sample_env sample_args fresh_buf)
    as (bp' & H1 & H2 & H3 & _).
  - reflexivity.
  - reflexivity.
  - cbn. lia.
  - exists bp'. split; [exact H1|]. split; [exact H2|exact H3].
Defined.

Lemma fv_loop_zero (b : buf) (bf dup off i : Z) (rest : list Z)
    (matched seenzero : bool) :
  bf_offset b bf i = 0 -> bf_length b bf i = 0 ->
  freefind_verify_loop b bf dup off (i :: rest) matched seenzero
  = freefind_verify_loop b bf dup off rest matched true.
Proof.
  intros Ho Hl. cbn [freefind_verify_loop]. rewrite Ho, Hl. reflexivity.
Qed.

Lemma fv_loop_used (b : buf) (bf dup off i : Z) (rest : list Z)
    (matched : bool) :
  bf_offset b bf i <> 0 ->
  (bf_offset b bf i = off /\ bf_length b bf i = dup_length b dup)
  \/ (off < bf_offset b bf i /\ u32 (off + dup_length b dup) <= bf_offset b bf i)
  \/ (bf_offset b bf i < off /\ bf_offset b bf i + bf_length b bf i <= off) ->
  (matched = false -> bf_offset b bf i <> off ->
   dup_length b dup <= bf_length b bf i) ->
  (0 < i -> bf_length b bf i <= bf_length b bf (i - 1)) ->
  freefind_verify_loop b bf dup off (i :: rest) matched false
  = freefind_verify_loop b bf dup off rest
      (matched || (bf_offset b bf i =? off)) false.
Proof.
  intros Hnz Hap Hm Hs. cbn [freefind_verify_loop].
  destruct (Z.eqb_spec (bf_offset b bf i) 0); [contradiction|].
  assert (Hbad : (if bf_offset b bf i =? off
                  then if negb (bf_length b bf i =? dup_length b dup)
                       then Some 415 else None
                  else if bf_offset b bf i >? off
                       then if u32 (off + dup_length b dup) >? bf_offset b bf i
                            then Some 419 else None
                       else if bf_offset b bf i + bf_length b bf i >? off
                            then Some 423 else None) = None).
  { destruct (Z.eqb_spec (bf_offset b bf i) off) as [E|E].
    - destruct Hap as [[_ ->]|[[H _]|[H _]]]; try lia.
      rewrite Z.eqb_refl. reflexivity.
    - destruct Hap as [[H _]|[[H1 H2]|[H1 H2]]]; [contradiction| |].
      + destruct (Z.gtb_spec (bf_offset b bf i) off); [|lia].
        destruct (Z.gtb_spec (u32 (off + dup_length b dup)) (bf_offset b bf i));
          [lia|reflexivity].
      + destruct (Z.gtb_spec (bf_offset b bf i) off); [lia|].
        destruct (Z.gtb_spec (bf_offset b bf i + bf_length b bf i) off);
          [lia|reflexivity]. }
  cbv zeta. rewrite Hbad.
  assert (H427 : negb (matched || (bf_offset b bf i =? off))
                 && (bf_length b bf i <? dup_length b dup) = false).
  { destruct matched; [reflexivity|]. cbn [orb].
    destruct (Z.eqb_spec (bf_offset b bf i) off); [reflexivity|]. cbn [negb andb].
    specialize (Hm eq_refl ltac:(assumption)).
    destruct (Z.ltb_spec (bf_length b bf i) (dup_length b dup)); [lia|reflexivity]. }
  rewrite H427.
  assert (H430 : (i >? 0) && (bf_length b bf (i - 1) <? bf_length b bf i) = false).
  { destruct (Z.gtb_spec i 0); [|reflexivity]. cbn [andb].
    specialize (Hs ltac:(lia)).
    destruct (Z.ltb_spec (bf_length b bf (i - 1)) (bf_length b bf i));
      [lia|reflexivity]. }
  rewrite H430. reflexivity.
Qed.

Lemma freefind_verify_passes (b : buf) (bf p len : Z) (s0 s1 s2 : slot) :
  slot_at b bf 0 = s0 -> slot_at b bf 1 = s1 -> slot_at b bf 2 = s2 ->
  dup_length b p = len -> 0 < p -> 0 < len -> p + len <= 65536 ->
  snd s1 <= snd s0 -> snd s2 <= snd s1 ->
  slot_apart s0 p len -> slot_apart s1 p len -> slot_apart s2 p len ->
  fst s0 = p \/ fst s1 = p \/ fst s2 = p \/ len <= snd s2 ->
  scxfs_dir2_data_freefind_verify b bf p
  = (None,
     if fst s0 =? p then Some 0
     else if fst s1 =? p then Some 1
     else if fst s2 =? p then Some 2 else None).
Proof.
  intros E0 E1 E2 Hl Hp Hlen Hend S1 S2 A0 A1 A2 Hm.
  apply slot_at_fields in E0, E1, E2.
  destruct E0 as [O0 L0]. destruct E1 as [O1 L1]. destruct E2 as [O2 L2].
  destruct s0 as [o0 l0]. destruct s1 as [o1 l1]. destruct s2 as [o2 l2].
  unfold slot_apart in *. cbn [fst snd] in *.
  assert (U : u32 (p + len) = p + len) by (apply u32_small; lia).
  assert (Up : u32 p = p) by (apply u32_small; lia).
  assert (Hfv : freefind_verify_loop b bf p p bf_slots false false = None).
  { unfold bf_slots.
    destruct A0 as [[Z0 Z0']|(N0 & P0 & D0)].
    { rewrite fv_loop_zero by congruence.
      destruct A1 as [[Z1 Z1']|(N1 & P1 & D1)]; [|lia].
      rewrite fv_loop_zero by congruence.
      destruct A2 as [[Z2 Z2']|(N2 & P2 & D2)]; [|lia].
      rewrite fv_loop_zero by congruence. reflexivity. }
    rewrite (fv_loop_used b bf p p 0 _ false);
      [|rewrite O0; exact N0
       |rewrite O0, L0, Hl, U; lia
       |rewrite O0, L0, Hl; intros _ Hne; lia
       |intros Hi; lia].
    rewrite O0. cbn [orb].
    destruct A1 as [[Z1 Z1']|(N1 & P1 & D1)].
    { rewrite fv_loop_zero by congruence.
      destruct A2 as [[Z2 Z2']|(N2 & P2 & D2)]; [|lia].
      rewrite fv_loop_zero by congruence. reflexivity. }
    rewrite (fv_loop_used b bf p p 1 _ (o0 =? p));
      [|rewrite O1; exact N1
       |rewrite O1, L1, Hl, U; lia
       |rewrite O1, L1, Hl; intros Hm0 Hne; apply Z.eqb_neq in Hm0; lia
       |intros _; change (1 - 1) with 0; rewrite L0, L1; lia].
    rewrite O1.
    destruct A2 as [[Z2 Z2']|(N2 & P2 & D2)].
    { rewrite fv_loop_zero by congruence. reflexivity. }
    rewrite (fv_loop_used b bf p p 2 _ ((o0 =? p) || (o1 =? p)));
      [|rewrite O2; exact N2
       |rewrite O2, L2, Hl, U; lia
       |rewrite O2, L2, Hl; intros Hm0 Hne;
        apply orb_false_elim in Hm0; destruct Hm0 as [Hm0 Hm1];
        apply Z.eqb_neq in Hm0, Hm1; lia
       |intros _; change (2 - 1) with 1; rewrite L1, L2; lia].
    reflexivity. }
  unfold scxfs_dir2_data_freefind_verify. rewrite Up, Hfv.
  f_equal.
  unfold scxfs_dir2_data_freefind, bf_slots.
  change (SCXFS_DIR2_DATA_FD_COUNT - 1) with 2. rewrite L2, Hl, Up.
  cbn [freefind_loop]. rewrite O0, O1, O2.
  destruct (Z.eqb_spec o0 p) as [M0|M0].
  { destruct (Z.ltb_spec len l2); [lia|].
    destruct (Z.eqb_spec o0 0); [lia|reflexivity]. }
  destruct (Z.eqb_spec o1 p) as [M1|M1].
  { destruct (Z.ltb_spec len l2); [lia|].
    destruct (Z.eqb_spec o0 0); [lia|].
    destruct (Z.eqb_spec o1 0); [lia|reflexivity]. }
  destruct (Z.eqb_spec o2 p) as [M2|M2].
  { destruct (Z.ltb_spec len l2); [lia|].
    destruct (Z.eqb_spec o0 0); [lia|].
    destruct (Z.eqb_spec o1 0); [lia|].
    destruct (Z.eqb_spec o2 0); [lia|reflexivity]. }
  destruct (Z.ltb_spec len l2); [reflexivity|].
  destruct (Z.eqb_spec o0 0); [reflexivity|].
  destruct (Z.eqb_spec o1 0); [reflexivity|].
  destruct (Z.eqb_spec o2 0); reflexivity.
Qed.

Lemma tiled_disjoint (recs : list record) :
  forall p lf, tiled p lf recs ->
  forall r1 r2, In r1 recs -> In r2 recs ->
    r1 = r2 \/ rec_off r1 + rec_len r1 <= rec_off r2
    \/ rec_off r2 + rec_len r2 <= rec_off r1.
Proof.
  induction recs as [|r recs IH]; intros p lf Ht r1 r2 H1 H2; [destruct H1|].
  pose proof Ht as Ht0. cbn [tiled] in Ht. destruct Ht as (Ho & Hl & _ & Ht).
  destruct H1 as [<-|H1]; destruct H2 as [<-|H2].
  - left. reflexivity.
  - right. left. pose proof (tiled_off_ge _ _ _ _ Ht H2). lia.
  - right. right. pose proof (tiled_off_ge _ _ _ _ Ht H1). lia.
  - exact (IH _ _ Ht _ _ H1 H2).
Qed.

Lemma tiled_positive (recs : list record) :
  forall p lf r, tiled p lf recs -> In r recs -> 0 < rec_len r.
Proof.
  induction recs as [|r0 recs IH]; intros p lf r Ht Hin; [destruct Hin|].
  cbn [tiled] in Ht. destruct Ht as (_ & Hl & _ & Ht).
  destruct Hin as [<-|Hin]; [exact Hl|exact (IH _ _ _ Ht Hin)].
Qed.

Lemma mask_tracked (m0 m1 m2 m0' m1' m2' : bool) (i : Z) :
  (i = 0 /\ m0 = false /\ m0' = true /\ m1' = m1 /\ m2' = m2)
  \/ (i = 1 /\ m1 = false /\ m1' = true /\ m0' = m0 /\ m2' = m2)
  \/ (i = 2 /\ m2 = false /\ m2' = true /\ m0' = m0 /\ m1' = m1) ->
  let fs := (if m0 then 1 else 0) + (if m1 then 2 else 0)
            + (if m2 then 4 else 0) in
  Z.land fs (Z.shiftl 1 i) = 0
  /\ Z.lor fs (Z.shiftl 1 i)
     = (if m0' then 1 else 0) + (if m1' then 2 else 0) + (if m2' then 4 else 0).
Proof.
  intros [H|[H|H]]; destruct H as (Ei & H1 & H2 & H3 & H4); subst;
    repeat match goal with
           | |- context [if ?x then _ else _] => is_var x; destruct x
           end; split; reflexivity.
Qed.

Section Completeness.

Variable ftm : Z.
Variable inoval : Z -> Z.
Variable hash : list Z -> Z.
Variable dataptr : scxfs_da_geometry -> Z -> Z -> Z.
Variable g : scxfs_da_geometry.
Variable ops : scxfs_dir_ops.

Variable b : buf.
Variable e : Z.
Variable all : list record.
Variables s0 s1 s2 : slot.
Variable isblock : bool.

Let bf := data_bestfree_p ops.
Let deo := data_entry_offset ops.
Let t := [s0; s1; s2].

Hypothesis Hlay : ops_layout ops.
Hypothesis He : e <= 65536.
Hypothesis Htab : bf_table b bf = t.
Hypothesis Hfit : table_fits t (regions_of all).
Hypothesis Htil : tiled deo false all.
Hypothesis Hrok : Forall (rec_ok b e) all.
Hypothesis Hent :
  forall o l, In (REntry o l) all ->
              entry_ok ftm inoval hash dataptr g ops b e isblock o.

Lemma fit_slots :
  slot_at b bf 0 = s0 /\ slot_at b bf 1 = s1 /\ slot_at b bf 2 = s2.
Proof. apply bf_table_inv. exact Htab. Qed.

Lemma fit_slot_region (s : slot) :
  In s t -> s = (0, 0)
            \/ (In (RUnused (fst s) (snd s)) all /\ deo <= fst s /\ 0 < snd s
                /\ fst s + snd s <= e).
Proof.
  intros Hs. destruct Hfit as (_ & _ & Hsl & _).
  destruct (Hsl s Hs) as [E|Hin]; [left; exact E|right].
  destruct s as [o l]. apply regions_of_in in Hin. cbn [fst snd].
  split; [exact Hin|].
  pose proof (tiled_off_ge _ _ _ _ Htil Hin) as H1.
  pose proof (tiled_positive _ _ _ _ Htil Hin) as H2.
  rewrite Forall_forall in Hrok. destruct (Hrok _ Hin) as [H3 _].
  cbn [rec_off rec_len] in *. lia.
Qed.

(** The mark of a slot does not change over a record that is not the
    slot's region, and is set over the record that is. *)
Lemma mark_over_record (s : slot) (r : record) :
  In s t -> In r all ->
  (r = RUnused (fst s) (snd s) /\ s <> (0, 0)
   /\ slot_mark s (rec_off r) = false
   /\ slot_mark s (rec_off r + rec_len r) = true)
  \/ (r <> RUnused (fst s) (snd s)
      /\ fst s <> rec_off r
      /\ slot_mark s (rec_off r + rec_len r) = slot_mark s (rec_off r))
  \/ (s = (0, 0)
      /\ slot_mark s (rec_off r + rec_len r) = slot_mark s (rec_off r)).
Proof.
  intros Hs Hr.
  pose proof Hlay as (L1 & L2 & _).
  pose proof (tiled_off_ge _ _ _ _ Htil Hr) as Hro.
  pose proof (tiled_positive _ _ _ _ Htil Hr) as Hrl.
  destruct (fit_slot_region s Hs) as [->|(Hin & Hso & Hsl & Hse)].
  { right. right. split; reflexivity. }
  destruct (tiled_disjoint _ _ _ Htil _ _ Hr Hin) as [E|[D|D]];
    cbn [rec_off rec_len] in *.
  - left. subst r. cbn [rec_off rec_len]. split; [reflexivity|].
    split; [intros E; rewrite E in Hsl; cbn in Hsl; lia|].
    unfold slot_mark.
    destruct (Z.eqb_spec (snd s) 0); [lia|].
    destruct (Z.ltb_spec (fst s) (fst s)); [lia|].
    destruct (Z.ltb_spec (fst s) (fst s + snd s)); [|lia].
    split; reflexivity.
  - right. left. split; [intros ->; cbn [rec_off rec_len] in *; lia|].
    split; [fold deo in Hro; unfold deo in *; lia|].
    unfold slot_mark.
    destruct (Z.eqb_spec (snd s) 0); [lia|]. cbn [orb].
    destruct (Z.ltb_spec (fst s) (rec_off r + rec_len r));
      destruct (Z.ltb_spec (fst s) (rec_off r)); try lia; reflexivity.
  - right. left. split; [intros ->; cbn [rec_off rec_len] in *; lia|].
    split; [lia|].
    unfold slot_mark.
    destruct (Z.eqb_spec (snd s) 0); [lia|]. cbn [orb].
    destruct (Z.ltb_spec (fst s) (rec_off r + rec_len r));
      destruct (Z.ltb_spec (fst s) (rec_off r)); try lia; reflexivity.
Qed.

Lemma slot_apart_of_region (s : slot) (p len : Z) :
  In s t -> In (RUnused p len) all -> slot_apart s p len.
Proof.
  intros Hs Hr. unfold slot_apart.
  pose proof Hlay as (L1 & L2 & _).
  destruct (fit_slot_region s Hs) as [->|(Hin & Hso & Hsl & Hse)];
    [left; split; reflexivity|right].
  fold deo bf in L1, L2.
  split; [unfold deo, bf in *; lia|]. split; [exact Hsl|].
  destruct (tiled_disjoint _ _ _ Htil _ _ Hr Hin) as [E|[D|D]];
    cbn [rec_off rec_len] in *.
  - inversion E. auto.
  - right. left. exact D.
  - right. right. exact D.
Qed.

Lemma mask_same (p q : Z) :
  slot_mark s0 q = slot_mark s0 p -> slot_mark s1 q = slot_mark s1 p ->
  slot_mark s2 q = slot_mark s2 p -> seen_mask t q = seen_mask t p.
Proof. intros H0 H1 H2. unfold seen_mask, t. rewrite H0, H1, H2. reflexivity. Qed.

Lemma in_t0 : In s0 t. Proof. left. reflexivity. Qed.
Lemma in_t1 : In s1 t. Proof. right. left. reflexivity. Qed.
Lemma in_t2 : In s2 t. Proof. right. right. left. reflexivity. Qed.

Lemma entry_count_cons_unused (o l : Z) (recs : list record) :
  entry_count (RUnused o l :: recs) = entry_count recs.
Proof. reflexivity. Qed.

Lemma entry_count_cons_entry (o l : Z) (recs : list record) :
  entry_count (REntry o l :: recs) = 1 + entry_count recs.
Proof.
  unfold entry_count. cbn [filter is_unused negb length].
  rewrite Nat2Z.inj_succ. lia.
Qed.

(** On a block whose records and table are as described, the loop of the
    verifier passes every record. *)
Lemma check_loop_complete :
  forall recs p q,
    walks ops b e p recs q ->
    forall (lfb : bool) (c : Z) (fuel : nat),
      incl recs all -> tiled p lfb recs -> e <= q ->
      (length recs < fuel)%nat ->
      data_check_loop ftm inoval hash dataptr g ops fuel b bf e isblock
        (scxfs_dir2_block_tail_p g)
        (scxfs_dir2_block_leaf_p b (scxfs_dir2_block_tail_p g))
        p (if lfb then 1 else 0) (seen_mask t p) c
      = LDone (c + entry_count recs) (seen_mask t q).
Proof.
  pose proof Hlay as (L1 & L2 & L3 & L4 & L5 & Hes & Htp).
  pose proof fit_slots as (T0 & T1 & T2).
  pose proof Hfit as (S1 & S2 & Hsl & Hd0 & Hd1 & Hun).
  induction 1 as [p|p recs q Hpe Hft Hw IH|p recs q Hpe Hft Hw IH];
    intros lfb c fuel Hinc Ht Heq Hfuel;
    (destruct fuel as [|fuel]; [cbn in Hfuel; lia|]);
    cbn [data_check_loop].
  - destruct (Z.ltb_spec p e); [lia|].
    unfold entry_count. cbn. rewrite Z.add_0_r. reflexivity.
  - destruct (Z.ltb_spec p e); [|lia].
    rewrite Hft, Z.eqb_refl.
    cbn [tiled rec_off rec_len is_unused] in Ht.
    destruct Ht as (_ & Hl & Hf & Ht).
    rewrite (Hf eq_refl). change (negb (0 =? 0)) with false. cbv iota.
    assert (Hin : In (RUnused p (dup_length b p)) all)
      by (apply Hinc; left; reflexivity).
    pose proof Hrok as Hrok'. rewrite Forall_forall in Hrok'.
    destruct (Hrok' _ Hin) as [Hre Htag]. cbn [rec_off rec_len] in Hre, Htag.
    destruct (Z.ltb_spec e (p + dup_length b p)); [lia|].
    unfold scxfs_dir2_data_unused_tag_p. rewrite Htag, Z.eqb_refl. cbn [negb].
    pose proof (tiled_off_ge _ _ _ _ Htil Hin) as Hpo. cbn [rec_off] in Hpo.
    fold deo in Hpo.
    assert (Hp0 : 0 < p) by (unfold deo, bf in *; lia).
    pose proof (slot_apart_of_region s0 p _ in_t0 Hin) as A0.
    pose proof (slot_apart_of_region s1 p _ in_t1 Hin) as A1.
    pose proof (slot_apart_of_region s2 p _ in_t2 Hin) as A2.
    pose proof (mark_over_record s0 _ in_t0 Hin) as M0.
    pose proof (mark_over_record s1 _ in_t1 Hin) as M1.
    pose proof (mark_over_record s2 _ in_t2 Hin) as M2.
    cbn [rec_off rec_len] in M0, M1, M2.
    assert (Hm : fst s0 = p \/ fst s1 = p \/ fst s2 = p
                 \/ dup_length b p <= snd s2).
    { destruct (Hun (p, dup_length b p)) as [Hi|Hi];
        [apply regions_of_in; exact Hin| |cbn [snd] in Hi; auto].
      destruct Hi as [E|[E|[E|[]]]]; rewrite E; cbn [fst]; auto. }
    rewrite (freefind_verify_passes b bf p (dup_length b p) s0 s1 s2
               T0 T1 T2 eq_refl Hp0 Hl ltac:(lia) S1 S2 A0 A1 A2 Hm).
    specialize (IH true c fuel
                  (fun r Hr => Hinc r (or_intror Hr)) Ht Heq
                  ltac:(cbn [length] in Hfuel; lia)).
    cbn beta iota in IH. rewrite entry_count_cons_unused.
    assert (Neq : forall s : slot, fst s = p -> s <> (0, 0))
      by (intros s E1 E2; rewrite E2 in E1; cbn in E1; lia).
    assert (Same : forall s : slot,
              In s t -> fst s <> p ->
              slot_mark s (p + dup_length b p) = slot_mark s p).
    { intros s Hs Hne.
      destruct (mark_over_record s _ Hs Hin) as [(E & _)|[(_ & _ & E)|(_ & E)]];
        cbn [rec_off rec_len] in *;
        [injection E as X1 X2; congruence|exact E|exact E]. }
    assert (Flip : forall s : slot,
              In s t -> fst s = p ->
              s = (p, dup_length b p) /\ slot_mark s p = false
              /\ slot_mark s (p + dup_length b p) = true).
    { intros s Hs Heq'.
      destruct (mark_over_record s _ Hs Hin)
        as [(E & _ & E1 & E2)|[(_ & E & _)|(E & _)]];
        cbn [rec_off rec_len] in *;
        [|congruence|exfalso; exact (Neq s Heq' E)].
      injection E as X1 X2.
      split; [destruct s; cbn [fst snd] in *; congruence|].
      split; assumption. }
    destruct (Z.eqb_spec (fst s0) p) as [E0|E0].
    { destruct (Flip s0 in_t0 E0) as (F0 & F1 & F2).
      destruct (mask_tracked (slot_mark s0 p) (slot_mark s1 p) (slot_mark s2 p)
                  (slot_mark s0 (p + dup_length b p))
                  (slot_mark s1 (p + dup_length b p))
                  (slot_mark s2 (p + dup_length b p)) 0) as [K1 K2].
      { left. split; [reflexivity|]. split; [exact F1|]. split; [exact F2|].
        destruct Hd0 as [Hd0|[Hd01 Hd02]]; [exfalso; exact (Neq s0 E0 Hd0)|].
        split; apply Same; try apply in_t1; try apply in_t2;
          intros E; [destruct (Flip s1 in_t1 E) as (G & _)
                    |destruct (Flip s2 in_t2 E) as (G & _)]; congruence. }
      cbv zeta in K1, K2. fold (seen_mask t p) in K1, K2.
      fold (seen_mask t (p + dup_length b p)) in K2.
      unfold t in K1, K2 |- *. cbn [seen_mask] in K1, K2 |- *.
      rewrite K1. cbn [negb Z.eqb]. rewrite K2. exact IH. }
    destruct (Z.eqb_spec (fst s1) p) as [E1|E1].
    { destruct (Flip s1 in_t1 E1) as (F0 & F1 & F2).
      destruct (mask_tracked (slot_mark s0 p) (slot_mark s1 p) (slot_mark s2 p)
                  (slot_mark s0 (p + dup_length b p))
                  (slot_mark s1 (p + dup_length b p))
                  (slot_mark s2 (p + dup_length b p)) 1) as [K1 K2].
      { right. left. split; [reflexivity|]. split; [exact F1|].
        split; [exact F2|].
        destruct Hd1 as [Hd1|Hd12]; [exfalso; exact (Neq s1 E1 Hd1)|].
        split; apply Same; try apply in_t0; try apply in_t2; try exact E0.
        intros E. destruct (Flip s2 in_t2 E) as (G & _). congruence. }
      cbv zeta in K1, K2.
      unfold t in K1, K2 |- *. cbn [seen_mask] in K1, K2 |- *.
      rewrite K1. cbn [negb Z.eqb]. rewrite K2. exact IH. }
    destruct (Z.eqb_spec (fst s2) p) as [E2|E2].
    { destruct (Flip s2 in_t2 E2) as (F0 & F1 & F2).
      destruct (mask_tracked (slot_mark s0 p) (slot_mark s1 p) (slot_mark s2 p)
                  (slot_mark s0 (p + dup_length b p))
                  (slot_mark s1 (p + dup_length b p))
                  (slot_mark s2 (p + dup_length b p)) 2) as [K1 K2].
      { right. right. split; [reflexivity|]. split; [exact F1|].
        split; [exact F2|].
        split; apply Same; try apply in_t0; try apply in_t1; assumption. }
      cbv zeta in K1, K2.
      unfold t in K1, K2 |- *. cbn [seen_mask] in K1, K2 |- *.
      rewrite K1. cbn [negb Z.eqb]. rewrite K2. exact IH. }
    assert (L2' : bf_length b bf 2 = snd s2) by (rewrite <- T2; reflexivity).
    rewrite L2'.
    destruct (Z.gtb_spec (dup_length b p) (snd s2)); [lia|].
    rewrite <- (mask_same p (p + dup_length b p)); [exact IH| | |];
      apply Same; try apply in_t0; try apply in_t1; try apply in_t2; assumption.
  - destruct (Z.ltb_spec p e); [|lia].
    destruct (Z.eqb_spec (dup_freetag b p) SCXFS_DIR2_DATA_FREE_TAG);
      [contradiction|].
    cbn [tiled rec_off rec_len is_unused] in Ht.
    destruct Ht as (_ & Hl & _ & Ht).
    assert (Hin : In (REntry p (data_entsize ops (dep_namelen b p))) all)
      by (apply Hinc; left; reflexivity).
    destruct (Hent _ _ Hin) as (N1 & N2 & N3 & N4 & N5 & N6).
    cbv zeta.
    destruct (Z.eqb_spec (dep_namelen b p) 0); [contradiction|].
    rewrite N2. change (negb (0 =? 0)) with false. cbv iota.
    destruct (Z.ltb_spec e (p + data_entsize ops (dep_namelen b p))); [lia|].
    rewrite N4, Z.eqb_refl. cbn [negb].
    destruct (Z.geb_spec (data_get_ftype ops b p) ftm); [lia|].
    match goal with
    | |- (if negb ?f then _ else _) = _ =>
        assert (Hfound : f = true);
        [|rewrite Hfound]
    end.
    { destruct isblock; [|reflexivity].
      apply Z.ltb_lt.
      pose proof (leaf_search_complete b
                    (scxfs_dir2_block_leaf_p b (scxfs_dir2_block_tail_p g))
                    (dataptr g (datablk g) (u32 p)) (hash (dep_name b p))
                    (Z.to_nat (btp_count b (scxfs_dir2_block_tail_p g))) 0) as Hs.
      destruct (N6 eq_refl) as (k & Hk & Ha & Hh).
      rewrite Z2Nat.id in Hs by lia.
      apply Hs. exists k. split; [lia|]. split; assumption. }
    cbn [negb].
    specialize (IH false (c + 1) fuel
                  (fun r Hr => Hinc r (or_intror Hr)) Ht Heq
                  ltac:(cbn [length] in Hfuel; lia)).
    cbn beta iota in IH. rewrite entry_count_cons_entry.
    replace (c + (1 + entry_count recs)) with (c + 1 + entry_count recs) by lia.
    rewrite <- (mask_same p (p + data_entsize ops (dep_namelen b p)));
      [exact IH| | |].
    + destruct (mark_over_record s0 _ in_t0 Hin) as [(E & _)|[(_ & _ & E)|(_ & E)]];
        [discriminate|exact E|exact E].
    + destruct (mark_over_record s1 _ in_t1 Hin) as [(E & _)|[(_ & _ & E)|(_ & E)]];
        [discriminate|exact E|exact E].
    + destruct (mark_over_record s2 _ in_t2 Hin) as [(E & _)|[(_ & _ & E)|(_ & E)]];
        [discriminate|exact E|exact E].
Qed.

End Completeness.

Lemma data_records_walks (ops : scxfs_dir_ops) (b : buf) (e : Z) (fuel : nat) :
  forall p,
    walks ops b e p (data_records fuel ops b p (Some e))
      (p + span (data_records fuel ops b p (Some e))).
Proof.
  induction fuel as [|fuel IH]; intros p; cbn [data_records below_endp].
  - cbn [span]. rewrite Z.add_0_r. constructor.
  - destruct (Z.ltb_spec p e) as [Hpe|Hpe].
    2:{ cbn [span]. rewrite Z.add_0_r. constructor. }
    destruct (Z.eqb_spec (dup_freetag b p) SCXFS_DIR2_DATA_FREE_TAG) as [Hft|Hft];
      cbv zeta; cbn [span rec_len]; rewrite Z.add_assoc;
      constructor; auto.
Qed.

Lemma tiled_length (recs : list record) :
  forall p lf, tiled p lf recs -> Z.of_nat (length recs) <= span recs.
Proof.
  induction recs as [|r recs IH]; intros p lf Ht; cbn [length span]; [lia|].
  cbn [tiled] in Ht. destruct Ht as (_ & Hl & _ & Ht).
  specialize (IH _ _ Ht). lia.
Qed.

Lemma zero_slots_mask (b : buf) (bf deo : Z) (s0 s1 s2 : slot) :
  slot_at b bf 0 = s0 -> slot_at b bf 1 = s1 -> slot_at b bf 2 = s2 ->
  (forall s, In s [s0; s1; s2] -> s = (0, 0) \/ (0 < snd s /\ deo <= fst s)) ->
  zero_slots b bf = inr (seen_mask [s0; s1; s2] deo).
Proof.
  intros E0 E1 E2 H.
  apply slot_at_fields in E0, E1, E2.
  destruct E0 as [O0 L0]. destruct E1 as [O1 L1]. destruct E2 as [O2 L2].
  unfold zero_slots, bf_slots, seen_mask, slot_mark. cbn [fold_left].
  rewrite O0, O1, O2, L0, L1, L2.
  destruct (H s0 ltac:(cbn; auto)) as [->|[A0 B0]];
    destruct (H s1 ltac:(cbn; auto)) as [->|[A1 B1]];
    destruct (H s2 ltac:(cbn; auto)) as [->|[A2 B2]];
    cbn [fst snd];
    repeat match goal with
           | |- context [Z.eqb ?x 0] =>
               destruct (Z.eqb_spec x 0); try lia; cbn [negb orb]
           | |- context [Z.ltb ?x deo] =>
               destruct (Z.ltb_spec x deo); try lia; cbn [negb orb]
           end; reflexivity.
Qed.

Lemma seen_mask_all (q : Z) (s0 s1 s2 : slot) :
  (forall s, In s [s0; s1; s2] -> s = (0, 0) \/ fst s < q) ->
  seen_mask [s0; s1; s2] q = 7.
Proof.
  intros H. unfold seen_mask, slot_mark.
  assert (M : forall s, In s [s0; s1; s2] -> (snd s =? 0) || (fst s <? q) = true).
  { intros s Hs. destruct (H s Hs) as [->|Hlt]; [reflexivity|].
    destruct (Z.ltb_spec (fst s) q); [|lia]. apply orb_true_r. }
  rewrite (M s0), (M s1), (M s2) by (cbn; auto). reflexivity.
Qed.

Section WellFormed.

Variable ftm : Z.
Variable inoval : Z -> Z.
Variable hash : list Z -> Z.
Variable dataptr : scxfs_da_geometry -> Z -> Z -> Z.
Variable g : scxfs_da_geometry.
Variable ops : scxfs_dir_ops.

Let verify := __scxfs_dir3_data_check ftm inoval hash dataptr g ops.

(** A data-format block is accepted when its records tile the data area
    with positive lengths and no two unused records in a row, every record
    ends with its own offset, every entry passes the entry tests, and the
    best-free table fits the unused regions. *)
Lemma well_formed_accepted_records (b : buf) (recs : list record) :
  ops_layout ops -> block_ok g ops b ->
  hdr_magic b = SCXFS_DIR2_DATA_MAGIC \/ hdr_magic b = SCXFS_DIR3_DATA_MAGIC ->
  block_records g ops b = recs ->
  tiled (data_entry_offset ops) false recs ->
  data_entry_offset ops + span recs = blksize g ->
  Forall (rec_ok b (blksize g)) recs ->
  (forall o l, In (REntry o l) recs ->
     entry_ok ftm inoval hash dataptr g ops b (blksize g) false o) ->
  table_fits (bf_table b (data_bestfree_p ops)) (regions_of recs) ->
  verify b = CheckGood.
Proof.
  intros Hlay [Hlen HB] Hm Hrecs Ht Hspan Hrok Hent Hfit.
  pose proof Hlay as (L1 & L2 & L3 & L4 & L5 & Hes & _).
  set (deo := data_entry_offset ops) in *.
  set (B := blksize g) in *.
  set (bf := data_bestfree_p ops) in *.
  pose proof (endp_data_magic g b Hm) as He. fold B in He.
  assert (Hw : walks ops b B deo recs B).
  { pose proof (data_records_walks ops b B (scan_fuel g) deo) as W.
    unfold block_records in Hrecs. rewrite He, L4 in Hrecs. fold deo in Hrecs.
    rewrite Hrecs, Hspan in W. exact W. }
  assert (Hfuel : (length recs < scan_fuel g)%nat).
  { pose proof (tiled_length _ _ _ Ht). unfold scan_fuel. fold B. lia. }
  rewrite (bf_table_slots b bf) in Hfit.
  set (s0 := slot_at b bf 0) in *. set (s1 := slot_at b bf 1) in *.
  set (s2 := slot_at b bf 2) in *.
  pose proof Hfit as (S1 & S2 & Hsl & Hd0 & Hd1 & Hun).
  assert (Hreg : forall s, In s [s0; s1; s2] ->
            s = (0, 0) \/ (0 < snd s /\ deo <= fst s /\ fst s < B)).
  { intros s Hs. destruct (Hsl s Hs) as [E|Hin]; [left; exact E|right].
    destruct s as [o l]. apply regions_of_in in Hin. cbn [fst snd].
    pose proof (tiled_off_ge _ _ _ _ Ht Hin) as H1.
    pose proof (tiled_positive _ _ _ _ Ht Hin) as H2.
    rewrite Forall_forall in Hrok. destruct (Hrok _ Hin) as [H3 _].
    cbn [rec_off rec_len] in *. lia. }
  unfold verify, __scxfs_dir3_data_check. cbv zeta.
  rewrite He, L4. fold bf deo.
  assert (Hib : (hdr_magic b =? SCXFS_DIR3_BLOCK_MAGIC)
                || (hdr_magic b =? SCXFS_DIR2_BLOCK_MAGIC) = false)
    by (destruct Hm as [-> | ->]; reflexivity).
  assert (Hid : (hdr_magic b =? SCXFS_DIR3_DATA_MAGIC)
                || (hdr_magic b =? SCXFS_DIR2_DATA_MAGIC) = true)
    by (destruct Hm as [-> | ->]; reflexivity).
  rewrite Hib, Hid. cbn [andb negb].
  rewrite (zero_slots_mask b bf deo s0 s1 s2 eq_refl eq_refl eq_refl)
    by (intros s Hs; destruct (Hreg s Hs) as [E|(A & C & _)]; auto).
  change (bf_length b bf 0) with (snd s0).
  change (bf_length b bf 1) with (snd s1).
  change (bf_length b bf 2) with (snd s2).
  destruct (Z.ltb_spec (snd s0) (snd s1)); [lia|].
  destruct (Z.ltb_spec (snd s1) (snd s2)); [lia|].
  pose proof (check_loop_complete ftm inoval hash dataptr g ops b B recs
                s0 s1 s2 false Hlay ltac:(lia) eq_refl Hfit Ht Hrok Hent
                recs deo B Hw false 0 (scan_fuel g)
                (fun r Hr => Hr) Ht ltac:(lia) Hfuel) as CL.
  fold bf in CL. rewrite CL.
  rewrite (seen_mask_all B s0 s1 s2)
    by (intros s Hs; destruct (Hreg s Hs) as [E|(_ & _ & A)]; auto).
  reflexivity.
Qed.

End WellFormed.

Lemma freefind_first (b : buf) (bf dup j : Z) :
  scxfs_dir2_data_freefind b bf dup = Some j ->
  forall i, In i bf_slots -> i < j -> bf_offset b bf i <> bf_offset b bf j.
Proof.
  unfold scxfs_dir2_data_freefind, bf_slots.
  destruct (dup_length b dup <? bf_length b bf (SCXFS_DIR2_DATA_FD_COUNT - 1));
    [discriminate|].
  cbn [freefind_loop].
  destruct (Z.eqb_spec (bf_offset b bf 0) 0); [discriminate|].
  destruct (Z.eqb_spec (bf_offset b bf 0) (u32 dup)).
  { intros H i Hi Hlt. inversion H; subst j.
    destruct Hi as [<-|[<-|[<-|[]]]]; lia. }
  destruct (Z.eqb_spec (bf_offset b bf 1) 0); [discriminate|].
  destruct (Z.eqb_spec (bf_offset b bf 1) (u32 dup)).
  { intros H i Hi Hlt. inversion H; subst j.
    destruct Hi as [<-|[<-|[<-|[]]]]; try lia; congruence. }
  destruct (Z.eqb_spec (bf_offset b bf 2) 0); [discriminate|].
  destruct (Z.eqb_spec (bf_offset b bf 2) (u32 dup)); [|discriminate].
  intros H i Hi Hlt. inversion H; subst j.
  destruct Hi as [<-|[<-|[<-|[]]]]; try lia; congruence.
Qed.

Lemma checked_first (b : buf) (ops : scxfs_dir_ops) (bf e : Z) :
  forall p lf fs fs' recs,
    checked b ops bf e p lf fs fs' recs ->
    forall j, In j bf_slots -> Z.land fs' (Z.shiftl 1 j) <> 0 ->
      Z.land fs (Z.shiftl 1 j) <> 0
      \/ (forall i, In i bf_slots -> i < j ->
                    bf_offset b bf i <> bf_offset b bf j).
Proof.
  induction 1 as [p lf fs He
                 |p lf fs fs' i recs Hpe Hft Hlf Hle Htag Hv Hland Hc IH
                 |p lf fs fs' recs Hpe Hft Hlf Hle Htag Hv Hsmall Hc IH
                 |p lf fs fs' recs Hpe Hft Hle Htag Hc IH];
    intros j Hj Hb; auto.
  destruct (IH j Hj Hb) as [Hm|Hf]; [|auto].
  destruct (freefind_verify_tracked _ _ _ _ Hv) as (Hi & _).
  destruct (mark_cases _ _ _ Hi Hj Hm) as [|<-]; [auto|].
  right. apply (freefind_first b bf p).
  unfold scxfs_dir2_data_freefind_verify in Hv.
  destruct (freefind_verify_loop b bf p (u32 p) bf_slots false false);
    [discriminate|]. inversion Hv. reflexivity.
Qed.

Section Accepted.

Variable ftm : Z.
Variable inoval : Z -> Z.
Variable hash : list Z -> Z.
Variable dataptr : scxfs_da_geometry -> Z -> Z -> Z.
Variable g : scxfs_da_geometry.
Variable ops : scxfs_dir_ops.

Let verify := __scxfs_dir3_data_check ftm inoval hash dataptr g ops.

(** What acceptance says of a data-format block. *)
Lemma accepted_well_formed (b : buf) :
  ops_layout ops -> block_ok g ops b ->
  hdr_magic b = SCXFS_DIR2_DATA_MAGIC \/ hdr_magic b = SCXFS_DIR3_DATA_MAGIC ->
  verify b = CheckGood ->
  let recs := block_records g ops b in
  tiled (data_entry_offset ops) false recs
  /\ data_entry_offset ops + span recs = blksize g
  /\ Forall (rec_ok b (blksize g)) recs
  /\ (forall o l, In (REntry o l) recs ->
        entry_ok ftm inoval hash dataptr g ops b (blksize g) false o)
  /\ table_fits (bf_table b (data_bestfree_p ops)) (regions_of recs).
Proof.
  intros Hlay Hok Hm Hv. cbv zeta.
  pose proof Hlay as (L1 & L2 & L3 & L4 & L5 & Hes & _).
  pose proof Hok as [Hlen HB].
  destruct (accepted_records ftm inoval hash dataptr g ops b Hlay Hv)
    as (e & qend & He & Hw & Hqe & Hrok & Ht & Hfuel).
  rewrite (endp_data_magic g b Hm) in He. injection He as <-.
  pose proof (walks_span _ _ _ _ _ _ Hw) as Hq.
  assert (Hib : (hdr_magic b =? SCXFS_DIR3_BLOCK_MAGIC)
                || (hdr_magic b =? SCXFS_DIR2_BLOCK_MAGIC) = false)
    by (destruct Hm as [-> | ->]; reflexivity).
  split; [exact Ht|]. split.
  { destruct (list_eq_dec_nil (block_records g ops b)) as [E|Hne].
    - rewrite E in *. cbn [span] in *. lia.
    - pose proof (span_within b _ _ _ _ Ht Hrok Hne). lia. }
  split; [exact Hrok|]. split.
  { destruct (check_good_loop ftm inoval hash dataptr g ops b Hv)
      as (e' & fs0 & count & He' & El & _).
    rewrite (endp_data_magic g b Hm) in He'. injection He' as <-.
    rewrite Hib in El.
    destruct (check_loop_entries ftm inoval hash dataptr g ops b _ _ _ _ _ _ _ _ _ _ El)
      as [H1 _].
    intros o l Hin. apply (H1 o l).
    unfold block_records in Hin. rewrite (endp_data_magic g b Hm) in Hin.
    exact Hin. }
  destruct (check_good_inv ftm inoval hash dataptr g ops b Hv)
    as (e' & fs0 & He' & Hz & S1 & S2 & Hc & _).
  rewrite (endp_data_magic g b Hm) in He'. injection He' as <-.
  assert (HB32 : blksize g <= 4294967296) by lia.
  assert (Hp0 : 0 <= data_entry_p ops) by lia.
  destruct (checked_marks b ops _ _ Hes HB32 _ _ _ _ _ Hc Hp0) as [M1 M2].
  pose proof (checked_first b ops _ _ _ _ _ _ _ Hc) as M3.
  set (bf := data_bestfree_p ops) in *.
  assert (Hslot : forall i, In i bf_slots ->
            slot_at b bf i = (0, 0)
            \/ (In (slot_at b bf i) (regions_of (block_records g ops b))
                /\ forall k, In k bf_slots -> k < i ->
                             bf_offset b bf k <> bf_offset b bf i)).
  { intros i Hi.
    assert (Hb : Z.land 7 (Z.shiftl 1 i) <> 0)
      by (destruct (slot_cases i Hi) as [-> | [-> | ->]]; cbn; discriminate).
    destruct (M1 i Hi Hb) as [Hz0|Hin];
      [left; exact (zero_slots_marks _ _ _ Hz i Hi Hz0)|].
    destruct (M3 i Hi Hb) as [Hz0|Hf];
      [left; exact (zero_slots_marks _ _ _ Hz i Hi Hz0)|].
    right. split; assumption. }
  rewrite (bf_table_slots b bf).
  unfold table_fits.
  split; [exact S1|]. split; [exact S2|]. split.
  { intros s [<-|[<-|[<-|[]]]];
      [destruct (Hslot 0) as [E|[E _]]|destruct (Hslot 1) as [E|[E _]]
       |destruct (Hslot 2) as [E|[E _]]]; cbn; auto. }
  assert (Hne : forall i k, bf_offset b bf k <> bf_offset b bf i ->
                            slot_at b bf k <> slot_at b bf i)
    by (unfold slot_at; intros i k H E; inversion E; contradiction).
  split.
  { destruct (Hslot 0 ltac:(cbn; auto)) as [E0|[_ _]]; [left; exact E0|].
    destruct (Z.eq_dec (bf_offset b bf 0) 0) as [Z0|Z0].
    { (* a region at offset 0 cannot be: regions start at the first record *)
      destruct (Hslot 0 ltac:(cbn; auto)) as [E0|[R0 _]]; [left; exact E0|].
      apply regions_of_in in R0.
      pose proof (tiled_off_ge _ _ _ _ Ht R0) as G. cbn [rec_off] in G.
      unfold bf in *. lia. }
    right. split.
    - destruct (Hslot 1 ltac:(cbn; auto)) as [E1|[_ F1]].
      + intros E. rewrite E1 in E. unfold slot_at in E. inversion E. contradiction.
      + apply Hne. apply F1; [cbn; auto|lia].
    - destruct (Hslot 2 ltac:(cbn; auto)) as [E2|[_ F2]].
      + intros E. rewrite E2 in E. unfold slot_at in E. inversion E. contradiction.
      + apply Hne. apply F2; [cbn; auto|lia]. }
  split.
  { destruct (Hslot 1 ltac:(cbn; auto)) as [E1|[R1 _]]; [left; exact E1|].
    apply regions_of_in in R1.
    pose proof (tiled_off_ge _ _ _ _ Ht R1) as G. cbn [rec_off] in G.
    right.
    destruct (Hslot 2 ltac:(cbn; auto)) as [E2|[_ F2]].
    + intros E. rewrite E2 in E. unfold slot_at in E. inversion E.
      unfold bf in *. lia.
    + apply Hne. apply F2; [cbn; auto|lia]. }
  intros [o l] Hin. apply regions_of_in in Hin.
  destruct (M2 o l Hin) as [H|H]; [left; exact H|right; exact H].
Qed.

(** For a data-format block [__scxfs_dir3_data_check] accepts exactly the
    blocks that are well formed: the records tile the data area with
    positive lengths and no two unused records in a row, every record ends
    inside the block with its own offset in its last word, every entry has
    a name, a valid inode number and a known file type, and the best-free
    table fits the unused regions (lengths do not increase, every slot is
    empty or is a region, no region is listed twice, and a region left out
    is not longer than slot 2). *)
Theorem data_block_accepted_iff (b : buf) :
  ops_layout ops -> block_ok g ops b ->
  hdr_magic b = SCXFS_DIR2_DATA_MAGIC \/ hdr_magic b = SCXFS_DIR3_DATA_MAGIC ->
  let recs := block_records g ops b in
  verify b = CheckGood
  <-> (tiled (data_entry_offset ops) false recs
       /\ data_entry_offset ops + span recs = blksize g
       /\ Forall (rec_ok b (blksize g)) recs
       /\ (forall o l, In (REntry o l) recs ->
             entry_ok ftm inoval hash dataptr g ops b (blksize g) false o)
       /\ table_fits (bf_table b (data_bestfree_p ops)) (regions_of recs)).
Proof.
  intros Hlay Hok Hm. cbv zeta. split.
  - intros Hv. exact (accepted_well_formed b Hlay Hok Hm Hv).
  - intros (Ht & Hs & Hrok & Hent & Hfit).
    exact (well_formed_accepted_records ftm inoval hash dataptr g ops b _
             Hlay Hok Hm eq_refl Ht Hs Hrok Hent Hfit).
Qed.

End Accepted.

Lemma sample_data_magic :
  hdr_magic sample_block = SCXFS_DIR2_DATA_MAGIC
  \/ hdr_magic sample_block = SCXFS_DIR3_DATA_MAGIC.
Proof. left. vm_compute. reflexivity. Qed.

Lemma data_block_accepted_iff_witness :
  ops_layout sample_ops /\ block_ok sample_geo sample_ops sample_block
  /\ (hdr_magic sample_block = SCXFS_DIR2_DATA_MAGIC
      \/ hdr_magic sample_block = SCXFS_DIR3_DATA_MAGIC)
  /\ table_fits (bf_table sample_block (data_bestfree_p sample_ops))
       (regions_of (block_records sample_geo sample_ops sample_block)).
Proof.
  split; [exact sample_layout|]. split; [exact sample_block_ok|].
  split; [exact sample_data_magic|].
  destruct (data_block_accepted_iff 9 (fun _ => 0) (fun _ => 0)
              (fun _ _ o => o / 8) sample_geo sample_ops sample_block
              sample_layout sample_block_ok sample_data_magic) as [H _].
  destruct (H sample_accepted) as (_ & _ & _ & _ & Hfit).
  exact Hfit.
Defined.

(** ** Rebuilding the table *)

Lemma table_insert_fits (t : list slot) (seen seen' : list (Z * Z)) (r : slot) :
  table_fits t seen ->
  (forall x, In x seen' <-> x = r \/ In x seen) ->
  ~ In r seen -> 0 < snd r ->
  table_fits (fst (table_insert t r)) seen'.
Proof.
  intros Hfit Hin Hnew Hpos.
  destruct t as [|s0 [|s1 [|s2 [|]]]]; try contradiction.
  destruct Hfit as (A1 & A2 & A3 & A4 & A5 & A6).
  assert (Z0 : r <> (0, 0)) by (intros ->; cbn in Hpos; lia).
  assert (R : forall s, In s [s0; s1; s2] -> s <> (0, 0) -> s <> r).
  { intros s Hs Hz ->. destruct (A3 _ Hs); auto. }
  assert (K : forall s, In s [s0; s1; s2] -> s = (0, 0) \/ In s seen').
  { intros s Hs. destruct (A3 s Hs); [left; assumption|].
    right. apply Hin. right. assumption. }
  assert (Kr : In r seen') by (apply Hin; left; reflexivity).
  assert (D : forall s, In s [s0; s1; s2] -> s = (0, 0) \/ s <> r).
  { intros s Hs. destruct (A3 s Hs) as [E|E]; [left; exact E|].
    right. intros ->. contradiction. }
  assert (D' : forall s, In s [s0; s1; s2] -> r <> s).
  { intros s Hs <-. destruct (A3 r Hs); auto. }
  pose proof (K s0 ltac:(cbn; auto)) as K0.
  pose proof (K s1 ltac:(cbn; auto)) as K1.
  pose proof (K s2 ltac:(cbn; auto)) as K2.
  pose proof (D s0 ltac:(cbn; auto)) as D0.
  pose proof (D s1 ltac:(cbn; auto)) as D1.
  pose proof (D' s0 ltac:(cbn; auto)) as E0.
  pose proof (D' s1 ltac:(cbn; auto)) as E1.
  pose proof (D' s2 ltac:(cbn; auto)) as E2.
  unfold table_insert. gtb_cases; cbn [fst]; unfold table_fits;
    (split; [lia|]); (split; [lia|]);
    (split; [intros s [<-|[<-|[<-|[]]]]; auto|]).
  - split; [right; auto|]. split; [exact A4 || (destruct A4 as [?|[? ?]]; auto)|].
    intros x Hx. apply Hin in Hx. destruct Hx as [->|Hx]; [left; cbn; auto|].
    destruct (A6 x Hx) as [[<-|[<-|[<-|[]]]]|Hs]; cbn [In]; auto; right; lia.
  - split; [destruct A4 as [?|[? ?]]; [left; assumption|];
            destruct D0; [left; assumption|right; auto]|].
    split; [right; auto|].
    intros x Hx. apply Hin in Hx. destruct Hx as [->|Hx]; [left; cbn; auto|].
    destruct (A6 x Hx) as [[<-|[<-|[<-|[]]]]|Hs]; cbn [In]; auto; right; lia.
  - split; [destruct A4 as [?|[? ?]]; [left; assumption|];
            destruct D0; [left; assumption|right; auto]|].
    split; [destruct D1; [left; assumption|right; assumption]|].
    intros x Hx. apply Hin in Hx. destruct Hx as [->|Hx]; [left; cbn; auto|].
    destruct (A6 x Hx) as [[<-|[<-|[<-|[]]]]|Hs]; cbn [In]; auto; right; lia.
  - split; [exact A4|]. split; [exact A5|].
    intros x Hx. apply Hin in Hx. destruct Hx as [->|Hx]; [right; lia|].
    apply A6. exact Hx.
Qed.

Lemma insert_all_fits (regions : list (Z * Z)) :
  forall t seen,
    table_fits t seen -> NoDup regions ->
    (forall r, In r regions -> 0 < snd r /\ ~ In r seen) ->
    table_fits (insert_all t regions) (seen ++ regions).
Proof.
  induction regions as [|r rest IH]; intros t seen Hfit Hnd Hr.
  - cbn. rewrite app_nil_r. exact Hfit.
  - apply NoDup_cons_iff in Hnd. destruct Hnd as [Hn Hnd].
    destruct (Hr r ltac:(cbn; auto)) as [Hp Hs].
    change (seen ++ r :: rest) with (seen ++ [r] ++ rest).
    rewrite app_assoc.
    change (insert_all t (r :: rest))
      with (insert_all (fst (table_insert t r)) rest).
    apply IH; [|exact Hnd|].
    + apply (table_insert_fits t seen); auto.
      intros x. rewrite in_app_iff. cbn [In]. intuition auto.
    + intros x Hx. destruct (Hr x ltac:(cbn; auto)) as [Hpx Hsx].
      split; [exact Hpx|]. rewrite in_app_iff. cbn [In].
      intros [H|[H|[]]]; [contradiction|]. subst x. contradiction.
Qed.

Lemma tiled_regions_nodup (recs : list record) :
  forall p lf, tiled p lf recs -> NoDup (regions_of recs).
Proof.
  induction recs as [|r rest IH]; intros p lf Ht; [constructor|].
  cbn [tiled] in Ht. destruct Ht as (Ho & Hl & _ & Ht).
  destruct r as [o l|o l]; cbn [regions_of flat_map app];
    fold (regions_of rest); [|exact (IH _ _ Ht)].
  constructor; [|exact (IH _ _ Ht)].
  intros Hin. apply regions_of_in in Hin.
  pose proof (tiled_off_ge _ _ _ _ Ht Hin) as H.
  cbn [rec_off rec_len] in *. lia.
Qed.

Lemma freescan_loop_table (b : buf) (ops : scxfs_dir_ops) (bf e : Z) :
  (forall n, 0 <= n < 256 -> 16 <= data_entsize ops n) ->
  e <= 65536 ->
  forall fuel p bk lh,
    (length (data_records fuel ops b p (Some e)) < fuel)%nat ->
    same_outside bf (bf + 12) b bk -> table_in b bf -> bf + 12 <= p ->
    exists bk' lh',
      freescan_loop fuel ops bk bf p (Some e) lh = Some (bk', lh')
      /\ same_outside bf (bf + 12) b bk'
      /\ bf_table bk' bf
         = insert_all (bf_table bk bf)
             (regions_of (data_records fuel ops b p (Some e))).
Proof.
  intros Hes He.
  induction fuel as [|fuel IH]; intros p bk lh Hl F Hin Hp; [cbn in Hl; lia|].
  cbn [data_records freescan_loop below_endp] in *.
  destruct (Z.ltb_spec p e) as [Hpe|Hpe].
  2:{ exists bk, lh. cbn. auto. }
  assert (Eft : dup_freetag bk p = dup_freetag b p)
    by (apply (get_be16_same_outside _ _ _ _ _ F); lia).
  rewrite Eft.
  destruct (Z.eqb_spec (dup_freetag b p) SCXFS_DIR2_DATA_FREE_TAG) as [Hft|Hft].
  - pose proof (table_in_same _ _ _ _ _ F Hin) as Hink.
    destruct (freeinsert_spec bk bf p lh Hink) as (Ht & _ & Fi & _).
    destruct (scxfs_dir2_data_freeinsert bk bf p lh) as [[b1 r1] lh1].
    cbn [fst snd] in Ht, Fi.
    pose proof (same_outside_trans _ _ _ _ _ F Fi) as F1.
    assert (El : dup_length b1 p = dup_length b p)
      by (apply (get_be16_same_outside _ _ _ _ _ F1); lia).
    assert (Elk : dup_length bk p = dup_length b p)
      by (apply (get_be16_same_outside _ _ _ _ _ F); lia).
    rewrite El.
    pose proof (get_be16_range b (p + 2)) as R. fold (dup_length b p) in R.
    cbn [length] in Hl.
    destruct (IH (p + dup_length b p) b1 lh1 ltac:(lia) F1 Hin ltac:(lia))
      as (bk' & lh' & E1 & E2 & E3).
    exists bk', lh'. split; [exact E1|]. split; [exact E2|].
    rewrite E3. cbn [regions_of flat_map app].
    fold (regions_of (data_records fuel ops b (p + dup_length b p) (Some e))).
    rewrite Ht, Elk. destruct Hin as [Hbf _].
    rewrite (u16_small p) by lia. reflexivity.
  - assert (En : dep_namelen bk p = dep_namelen b p).
    { unfold dep_namelen, offsetof_entry_namelen. destruct F as [_ F].
      apply F. lia. }
    rewrite En. cbn [length] in Hl.
    pose proof (Hes (dep_namelen b p) (rd_range b _)) as Hsz.
    destruct (IH (p + data_entsize ops (dep_namelen b p)) bk lh
                ltac:(lia) F Hin ltac:(lia)) as (bk' & lh' & E1 & E2 & E3).
    exists bk', lh'. split; [exact E1|]. split; [exact E2|].
    rewrite E3. reflexivity.
Qed.

(** What the walk knows of each record it lists. *)
Lemma walks_in (ops : scxfs_dir_ops) (b : buf) (e : Z) :
  forall p recs q,
    walks ops b e p recs q ->
    forall r, In r recs ->
      match r with
      | RUnused o l =>
          dup_freetag b o = SCXFS_DIR2_DATA_FREE_TAG /\ l = dup_length b o
      | REntry o l =>
          dup_freetag b o <> SCXFS_DIR2_DATA_FREE_TAG
          /\ l = data_entsize ops (dep_namelen b o)
      end.
Proof.
  induction 1 as [p|p recs q Hpe Hft Hw IH|p recs q Hpe Hft Hw IH];
    intros r Hr; [destruct Hr| |];
    (destruct Hr as [<-|Hr]; [auto|exact (IH r Hr)]).
Qed.

(** The last word of a record lies behind the header: a record of one
    byte would have to start at an offset that ends in 0xff. *)
Lemma tag_behind_header (ops : scxfs_dir_ops) (b : buf) (e lo : Z) :
  (forall n, 0 <= n < 256 -> 16 <= data_entsize ops n) ->
  0 <= lo <= 254 ->
  forall p recs q lf,
    walks ops b e p recs q -> tiled p lf recs -> lo <= p ->
    Forall (rec_ok b e) recs ->
    forall r, In r recs -> lo <= rec_off r + rec_len r - 2.
Proof.
  intros Hes Hlo p recs q lf Hw Ht Hp Hrok r Hr.
  pose proof (walks_in _ _ _ _ _ _ Hw r Hr) as Hk.
  pose proof (tiled_off_ge _ _ _ _ Ht Hr) as Hge.
  pose proof (tiled_positive _ _ _ _ Ht Hr) as Hpos.
  rewrite Forall_forall in Hrok. destruct (Hrok r Hr) as [_ Htag].
  destruct r as [o l|o l]; cbn [rec_off rec_len] in *.
  - destruct Hk as [Hft _].
    destruct (Z.eq_dec l 1) as [->|]; [|lia].
    replace (o + 1 - 2) with (o - 1) in * by lia.
    apply get_be16_bytes in Htag. destruct Htag as [_ Hb].
    replace (o - 1 + 1) with o in Hb by lia.
    unfold dup_freetag in Hft. apply get_be16_bytes in Hft.
    destruct Hft as [Ha _]. rewrite Ha in Hb.
    change ((SCXFS_DIR2_DATA_FREE_TAG / 256) mod 256) with 255 in Hb.
    assert (0 <= o) by lia.
    pose proof (Z.div_mod o 256 ltac:(lia)).
    assert (0 <= o / 256) by (apply Z.div_pos; lia).
    lia.
  - destruct Hk as [_ ->].
    pose proof (Hes (dep_namelen b o) (rd_range b _)). lia.
Qed.

(** The entry checks read the bytes of the entry alone. *)
Lemma entry_ok_frame (ftu ftm : Z) (inoval : Z -> Z) (hash : list Z -> Z)
    (dataptr : scxfs_da_geometry -> Z -> Z -> Z) (g : scxfs_da_geometry)
    (ops : scxfs_dir_ops) (b b' : buf) (e o : Z) :
  In ops (format_variants ftu ftm) ->
  (forall x, o <= x < o + data_entsize ops (dep_namelen b o) ->
             rd b' x = rd b x) ->
  entry_ok ftm inoval hash dataptr g ops b e false o ->
  entry_ok ftm inoval hash dataptr g ops b' e false o.
Proof.
  intros Hops F (E1 & E2 & E3 & E4 & E5 & _).
  pose proof (format_variants_layout _ _ _ Hops) as (_ & _ & _ & _ & _ & Hes & Htp).
  pose proof (rd_range b (o + offsetof_entry_namelen)) as Rn.
  fold (dep_namelen b o) in Rn.
  pose proof (Hes _ Rn) as Hsz.
  assert (En : dep_namelen b' o = dep_namelen b o).
  { unfold dep_namelen, offsetof_entry_namelen in *. apply F. lia. }
  unfold entry_ok. rewrite En.
  split; [exact E1|].
  split.
  { unfold dep_inumber, get_be64, get_be32, get_be16 in *.
    rewrite !F by lia. exact E2. }
  split; [exact E3|].
  split.
  { rewrite Htp, En. rewrite Htp in E4.
    unfold get_be16 in *. rewrite !F by lia. exact E4. }
  split; [|intros H; discriminate H].
  clear E3 E4 Htp.
  destruct Hops as [<-|[<-|[<-|[]]]];
    unfold scxfs_dir2_ops, scxfs_dir2_ftype_ops, scxfs_dir3_ops in *;
    cbn [data_get_ftype data_entsize] in *;
    unfold scxfs_dir2_data_get_ftype, scxfs_dir3_data_get_ftype in *;
    cbv zeta in *; try exact E5.
  all: rewrite En;
    rewrite (F (o + offsetof_entry_name + dep_namelen b o));
    [exact E5|];
    unfold scxfs_dir3_data_entsize, SCXFS_DIR3_DATA_ENTSIZE,
      SCXFS_DIR2_DATA_ALIGN, offsetof_entry_name in *;
    replace (9 + dep_namelen b o + 2 + 1) with (12 + dep_namelen b o) by lia;
    pose proof (entsize_bounds 12 (dep_namelen b o) ltac:(lia) ltac:(lia));
    lia.
Qed.

Section Rebuild.

Variables ftu ftm : Z.
Variable inoval : Z -> Z.
Variable hash : list Z -> Z.
Variable dataptr : scxfs_da_geometry -> Z -> Z -> Z.
Variable g : scxfs_da_geometry.
Variable ops : scxfs_dir_ops.

Let verify := __scxfs_dir3_data_check ftm inoval hash dataptr g ops.

(** The scan of a block whose records are well formed. *)
Lemma freescan_well_formed (b : buf) (recs : list record) :
  In ops (format_variants ftu ftm) -> block_ok g ops b ->
  hdr_magic b = SCXFS_DIR2_DATA_MAGIC \/ hdr_magic b = SCXFS_DIR3_DATA_MAGIC ->
  block_records g ops b = recs ->
  tiled (data_entry_offset ops) false recs ->
  data_entry_offset ops + span recs = blksize g ->
  Forall (rec_ok b (blksize g)) recs ->
  (forall o l, In (REntry o l) recs ->
     entry_ok ftm inoval hash dataptr g ops b (blksize g) false o) ->
  exists b' loghead,
    scxfs_dir2_data_freescan_int g ops b = Some (b', loghead)
    /\ same_outside (data_bestfree_p ops) (data_bestfree_p ops + 12) b b'
    /\ verify b' = CheckGood.
Proof.
  intros Hops [Hlen HB] Hm Hbr Ht Hspan Hrok Hent.
  pose proof (format_variants_layout _ _ _ Hops) as Hlay.
  pose proof Hlay as (L1 & L2 & L3 & L4 & L5 & Hes & _).
  assert (L6 : data_entry_offset ops <= 64)
    by (destruct Hops as [<-|[<-|[<-|[]]]]; cbn; lia).
  set (deo := data_entry_offset ops) in *.
  set (B := blksize g) in *.
  set (bf := data_bestfree_p ops) in *.
  pose proof (endp_data_magic g b Hm) as He. fold B in He.
  assert (Hin : table_in b bf) by (split; lia).
  unfold scxfs_dir2_data_freescan_int. fold bf.
  set (b1 := memset0 b bf _).
  assert (F1 : same_outside bf (bf + 12) b b1)
    by (apply same_outside_memset0; [lia|cbn; lia]).
  assert (Hbt : bf + 12 <= scxfs_dir2_block_tail_p g).
  { unfold scxfs_dir2_block_tail_p, sizeof_scxfs_dir2_block_tail. fold B. lia. }
  assert (He1 : scxfs_dir3_data_endp g b1 = Some B).
  { rewrite (endp_same_outside g bf (bf + 12) b b1 F1); auto; lia. }
  rewrite He1.
  assert (Hrecs : recs = data_records (scan_fuel g) ops b deo (Some B)).
  { rewrite <- Hbr. unfold block_records. rewrite He, L4. reflexivity. }
  assert (Hfuel : (length recs < scan_fuel g)%nat).
  { pose proof (tiled_length _ _ _ Ht). unfold scan_fuel. fold B. lia. }
  rewrite L4. fold deo.
  destruct (freescan_loop_table b ops bf B Hes ltac:(lia) (scan_fuel g)
              deo b1 1 ltac:(rewrite <- Hrecs; exact Hfuel) F1 Hin ltac:(lia))
    as (b' & lh' & E1 & E2 & E3).
  rewrite <- Hrecs in E3.
  exists b', lh'. split; [exact E1|]. split; [exact E2|].
  assert (Hm' : hdr_magic b' = hdr_magic b).
  { unfold hdr_magic. apply (get_be32_same_outside _ _ _ _ _ E2). lia. }
  assert (Hw : walks ops b B deo recs B).
  { pose proof (data_records_walks ops b B (scan_fuel g) deo) as W.
    rewrite <- Hrecs in W. replace (deo + span recs) with B in W by lia.
    exact W. }
  assert (Hge : forall r, In r recs -> deo <= rec_off r)
    by (intros r Hr; exact (tiled_off_ge _ _ _ _ Ht Hr)).
  assert (Hw' : walks ops b' B deo recs B).
  { apply (walks_frame ops b b' B _ _ _ Hw).
    apply Forall_forall. intros r Hr x Hx.
    destruct E2 as [_ E2]. apply E2. pose proof (Hge r Hr). lia. }
  assert (Hrecs' : block_records g ops b' = recs).
  { unfold block_records.
    rewrite (endp_data_magic g b') by (rewrite Hm'; exact Hm).
    rewrite L4. fold deo B.
    apply (walks_records ops b' B deo recs B Hw'); [lia|exact Hfuel]. }
  apply (well_formed_accepted_records ftm inoval hash dataptr g ops b' recs);
    auto.
  - destruct E2 as [E2 _]. split; [lia|exact HB].
  - rewrite Hm'. exact Hm.
  - apply Forall_forall. intros r Hr.
    rewrite Forall_forall in Hrok. destruct (Hrok r Hr) as [R1 R2].
    split; [exact R1|].
    rewrite (get_be16_same_outside _ _ _ _ _ E2); [exact R2|].
    right.
    apply (tag_behind_header ops b B (bf + 12) Hes ltac:(lia)
             deo recs B false Hw Ht ltac:(lia)
             ltac:(apply Forall_forall; exact Hrok) r Hr).
  - intros o l Ho.
    apply (entry_ok_frame ftu ftm inoval hash dataptr g ops b b' B o Hops);
      [|exact (Hent o l Ho)].
    intros x Hx. destruct E2 as [_ E2]. apply E2.
    pose proof (Hge _ Ho). cbn [rec_off] in *. lia.
  - fold bf. rewrite E3. unfold b1. rewrite bf_table_memset0 by exact Hin.
    change (regions_of recs) with ([] ++ regions_of recs).
    apply insert_all_fits.
    + cbn. repeat split; try lia; auto.
      intros s [<-|[<-|[<-|[]]]]; auto.
    + exact (tiled_regions_nodup _ _ _ Ht).
    + intros [o l] Hr. split; [|intros []].
      apply regions_of_in in Hr.
      exact (tiled_positive _ _ _ _ Ht Hr).
Qed.

(** [scxfs_dir2_data_freescan_int] repairs the table: on a data-format
    block whose records are well formed (they tile the data area with no
    two unused records in a row, each ends with its own offset, the entries
    pass the entry tests) it returns, whatever the 12 table bytes held, and
    the block it leaves differs in the table alone and passes
    [__scxfs_dir3_data_check]. *)
Theorem freescan_repairs_table (b : buf) :
  In ops (format_variants ftu ftm) -> block_ok g ops b ->
  hdr_magic b = SCXFS_DIR2_DATA_MAGIC \/ hdr_magic b = SCXFS_DIR3_DATA_MAGIC ->
  let recs := block_records g ops b in
  tiled (data_entry_offset ops) false recs ->
  data_entry_offset ops + span recs = blksize g ->
  Forall (rec_ok b (blksize g)) recs ->
  (forall o l, In (REntry o l) recs ->
     entry_ok ftm inoval hash dataptr g ops b (blksize g) false o) ->
  exists b' loghead,
    scxfs_dir2_data_freescan_int g ops b = Some (b', loghead)
    /\ same_outside (data_bestfree_p ops) (data_bestfree_p ops + 12) b b'
    /\ verify b' = CheckGood.
Proof.
  intros Hops Hok Hm recs Ht Hspan Hrok Hent.
  exact (freescan_well_formed b recs Hops Hok Hm eq_refl Ht Hspan Hrok Hent).
Qed.

End Rebuild.

Lemma stale_block_records :
  block_records sample_geo sample_ops stale_block
  = [REntry 16 16; RUnused 32 16; REntry 48 16; RUnused 64 16;
     REntry 80 16; RUnused 96 32].
Proof. vm_compute. reflexivity. Qed.

Lemma stale_block_rejected : sample_verify stale_block <> CheckGood.
Proof. vm_compute. discriminate. Qed.

Lemma freescan_repairs_table_witness :
  In sample_ops (format_variants 0 9)
  /\ block_ok sample_geo sample_ops stale_block
  /\ sample_verify stale_block <> CheckGood
  /\ exists b' loghead,
       scxfs_dir2_data_freescan_int sample_geo sample_ops stale_block
       = Some (b', loghead)
       /\ same_outside 4 16 stale_block b'
       /\ sample_verify b' = CheckGood.
Proof.
  assert (Hops : In sample_ops (format_variants 0 9))
    by (right; left; reflexivity).
  assert (Hok : block_ok sample_geo sample_ops stale_block)
    by (split; [reflexivity|cbn; lia]).
  split; [exact Hops|]. split; [exact Hok|].
  split; [exact stale_block_rejected|].
  apply (freescan_repairs_table 0 9 (fun _ => 0) (fun _ => 0)
           (fun _ _ o => o / 8) sample_geo sample_ops stale_block Hops Hok).
  - left. vm_compute. reflexivity.
  - rewrite stale_block_records. cbn. lia.
  - rewrite stale_block_records. reflexivity.
  - rewrite stale_block_records.
    rewrite ?Forall_cons_iff, ?Forall_nil_iff. unfold rec_ok.
    repeat split; vm_compute; first [reflexivity|intros F; discriminate F].
  - rewrite stale_block_records. intros o l Hin. cbn [In] in Hin.
    destruct Hin as [H|[H|[H|[H|[H|[H|[]]]]]]]; try discriminate H;
      injection H as <- <-; unfold entry_ok;
      (split; [|split; [|split; [|split; [|split]]]]).
    all: try match goal with
             | |- false = true -> _ => intros F; discriminate F
             end.
    all: vm_compute; first [reflexivity|intros F; discriminate F].
Defined.

(** ** The table after an entry is freed *)

(** A table that fits has one of four shapes: its used slots come first
    and are different regions. *)
Lemma table_shapes (s0 s1 s2 : slot) (regs : list (Z * Z)) :
  table_fits [s0; s1; s2] regs ->
  (forall x, In x regs -> 0 < snd x) ->
  (s0 = (0, 0) /\ s1 = (0, 0) /\ s2 = (0, 0))
  \/ (In s0 regs /\ s1 = (0, 0) /\ s2 = (0, 0))
  \/ (In s0 regs /\ In s1 regs /\ s0 <> s1 /\ s2 = (0, 0))
  \/ (In s0 regs /\ In s1 regs /\ In s2 regs
      /\ s0 <> s1 /\ s0 <> s2 /\ s1 <> s2).
Proof.
  intros (A1 & A2 & A3 & A4 & A5 & _) Hpos.
  destruct (A3 s0 ltac:(cbn; auto)) as [Z0|R0];
    destruct (A3 s1 ltac:(cbn; auto)) as [Z1|R1];
    destruct (A3 s2 ltac:(cbn; auto)) as [Z2|R2];
    try (pose proof (Hpos _ R0)); try (pose proof (Hpos _ R1));
    try (pose proof (Hpos _ R2));
    try (rewrite Z0 in * ); try (rewrite Z1 in * ); try (rewrite Z2 in * );
    cbn [snd] in *; try lia.
  - auto.
  - right. left. auto.
  - right. right. left. repeat split; auto.
    destruct A4 as [E|[E _]]; [rewrite E in *; cbn in *; lia|exact E].
  - right. right. right.
    destruct A4 as [E|[E E']]; [rewrite E in *; cbn in *; lia|].
    destruct A5 as [E5|E5]; [rewrite E5 in *; cbn in *; lia|].
    repeat split; auto.
Qed.

(** Two slots differ: by a hypothesis, or because their lengths do. *)
Ltac slots_differ :=
  first [ assumption
        | apply not_eq_sym; assumption
        | let E := fresh in
          intros E; apply (f_equal snd) in E; cbn [snd] in E; lia ].

Ltac fits_order := cbn [snd] in *; lia.

Lemma table_replace_fits (s0 s1 s2 old new : slot) (regs regs' : list (Z * Z))
    (i : Z) :
  table_fits [s0; s1; s2] regs ->
  (forall x, In x regs -> 0 < snd x) ->
  listed_at [s0; s1; s2] i old ->
  In old regs -> snd old < snd new ->
  (forall x, In x regs -> x <> old -> x <> new) ->
  (forall x, In x regs' <-> x = new \/ (In x regs /\ x <> old)) ->
  table_fits (fst (table_insert (table_remove [s0; s1; s2] (Some i)) new)) regs'.
Proof.
  intros Hfit Hpos Hi Hold Hlen Hnew Hin.
  pose proof (Hpos _ Hold) as Po.
  pose proof (table_shapes _ _ _ _ Hfit Hpos) as Sh.
  destruct Hfit as (A1 & A2 & _ & _ & _ & A6).
  assert (Kn : In new regs') by (apply Hin; left; reflexivity).
  assert (Kr : forall x, In x regs -> x <> old -> In x regs')
    by (intros x Hx Hne; apply Hin; right; auto).
  assert (U : forall x, In x regs' -> x = new
                        \/ (x <> old /\ (In x [s0; s1; s2] \/ snd x <= snd s2))).
  { intros x Hx. apply Hin in Hx. destruct Hx as [->|[Hx Hne]]; [left; auto|].
    right. split; [exact Hne|]. apply A6. exact Hx. }
  assert (Hnew' : forall x, In x regs -> x <> old -> new <> x)
    by (intros x Hx Hne; apply not_eq_sym; auto).
  clear A6 Hin.
  destruct Sh as [(-> & -> & ->)|[(R0 & -> & ->)|[(R0 & R1 & N01 & ->)
                 |(R0 & R1 & R2 & N01 & N02 & N12)]]];
    try (pose proof (Hpos _ R0)); try (pose proof (Hpos _ R1));
    try (pose proof (Hpos _ R2));
    destruct Hi as [[-> <-]|[[-> <-]|[-> <-]]];
    cbn [snd] in *; try lia;
    unfold table_remove, table_insert; gtb_cases; cbn [fst snd] in *;
    try lia; unfold table_fits.
  all: (split; [fits_order|]); (split; [fits_order|]).
  all: (split;
        [intros s [<-|[<-|[<-|[]]]];
         first [left; reflexivity | right; exact Kn
               | right; apply Kr; [assumption|slots_differ]]|]).
  all: (split;
        [first [left; reflexivity
               | right; split;
                 first [slots_differ
                       | apply Hnew; [assumption|slots_differ]
                       | apply Hnew'; [assumption|slots_differ]]]|]).
  all: (split;
        [first [left; reflexivity
               | right;
                 first [slots_differ
                       | apply Hnew; [assumption|slots_differ]
                       | apply Hnew'; [assumption|slots_differ]]]|]).
  all: intros r Hr; destruct (U r Hr) as [->|[Hne [Hl|Hs]]];
    [left; cbn [In]; auto
    | cbn [In] in Hl;
      destruct Hl as [<-|[<-|[<-|[]]]];
      first [contradiction (Hne eq_refl) | left; cbn [In]; solve [auto]
            | right; fits_order]
    | right; fits_order].
Qed.

Lemma table_keeps_fits (s0 s1 s2 old new : slot) (regs regs' : list (Z * Z)) :
  table_fits [s0; s1; s2] regs ->
  ~ In old [s0; s1; s2] -> snd new <= snd s2 ->
  (forall x, In x regs' <-> x = new \/ (In x regs /\ x <> old)) ->
  table_fits [s0; s1; s2] regs'.
Proof.
  intros (A1 & A2 & A3 & A4 & A5 & A6) Hno Hlen Hin.
  unfold table_fits. do 2 (split; [assumption|]).
  split; [|split; [exact A4|split; [exact A5|]]].
  - intros s Hs. destruct (A3 s Hs) as [E|E]; [left; exact E|].
    right. apply Hin. right. split; [exact E|].
    intros ->. contradiction.
  - intros r Hr. apply Hin in Hr. destruct Hr as [->|[Hr _]]; [right; lia|].
    apply A6. exact Hr.
Qed.

(** Both neighbours are unused and slot 2 is empty: the table holds these
    two regions and nothing else, and ends up with the merged region
    alone. *)
Lemma table_merge_fits (s0 s1 s2 prev post new : slot)
    (regs regs' : list (Z * Z)) (dfp dfp2 : option Z) :
  table_fits [s0; s1; s2] regs ->
  (forall x, In x regs -> 0 < snd x) ->
  snd s2 = 0 ->
  In prev regs -> In post regs -> prev <> post ->
  found_at [s0; s1; s2] dfp prev -> found_at [s0; s1; s2] dfp2 post ->
  0 < snd new ->
  (forall x, In x regs' <->
             x = new \/ (In x regs /\ x <> prev /\ x <> post)) ->
  let d := match dfp with Some 1 => (Some 0, Some 1) | _ => (dfp, dfp2) end in
  table_fits
    (fst (table_insert
            (table_remove (table_remove [s0; s1; s2] (snd d)) (fst d)) new))
    regs'.
Proof.
  intros Hfit Hpos Hz Hprev Hpost Hne Hd Hd2 Hnew Hin.
  pose proof (Hpos _ Hprev) as Pp. pose proof (Hpos _ Hpost) as Pq.
  pose proof (table_shapes _ _ _ _ Hfit Hpos) as Sh.
  destruct Hfit as (A1 & A2 & _ & _ & _ & A6).
  destruct (A6 _ Hprev) as [Ip|Ip]; [|lia].
  destruct (A6 _ Hpost) as [Iq|Iq]; [|lia].
  assert (Only : forall x, In x regs -> x = prev \/ x = post).
  { intros x Hx. pose proof (Hpos _ Hx).
    destruct Sh as [(-> & -> & ->)|[(R0 & -> & ->)|[(R0 & R1 & N01 & ->)
                   |(R0 & R1 & R2 & N01 & N02 & N12)]]];
      try (pose proof (Hpos _ R2); lia);
      cbn [In] in Ip, Iq;
      destruct Ip as [Ip|[Ip|[Ip|[]]]]; try (rewrite <- Ip in Pp; cbn in Pp; lia);
      destruct Iq as [Iq|[Iq|[Iq|[]]]]; try (rewrite <- Iq in Pq; cbn in Pq; lia);
      try (exfalso; apply Hne; congruence);
      (destruct (A6 _ Hx) as [Ix|Ix]; [|cbn [snd] in *; lia]);
      cbn [In] in Ix;
      destruct Ix as [Ix|[Ix|[Ix|[]]]]; try (rewrite <- Ix in *; cbn in *; lia);
      subst; auto. }
  assert (R' : forall x, In x regs' -> x = new).
  { intros x Hx. apply Hin in Hx. destruct Hx as [->|(Hx & N1 & N2)]; auto.
    destruct (Only x Hx); contradiction. }
  assert (Kn : In new regs') by (apply Hin; left; reflexivity).
  assert (T : fst (table_insert
                     (table_remove
                        (table_remove [s0; s1; s2]
                           (snd match dfp with
                                | Some 1 => (Some 0, Some 1)
                                | _ => (dfp, dfp2)
                                end))
                        (fst match dfp with
                             | Some 1 => (Some 0, Some 1)
                             | _ => (dfp, dfp2)
                             end)) new)
              = [new; (0, 0); (0, 0)]).
  { destruct Sh as [(-> & -> & ->)|[(R0 & -> & ->)|[(R0 & R1 & N01 & ->)
                   |(R0 & R1 & R2 & N01 & N02 & N12)]]];
      try (pose proof (Hpos _ R2); lia);
      cbn [In] in Ip, Iq;
      destruct Ip as [Ip|[Ip|[Ip|[]]]]; try (rewrite <- Ip in Pp; cbn in Pp; lia);
      destruct Iq as [Iq|[Iq|[Iq|[]]]]; try (rewrite <- Iq in Pq; cbn in Pq; lia);
      try (exfalso; apply Hne; congruence); subst prev post.
    - (* prev in slot 0, post in slot 1 *)
      destruct dfp as [i|]; cbn [found_at listed_at] in Hd;
        [|exfalso; apply Hd; cbn; auto].
      destruct Hd as [[-> _]|[[-> E]|[-> E]]];
        [|exfalso; apply N01; auto
         |rewrite <- E in Pp; cbn in Pp; lia].
      destruct dfp2 as [j|]; cbn [found_at listed_at] in Hd2;
        [|exfalso; apply Hd2; cbn; auto].
      destruct Hd2 as [[-> E]|[[-> _]|[-> E]]];
        [exfalso; apply N01; auto| |rewrite <- E in Pq; cbn in Pq; lia].
      cbn [fst snd table_remove]. unfold table_insert. cbn [snd].
      destruct (Z.gtb_spec (snd new) 0); [reflexivity|lia].
    - (* prev in slot 1, post in slot 0 *)
      destruct dfp as [i|]; cbn [found_at listed_at] in Hd;
        [|exfalso; apply Hd; cbn; auto].
      destruct Hd as [[-> E]|[[-> _]|[-> E]]];
        [exfalso; apply N01; auto| |rewrite <- E in Pp; cbn in Pp; lia].
      cbn [fst snd table_remove]. unfold table_insert. cbn [snd].
      destruct (Z.gtb_spec (snd new) 0); [reflexivity|lia]. }
  cbv zeta. rewrite T. unfold table_fits. cbn [snd].
  split; [lia|]. split; [lia|].
  split; [intros s [<-|[<-|[<-|[]]]]; auto|].
  split; [right; split; slots_differ|]. split; [left; reflexivity|].
  intros r Hr. left. rewrite (R' r Hr). cbn. auto.
Qed.

(** [scxfs_dir2_data_freefind] on a table that fits: the answer is the
    slot of the region, or [NULL] when the table does not hold it. *)
Lemma freefind_index (b : buf) (bf p : Z) (regs : list (Z * Z)) :
  table_fits (bf_table b bf) regs ->
  (forall x, In x regs -> 0 < fst x /\ 0 < snd x) ->
  (forall x y, In x regs -> In y regs -> fst x = fst y -> x = y) ->
  In (p, dup_length b p) regs -> p < 4294967296 ->
  found_at (bf_table b bf) (scxfs_dir2_data_freefind b bf p)
    (p, dup_length b p).
Proof.
  intros Hfit Hpos Hinj Hp Hp32.
  destruct (Hpos _ Hp) as [Pp Pl]. cbn [fst snd] in Pp, Pl.
  assert (Hpos' : forall x, In x regs -> 0 < snd x)
    by (intros x Hx; apply Hpos; exact Hx).
  rewrite bf_table_slots in *.
  pose proof (table_shapes _ _ _ _ Hfit Hpos') as Sh.
  destruct Hfit as (A1 & A2 & _ & _ & _ & A6).
  unfold scxfs_dir2_data_freefind, bf_slots, freefind_loop.
  change (SCXFS_DIR2_DATA_FD_COUNT - 1) with 2.
  rewrite (u32_small p) by lia.
  change (bf_length b bf 2) with (snd (slot_at b bf 2)).
  change (bf_offset b bf 0) with (fst (slot_at b bf 0)).
  change (bf_offset b bf 1) with (fst (slot_at b bf 1)).
  change (bf_offset b bf 2) with (fst (slot_at b bf 2)).
  set (s0 := slot_at b bf 0) in *. set (s1 := slot_at b bf 1) in *.
  set (s2 := slot_at b bf 2) in *. set (l := dup_length b p) in *.
  assert (Eq : forall s, In s regs -> fst s = p -> s = (p, l))
    by (intros s Hs E; apply Hinj; auto).
  assert (Ne : forall s, In s regs -> fst s <> p -> s <> (p, l))
    by (intros s Hs E ->; apply E; reflexivity).
  destruct (Z.ltb_spec l (snd s2)) as [Hlt|Hge].
  { cbn [found_at In]. intros [E|[E|[E|[]]]];
      apply (f_equal snd) in E; cbn [snd] in E; lia. }
  destruct Sh as [(E0 & E1 & E2)|[(R0 & E1 & E2)|[(R0 & R1 & N01 & E2)
                 |(R0 & R1 & R2 & N01 & N02 & N12)]]];
    try (destruct (Hpos _ R0) as [O0 _]);
    try (destruct (Hpos _ R1) as [O1 _]);
    try (destruct (Hpos _ R2) as [O2 _]);
    try rewrite E0 in *; try rewrite E1 in *; try rewrite E2 in *;
    cbn [fst snd] in *;
    repeat match goal with
           | |- context [Z.eqb ?a ?c] =>
               destruct (Z.eqb_spec a c); try lia
           end;
    cbn [found_at listed_at In];
    try (left; split; [reflexivity|apply Eq; assumption]);
    try (right; left; split; [reflexivity|apply Eq; assumption]);
    try (right; right; split; [reflexivity|apply Eq; assumption]).
  all: intros [E|[E|[E|[]]]];
    try (apply (f_equal snd) in E; cbn [snd] in E; lia);
    try (apply (f_equal fst) in E; cbn [fst] in E; lia).
Qed.

Lemma bf_table_same_outside (lo hi : Z) (b b' : buf) (bf : Z) :
  same_outside lo hi b b' -> bf + 12 <= lo \/ hi <= bf ->
  bf_table b' bf = bf_table b bf.
Proof.
  intros F H. rewrite !bf_table_slots.
  unfold slot_at, bf_offset, bf_length, sizeof_scxfs_dir2_data_free.
  rewrite !(get_be16_same_outside lo hi b b') by (auto; lia). reflexivity.
Qed.

(** [scxfs_dir2_data_make_free] read at the level of the table. *)
Lemma make_free_table_spec (args : scxfs_da_args) (bp : scxfs_buf)
    (offset len needlog : Z) :
  let ops := d_ops args in
  let b := b_addr bp in
  let bf := data_bestfree_p ops in
  let bw := make_free_writes (geo args) ops b offset len in
  let prev := mf_prevdup ops b offset in
  let post := mf_postdup (geo args) b offset len in
  let target := match prev with Some p => p | None => offset end in
  table_in b bf -> bf_table bw bf = bf_table b bf ->
  bf + 12 <= target < 65536 ->
  let r := scxfs_dir2_data_make_free args bp offset len needlog in
  (bf_table (b_addr (fst (fst r))) bf, snd r)
  = make_free_table (bf_table b bf) prev post
      (match prev with
       | Some p => scxfs_dir2_data_freefind b bf p
       | None => None
       end)
      (match post with
       | Some p => scxfs_dir2_data_freefind b bf p
       | None => None
       end)
      (target, dup_length bw target).
Proof.
  cbv zeta. intros Hin. pose proof Hin as [Hbf0 _].
  pose proof (blen_make_free_writes (geo args) (d_ops args) (b_addr bp) offset len)
    as Hbl.
  pose proof (table_in_blen _ _ _ Hbl Hin) as Hinw.
  revert Hbl Hinw.
  unfold scxfs_dir2_data_make_free, make_free_writes, mf_prevdup, mf_postdup,
    new_unused.
  cbv zeta.
  set (bf := data_bestfree_p (d_ops args)) in *.
  rewrite (bf_table_slots (b_addr bp) bf). unfold make_free_table.
  change (snd (slot_at (b_addr bp) bf 2)) with (bf_length (b_addr bp) bf 2).
  destruct (if offset >? data_entry_offset (d_ops args)
            then free_or_null (b_addr bp) (get_be16 (b_addr bp) (offset - 2))
            else None) as [prev|];
    destruct (if below_endp (offset + len)
                   (scxfs_dir3_data_endp (geo args) (b_addr bp))
              then free_or_null (b_addr bp) (offset + len)
              else None) as [post|];
    intros Hbl Hinw Htab Ht; cbv beta iota in Ht.
  - destruct (negb (bf_length (b_addr bp) bf 2 =? 0)).
    { cbn [fst snd]. rewrite b_addr_log_unused. cbn [b_addr set_addr].
      rewrite Htab. reflexivity. }
    set (d := match scxfs_dir2_data_freefind (b_addr bp) bf prev with
              | Some 1 => (Some 0, Some 1)
              | _ => (scxfs_dir2_data_freefind (b_addr bp) bf prev,
                      scxfs_dir2_data_freefind (b_addr bp) bf post)
              end).
    match goal with
    | |- context [let '(dfp, dfp2) := ?X in _] => change X with d
    end.
    destruct d as [d1 d2]. cbn [fst snd].
    match goal with
    | |- context [scxfs_dir2_data_freeremove ?x bf d2] =>
        destruct (freeremove_spec x bf d2 Hinw) as (T1 & F1 & _);
        destruct (scxfs_dir2_data_freeremove x bf d2) as [b3 nl3]
    end.
    cbn [fst] in T1, F1.
    pose proof (table_in_same _ _ _ _ _ F1 Hinw) as Hin3.
    destruct (freeremove_spec b3 bf d1 Hin3) as (T2 & F2 & _).
    destruct (scxfs_dir2_data_freeremove b3 bf d1) as [b4 nl4].
    cbn [fst] in T2, F2.
    pose proof (table_in_same _ _ _ _ _ F2 Hin3) as Hin4.
    destruct (freeinsert_spec b4 bf prev nl4 Hin4) as (T3 & _ & F3 & _).
    destruct (scxfs_dir2_data_freeinsert b4 bf prev nl4) as [[b5 r5] nl5].
    cbn [fst snd set_addr b_addr] in *.
    rewrite T3, T2, T1, Htab, (u16_small prev) by lia.
    unfold dup_length.
    rewrite (get_be16_same_outside _ _ _ _ _ F2),
      (get_be16_same_outside _ _ _ _ _ F1) by lia.
    reflexivity.
  - destruct (scxfs_dir2_data_freefind (b_addr bp) bf prev) as [i|].
    2:{ cbn [fst snd]. rewrite b_addr_log_unused. cbn [b_addr set_addr].
        rewrite Htab.
        match goal with
        | |- context [bf_length ?x bf 2] =>
            change (bf_length x bf 2) with (snd (slot_at x bf 2))
        end.
        destruct (bf_table_inv _ _ _ _ _ Htab) as (_ & _ & E2).
        rewrite E2. reflexivity. }
    match goal with
    | |- context [scxfs_dir2_data_freeremove ?x bf ?d] =>
        destruct (freeremove_spec x bf d Hinw) as (T1 & F1 & _);
        destruct (scxfs_dir2_data_freeremove x bf d) as [b3 nl3]
    end.
    cbn [fst] in T1, F1.
    pose proof (table_in_same _ _ _ _ _ F1 Hinw) as Hin3.
    destruct (freeinsert_spec b3 bf prev nl3 Hin3) as (T3 & _ & F3 & _).
    destruct (scxfs_dir2_data_freeinsert b3 bf prev nl3) as [[b5 r5] nl5].
    cbn [fst snd set_addr b_addr] in *.
    rewrite T3, T1, Htab, (u16_small prev) by lia.
    unfold dup_length.
    rewrite (get_be16_same_outside _ _ _ _ _ F1) by lia.
    reflexivity.
  - destruct (scxfs_dir2_data_freefind (b_addr bp) bf post) as [i|].
    2:{ cbn [fst snd]. rewrite b_addr_log_unused. cbn [b_addr set_addr].
        rewrite Htab.
        match goal with
        | |- context [bf_length ?x bf 2] =>
            change (bf_length x bf 2) with (snd (slot_at x bf 2))
        end.
        destruct (bf_table_inv _ _ _ _ _ Htab) as (_ & _ & E2).
        rewrite E2. reflexivity. }
    match goal with
    | |- context [scxfs_dir2_data_freeremove ?x bf ?d] =>
        destruct (freeremove_spec x bf d Hinw) as (T1 & F1 & _);
        destruct (scxfs_dir2_data_freeremove x bf d) as [b3 nl3]
    end.
    cbn [fst] in T1, F1.
    pose proof (table_in_same _ _ _ _ _ F1 Hinw) as Hin3.
    destruct (freeinsert_spec b3 bf offset nl3 Hin3) as (T3 & _ & F3 & _).
    destruct (scxfs_dir2_data_freeinsert b3 bf offset nl3) as [[b5 r5] nl5].
    cbn [fst snd set_addr b_addr] in *.
    rewrite T3, T1, Htab, (u16_small offset) by lia.
    unfold dup_length.
    rewrite (get_be16_same_outside _ _ _ _ _ F1) by lia.
    reflexivity.
  - match goal with
    | |- context [scxfs_dir2_data_freeinsert ?x bf offset needlog] =>
        destruct (freeinsert_spec x bf offset needlog Hinw) as (T3 & _ & F3 & _);
        destruct (scxfs_dir2_data_freeinsert x bf offset needlog)
          as [[b5 r5] nl5]
    end.
    cbn [fst snd set_addr b_addr] in *.
    rewrite T3, Htab, (u16_small offset) by lia. reflexivity.
Qed.

(** ** The records and regions after an entry is freed *)

Lemma regions_of_app (l1 l2 : list record) :
  regions_of (l1 ++ l2) = regions_of l1 ++ regions_of l2.
Proof. apply flat_map_app. Qed.

Lemma tiled_within (recs : list record) :
  forall p lf r, tiled p lf recs -> In r recs ->
    p <= rec_off r /\ rec_off r + rec_len r <= p + span recs.
Proof.
  induction recs as [|a rest IH]; intros p lf r Ht Hr; [destruct Hr|].
  cbn [tiled span] in *. destruct Ht as (Ho & Hl & _ & Ht).
  pose proof (tiled_span_nonneg _ _ _ Ht).
  destruct Hr as [<-|Hr]; [lia|].
  destruct (IH _ _ _ Ht Hr). lia.
Qed.

Lemma regions_facts (recs : list record) (p : Z) (lf : bool) :
  tiled p lf recs -> 0 < p ->
  (forall x, In x (regions_of recs) -> 0 < fst x /\ 0 < snd x)
  /\ (forall x y, In x (regions_of recs) -> In y (regions_of recs) ->
                  fst x = fst y -> x = y).
Proof.
  intros Ht Hp. split.
  - intros [o l] Hx. apply regions_of_in in Hx.
    pose proof (tiled_off_ge _ _ _ _ Ht Hx).
    pose proof (tiled_positive _ _ _ _ Ht Hx).
    cbn [rec_off rec_len fst snd] in *. lia.
  - intros [o l] [o' l'] Hx Hy E. apply regions_of_in in Hx, Hy.
    pose proof (tiled_positive _ _ _ _ Ht Hx).
    pose proof (tiled_positive _ _ _ _ Ht Hy).
    cbn [fst] in E. subst o'.
    destruct (tiled_disjoint _ _ _ Ht _ _ Hx Hy) as [E|E];
      [injection E as ->; reflexivity|].
    cbn [rec_off rec_len] in *. lia.
Qed.

Lemma region_not_entry (recs : list record) (p : Z) (lf : bool) (o l l' : Z) :
  tiled p lf recs -> In (REntry o l) recs -> ~ In (o, l') (regions_of recs).
Proof.
  intros Ht He Hr. apply regions_of_in in Hr.
  pose proof (tiled_positive _ _ _ _ Ht He).
  pose proof (tiled_positive _ _ _ _ Ht Hr).
  destruct (tiled_disjoint _ _ _ Ht _ _ He Hr) as [E|E]; [discriminate E|].
  cbn [rec_off rec_len] in *. lia.
Qed.

Lemma prev_free_some (pre : list record) (o l : Z) :
  prev_free pre = Some (o, l) -> pre = removelast pre ++ [RUnused o l].
Proof.
  unfold prev_free. intros H.
  destruct pre as [|a rest]; [discriminate H|].
  rewrite (app_removelast_last (REntry 0 0) (l := a :: rest)) at 1
    by discriminate.
  destruct (last (a :: rest) (REntry 0 0)) as [o' l'|o' l'];
    [|discriminate H].
  injection H as -> ->. reflexivity.
Qed.

Lemma post_free_some (post : list record) (o l : Z) :
  post_free post = Some (o, l) -> post = RUnused o l :: tl post.
Proof.
  unfold post_free. destruct post as [|[o' l'|o' l'] rest]; try discriminate.
  intros H. injection H as -> ->. reflexivity.
Qed.

(** The unused regions afterwards: the merged region, and the regions of
    before other than the two neighbours it absorbed. *)
Lemma merged_regions (pre post : list record) (offset len p : Z) :
  tiled p false (pre ++ REntry offset len :: post) ->
  forall x,
    In x (regions_of (merged_records pre offset len post))
    <-> x = (merged_off pre offset, merged_len pre post len)
        \/ (In x (regions_of (pre ++ REntry offset len :: post))
            /\ Some x <> prev_free pre /\ Some x <> post_free post).
Proof.
  intros Ht x.
  pose proof (tiled_regions_nodup _ _ _ Ht) as Hnd.
  unfold merged_records.
  set (new := (merged_off pre offset, merged_len pre post len)).
  rewrite !regions_of_app in *.
  change (regions_of (REntry offset len :: post)) with (regions_of post) in *.
  change (regions_of (RUnused (merged_off pre offset)
                        (merged_len pre post len) :: post_kept post))
    with (new :: regions_of (post_kept post)).
  unfold pre_kept, post_kept.
  destruct (prev_free pre) as [[po pl]|] eqn:Ep;
    destruct (post_free post) as [[qo ql]|] eqn:Eq;
    try (apply prev_free_some in Ep; rewrite Ep in Hnd at 1;
         rewrite regions_of_app in Hnd;
         change (regions_of [RUnused po pl]) with [(po, pl)] in Hnd);
    try (apply post_free_some in Eq; rewrite Eq in Hnd at 1;
         change (regions_of (RUnused qo ql :: tl post))
           with ((qo, ql) :: regions_of (tl post)) in Hnd).
  - pose proof (NoDup_remove_2 _ _ _ Hnd) as N2.
    rewrite <- app_assoc in Hnd. cbn [app] in Hnd.
    pose proof (NoDup_remove_2 _ _ _ Hnd) as N1.
    rewrite Ep at 2. rewrite Eq at 2.
    rewrite regions_of_app.
    change (regions_of [RUnused po pl]) with [(po, pl)].
    change (regions_of (RUnused qo ql :: tl post))
      with ((qo, ql) :: regions_of (tl post)).
    rewrite ?in_app_iff in *. cbn [In] in *. rewrite ?in_app_iff in *.
    cbn [In] in *.
    split.
    + intros [H|[H|H]]; auto; right; (split; [tauto|]);
        split; intros E; injection E as E; subst x; tauto.
    + intros [H|([[H|[H|[]]]|[H|H]] & N3 & N4)]; auto;
        try (exfalso; apply N3; rewrite H; reflexivity);
        try (exfalso; apply N4; rewrite H; reflexivity).
  - rewrite <- app_assoc in Hnd. cbn [app] in Hnd.
    pose proof (NoDup_remove_2 _ _ _ Hnd) as N1.
    rewrite Ep at 2.
    rewrite regions_of_app.
    change (regions_of [RUnused po pl]) with [(po, pl)].
    rewrite ?in_app_iff in *. cbn [In] in *.
    split.
    + intros [H|[H|H]]; auto; right; (split; [tauto|]);
        (split; [|discriminate]); intros E; injection E as E; subst x; tauto.
    + intros [H|([[H|[H|[]]]|H] & N3 & N4)]; auto;
        try (exfalso; apply N3; rewrite H; reflexivity).
  - pose proof (NoDup_remove_2 _ _ _ Hnd) as N2.
    rewrite Eq at 2.
    change (regions_of (RUnused qo ql :: tl post))
      with ((qo, ql) :: regions_of (tl post)).
    rewrite ?in_app_iff in *. cbn [In] in *.
    split.
    + intros [H|[H|H]]; auto; right; (split; [tauto|]);
        (split; [discriminate|]); intros E; injection E as E; subst x; tauto.
    + intros [H|([H|[H|H]] & N3 & N4)]; auto;
        try (exfalso; apply N4; rewrite H; reflexivity).
  - rewrite ?in_app_iff in *. cbn [In] in *.
    split.
    + intros [H|[H|H]]; auto; right; (split; [tauto|]);
        split; discriminate.
    + intros [H|([H|H] & _ & _)]; auto.
Qed.

Lemma tag_after (ops : scxfs_dir_ops) (b : buf) (e : Z) :
  (forall n, 0 <= n < 256 -> 16 <= data_entsize ops n) ->
  forall recs p q,
    walks ops b e p recs q -> tiled p true recs ->
    forall r, In r recs -> p <= rec_off r + rec_len r - 2.
Proof.
  intros Hes recs p q Hw Ht r Hr.
  destruct recs as [|a rest]; [destruct Hr|].
  cbn [tiled] in Ht. destruct Ht as (Ho & Hl & Hu & Ht).
  destruct a as [o l|o l]; [specialize (Hu eq_refl); discriminate Hu|].
  apply walks_entry_inv in Hw. destruct Hw as (Eo & El & _ & _ & Hw).
  pose proof (Hes (dep_namelen b p) (rd_range b _)) as Hsz.
  cbn [rec_off rec_len] in *.
  destruct Hr as [<-|Hr]; [cbn [rec_off rec_len]; lia|].
  pose proof (tiled_off_ge _ _ _ _ Ht Hr).
  pose proof (tiled_positive _ _ _ _ Ht Hr). lia.
Qed.

Lemma pre_kept_in (pre : list record) (r : record) :
  In r (pre_kept pre) -> In r pre.
Proof.
  unfold pre_kept. destruct (prev_free pre) as [[o l]|] eqn:E; [|auto].
  intros H. rewrite (prev_free_some _ _ _ E). apply in_app_iff. auto.
Qed.

Lemma post_kept_in (post : list record) (r : record) :
  In r (post_kept post) -> In r post.
Proof.
  unfold post_kept. destruct (post_free post) as [[o l]|] eqn:E; [|auto].
  intros H. rewrite (post_free_some _ _ _ E). cbn. auto.
Qed.

Section KeepsValid.

Variables ftu ftm : Z.
Variable inoval : Z -> Z.
Variable hash : list Z -> Z.
Variable dataptr : scxfs_da_geometry -> Z -> Z -> Z.
Variable g : scxfs_da_geometry.
Variable ops : scxfs_dir_ops.

Let verify := __scxfs_dir3_data_check ftm inoval hash dataptr g ops.

(** The block that [scxfs_dir2_data_make_free] leaves: its records are
    well formed, and its table fits them unless a rescan is asked for. *)
Lemma make_free_well_formed (b : buf) (pre post : list record)
    (offset len : Z) (bp : scxfs_buf) (needlog : Z) :
  In ops (format_variants ftu ftm) -> block_ok g ops b ->
  hdr_magic b = SCXFS_DIR2_DATA_MAGIC \/ hdr_magic b = SCXFS_DIR3_DATA_MAGIC ->
  verify b = CheckGood ->
  b_addr bp = b ->
  block_records g ops b = pre ++ REntry offset len :: post ->
  let r := scxfs_dir2_data_make_free {| geo := g; d_ops := ops |}
             bp offset len needlog in
  let b' := b_addr (fst (fst r)) in
  let recs' := merged_records pre offset len post in
  block_ok g ops b'
  /\ (hdr_magic b' = SCXFS_DIR2_DATA_MAGIC
      \/ hdr_magic b' = SCXFS_DIR3_DATA_MAGIC)
  /\ block_records g ops b' = recs'
  /\ tiled (data_entry_offset ops) false recs'
  /\ data_entry_offset ops + span recs' = blksize g
  /\ Forall (rec_ok b' (blksize g)) recs'
  /\ (forall o l, In (REntry o l) recs' ->
        entry_ok ftm inoval hash dataptr g ops b' (blksize g) false o)
  /\ (snd r = 0 ->
      table_fits (bf_table b' (data_bestfree_p ops)) (regions_of recs')).
Proof.
  intros Hops Hok Hm Hv Hbp Hrecs. cbv zeta.
  pose proof (format_variants_layout _ _ _ Hops) as Hlay.
  pose proof Hlay as (L1 & L2 & L3 & L4 & L5 & Hes & _).
  assert (L6 : data_entry_offset ops <= 64)
    by (destruct Hops as [<-|[<-|[<-|[]]]]; cbn; lia).
  pose proof Hok as [Hlen HB].
  destruct (accepted_well_formed ftm inoval hash dataptr g ops b Hlay Hok Hm Hv)
    as (Ht & Hspan & Hrok & Hent & Hfit).
  rewrite Hrecs in Ht, Hspan, Hrok, Hent, Hfit.
  pose proof (endp_data_magic g b Hm) as He.
  assert (Hw : walks ops b (blksize g) (data_entry_offset ops)
                 (pre ++ REntry offset len :: post) (blksize g)).
  { pose proof (data_records_walks ops b (blksize g) (scan_fuel g)
                  (data_entry_offset ops)) as W.
    unfold block_records in Hrecs. rewrite He, L4 in Hrecs.
    rewrite Hrecs, Hspan in W. exact W. }
  assert (Hqe : blksize g <= blksize g) by lia.
  assert (Hfuel : (length (pre ++ REntry offset len :: post) < scan_fuel g)%nat).
  { pose proof (tiled_length _ _ _ Ht). unfold scan_fuel. lia. }
  pose proof (writes_spec g ops b (blksize g) (blksize g) pre post offset len)
    as HW.
  use_ctx HW. destruct HW as (W1 & W2 & W3 & W4).
  pose proof (merged_bounds g ops b (blksize g) (blksize g) pre post offset len)
    as HB0.
  use_ctx HB0. destruct HB0 as (B1 & B2 & B3 & B4 & B5 & B6 & B7).
  pose proof (mf_prevdup_eq ops b (blksize g) (blksize g) pre post offset len)
    as HP.
  use_ctx HP.
  pose proof (mf_postdup_eq g ops b (blksize g) (blksize g) pre post offset len)
    as HQ.
  use_ctx HQ.
  pose proof (merged_tiled g ops b (blksize g) (blksize g) pre post offset len)
    as MT.
  use_ctx MT.
  pose proof (merged_walk g ops b (blksize g) (blksize g) pre post offset len)
    as MW.
  use_ctx MW.
  pose proof (pre_kept_walk ops b (blksize g) (blksize g) pre post offset len)
    as PK.
  use_ctx PK. destruct PK as (PK1 & PK2 & _).
  pose proof (post_kept_walk g ops b (blksize g) (blksize g) pre post offset len)
    as QK.
  use_ctx QK. destruct QK as (QK1 & QK2).
  pose proof (ctx_prev ops b (blksize g) (blksize g) pre post offset len) as CP.
  use_ctx CP.
  pose proof (ctx_post ops b (blksize g) (blksize g) pre post offset len) as CQ.
  use_ctx CQ.
  assert (Hin : table_in (b_addr bp) (data_bestfree_p ops))
    by (rewrite Hbp; split; lia).
  pose proof (make_free_buffer {| geo := g; d_ops := ops |} bp offset len
                needlog Hin) as F.
  pose proof (make_free_table_spec {| geo := g; d_ops := ops |} bp offset len
                needlog) as TS.
  cbv zeta in TS. cbn [geo d_ops] in F, TS. rewrite Hbp in F, TS, Hin.
  set (r := scxfs_dir2_data_make_free {| geo := g; d_ops := ops |}
              bp offset len needlog) in *.
  set (bw := make_free_writes g ops b offset len) in *.
  set (q := merged_off pre offset) in *.
  set (L := merged_len pre post len) in *.
  set (bf := data_bestfree_p ops) in *.
  set (b' := b_addr (fst (fst r))) in *.
  set (deo := data_entry_offset ops) in *.
  set (B := blksize g) in *.
  set (recs := pre ++ REntry offset len :: post) in *.
  set (recs' := merged_records pre offset len post) in *.
  assert (Hie : In (REntry offset len) recs)
    by (apply in_app_iff; right; left; reflexivity).
  assert (Hlenpos : 16 <= len).
  { destruct (walks_in _ _ _ _ _ _ Hw _ Hie) as [_ ->].
    apply Hes, rd_range. }
  assert (Fr : forall x, bf + 12 <= x -> ~ (q <= x < q + L) ->
                         rd b' x = rd b x).
  { intros x H1 H2. destruct F as [_ F]. rewrite F by lia.
    destruct W1 as [_ W1]. apply W1. lia. }
  assert (Fr0 : forall x, x < bf -> rd b' x = rd b x).
  { intros x H1. destruct F as [_ F]. rewrite F by lia.
    destruct W1 as [_ W1]. apply W1. lia. }
  assert (Hbl : blen b' = blen b).
  { destruct F as [F _]. destruct W1 as [W1 _]. lia. }
  assert (Hm' : hdr_magic b' = hdr_magic b).
  { unfold hdr_magic, get_be32, get_be16. rewrite !Fr0 by lia. reflexivity. }
  assert (Hft' : dup_freetag b' q = SCXFS_DIR2_DATA_FREE_TAG).
  { unfold dup_freetag.
    rewrite (get_be16_same_outside _ _ _ _ _ F) by lia. exact W2. }
  assert (Hdl' : dup_length b' q = L).
  { unfold dup_length.
    rewrite (get_be16_same_outside _ _ _ _ _ F) by lia. exact W3. }
  assert (Htag' : get_be16 b' (q + L - 2) = q).
  { rewrite (get_be16_same_outside _ _ _ _ _ F) by lia. exact W4. }
  assert (Hw' : walks ops b' B deo recs' B).
  { apply (MW b'); auto. intros x H1 H2. apply Fr; lia. }
  assert (Hspan' : deo + span recs' = B)
    by (symmetry; exact (walks_span _ _ _ _ _ _ Hw')).
  assert (Hrecs' : block_records g ops b' = recs').
  { unfold block_records.
    rewrite (endp_data_magic g b') by (rewrite Hm'; exact Hm).
    rewrite L4. fold deo B.
    apply (walks_records ops b' B deo recs' B Hw'); [lia|].
    pose proof (merged_records_length pre post offset len). fold recs recs' in H.
    lia. }
  assert (Htb : forall r0, In r0 recs -> deo <= rec_off r0 + rec_len r0 - 2).
  { intros r0 Hr0.
    apply (tag_behind_header ops b B deo Hes ltac:(lia) deo recs B false
             Hw Ht ltac:(lia) Hrok r0 Hr0). }
  assert (Hrok' : Forall (rec_ok b' B) recs').
  { apply Forall_forall. intros r0 Hr0.
    rewrite Forall_forall in Hrok.
    unfold recs', merged_records in Hr0. apply in_app_iff in Hr0.
    destruct Hr0 as [Hr0|[<-|Hr0]].
    - destruct (tiled_within _ _ _ _ PK2 Hr0) as [T1 T2].
      fold deo in T1, T2. rewrite <- B6 in T2. fold q in T2.
      apply pre_kept_in in Hr0.
      assert (Hr1 : In r0 recs) by (apply in_app_iff; auto).
      destruct (Hrok r0 Hr1) as [R1 R2]. pose proof (Htb r0 Hr1).
      split; [exact R1|]. unfold get_be16 in *.
      rewrite !Fr by lia. exact R2.
    - split; cbn [rec_off rec_len]; [lia|exact Htag'].
    - pose proof (tag_after ops b B Hes _ _ _ QK1 QK2 r0 Hr0) as T1.
      fold q L in T1.
      apply post_kept_in in Hr0.
      assert (Hr1 : In r0 recs) by (apply in_app_iff; right; right; auto).
      destruct (Hrok r0 Hr1) as [R1 R2]. pose proof (Htb r0 Hr1).
      split; [exact R1|]. unfold get_be16 in *.
      rewrite !Fr by lia. exact R2. }
  assert (Hent' : forall o l, In (REntry o l) recs' ->
            entry_ok ftm inoval hash dataptr g ops b' B false o).
  { intros o l Ho.
    unfold recs', merged_records in Ho. apply in_app_iff in Ho.
    destruct Ho as [Ho|[Ho|Ho]]; [|discriminate Ho|].
    - destruct (tiled_within _ _ _ _ PK2 Ho) as [T1 T2].
      fold deo in T1, T2. rewrite <- B6 in T2. fold q in T2.
      cbn [rec_off rec_len] in T1, T2.
      apply pre_kept_in in Ho.
      assert (Hr1 : In (REntry o l) recs) by (apply in_app_iff; auto).
      destruct (walks_in _ _ _ _ _ _ Hw _ Hr1) as [_ El].
      apply (entry_ok_frame ftu ftm inoval hash dataptr g ops b b' B o Hops);
        [|exact (Hent o l Hr1)].
      intros x Hx. apply Fr; lia.
    - pose proof (tiled_off_ge _ _ _ _ QK2 Ho) as T1. fold q L in T1.
      cbn [rec_off] in T1.
      apply post_kept_in in Ho.
      assert (Hr1 : In (REntry o l) recs)
        by (apply in_app_iff; right; right; auto).
      apply (entry_ok_frame ftu ftm inoval hash dataptr g ops b b' B o Hops);
        [|exact (Hent o l Hr1)].
      intros x Hx. apply Fr; lia. }
  split; [split; [lia|exact HB]|].
  split; [rewrite Hm'; exact Hm|].
  split; [exact Hrecs'|]. split; [exact MT|]. split; [exact Hspan'|].
  split; [exact Hrok'|]. split; [exact Hent'|].
  (* the table *)
  intros Hns.
  assert (Htarget : match mf_prevdup ops b offset with
                    | Some p => p
                    | None => offset
                    end = q).
  { rewrite HP. unfold q, merged_off.
    destruct (prev_free pre) as [[o l]|]; reflexivity. }
  rewrite Htarget in TS.
  assert (Htab : bf_table bw bf = bf_table b bf)
    by (apply (bf_table_same_outside _ _ _ _ _ W1); lia).
  specialize (TS Hin Htab ltac:(lia)).
  rewrite W3, HP, HQ in TS.
  destruct (regions_facts recs deo false Ht ltac:(lia)) as [Hpos Hinj].
  assert (Hpos' : forall x, In x (regions_of recs) -> 0 < snd x)
    by (intros x Hx; apply Hpos; exact Hx).
  pose proof (merged_regions pre post offset len deo Ht) as MR.
  fold recs recs' q L in MR.
  assert (Hnn : ~ In (q, L) (regions_of recs)).
  { unfold q, L, merged_off, merged_len.
    destruct (prev_free pre) as [[po pl]|] eqn:Ep.
    - destruct CP as (pre0 & E1 & _ & _ & Hpl & _).
      intros Hx.
      assert (Hy : In (po, pl) (regions_of recs)).
      { apply regions_of_in. unfold recs. rewrite E1.
        rewrite !in_app_iff. cbn. auto. }
      pose proof (Hinj _ _ Hx Hy eq_refl) as E.
      injection E as E.
      destruct (post_free post) as [[qo ql]|] eqn:Eq.
      + destruct CQ as (post0 & _ & _ & _ & Hql & _). lia.
      + lia.
    - apply (region_not_entry recs deo false offset len _ Ht Hie). }
  assert (Hfound : forall o l, In (RUnused o l) recs -> dup_length b o = l ->
            In (o, l) (regions_of recs)
            /\ found_at (bf_table b bf) (scxfs_dir2_data_freefind b bf o) (o, l)).
  { intros o l Hr Hl.
    assert (Hx : In (o, l) (regions_of recs)) by (apply regions_of_in; exact Hr).
    split; [exact Hx|].
    destruct (tiled_within _ _ _ _ Ht Hr) as [T1 T2].
    cbn [rec_off rec_len] in T1, T2.
    pose proof (tiled_positive _ _ _ _ Ht Hr) as T3. cbn [rec_len] in T3.
    rewrite <- Hl. apply (freefind_index b bf o (regions_of recs)); auto.
    - rewrite Hl. exact Hx.
    - fold deo in T2. lia. }
  apply (f_equal fst) in TS as Tt. apply (f_equal snd) in TS as Tn.
  cbn [fst snd] in Tt, Tn. rewrite Hns in Tn.
  rewrite Tt. clear Tt TS.
  rewrite (bf_table_slots b bf) in *.
  set (s0 := slot_at b bf 0) in *. set (s1 := slot_at b bf 1) in *.
  set (s2 := slot_at b bf 2) in *.
  unfold make_free_table in *.
  assert (HLq : L = match prev_free pre with Some (_, l) => l | None => 0 end
                    + len
                    + match post_free post with Some (_, l) => l | None => 0 end)
    by reflexivity.
  destruct (prev_free pre) as [[po pl]|] eqn:Ep;
    destruct (post_free post) as [[qo ql]|] eqn:Eq;
    cbn [option_map fst] in *.
  - destruct CP as (pre0 & E1 & P1 & P2 & P3 & P4 & P5 & _).
    destruct CQ as (post0 & E2 & Q1 & Q2 & Q3 & Q4 & Q5 & _).
    assert (Hrp : In (RUnused po pl) recs)
      by (unfold recs; rewrite E1, !in_app_iff; cbn; auto).
    assert (Hrq : In (RUnused qo ql) recs)
      by (unfold recs; rewrite E2, !in_app_iff; cbn; auto).
    destruct (Hfound po pl Hrp P5) as [Xp Fp].
    destruct (Hfound qo ql Hrq Q5) as [Xq Fq].
    destruct (Z.eqb_spec (snd s2) 0) as [Ez|Ez]; cbn [negb] in *;
      [|discriminate Tn].
    cbn [fst snd].
    apply (table_merge_fits s0 s1 s2 (po, pl) (qo, ql) (q, L)
             (regions_of recs) (regions_of recs')); auto.
    + intros E. injection E as E _. lia.
    + cbn [snd]. lia.
    + intros x. rewrite MR. split.
      * intros [H|(H1 & H2 & H3)]; [left; exact H|].
        right. split; [exact H1|]. split; intros E; subst x; auto.
      * intros [H|(H1 & H2 & H3)]; [left; exact H|].
        right. split; [exact H1|].
        split; intros E; injection E as E; auto.
  - destruct CP as (pre0 & E1 & P1 & P2 & P3 & P4 & P5 & _).
    assert (Hrp : In (RUnused po pl) recs)
      by (unfold recs; rewrite E1, !in_app_iff; cbn; auto).
    destruct (Hfound po pl Hrp P5) as [Xp Fp].
    assert (MR' : forall x, In x (regions_of recs') <->
                    x = (q, L) \/ (In x (regions_of recs) /\ x <> (po, pl))).
    { intros x. rewrite MR. split.
      - intros [H|(H1 & H2 & H3)]; [left; exact H|].
        right. split; [exact H1|]. intros E; subst x; auto.
      - intros [H|(H1 & H2)]; [left; exact H|].
        right. split; [exact H1|].
        split; [intros E; injection E as E; auto|discriminate]. }
    destruct (scxfs_dir2_data_freefind b bf po) as [i|]; cbn [fst snd] in *.
    + apply (table_replace_fits s0 s1 s2 (po, pl) (q, L) (regions_of recs)
               (regions_of recs') i); auto.
      * cbn [snd]. lia.
      * intros x Hx _ ->. contradiction.
    + apply (table_keeps_fits s0 s1 s2 (po, pl) (q, L) (regions_of recs));
        auto.
      cbn [snd] in *.
      destruct (Z.gtb_spec L (snd s2)); [discriminate Tn|lia].
  - destruct CQ as (post0 & E2 & Q1 & Q2 & Q3 & Q4 & Q5 & _).
    assert (Hrq : In (RUnused qo ql) recs)
      by (unfold recs; rewrite E2, !in_app_iff; cbn; auto).
    destruct (Hfound qo ql Hrq Q5) as [Xq Fq].
    assert (MR' : forall x, In x (regions_of recs') <->
                    x = (q, L) \/ (In x (regions_of recs) /\ x <> (qo, ql))).
    { intros x. rewrite MR. split.
      - intros [H|(H1 & H2 & H3)]; [left; exact H|].
        right. split; [exact H1|]. intros E; subst x; auto.
      - intros [H|(H1 & H2)]; [left; exact H|].
        right. split; [exact H1|].
        split; [discriminate|intros E; injection E as E; auto]. }
    destruct (scxfs_dir2_data_freefind b bf qo) as [i|]; cbn [fst snd] in *.
    + apply (table_replace_fits s0 s1 s2 (qo, ql) (q, L) (regions_of recs)
               (regions_of recs') i); auto.
      * cbn [snd]. lia.
      * intros x Hx _ ->. contradiction.
    + apply (table_keeps_fits s0 s1 s2 (qo, ql) (q, L) (regions_of recs));
        auto.
      cbn [snd] in *.
      destruct (Z.gtb_spec L (snd s2)); [discriminate Tn|lia].
  - cbn [fst].
    apply (table_insert_fits [s0; s1; s2] (regions_of recs)); auto.
    + intros x. rewrite MR. split.
      * intros [H|(H1 & _)]; auto.
      * intros [H|H]; [left; exact H|].
        right. split; [exact H|]. split; discriminate.
    + cbn [snd]. lia.
Qed.

(** Freeing an entry keeps the block valid.  On a data-format block that
    passes [__scxfs_dir3_data_check], [scxfs_dir2_data_make_free] of one of
    its entries leaves a block whose records are those of before with the
    entry and its unused neighbours merged into one unused record.  When
    [*needscanp] comes back 0 the block passes the check as it is; when it
    comes back set (regen bestfree), [scxfs_dir2_data_freescan_int] on the
    block returns a block that passes. *)
Theorem make_free_keeps_valid (b : buf) :
  In ops (format_variants ftu ftm) -> block_ok g ops b ->
  hdr_magic b = SCXFS_DIR2_DATA_MAGIC \/ hdr_magic b = SCXFS_DIR3_DATA_MAGIC ->
  verify b = CheckGood ->
  forall pre post offset len bp needlog,
    b_addr bp = b ->
    block_records g ops b = pre ++ REntry offset len :: post ->
    let r := scxfs_dir2_data_make_free {| geo := g; d_ops := ops |}
               bp offset len needlog in
    let b' := b_addr (fst (fst r)) in
    block_records g ops b' = merged_records pre offset len post
    /\ (snd r = 0 -> verify b' = CheckGood)
    /\ (snd r <> 0 ->
        exists b'' loghead,
          scxfs_dir2_data_freescan_int g ops b' = Some (b'', loghead)
          /\ verify b'' = CheckGood).
Proof.
  intros Hops Hok Hm Hv pre post offset len bp needlog Hbp Hrecs.
  destruct (make_free_well_formed b pre post offset len bp needlog
              Hops Hok Hm Hv Hbp Hrecs)
    as (Hok' & Hm' & Hrecs' & Ht' & Hspan' & Hrok' & Hent' & Hfit').
  cbv zeta. split; [exact Hrecs'|]. split.
  - intros Hns.
    apply (well_formed_accepted_records ftm inoval hash dataptr g ops _
             (merged_records pre offset len post)); auto.
    exact (format_variants_layout _ _ _ Hops).
  - intros _.
    destruct (freescan_well_formed ftu ftm inoval hash dataptr g ops _
                (merged_records pre offset len post)
                Hops Hok' Hm' Hrecs' Ht' Hspan' Hrok' Hent')
      as (b'' & lh & E1 & _ & E3).
    exists b'', lh. auto.
Qed.

End KeepsValid.

Lemma sample_block_records :
  block_records sample_geo sample_ops sample_block
  = [] ++ REntry 16 16
       :: [RUnused 32 16; REntry 48 16; RUnused 64 16; REntry 80 16;
           RUnused 96 32].
Proof. vm_compute. reflexivity. Qed.

Lemma make_free_keeps_valid_witness :
  In sample_ops (format_variants 0 9)
  /\ block_ok sample_geo sample_ops sample_block
  /\ sample_verify sample_block = CheckGood
  /\ snd (scxfs_dir2_data_make_free sample_args sample_buf 16 16 0) = 0
  /\ sample_verify
       (b_addr (fst (fst (scxfs_dir2_data_make_free sample_args sample_buf
                            16 16 0))))
     = CheckGood.
Proof.
  assert (Hops : In sample_ops (format_variants 0 9))
    by (right; left; reflexivity).
  assert (Hns : snd (scxfs_dir2_data_make_free sample_args sample_buf 16 16 0)
                = 0) by (vm_compute; reflexivity).
  split; [exact Hops|]. split; [exact sample_block_ok|].
  split; [exact sample_accepted|]. split; [exact Hns|].
  destruct (make_free_keeps_valid 0 9 (fun _ => 0) (fun _ => 0)
              (fun _ _ o => o / 8) sample_geo sample_ops sample_block
              Hops sample_block_ok sample_data_magic sample_accepted
              [] [RUnused 32 16; REntry 48 16; RUnused 64 16; REntry 80 16;
                  RUnused 96 32]
              16 16 sample_buf 0 eq_refl sample_block_records)
    as (_ & H0 & _).
  exact (H0 Hns).
Defined.

(** ** The table after space is taken from a region *)

(** The region in slot [i] goes away and slot 2 was empty: every region
    was listed, and the others still are. *)
Lemma table_remove_fits (s0 s1 s2 old : slot) (regs regs' : list (Z * Z))
    (i : Z) :
  table_fits [s0; s1; s2] regs ->
  (forall x, In x regs -> 0 < fst x /\ 0 < snd x) ->
  listed_at [s0; s1; s2] i old -> In old regs ->
  fst s2 = 0 \/ snd s2 = 0 ->
  (forall x, In x regs' <-> In x regs /\ x <> old) ->
  table_fits (table_remove [s0; s1; s2] (Some i)) regs'.
Proof.
  intros Hfit Hpos Hi Hold Hz Hin.
  assert (Hpos' : forall x, In x regs -> 0 < snd x)
    by (intros x Hx; apply Hpos; exact Hx).
  destruct (Hpos _ Hold) as [Po1 Po2].
  pose proof (table_shapes _ _ _ _ Hfit Hpos') as Sh.
  destruct Hfit as (A1 & A2 & _ & _ & _ & A6).
  assert (Kr : forall x, In x regs -> x <> old -> In x regs')
    by (intros x Hx Hne; apply Hin; auto).
  assert (U : forall x, In x regs' ->
                x <> old /\ 0 < snd x
                /\ (In x [s0; s1; s2] \/ snd x <= snd s2)).
  { intros x Hx. apply Hin in Hx. destruct Hx as [Hx Hne].
    split; [exact Hne|]. split; [apply Hpos'; exact Hx|]. apply A6. exact Hx. }
  clear A6 Hin.
  destruct Sh as [(-> & -> & ->)|[(R0 & -> & ->)|[(R0 & R1 & N01 & ->)
                 |(R0 & R1 & R2 & N01 & N02 & N12)]]];
    try (destruct (Hpos _ R0)); try (destruct (Hpos _ R1));
    try (destruct (Hpos _ R2));
    destruct Hi as [[-> <-]|[[-> <-]|[-> <-]]];
    cbn [fst snd] in *; try lia;
    unfold table_remove, table_fits.
  all: (split; [fits_order|]); (split; [fits_order|]).
  all: (split;
        [intros s [<-|[<-|[<-|[]]]];
         first [left; reflexivity
               | right; apply Kr; [assumption|slots_differ]]|]).
  all: (split;
        [first [left; reflexivity | right; split; slots_differ]|]).
  all: (split; [first [left; reflexivity | right; slots_differ]|]).
  all: intros r Hr; destruct (U r Hr) as (Hne & Hp & [Hl|Hs]);
    [cbn [In] in Hl;
     destruct Hl as [<-|[<-|[<-|[]]]];
     first [contradiction (Hne eq_refl) | left; cbn [In]; solve [auto]
           | right; fits_order]
    | right; fits_order].
Qed.

(** The region used is not in the table: the table stays as it is, and
    what is left of the region is not longer than the region was. *)
Lemma table_unlisted_fits (s0 s1 s2 old : slot) (regs regs' : list (Z * Z)) :
  table_fits [s0; s1; s2] regs ->
  In old regs -> ~ In old [s0; s1; s2] ->
  (forall x, In x regs -> x <> old -> In x regs') ->
  (forall x, In x regs' -> (In x regs /\ x <> old) \/ snd x <= snd old) ->
  table_fits [s0; s1; s2] regs'.
Proof.
  intros (A1 & A2 & A3 & A4 & A5 & A6) Hold Hno Hkeep Hnew.
  unfold table_fits. do 2 (split; [assumption|]).
  split; [|split; [exact A4|split; [exact A5|]]].
  - intros s Hs. destruct (A3 s Hs) as [E|E]; [left; exact E|].
    right. apply Hkeep; [exact E|]. intros ->. contradiction.
  - intros r Hr. destruct (Hnew r Hr) as [[H _]|H]; [apply A6; exact H|].
    destruct (A6 _ Hold) as [H'|H']; [contradiction|]. right. lia.
Qed.

(** The region in slot [i] is replaced by a shorter piece of it, which
    [freeinsert] does not put in slot 2. *)
Lemma table_shrink_fits (s0 s1 s2 old new : slot) (regs regs' : list (Z * Z))
    (i : Z) :
  table_fits [s0; s1; s2] regs ->
  (forall x, In x regs -> 0 < snd x) ->
  listed_at [s0; s1; s2] i old ->
  In old regs -> 0 < snd new ->
  (forall x, In x regs -> x <> old -> x <> new) ->
  (forall x, In x regs' <-> x = new \/ (In x regs /\ x <> old)) ->
  let ti := table_insert (table_remove [s0; s1; s2] (Some i)) new in
  (exists j, snd ti = Some j)
  /\ (is_slot (snd ti) 2 = false -> table_fits (fst ti) regs').
Proof.
  intros Hfit Hpos Hi Hold Hlen Hnew Hin.
  pose proof (Hpos _ Hold) as Po.
  pose proof (table_shapes _ _ _ _ Hfit Hpos) as Sh.
  destruct Hfit as (A1 & A2 & _ & _ & _ & A6).
  assert (Kn : In new regs') by (apply Hin; left; reflexivity).
  assert (Kr : forall x, In x regs -> x <> old -> In x regs')
    by (intros x Hx Hne; apply Hin; right; auto).
  assert (U : forall x, In x regs' -> x = new
                        \/ (x <> old /\ (In x [s0; s1; s2] \/ snd x <= snd s2))).
  { intros x Hx. apply Hin in Hx. destruct Hx as [->|[Hx Hne]]; [left; auto|].
    right. split; [exact Hne|]. apply A6. exact Hx. }
  assert (Hnew' : forall x, In x regs -> x <> old -> new <> x)
    by (intros x Hx Hne; apply not_eq_sym; auto).
  clear A6 Hin.
  cbv zeta.
  destruct Sh as [(-> & -> & ->)|[(R0 & -> & ->)|[(R0 & R1 & N01 & ->)
                 |(R0 & R1 & R2 & N01 & N02 & N12)]]];
    try (pose proof (Hpos _ R0)); try (pose proof (Hpos _ R1));
    try (pose proof (Hpos _ R2));
    destruct Hi as [[-> <-]|[[-> <-]|[-> <-]]];
    cbn [snd] in *; try lia;
    unfold table_remove, table_insert; gtb_cases; cbn [fst snd] in *;
    try lia; (split; [eexists; reflexivity|]);
    cbn [is_slot Z.eqb Pos.eqb]; intros Hj; try discriminate Hj;
    unfold table_fits.
  all: (split; [fits_order|]); (split; [fits_order|]).
  all: (split;
        [intros s [<-|[<-|[<-|[]]]];
         first [left; reflexivity | right; exact Kn
               | right; apply Kr; [assumption|slots_differ]]|]).
  all: (split;
        [first [left; reflexivity
               | right; split;
                 first [slots_differ
                       | apply Hnew; [assumption|slots_differ]
                       | apply Hnew'; [assumption|slots_differ]]]|]).
  all: (split;
        [first [left; reflexivity
               | right;
                 first [slots_differ
                       | apply Hnew; [assumption|slots_differ]
                       | apply Hnew'; [assumption|slots_differ]]]|]).
  all: intros r Hr; destruct (U r Hr) as [->|[Hne [Hl|Hs]]];
    [left; cbn [In]; auto
    | cbn [In] in Hl;
      destruct Hl as [<-|[<-|[<-|[]]]];
      first [contradiction (Hne eq_refl) | left; cbn [In]; solve [auto]
            | right; fits_order]
    | right; fits_order].
Qed.

(** [scxfs_dir2_data_use_free] read at the level of the table: when the
    pieces it leaves have a length, it reports no corruption. *)
Lemma use_free_table_spec (args : scxfs_da_args) (bp : scxfs_buf)
    (dup offset len nl ns : Z) :
  let b := b_addr bp in
  let bf := data_bestfree_p (d_ops args) in
  let W := use_free_writes b dup offset len in
  let r := scxfs_dir2_data_use_free args bp dup offset len nl ns in
  table_in b bf ->
  scxfs_dir2_data_check_free b dup offset len = None ->
  bf + 12 <= dup -> 0 <= len ->
  bf_table W bf = bf_table b bf ->
  (dup + dup_length b dup <> u32 (offset + len) ->
   offset + len < 65536 /\ 0 < dup_length W (offset + len)) ->
  (dup <> offset -> 0 < dup_length W dup) ->
  fst (fst (fst r)) = Ret0
  /\ (bf_table (b_addr (snd (fst (fst r)))) bf, snd r)
     = use_free_table (bf_table b bf) (scxfs_dir2_data_freefind b bf dup)
         (dup =? offset) (dup + dup_length b dup =? u32 (offset + len))
         (dup, dup_length W dup) (offset + len, dup_length W (offset + len)).
Proof.
  cbv zeta. intros Hin Hchk Hdup Hlen Htab Hp1 Hp2.
  pose proof Hin as [Hbf0 _].
  pose proof (blen_use_free_writes (b_addr bp) dup offset len) as Hbl.
  pose proof (table_in_blen _ _ _ Hbl Hin) as HinW.
  revert Hp1 Hp2 Hbl HinW Htab.
  unfold scxfs_dir2_data_use_free, use_free_writes. rewrite Hchk. cbv zeta.
  set (bf := data_bestfree_p (d_ops args)) in *.
  destruct (check_free_dup_range _ _ _ _ Hchk) as (Hd & Hge & _).
  rewrite (bf_table_slots (b_addr bp) bf). unfold use_free_table.
  change (fst (slot_at (b_addr bp) bf 2)) with (bf_offset (b_addr bp) bf 2).
  change (snd (slot_at (b_addr bp) bf 2)) with (bf_length (b_addr bp) bf 2).
  destruct (scxfs_dir2_data_freefind (b_addr bp) bf dup) as [i|] eqn:Ef.
  2:{ repeat match goal with
             | |- context [if ?c then _ else _] => destruct c
             end; intros Hp1 Hp2 Hbl HinW Htab;
      cbn [fst snd b_addr set_addr];
      rewrite ?b_addr_log_unused; cbn [fst snd b_addr set_addr];
      rewrite ?Htab; split; reflexivity. }
  destruct (Z.eqb_spec dup offset) as [Eo|Eo];
    destruct (Z.eqb_spec (dup + dup_length (b_addr bp) dup) (u32 (offset + len)))
      as [Eb|Eb];
    cbn [andb]; intros Hp1 Hp2 Hbl HinW Htab.
  - destruct (negb (bf_offset (b_addr bp) bf 2 =? 0)); cbn [fst snd];
      [split; reflexivity|].
    destruct (freeremove_spec (b_addr bp) bf (Some i) Hin) as (T1 & _ & _).
    destruct (scxfs_dir2_data_freeremove (b_addr bp) bf (Some i)) as [b1 nl1].
    cbn [fst snd b_addr set_addr] in *. split; [reflexivity|].
    rewrite T1, bf_table_slots. reflexivity.
  - destruct (Hp1 Eb) as [Hol Hp1'].
    match goal with
    | |- context [scxfs_dir2_data_freeremove ?w ?t ?d] =>
        pose proof (fun n => check_new_free_after_remove w t (offset + len) n d
                               HinW ltac:(lia) Hp1') as HC;
        destruct (freeremove_spec w t d HinW) as (T1 & F1 & _);
        destruct (scxfs_dir2_data_freeremove w t d) as [b4 nl4]
    end.
    cbn [fst snd] in HC, T1, F1. specialize (HC nl4). destruct HC as [HC F].
    pose proof (table_in_same _ _ _ _ _ F1 HinW) as Hin4.
    destruct (freeinsert_spec b4 bf (offset + len) nl4 Hin4) as (T2 & T3 & _).
    destruct (scxfs_dir2_data_freeinsert b4 bf (offset + len) nl4)
      as [[b5 d5] nl5].
    cbn [fst snd] in HC, F, T2, T3. rewrite HC.
    cbn [fst snd b_addr set_addr]. split; [reflexivity|].
    rewrite T2, T3, T1, Htab, (u16_small (offset + len)) by lia.
    unfold dup_length.
    rewrite (get_be16_same_outside _ _ _ _ _ F1) by lia.
    reflexivity.
  - specialize (Hp2 Eo).
    match goal with
    | |- context [scxfs_dir2_data_freeremove ?w ?t ?d] =>
        pose proof (fun n => check_new_free_after_remove w t dup n d
                               HinW ltac:(lia) Hp2) as HC;
        destruct (freeremove_spec w t d HinW) as (T1 & F1 & _);
        destruct (scxfs_dir2_data_freeremove w t d) as [b4 nl4]
    end.
    cbn [fst snd] in HC, T1, F1. specialize (HC nl4). destruct HC as [HC F].
    pose proof (table_in_same _ _ _ _ _ F1 HinW) as Hin4.
    destruct (freeinsert_spec b4 bf dup nl4 Hin4) as (T2 & T3 & _).
    destruct (scxfs_dir2_data_freeinsert b4 bf dup nl4) as [[b5 d5] nl5].
    cbn [fst snd] in HC, F, T2, T3. rewrite HC.
    cbn [fst snd b_addr set_addr]. split; [reflexivity|].
    rewrite T2, T3, T1, Htab, (u16_small dup) by lia.
    unfold dup_length.
    rewrite (get_be16_same_outside _ _ _ _ _ F1) by lia.
    reflexivity.
  - destruct (Hp1 Eb) as [Hol _].
    destruct (bf_table_inv _ _ _ _ _ Htab) as (_ & _ & E2).
    apply slot_at_fields in E2. unfold slot_at in E2. cbn [snd] in E2.
    destruct E2 as [_ E2].
    rewrite E2.
    destruct (negb (bf_length (b_addr bp) bf 2 =? 0)).
    { cbn [fst snd]. split; [reflexivity|]. f_equal. exact Htab. }
    match goal with
    | |- context [scxfs_dir2_data_freeremove ?w ?t ?d] =>
        destruct (freeremove_spec w t d HinW) as (T1 & F1 & _);
        destruct (scxfs_dir2_data_freeremove w t d) as [b6 nl6]
    end.
    cbn [fst] in T1, F1.
    pose proof (table_in_same _ _ _ _ _ F1 HinW) as Hin6.
    destruct (freeinsert_spec b6 bf dup nl6 Hin6) as (T2 & _ & F2 & _).
    destruct (scxfs_dir2_data_freeinsert b6 bf dup nl6) as [[b7 d7] nl7].
    cbn [fst] in T2, F2.
    pose proof (table_in_same _ _ _ _ _ F2 Hin6) as Hin7.
    destruct (freeinsert_spec b7 bf (offset + len) nl7 Hin7) as (T3 & _ & F3 & _).
    destruct (scxfs_dir2_data_freeinsert b7 bf (offset + len) nl7)
      as [[b8 d8] nl8].
    cbn [fst snd b_addr set_addr] in *.
    split; [reflexivity|].
    rewrite T3, T2, T1, Htab, (u16_small dup), (u16_small (offset + len)) by lia.
    unfold dup_length.
    rewrite (get_be16_same_outside _ _ _ _ _ F2),
      !(get_be16_same_outside _ _ _ _ _ F1) by lia.
    reflexivity.
Qed.

(** The length and the tag of an unused record of [l] bytes written at
    [p]; the free tag at [p] is not touched. *)
Lemma put_unused_record (c : buf) (p l : Z) :
  0 <= p < 65536 -> 8 <= l < 65536 -> p + l <= blen c ->
  let c1 := put_be16 c (p + 2) l in
  let c2 := put_be16 c1 (scxfs_dir2_data_unused_tag_p c1 p) p in
  dup_freetag c2 p = dup_freetag c p
  /\ dup_length c2 p = l
  /\ get_be16 c2 (p + l - 2) = p
  /\ blen c2 = blen c
  /\ forall x, ~ (p + 2 <= x < p + 4) -> ~ (p + l - 2 <= x < p + l) ->
               rd c2 x = rd c x.
Proof.
  intros Hp Hl Hin.
  destruct (put_unused_fields c p l ltac:(lia) Hl Hin) as (T1 & D & _ & Hb & Fr).
  cbv zeta in *. rewrite T1 in *.
  split.
  { unfold dup_freetag, get_be16. rewrite !Fr by lia. reflexivity. }
  split; [exact D|]. split; [|split; [exact Hb|exact Fr]].
  rewrite get_put_be16_same by (rewrite ?blen_put_be16; lia).
  apply u16_small. lia.
Qed.

(** What [scxfs_dir2_data_use_free] writes in the region it takes space
    from: nothing outside the region, and the piece in front of the range
    and the piece behind it, when they are there, are unused records. *)
Lemma use_free_writes_spec (b : buf) (dup l offset len : Z) :
  0 <= dup -> dup + l <= blen b -> blen b <= 65536 ->
  dup_freetag b dup = SCXFS_DIR2_DATA_FREE_TAG -> dup_length b dup = l ->
  dup <= offset -> offset + len <= dup + l -> 0 < len ->
  offset = dup \/ dup + 8 <= offset ->
  offset + len = dup + l \/ offset + len + 8 <= dup + l ->
  let W := use_free_writes b dup offset len in
  blen W = blen b
  /\ (forall x, x < dup \/ dup + l <= x -> rd W x = rd b x)
  /\ (dup < offset ->
      dup_freetag W dup = SCXFS_DIR2_DATA_FREE_TAG
      /\ dup_length W dup = offset - dup
      /\ get_be16 W (offset - 2) = dup)
  /\ (offset + len < dup + l ->
      dup_freetag W (offset + len) = SCXFS_DIR2_DATA_FREE_TAG
      /\ dup_length W (offset + len) = dup + l - (offset + len)
      /\ get_be16 W (dup + l - 2) = offset + len).
Proof.
  intros Hd Hin H64 Hft Hl Hlo Hhi Hlen Hf Hb. cbv zeta.
  unfold use_free_writes. rewrite Hl, (u32_small (offset + len)) by lia.
  destruct (Z.eqb_spec dup offset) as [Eo|Eo];
    destruct (Z.eqb_spec (dup + l) (offset + len)) as [Eb|Eb]; cbn [andb].
  - split; [reflexivity|]. split; [reflexivity|]. split; intros; lia.
  - (* the range is at the front *)
    set (n := offset + len).
    set (b1 := put_be16 b n SCXFS_DIR2_DATA_FREE_TAG).
    assert (Hb1 : blen b1 = blen b) by apply blen_put_be16.
    destruct (put_unused_record b1 n (l - len) ltac:(lia) ltac:(lia) ltac:(lia))
      as (P1 & P2 & P3 & P4 & P5).
    cbv zeta in *.
    split; [lia|].
    split.
    { intros x Hx. rewrite P5 by lia. unfold b1.
      apply rd_put_be16_other; lia. }
    split; [intros; lia|]. intros _.
    split.
    { rewrite P1. unfold b1, dup_freetag.
      rewrite get_put_be16_same by lia. reflexivity. }
    split; [rewrite P2; unfold n; lia|].
    replace (dup + l - 2) with (n + (l - len) - 2) by (unfold n; lia).
    exact P3.
  - (* the range is at the back *)
    destruct (put_unused_record b dup (offset - dup) ltac:(lia) ltac:(lia)
                ltac:(lia)) as (P1 & P2 & P3 & P4 & P5).
    cbv zeta in *.
    split; [lia|].
    split; [intros x Hx; apply P5; lia|].
    split; [|intros; lia]. intros _.
    split; [rewrite P1; exact Hft|]. split; [exact P2|].
    replace (offset - 2) with (dup + (offset - dup) - 2) by lia. exact P3.
  - (* the range is in the middle *)
    destruct (put_unused_record b dup (offset - dup) ltac:(lia) ltac:(lia)
                ltac:(lia)) as (P1 & P2 & P3 & P4 & P5).
    cbv zeta in *.
    set (b2 := put_be16 (put_be16 b (dup + 2) (offset - dup))
                 (scxfs_dir2_data_unused_tag_p
                    (put_be16 b (dup + 2) (offset - dup)) dup) dup) in *.
    set (n := offset + len).
    set (b3 := put_be16 b2 n SCXFS_DIR2_DATA_FREE_TAG).
    assert (Hb3 : blen b3 = blen b) by (unfold b3; rewrite blen_put_be16; lia).
    assert (D3 : dup_length b3 dup = offset - dup).
    { unfold b3, dup_length. rewrite get_put_be16_other by (unfold n; lia).
      exact P2. }
    rewrite D3.
    replace (l - len - (offset - dup)) with (dup + l - n) by (unfold n; lia).
    destruct (put_unused_record b3 n (dup + l - n) ltac:(unfold n; lia)
                ltac:(unfold n; lia) ltac:(lia)) as (Q1 & Q2 & Q3 & Q4 & Q5).
    cbv zeta in *.
    set (W := put_be16 (put_be16 b3 (n + 2) (dup + l - n))
                (scxfs_dir2_data_unused_tag_p
                   (put_be16 b3 (n + 2) (dup + l - n)) n) n) in *.
    assert (F3 : forall x, x <> n -> x <> n + 1 -> rd b3 x = rd b2 x)
      by (intros x X1 X2; unfold b3; apply rd_put_be16_other; lia).
    split; [lia|].
    split.
    { intros x Hx. rewrite Q5 by (unfold n; lia).
      rewrite F3 by (unfold n; lia). apply P5; lia. }
    split; intros _.
    + split.
      { unfold dup_freetag, get_be16.
        rewrite !Q5, !F3 by (unfold n; lia).
        unfold dup_freetag, get_be16 in P1. rewrite P1. exact Hft. }
      split.
      { unfold dup_length, get_be16.
        rewrite !Q5, !F3 by (unfold n; lia).
        unfold dup_length, get_be16 in P2. exact P2. }
      unfold get_be16. rewrite !Q5, !F3 by (unfold n; lia).
      replace (offset - 2) with (dup + (offset - dup) - 2) by lia.
      replace (dup + (offset - dup) - 2 + 1)
        with (dup + (offset - dup) - 2 + 1) by lia.
      exact P3.
    + split.
      { rewrite Q1. unfold b3, dup_freetag.
        rewrite get_put_be16_same by (unfold n; lia). reflexivity. }
      split; [rewrite Q2; unfold n; lia|].
      replace (dup + l - 2) with (n + (dup + l - n) - 2) by lia. exact Q3.
Qed.

(** ** The block after space is taken from a region *)

Lemma tiled_weaken (recs : list record) (p : Z) (lf : bool) :
  tiled p true recs -> tiled p lf recs.
Proof.
  destruct recs as [|r rest]; [auto|].
  cbn [tiled]. intros (H1 & H2 & H3 & H4). repeat split; auto.
  intros E. specialize (H3 E). discriminate H3.
Qed.

Lemma check_free_accepts (b : buf) (dup l offset len : Z) :
  hdr_magic b = SCXFS_DIR2_DATA_MAGIC \/ hdr_magic b = SCXFS_DIR3_DATA_MAGIC ->
  dup_freetag b dup = SCXFS_DIR2_DATA_FREE_TAG -> dup_length b dup = l ->
  get_be16 b (dup + l - 2) = dup ->
  dup <= offset -> 0 <= offset + len <= dup + l -> dup + l <= 65536 ->
  scxfs_dir2_data_check_free b dup offset len = None.
Proof.
  intros Hm Hft Hl Htag H1 H2 H3.
  unfold scxfs_dir2_data_check_free, scxfs_dir2_data_unused_tag_p.
  assert (M : is_data_magic (hdr_magic b) = true)
    by (destruct Hm as [-> | ->]; reflexivity).
  rewrite M, Hft, Hl, Htag, Z.eqb_refl, (u32_small (offset + len)) by lia.
  cbn [negb].
  destruct (Z.ltb_spec offset dup); [lia|].
  destruct (Z.gtb_spec (offset + len) (dup + l)); [lia|].
  rewrite Z.eqb_refl. reflexivity.
Qed.

Section TakesSpace.

Variables ftu ftm : Z.
Variable inoval : Z -> Z.
Variable hash : list Z -> Z.
Variable dataptr : scxfs_da_geometry -> Z -> Z -> Z.
Variable g : scxfs_da_geometry.
Variable ops : scxfs_dir_ops.

Let verify := __scxfs_dir3_data_check ftm inoval hash dataptr g ops.

(** The block that [scxfs_dir2_data_use_free] leaves, once the range it
    handed out holds an entry: its records are well formed, and its table
    fits them unless a rescan is asked for. *)
Lemma use_free_well_formed (b : buf) (pre post : list record)
    (dup l offset len : Z) (bp : scxfs_buf) (needlog needscan : Z) :
  In ops (format_variants ftu ftm) -> block_ok g ops b ->
  hdr_magic b = SCXFS_DIR2_DATA_MAGIC \/ hdr_magic b = SCXFS_DIR3_DATA_MAGIC ->
  verify b = CheckGood ->
  b_addr bp = b ->
  block_records g ops b = pre ++ RUnused dup l :: post ->
  dup <= offset -> offset + len <= dup + l -> 0 < len ->
  offset = dup \/ dup + 8 <= offset ->
  offset + len = dup + l \/ offset + len + 8 <= dup + l ->
  let r := scxfs_dir2_data_use_free {| geo := g; d_ops := ops |}
             bp dup offset len needlog needscan in
  let b' := b_addr (snd (fst (fst r))) in
  let recs' := used_records pre post dup l offset len in
  fst (fst (fst r)) = Ret0
  /\ forall c,
       same_outside offset (offset + len) b' c ->
       dup_freetag c offset <> SCXFS_DIR2_DATA_FREE_TAG ->
       data_entsize ops (dep_namelen c offset) = len ->
       entry_ok ftm inoval hash dataptr g ops c (blksize g) false offset ->
       block_ok g ops c
       /\ (hdr_magic c = SCXFS_DIR2_DATA_MAGIC
           \/ hdr_magic c = SCXFS_DIR3_DATA_MAGIC)
       /\ block_records g ops c = recs'
       /\ tiled (data_entry_offset ops) false recs'
       /\ data_entry_offset ops + span recs' = blksize g
       /\ Forall (rec_ok c (blksize g)) recs'
       /\ (forall o n, In (REntry o n) recs' ->
             entry_ok ftm inoval hash dataptr g ops c (blksize g) false o)
       /\ (snd r = 0 ->
           table_fits (bf_table c (data_bestfree_p ops)) (regions_of recs')).
Proof.
  intros Hops Hok Hm Hv Hbp Hrecs Hlo Hhi Hlen Hfp Hbpc. cbv zeta.
  pose proof (format_variants_layout _ _ _ Hops) as Hlay.
  pose proof Hlay as (L1 & L2 & L3 & L4 & L5 & Hes & Htp).
  assert (L6 : data_entry_offset ops <= 64)
    by (destruct Hops as [<-|[<-|[<-|[]]]]; cbn; lia).
  pose proof Hok as [Hblen HB].
  destruct (accepted_well_formed ftm inoval hash dataptr g ops b Hlay Hok Hm Hv)
    as (Ht & Hspan & Hrok & Hent & Hfit).
  rewrite Hrecs in Ht, Hspan, Hrok, Hent, Hfit.
  pose proof (endp_data_magic g b Hm) as He.
  set (deo := data_entry_offset ops) in *.
  set (B := blksize g) in *.
  set (bf := data_bestfree_p ops) in *.
  set (recs := pre ++ RUnused dup l :: post) in *.
  assert (Hw : walks ops b B deo recs B).
  { pose proof (data_records_walks ops b B (scan_fuel g) deo) as W.
    unfold block_records in Hrecs. rewrite He, L4 in Hrecs. fold deo in Hrecs.
    rewrite Hrecs, Hspan in W. exact W. }
  (* the region *)
  assert (Hid : In (RUnused dup l) recs)
    by (apply in_app_iff; right; left; reflexivity).
  pose proof Hw as Hw0. apply walks_app in Hw0.
  destruct Hw0 as (m & Hw1 & Hw2).
  apply walks_unused_inv in Hw2.
  destruct Hw2 as (Em & El & HdB & Hft & Hwp). subst m.
  pose proof Ht as Ht0. apply tiled_app in Ht0. destruct Ht0 as (Ht1 & Ht2).
  cbn [tiled rec_off rec_len is_unused] in Ht2.
  destruct Ht2 as (Eo & Hlpos & Hlf & Htp2). specialize (Hlf eq_refl).
  rewrite Forall_forall in Hrok.
  destruct (Hrok _ Hid) as [Rd1 Rd2]. cbn [rec_off rec_len] in Rd1, Rd2.
  pose proof (tiled_off_ge _ _ _ _ Ht Hid) as Hdeo. cbn [rec_off] in Hdeo.
  fold deo in Eo. rewrite <- Eo in Htp2.
  assert (Hchk : scxfs_dir2_data_check_free b dup offset len = None)
    by (apply (check_free_accepts b dup l); auto; lia).
  destruct (use_free_writes_spec b dup l offset len ltac:(lia) ltac:(lia)
              ltac:(lia) Hft (eq_sym El) Hlo Hhi Hlen Hfp Hbpc)
    as (Wb & Wo & Wf & Wk).
  set (W := use_free_writes b dup offset len) in *.
  assert (Hin : table_in (b_addr bp) bf) by (rewrite Hbp; split; lia).
  assert (HWs : same_outside dup (dup + l) b W) by (split; [exact Wb|exact Wo]).
  assert (Htab : bf_table W bf = bf_table b bf)
    by (apply (bf_table_same_outside _ _ _ _ _ HWs); lia).
  pose proof (use_free_table_spec {| geo := g; d_ops := ops |} bp dup offset len
                needlog needscan) as TS.
  pose proof (use_free_shape {| geo := g; d_ops := ops |} bp dup offset len
                needlog needscan) as SH.
  cbv zeta in TS, SH. cbn [geo d_ops] in TS, SH. rewrite Hbp in TS, SH, Hin.
  fold bf W in TS, SH. rewrite <- El in TS.
  rewrite (u32_small (offset + len)) in TS by lia.
  destruct (SH Hin Hchk) as (_ & F & _). clear SH.
  destruct (TS Hin Hchk ltac:(lia) ltac:(lia) Htab) as [Hret TS'].
  { intros Hne. destruct (Wk ltac:(lia)) as (_ & K & _). lia. }
  { intros Hne. destruct (Wf ltac:(lia)) as (_ & K & _). lia. }
  clear TS.
  set (r := scxfs_dir2_data_use_free {| geo := g; d_ops := ops |}
              bp dup offset len needlog needscan) in *.
  set (b' := b_addr (snd (fst (fst r)))) in *.
  split; [exact Hret|].
  intros c Fc Hcft Hcsz Hcok.
  set (recs' := used_records pre post dup l offset len).
  set (n := offset + len) in *.
  (* frames *)
  assert (Fw : forall x, bf + 12 <= x -> ~ (offset <= x < n) ->
                         rd c x = rd W x).
  { intros x H1 H2. destruct Fc as [_ Fc]. rewrite Fc by lia.
    destruct F as [_ F]. apply F. lia. }
  assert (Fr : forall x, bf + 12 <= x -> x < dup \/ dup + l <= x ->
                         rd c x = rd b x).
  { intros x H1 H2. rewrite Fw by (unfold n; lia). apply Wo. exact H2. }
  assert (Fr0 : forall x, x < bf -> rd c x = rd b x).
  { intros x H1. destruct Fc as [_ Fc]. rewrite Fc by lia.
    destruct F as [_ F]. rewrite F by lia. apply Wo. lia. }
  assert (Hbl : blen c = blen b).
  { destruct Fc as [Fc _]. destruct F as [F _]. lia. }
  assert (Hm' : hdr_magic c = hdr_magic b).
  { unfold hdr_magic, get_be32, get_be16. rewrite !Fr0 by lia. reflexivity. }
  assert (G16 : forall x, bf + 12 <= x -> x + 2 <= offset \/ n <= x ->
                          get_be16 c x = get_be16 W x).
  { intros x H1 H2. unfold get_be16. rewrite !Fw by lia. reflexivity. }
  (* the records *)
  assert (Hlfp : last_free false pre = false) by exact Hlf.
  assert (Hw1' : walks ops c B deo pre dup).
  { apply (walks_frame ops b c B _ _ _ Hw1).
    pose proof (reads_before_end ops b B Hes pre deo false dup Hw1 Ht1 Hlfp)
      as RB.
    rewrite Forall_forall in RB |- *. intros r0 Hr0 x Hx.
    destruct (RB r0 Hr0). apply Fr; lia. }
  assert (Hwp' : walks ops c B (dup + l) post B).
  { apply (walks_frame ops b c B _ _ _ Hwp).
    apply Forall_forall. intros r0 Hr0 x Hx.
    pose proof (tiled_off_ge _ _ _ _ Htp2 Hr0).
    apply Fr; lia. }
  assert (Hwb : walks ops c B n (back_piece dup l offset len ++ post) B).
  { unfold back_piece. fold n.
    destruct (Z.ltb_spec n (dup + l)) as [Hk|Hk].
    - destruct (Wk Hk) as (K1 & K2 & K3).
      assert (E1 : dup_freetag c n = SCXFS_DIR2_DATA_FREE_TAG)
        by (unfold dup_freetag; rewrite G16 by lia; exact K1).
      assert (E2 : dup_length c n = dup + l - n)
        by (unfold dup_length; rewrite G16 by lia; exact K2).
      cbn [app]. rewrite <- E2. apply w_unused; [lia|exact E1|].
      rewrite E2. replace (n + (dup + l - n)) with (dup + l) by lia.
      exact Hwp'.
    - cbn [app]. replace n with (dup + l) by lia. exact Hwp'. }
  assert (Hwe : walks ops c B offset
                  (REntry offset len :: back_piece dup l offset len ++ post) B).
  { rewrite <- Hcsz at 1. apply w_entry; [lia|exact Hcft|].
    rewrite Hcsz. exact Hwb. }
  assert (Hwf : walks ops c B dup
                  (front_piece dup offset
                   ++ REntry offset len :: back_piece dup l offset len ++ post)
                  B).
  { unfold front_piece.
    destruct (Z.ltb_spec dup offset) as [Hk|Hk].
    - destruct (Wf Hk) as (K1 & K2 & K3).
      assert (E1 : dup_freetag c dup = SCXFS_DIR2_DATA_FREE_TAG)
        by (unfold dup_freetag; rewrite G16 by lia; exact K1).
      assert (E2 : dup_length c dup = offset - dup)
        by (unfold dup_length; rewrite G16 by lia; exact K2).
      cbn [app]. rewrite <- E2. apply w_unused; [lia|exact E1|].
      rewrite E2. replace (dup + (offset - dup)) with offset by lia.
      exact Hwe.
    - cbn [app]. assert (E : dup = offset) by lia. rewrite E at 1.
      exact Hwe. }
  assert (Hw' : walks ops c B deo recs' B).
  { unfold recs', used_records. apply walks_app. exists dup. auto. }
  assert (Ht' : tiled deo false recs').
  { unfold recs', used_records. apply tiled_app. split; [exact Ht1|].
    rewrite Hlfp, <- Eo.
    unfold front_piece, back_piece. fold n.
    destruct (Z.ltb_spec dup offset) as [Hk|Hk];
      destruct (Z.ltb_spec n (dup + l)) as [Hk2|Hk2];
      cbn [app tiled rec_off rec_len is_unused];
      repeat match goal with
             | |- _ /\ _ => split
             | |- false = true -> _ => let X := fresh in intros X; discriminate X
             | |- true = true -> _ => intros _
             end; try lia; try reflexivity.
    all: try (replace (dup + (offset - dup) + len + (dup + l - n))
                with (dup + l) by (unfold n; lia); exact Htp2).
    all: try (replace (offset + len + (dup + l - n))
                with (dup + l) by (unfold n; lia); exact Htp2).
    all: apply tiled_weaken;
      match goal with
      | |- tiled ?p _ _ => replace p with (dup + l) by (unfold n in *; lia)
      end; exact Htp2. }
  assert (Hspan' : deo + span recs' = B)
    by (symmetry; exact (walks_span _ _ _ _ _ _ Hw')).
  assert (Hrecs' : block_records g ops c = recs').
  { unfold block_records.
    rewrite (endp_data_magic g c) by (rewrite Hm'; exact Hm).
    rewrite L4. fold deo B.
    apply (walks_records ops c B deo recs' B Hw'); [lia|].
    pose proof (tiled_length _ _ _ Ht'). unfold scan_fuel. fold B. lia. }
  assert (Htb : forall r0, In r0 recs -> deo <= rec_off r0 + rec_len r0 - 2).
  { intros r0 Hr0.
    apply (tag_behind_header ops b B deo Hes ltac:(lia) deo recs B false
             Hw Ht ltac:(lia) ltac:(apply Forall_forall; exact Hrok) r0 Hr0). }
  assert (Hpre : forall r0, In r0 pre ->
            In r0 recs /\ deo <= rec_off r0 /\ rec_off r0 + rec_len r0 <= dup).
  { intros r0 Hr0. split; [apply in_app_iff; auto|].
    destruct (tiled_within _ _ _ _ Ht1 Hr0). lia. }
  assert (Hpost : forall r0, In r0 post ->
            In r0 recs /\ dup + l <= rec_off r0
            /\ dup + l <= rec_off r0 + rec_len r0 - 2).
  { intros r0 Hr0. split; [apply in_app_iff; right; right; exact Hr0|].
    pose proof (tiled_off_ge _ _ _ _ Htp2 Hr0).
    pose proof (tag_after ops b B Hes _ _ _ Hwp Htp2 r0 Hr0). lia. }
  assert (Hin' : forall r0, In r0 recs' ->
            In r0 pre \/ In r0 (front_piece dup offset)
            \/ r0 = REntry offset len
            \/ In r0 (back_piece dup l offset len) \/ In r0 post).
  { intros r0 Hr0. unfold recs', used_records in Hr0.
    rewrite !in_app_iff in Hr0. cbn [In] in Hr0. rewrite in_app_iff in Hr0.
    intuition auto. }
  assert (Hrok' : Forall (rec_ok c B) recs').
  { apply Forall_forall. intros r0 Hr0.
    destruct (Hin' r0 Hr0) as [H|[H|[H|[H|H]]]].
    - destruct (Hpre r0 H) as (H1 & H2 & H3).
      destruct (Hrok r0 H1) as [R1 R2]. pose proof (Htb r0 H1).
      split; [exact R1|]. unfold get_be16 in *. rewrite !Fr by lia. exact R2.
    - unfold front_piece in H.
      destruct (Z.ltb_spec dup offset) as [Hk|Hk]; [|destruct H].
      destruct H as [<-|[]]. destruct (Wf Hk) as (K1 & K2 & K3).
      split; cbn [rec_off rec_len]; [lia|].
      replace (dup + (offset - dup) - 2) with (offset - 2) by lia.
      rewrite G16 by lia. exact K3.
    - subst r0. destruct Hcok as (_ & _ & C3 & C4 & _).
      rewrite Htp, Hcsz in C4. rewrite Hcsz in C3.
      split; cbn [rec_off rec_len]; [exact C3|exact C4].
    - unfold back_piece in H. fold n in H.
      destruct (Z.ltb_spec n (dup + l)) as [Hk|Hk]; [|destruct H].
      destruct H as [<-|[]]. destruct (Wk Hk) as (K1 & K2 & K3).
      split; cbn [rec_off rec_len]; [lia|].
      replace (n + (dup + l - n) - 2) with (dup + l - 2) by lia.
      rewrite G16 by lia. exact K3.
    - destruct (Hpost r0 H) as (H1 & H2 & H3).
      destruct (Hrok r0 H1) as [R1 R2].
      split; [exact R1|]. unfold get_be16 in *. rewrite !Fr by lia. exact R2. }
  assert (Hent' : forall o k, In (REntry o k) recs' ->
            entry_ok ftm inoval hash dataptr g ops c B false o).
  { intros o k Ho.
    destruct (Hin' _ Ho) as [H|[H|[H|[H|H]]]].
    - destruct (Hpre _ H) as (H1 & H2 & H3). cbn [rec_off rec_len] in H2, H3.
      destruct (walks_in _ _ _ _ _ _ Hw _ H1) as [_ Ek].
      apply (entry_ok_frame ftu ftm inoval hash dataptr g ops b c B o Hops);
        [|exact (Hent o k H1)].
      intros x Hx. apply Fr; lia.
    - unfold front_piece in H.
      destruct (dup <? offset); [destruct H as [H|[]]; discriminate H|destruct H].
    - injection H as -> ->. exact Hcok.
    - unfold back_piece in H.
      destruct (offset + len <? dup + l);
        [destruct H as [H|[]]; discriminate H|destruct H].
    - destruct (Hpost _ H) as (H1 & H2 & H3). cbn [rec_off rec_len] in H2, H3.
      apply (entry_ok_frame ftu ftm inoval hash dataptr g ops b c B o Hops);
        [|exact (Hent o k H1)].
      intros x Hx. apply Fr; lia. }
  split; [split; [lia|exact HB]|].
  split; [rewrite Hm'; exact Hm|].
  split; [exact Hrecs'|]. split; [exact Ht'|]. split; [exact Hspan'|].
  split; [exact Hrok'|]. split; [exact Hent'|].
  (* the table *)
  intros Hns.
  assert (Htc : bf_table c bf = bf_table b' bf)
    by (apply (bf_table_same_outside _ _ _ _ _ Fc); lia).
  rewrite Htc.
  destruct (regions_facts recs deo false Ht ltac:(lia)) as [Hpos Hinj].
  assert (Hpos' : forall x, In x (regions_of recs) -> 0 < snd x)
    by (intros x Hx; apply Hpos; exact Hx).
  assert (Hold : In (dup, l) (regions_of recs))
    by (apply regions_of_in; exact Hid).
  pose proof (freefind_index b bf dup (regions_of recs) Hfit Hpos Hinj) as Hfound.
  rewrite <- El in Hfound. specialize (Hfound Hold ltac:(lia)).
  pose proof (tiled_regions_nodup _ _ _ Ht) as Hnd.
  unfold recs in Hnd. rewrite regions_of_app in Hnd.
  change (regions_of (RUnused dup l :: post))
    with ((dup, l) :: regions_of post) in Hnd.
  apply NoDup_remove_2 in Hnd.
  assert (Hsplit : forall x, In x (regions_of recs) <->
                     x = (dup, l)
                     \/ In x (regions_of pre ++ regions_of post)).
  { intros x. unfold recs. rewrite regions_of_app.
    change (regions_of (RUnused dup l :: post))
      with ((dup, l) :: regions_of post).
    rewrite !in_app_iff. cbn [In]. intuition auto. }
  assert (Hrest : forall x, In x (regions_of pre ++ regions_of post) <->
                    In x (regions_of recs) /\ x <> (dup, l)).
  { intros x. rewrite Hsplit. split.
    - intros H. split; [right; exact H|]. intros ->. contradiction.
    - intros [[H|H] N]; [contradiction|exact H]. }
  assert (Hregs' : regions_of recs'
                   = regions_of pre
                     ++ regions_of (front_piece dup offset)
                     ++ regions_of (back_piece dup l offset len)
                     ++ regions_of post).
  { unfold recs', used_records. rewrite !regions_of_app.
    change (regions_of (REntry offset len :: back_piece dup l offset len ++ post))
      with (regions_of (back_piece dup l offset len ++ post)).
    rewrite regions_of_app. reflexivity. }
  assert (Hn1 : ~ In (dup, offset - dup) (regions_of recs)).
  { intros Hx. pose proof (Hinj _ _ Hx Hold eq_refl) as E.
    injection E as E. lia. }
  assert (Hn2 : n < dup + l -> forall k, ~ In (n, k) (regions_of recs)).
  { intros Hk k Hx. apply regions_of_in in Hx.
    pose proof (tiled_positive _ _ _ _ Ht Hx) as P. cbn [rec_len] in P.
    destruct (tiled_disjoint _ _ _ Ht _ _ Hx Hid) as [E|E].
    - injection E as E _. unfold n in *. lia.
    - cbn [rec_off rec_len] in E. unfold n in *. lia. }
  apply (f_equal fst) in TS' as Tt. apply (f_equal snd) in TS' as Tn.
  cbn [fst snd] in Tt, Tn. rewrite Hns in Tn. rewrite Tt. clear Tt TS'.
  rewrite (bf_table_slots b bf) in *.
  set (s0 := slot_at b bf 0) in *. set (s1 := slot_at b bf 1) in *.
  set (s2 := slot_at b bf 2) in *.
  unfold use_free_table in *.
  destruct (scxfs_dir2_data_freefind b bf dup) as [i|]; cbn [found_at] in Hfound.
  2:{ (* the region was not in the table *)
      cbn [fst].
      apply (table_unlisted_fits s0 s1 s2 (dup, l) (regions_of recs)); auto.
      - intros x Hx Hne. rewrite Hregs', !in_app_iff.
        pose proof (proj2 (Hrest x) (conj Hx Hne)) as Hr.
        apply in_app_iff in Hr. tauto.
      - intros x Hx. rewrite Hregs', !in_app_iff in Hx.
        unfold front_piece, back_piece in Hx. fold n in Hx.
        destruct Hx as [H|[H|[H|H]]].
        + left. apply Hrest. apply in_app_iff. auto.
        + destruct (dup <? offset); [|destruct H].
          destruct H as [<-|[]]. right. cbn [snd]. lia.
        + destruct (n <? dup + l); [|destruct H].
          destruct H as [<-|[]]. right. cbn [snd]. unfold n. lia.
        + left. apply Hrest. apply in_app_iff. auto. }
  unfold front_piece, back_piece in Hregs'. fold n in Hregs'.
  destruct (Z.eqb_spec dup offset) as [Ef|Ef];
    destruct (Z.eqb_spec (dup + l) n) as [Eb|Eb]; cbn [andb] in *.
  - (* the whole region *)
    destruct (Z.eqb_spec (fst s2) 0) as [Ez|Ez]; cbn [negb] in *;
      [|discriminate Tn].
    cbn [fst].
    apply (table_remove_fits s0 s1 s2 (dup, l) (regions_of recs)); auto.
    intros x. rewrite Hregs'.
    destruct (Z.ltb_spec dup offset); [lia|].
    destruct (Z.ltb_spec n (dup + l)); [lia|].
    cbn [regions_of flat_map app]. apply Hrest.
  - (* the front of the region *)
    destruct (Z.ltb_spec dup offset); [lia|].
    destruct (Z.ltb_spec n (dup + l)) as [Hk|Hk]; [|lia].
    destruct (Wk Hk) as (_ & K2 & _). rewrite K2 in *.
    destruct (table_shrink_fits s0 s1 s2 (dup, l) (n, dup + l - n)
                (regions_of recs) (regions_of recs') i Hfit Hpos' Hfound Hold)
      as [_ Hs].
    + cbn [snd]. lia.
    + intros x Hx _ ->. exact (Hn2 Hk _ Hx).
    + intros x. rewrite Hregs'.
      change (regions_of [RUnused n (dup + l - n)]) with [(n, dup + l - n)].
      cbn [regions_of flat_map app]. rewrite <- Hrest.
      rewrite !in_app_iff. cbn [In]. intuition auto.
    + cbv zeta in Hs. cbn [fst]. apply Hs.
      destruct (is_slot (snd (table_insert (table_remove [s0; s1; s2] (Some i))
                                (n, dup + l - n))) 2);
        [discriminate Tn|reflexivity].
  - (* the back of the region *)
    destruct (Z.ltb_spec dup offset) as [Hk|Hk]; [|lia].
    destruct (Z.ltb_spec n (dup + l)); [lia|].
    destruct (Wf Hk) as (_ & K2 & _). rewrite K2 in *.
    destruct (table_shrink_fits s0 s1 s2 (dup, l) (dup, offset - dup)
                (regions_of recs) (regions_of recs') i Hfit Hpos' Hfound Hold)
      as [_ Hs].
    + cbn [snd]. lia.
    + intros x Hx _ ->. exact (Hn1 Hx).
    + intros x. rewrite Hregs'.
      change (regions_of [RUnused dup (offset - dup)])
        with [(dup, offset - dup)].
      cbn [regions_of flat_map app]. rewrite <- Hrest.
      rewrite !in_app_iff. cbn [In]. intuition auto.
    + cbv zeta in Hs. cbn [fst]. apply Hs.
      destruct (is_slot (snd (table_insert (table_remove [s0; s1; s2] (Some i))
                                (dup, offset - dup))) 2);
        [discriminate Tn|reflexivity].
  - (* the middle of the region *)
    destruct (Z.ltb_spec dup offset) as [Hk|Hk]; [|lia].
    destruct (Z.ltb_spec n (dup + l)) as [Hk2|Hk2]; [|lia].
    destruct (Wf Hk) as (_ & K2 & _). destruct (Wk Hk2) as (_ & K2' & _).
    rewrite K2, K2' in *.
    destruct (Z.eqb_spec (snd s2) 0) as [Ez|Ez]; cbn [negb] in *;
      [|discriminate Tn].
    cbn [fst].
    pose proof (table_remove_fits s0 s1 s2 (dup, l) (regions_of recs)
                  (regions_of pre ++ regions_of post) i Hfit Hpos Hfound Hold
                  (or_intror Ez) Hrest) as T1.
    pose proof (table_insert_fits _ _
                  ((dup, offset - dup) :: regions_of pre ++ regions_of post)
                  (dup, offset - dup) T1) as T2.
    specialize (T2 ltac:(intros x; cbn [In]; intuition auto)).
    specialize (T2 ltac:(intros Hx; apply Hrest in Hx; destruct Hx as [Hx _];
                         exact (Hn1 Hx))).
    specialize (T2 ltac:(cbn [snd]; lia)).
    apply (table_insert_fits _ _ _ (n, dup + l - n) T2).
    + intros x. rewrite Hregs'.
      change (regions_of [RUnused dup (offset - dup)])
        with [(dup, offset - dup)].
      change (regions_of [RUnused n (dup + l - n)]) with [(n, dup + l - n)].
      rewrite !in_app_iff. cbn [In]. rewrite !in_app_iff. cbn [In].
      intuition auto.
    + cbn [In]. intros [E|Hx].
      * injection E as E _. unfold n in E. lia.
      * apply Hrest in Hx. destruct Hx as [Hx _]. exact (Hn2 Hk2 _ Hx).
    + cbn [snd]. lia.
Qed.

End TakesSpace.

Section TakesSpaceValid.

Variables ftu ftm : Z.
Variable inoval : Z -> Z.
Variable hash : list Z -> Z.
Variable dataptr : scxfs_da_geometry -> Z -> Z -> Z.
Variable g : scxfs_da_geometry.
Variable ops : scxfs_dir_ops.

Let verify := __scxfs_dir3_data_check ftm inoval hash dataptr g ops.

(** Taking space for an entry keeps the block valid.  On a data-format
    block that passes [__scxfs_dir3_data_check],
    [scxfs_dir2_data_use_free] of a range inside one of its unused records
    reports no corruption when each piece of the record left over is empty
    or at least 8 bytes long.  Once the range holds an entry of that size
    that passes the entry checks, the records are those of before with the
    unused record replaced by what is left in front of the entry, the
    entry, and what is left behind it; when [*needscanp] came back 0 the
    block passes the check, and when it came back set,
    [scxfs_dir2_data_freescan_int] on the block returns a block that
    passes. *)
Theorem use_free_keeps_valid (b : buf) :
  In ops (format_variants ftu ftm) -> block_ok g ops b ->
  hdr_magic b = SCXFS_DIR2_DATA_MAGIC \/ hdr_magic b = SCXFS_DIR3_DATA_MAGIC ->
  verify b = CheckGood ->
  forall pre post dup l offset len bp needlog needscan,
    b_addr bp = b ->
    block_records g ops b = pre ++ RUnused dup l :: post ->
    dup <= offset -> offset + len <= dup + l -> 0 < len ->
    offset = dup \/ dup + 8 <= offset ->
    offset + len = dup + l \/ offset + len + 8 <= dup + l ->
    let r := scxfs_dir2_data_use_free {| geo := g; d_ops := ops |}
               bp dup offset len needlog needscan in
    fst (fst (fst r)) = Ret0
    /\ forall c,
         same_outside offset (offset + len) (b_addr (snd (fst (fst r)))) c ->
         dup_freetag c offset <> SCXFS_DIR2_DATA_FREE_TAG ->
         data_entsize ops (dep_namelen c offset) = len ->
         entry_ok ftm inoval hash dataptr g ops c (blksize g) false offset ->
         block_records g ops c = used_records pre post dup l offset len
         /\ (snd r = 0 -> verify c = CheckGood)
         /\ (snd r <> 0 ->
             exists c' loghead,
               scxfs_dir2_data_freescan_int g ops c = Some (c', loghead)
               /\ verify c' = CheckGood).
Proof.
  intros Hops Hok Hm Hv pre post dup l offset len bp needlog needscan
    Hbp Hrecs Hlo Hhi Hlen Hf Hk.
  destruct (use_free_well_formed ftu ftm inoval hash dataptr g ops b pre post
              dup l offset len bp needlog needscan
              Hops Hok Hm Hv Hbp Hrecs Hlo Hhi Hlen Hf Hk) as [Hret Hc].
  cbv zeta. split; [exact Hret|].
  intros c Fc Hft Hsz Hent.
  destruct (Hc c Fc Hft Hsz Hent)
    as (Hok' & Hm' & Hrecs' & Ht' & Hspan' & Hrok' & Hent' & Hfit').
  split; [exact Hrecs'|]. split.
  - intros Hns.
    apply (well_formed_accepted_records ftm inoval hash dataptr g ops c
             (used_records pre post dup l offset len)); auto.
    exact (format_variants_layout _ _ _ Hops).
  - intros _.
    destruct (freescan_well_formed ftu ftm inoval hash dataptr g ops c
                (used_records pre post dup l offset len)
                Hops Hok' Hm' Hrecs' Ht' Hspan' Hrok' Hent')
      as (c' & lh & E1 & _ & E3).
    exists c', lh. auto.
Qed.

End TakesSpaceValid.

Lemma tie_block_accepted : sample_verify tie_block = CheckGood.
Proof. vm_compute. reflexivity. Qed.

Lemma tie_block_records :
  block_records sample_geo sample_ops tie_block
  = [REntry 16 16] ++ RUnused 32 16
       :: [REntry 48 16; RUnused 64 16; REntry 80 16; REntry 96 16;
           REntry 112 16].
Proof. vm_compute. reflexivity. Qed.

Lemma use_free_keeps_valid_witness :
  In sample_ops (format_variants 0 9)
  /\ block_ok sample_geo sample_ops tie_block
  /\ sample_verify tie_block = CheckGood
  /\ snd (scxfs_dir2_data_use_free sample_args tie_buf 32 32 16 0 0) = 0
  /\ sample_verify
       (memcpy (b_addr (snd (fst (fst (scxfs_dir2_data_use_free sample_args
                                         tie_buf 32 32 16 0 0)))))
          32 sample_entry_bytes)
     = CheckGood.
Proof.
  assert (Hops : In sample_ops (format_variants 0 9))
    by (right; left; reflexivity).
  assert (Hok : block_ok sample_geo sample_ops tie_block)
    by (split; [reflexivity|cbn; lia]).
  assert (Hm : hdr_magic tie_block = SCXFS_DIR2_DATA_MAGIC
               \/ hdr_magic tie_block = SCXFS_DIR3_DATA_MAGIC)
    by (left; vm_compute; reflexivity).
  assert (Hns : snd (scxfs_dir2_data_use_free sample_args tie_buf 32 32 16 0 0)
                = 0) by (vm_compute; reflexivity).
  split; [exact Hops|]. split; [exact Hok|].
  split; [exact tie_block_accepted|]. split; [exact Hns|].
  destruct (use_free_keeps_valid 0 9 (fun _ => 0) (fun _ => 0)
              (fun _ _ o => o / 8) sample_geo sample_ops tie_block
              Hops Hok Hm tie_block_accepted
              [REntry 16 16]
              [REntry 48 16; RUnused 64 16; REntry 80 16; REntry 96 16;
               REntry 112 16]
              32 16 32 16 tie_buf 0 0 eq_refl tie_block_records
              ltac:(lia) ltac:(lia) ltac:(lia) ltac:(lia) ltac:(lia))
    as [_ Hc].
  set (b' := b_addr (snd (fst (fst (scxfs_dir2_data_use_free
                 {| geo := sample_geo; d_ops := sample_ops |}
                 tie_buf 32 32 16 0 0))))) in *.
  destruct (Hc (memcpy b' 32 sample_entry_bytes)) as (_ & H0 & _).
  - apply same_outside_memcpy; [lia|cbn; lia].
  - vm_compute. discriminate.
  - vm_compute. reflexivity.
  - unfold entry_ok.
    split; [|split; [|split; [|split; [|split]]]].
    all: try match goal with
             | |- false = true -> _ => intros F; discriminate F
             end.
    all: vm_compute; first [reflexivity|intros F; discriminate F].
  - exact (H0 Hns).
Defined.

(** ** The scan of an accepted block *)

Lemma leaf_scan_same_outside (lo hi : Z) (b b' : buf) (lep : Z) :
  same_outside lo hi b b' -> hi <= lep - 8 ->
  forall n i stale,
    0 <= i -> leaf_scan b' lep i stale n = leaf_scan b lep i stale n.
Proof.
  intros F Hlep.
  induction n as [|n IH]; intros i stale Hi; cbn [leaf_scan]; [reflexivity|].
  unfold lep_address, lep_hashval, sizeof_scxfs_dir2_leaf_entry.
  rewrite !(get_be32_same_outside lo hi b b' _ F) by lia.
  fold sizeof_scxfs_dir2_leaf_entry.
  fold (lep_address b lep i) (lep_hashval b lep i) (lep_hashval b lep (i - 1)).
  cbv zeta. rewrite IH by lia. reflexivity.
Qed.

Lemma dep_name_same (b b' : buf) (o : Z) :
  (forall x, o <= x < o + 9 + rd b (o + 8) -> rd b' x = rd b x) ->
  dep_name b' o = dep_name b o.
Proof.
  intros F. unfold dep_name, dep_namelen, offsetof_entry_namelen,
    offsetof_entry_name.
  pose proof (rd_range b (o + 8)) as R.
  rewrite (F (o + 8)) by lia.
  apply map_ext_in. intros k Hk. apply in_seq in Hk.
  apply F. lia.
Qed.

Lemma entry_ok_same_outside (ftu ftm : Z) (inoval : Z -> Z)
    (hash : list Z -> Z) (dataptr : scxfs_da_geometry -> Z -> Z -> Z)
    (g : scxfs_da_geometry) (ops : scxfs_dir_ops) (b b' : buf)
    (lo hi e o : Z) (isblock : bool) :
  In ops (format_variants ftu ftm) ->
  same_outside lo hi b b' -> hi <= o ->
  (isblock = true ->
   hi <= scxfs_dir2_block_leaf_p b (scxfs_dir2_block_tail_p g)) ->
  entry_ok ftm inoval hash dataptr g ops b e isblock o ->
  entry_ok ftm inoval hash dataptr g ops b' e isblock o.
Proof.
  intros Hops F Ho Hlep (E1 & E2 & E3 & E4 & E5 & E6).
  assert (Fo : forall x, o <= x -> rd b' x = rd b x)
    by (intros x Hx; destruct F as [_ F]; apply F; lia).
  destruct (entry_ok_frame ftu ftm inoval hash dataptr g ops b b' e o Hops)
    as (N1 & N2 & N3 & N4 & N5 & _).
  { intros x Hx. apply Fo. lia. }
  { repeat split; auto. intros Hf. discriminate Hf. }
  repeat split; auto.
  intros Hb. cbv zeta.
  destruct (E6 Hb) as (k & Hk & Ha & Hh). cbv zeta in Hk, Ha, Hh.
  specialize (Hlep Hb).
  set (btp := scxfs_dir2_block_tail_p g) in *.
  pose proof (get_be32_range b btp) as Rc. fold (btp_count b btp) in Rc.
  assert (Hbt : hi <= btp).
  { unfold scxfs_dir2_block_leaf_p, sizeof_scxfs_dir2_leaf_entry in Hlep. lia. }
  assert (Ec : btp_count b' btp = btp_count b btp)
    by (unfold btp_count; apply (get_be32_same_outside lo hi b b' _ F); lia).
  assert (El : scxfs_dir2_block_leaf_p b' btp = scxfs_dir2_block_leaf_p b btp)
    by (unfold scxfs_dir2_block_leaf_p; rewrite Ec; reflexivity).
  rewrite El, Ec. exists k. split; [exact Hk|].
  unfold lep_address, lep_hashval, sizeof_scxfs_dir2_leaf_entry in *.
  rewrite !(get_be32_same_outside lo hi b b' _ F) by lia.
  rewrite (dep_name_same b b' o) by (intros x Hx; apply Fo; lia).
  split; assumption.
Qed.

Section Rescan.

Variables ftu ftm : Z.
Variable inoval : Z -> Z.
Variable hash : list Z -> Z.
Variable dataptr : scxfs_da_geometry -> Z -> Z -> Z.
Variable g : scxfs_da_geometry.
Variable ops : scxfs_dir_ops.

Let verify := __scxfs_dir3_data_check ftm inoval hash dataptr g ops.

(** What acceptance says of the table, in either block format: it fits
    the unused regions of the block. *)
Lemma accepted_table_fits (b : buf) :
  ops_layout ops -> block_ok g ops b ->
  verify b = CheckGood ->
  table_fits (bf_table b (data_bestfree_p ops))
             (regions_of (block_records g ops b)).
Proof.
  intros Hlay Hok Hv.
  pose proof Hlay as (L1 & L2 & L3 & L4 & L5 & Hes & _).
  pose proof Hok as [Hlen HB].
  destruct (accepted_records ftm inoval hash dataptr g ops b Hlay Hv)
    as (e & qend & He & Hw & Hqe & Hrok & Ht & Hfuel).
  destruct (check_good_inv ftm inoval hash dataptr g ops b Hv)
    as (e' & fs0 & He' & Hz & S1 & S2 & Hc & _).
  rewrite He in He'. injection He' as <-.
  destruct (endp_le_blksize g b e He) as [HeB _].
  assert (HB32 : e <= 4294967296) by lia.
  assert (Hp0 : 0 <= data_entry_p ops) by lia.
  destruct (checked_marks b ops _ _ Hes HB32 _ _ _ _ _ Hc Hp0) as [M1 M2].
  pose proof (checked_first b ops _ _ _ _ _ _ _ Hc) as M3.
  set (bf := data_bestfree_p ops) in *.
  assert (Hslot : forall i, In i bf_slots ->
            slot_at b bf i = (0, 0)
            \/ (In (slot_at b bf i) (regions_of (block_records g ops b))
                /\ forall k, In k bf_slots -> k < i ->
                             bf_offset b bf k <> bf_offset b bf i)).
  { intros i Hi.
    assert (Hb : Z.land 7 (Z.shiftl 1 i) <> 0)
      by (destruct (slot_cases i Hi) as [-> | [-> | ->]]; cbn; discriminate).
    destruct (M1 i Hi Hb) as [Hz0|Hin];
      [left; exact (zero_slots_marks _ _ _ Hz i Hi Hz0)|].
    destruct (M3 i Hi Hb) as [Hz0|Hf];
      [left; exact (zero_slots_marks _ _ _ Hz i Hi Hz0)|].
    right. split; assumption. }
  rewrite (bf_table_slots b bf).
  unfold table_fits.
  split; [exact S1|]. split; [exact S2|]. split.
  { intros s [<-|[<-|[<-|[]]]];
      [destruct (Hslot 0) as [E|[E _]]|destruct (Hslot 1) as [E|[E _]]
       |destruct (Hslot 2) as [E|[E _]]]; cbn; auto. }
  assert (Hne : forall i k, bf_offset b bf k <> bf_offset b bf i ->
                            slot_at b bf k <> slot_at b bf i)
    by (unfold slot_at; intros i k H E; inversion E; contradiction).
  split.
  { destruct (Hslot 0 ltac:(cbn; auto)) as [E0|[_ _]]; [left; exact E0|].
    destruct (Z.eq_dec (bf_offset b bf 0) 0) as [Z0|Z0].
    { destruct (Hslot 0 ltac:(cbn; auto)) as [E0|[R0 _]]; [left; exact E0|].
      apply regions_of_in in R0.
      pose proof (tiled_off_ge _ _ _ _ Ht R0) as G. cbn [rec_off] in G.
      unfold bf in *. lia. }
    right. split.
    - destruct (Hslot 1 ltac:(cbn; auto)) as [E1|[_ F1]].
      + intros E. rewrite E1 in E. unfold slot_at in E. inversion E. contradiction.
      + apply Hne. apply F1; [cbn; auto|lia].
    - destruct (Hslot 2 ltac:(cbn; auto)) as [E2|[_ F2]].
      + intros E. rewrite E2 in E. unfold slot_at in E. inversion E. contradiction.
      + apply Hne. apply F2; [cbn; auto|lia]. }
  split.
  { destruct (Hslot 1 ltac:(cbn; auto)) as [E1|[R1 _]]; [left; exact E1|].
    apply regions_of_in in R1.
    pose proof (tiled_off_ge _ _ _ _ Ht R1) as G. cbn [rec_off] in G.
    right.
    destruct (Hslot 2 ltac:(cbn; auto)) as [E2|[_ F2]].
    + intros E. rewrite E2 in E. unfold slot_at in E. inversion E.
      unfold bf in *. lia.
    + apply Hne. apply F2; [cbn; auto|lia]. }
  intros [o l] Hin. apply regions_of_in in Hin.
  destruct (M2 o l Hin) as [H|H]; [left; exact H|right; exact H].
Qed.

(** An accepted block stays accepted when its table is replaced by any
    table that fits its unused regions. *)
Lemma accepted_table_replaced (b b' : buf) :
  In ops (format_variants ftu ftm) -> block_ok g ops b ->
  verify b = CheckGood ->
  same_outside (data_bestfree_p ops) (data_bestfree_p ops + 12) b b' ->
  table_fits (bf_table b' (data_bestfree_p ops))
             (regions_of (block_records g ops b)) ->
  verify b' = CheckGood.
Proof.
  intros Hops Hok Hv F Hfit.
  pose proof (format_variants_layout _ _ _ Hops) as Hlay.
  pose proof Hlay as (L1 & L2 & L3 & L4 & L5 & Hes & _).
  assert (L6 : data_entry_offset ops <= 64)
    by (destruct Hops as [<-|[<-|[<-|[]]]]; cbn; lia).
  pose proof Hok as [Hlen HB].
  destruct (accepted_records ftm inoval hash dataptr g ops b Hlay Hv)
    as (e & qend & He & Hw & Hqe & Hrok & Ht & Hfuel).
  destruct (check_good_loop ftm inoval hash dataptr g ops b Hv)
    as (e' & fs0 & count & He' & El & Hblk).
  rewrite He in He'. injection He' as <-.
  destruct (check_loop_entries ftm inoval hash dataptr g ops b _ _ _ _ _ _ _ _ _ _ El)
    as [Hent Hcount].
  destruct (endp_le_blksize g b e He) as [HeB _].
  set (recs := block_records g ops b) in *.
  assert (Hrecs : data_records (scan_fuel g) ops b (data_entry_p ops) (Some e)
                  = recs)
    by (unfold recs, block_records; rewrite He; reflexivity).
  rewrite Hrecs in Hent, Hcount.
  set (deo := data_entry_offset ops) in *.
  set (bf := data_bestfree_p ops) in *.
  set (btp := scxfs_dir2_block_tail_p g) in *.
  set (isblock := (hdr_magic b =? SCXFS_DIR3_BLOCK_MAGIC)
                  || (hdr_magic b =? SCXFS_DIR2_BLOCK_MAGIC)) in *.
  assert (Hbt : bf + 12 <= btp).
  { unfold btp, scxfs_dir2_block_tail_p, sizeof_scxfs_dir2_block_tail. lia. }
  assert (Hm' : hdr_magic b' = hdr_magic b).
  { unfold hdr_magic. apply (get_be32_same_outside _ _ _ _ _ F). lia. }
  assert (Ec : btp_count b' btp = btp_count b btp)
    by (unfold btp_count; apply (get_be32_same_outside _ _ _ _ _ F); lia).
  assert (Es : btp_stale b' btp = btp_stale b btp)
    by (unfold btp_stale; apply (get_be32_same_outside _ _ _ _ _ F); lia).
  assert (Elp : scxfs_dir2_block_leaf_p b' btp = scxfs_dir2_block_leaf_p b btp)
    by (unfold scxfs_dir2_block_leaf_p; rewrite Ec; reflexivity).
  assert (He1 : scxfs_dir3_data_endp g b' = Some e).
  { rewrite (endp_same_outside g bf (bf + 12) b b' F); auto; lia. }
  assert (Hlep : isblock = true ->
                 bf + 12 <= scxfs_dir2_block_leaf_p b btp - 8).
  { intros Hb. destruct (Hblk Hb) as (Hc & _).
    unfold scxfs_dir2_block_leaf_p.
    unfold u64, sizeof_scxfs_dir2_leaf_entry in *.
    rewrite L4 in Hc. fold deo in Hc.
    assert (Hr : 0 <= btp - deo < 65536).
    { unfold btp, scxfs_dir2_block_tail_p, sizeof_scxfs_dir2_block_tail. lia. }
    rewrite Z.mod_small in Hc by lia.
    pose proof (Z.mul_div_le (btp - deo) 8 ltac:(lia)). lia. }
  assert (Hge : forall r, In r recs -> deo <= rec_off r)
    by (intros r Hr; exact (tiled_off_ge _ _ _ _ Ht Hr)).
  assert (Hw' : walks ops b' e deo recs qend).
  { apply (walks_frame ops b b' e _ _ _ Hw).
    apply Forall_forall. intros r Hr x Hx.
    destruct F as [_ F]. apply F. pose proof (Hge r Hr). lia. }
  assert (Hrok' : Forall (rec_ok b' e) recs).
  { apply Forall_forall. intros r Hr.
    pose proof Hrok as Hrok0.
    rewrite Forall_forall in Hrok0. destruct (Hrok0 r Hr) as [R1 R2].
    split; [exact R1|].
    rewrite (get_be16_same_outside _ _ _ _ _ F); [exact R2|].
    right.
    apply (tag_behind_header ops b e (bf + 12) Hes ltac:(lia)
             deo recs qend false Hw Ht ltac:(lia) Hrok r Hr). }
  assert (Hent' : forall o l, In (REntry o l) recs ->
            entry_ok ftm inoval hash dataptr g ops b' e isblock o).
  { intros o l Ho.
    apply (entry_ok_same_outside ftu ftm inoval hash dataptr g ops b b'
             bf (bf + 12) e o isblock Hops F).
    - pose proof (Hge _ Ho). cbn [rec_off] in *. lia.
    - intros Hb. specialize (Hlep Hb). fold btp. lia.
    - exact (Hent o l Ho). }
  rewrite (bf_table_slots b' bf) in Hfit.
  set (s0 := slot_at b' bf 0) in *. set (s1 := slot_at b' bf 1) in *.
  set (s2 := slot_at b' bf 2) in *.
  pose proof Hfit as (S1 & S2 & Hsl & Hd0 & Hd1 & Hun).
  assert (Hreg : forall s, In s [s0; s1; s2] ->
            s = (0, 0) \/ (0 < snd s /\ deo <= fst s /\ fst s < qend)).
  { intros s Hs. destruct (Hsl s Hs) as [E|Hin]; [left; exact E|right].
    destruct s as [o l]. apply regions_of_in in Hin. cbn [fst snd].
    pose proof (tiled_off_ge _ _ _ _ Ht Hin) as H1.
    pose proof (tiled_positive _ _ _ _ Ht Hin) as H2.
    rewrite Forall_forall in Hrok. destruct (Hrok _ Hin) as [H3 _].
    cbn [rec_off rec_len] in *. lia. }
  pose proof (check_loop_complete ftm inoval hash dataptr g ops b' e recs
                s0 s1 s2 isblock Hlay ltac:(lia) eq_refl Hfit Ht Hrok' Hent'
                recs deo qend Hw' false 0 (scan_fuel g)
                (fun r Hr => Hr) Ht Hqe Hfuel) as CL.
  fold bf btp in CL. cbn beta iota in CL.
  unfold verify, __scxfs_dir3_data_check. cbv zeta.
  rewrite Hm', He1, L4. fold bf deo btp isblock.
  rewrite Ec, Es.
  rewrite (zero_slots_mask b' bf deo s0 s1 s2 eq_refl eq_refl eq_refl)
    by (intros s Hs; destruct (Hreg s Hs) as [E|(A & C & _)]; auto).
  change (bf_length b' bf 0) with (snd s0).
  change (bf_length b' bf 1) with (snd s1).
  change (bf_length b' bf 2) with (snd s2).
  rewrite CL.
  rewrite (seen_mask_all qend s0 s1 s2)
    by (intros s Hs; destruct (Hreg s Hs) as [E|(_ & _ & A)]; auto).
  destruct (Z.ltb_spec (snd s0) (snd s1)); [lia|].
  destruct (Z.ltb_spec (snd s1) (snd s2)); [lia|].
  change (negb (7 =? 7)) with false. cbv iota.
  destruct isblock eqn:Hib.
  - destruct (Hblk eq_refl) as (Hc & Hls & Hcnt).
    rewrite L4 in Hc. fold deo in Hc.
    destruct (Z.geb_spec (btp_count b btp)
                (u64 (btp - deo) / sizeof_scxfs_dir2_leaf_entry)); [lia|].
    cbn [andb negb].
    rewrite Elp.
    rewrite (leaf_scan_same_outside bf (bf + 12) b b' _ F (Hlep eq_refl))
      by lia.
    rewrite Hls.
    rewrite <- Hcount, Hcnt, !Z.eqb_refl. reflexivity.
  - cbn [andb negb].
    assert (Hid : (hdr_magic b =? SCXFS_DIR3_DATA_MAGIC)
                  || (hdr_magic b =? SCXFS_DIR2_DATA_MAGIC) = true).
    { unfold scxfs_dir3_data_endp in He. fold isblock in He.
      rewrite Hib in He.
      destruct ((hdr_magic b =? SCXFS_DIR3_DATA_MAGIC)
                || (hdr_magic b =? SCXFS_DIR2_DATA_MAGIC));
        [reflexivity|discriminate He]. }
    rewrite Hid. reflexivity.
Qed.

(** C2, as amended: in each of the three formats, on a block that the
    verifier accepts, [freescan] terminates and changes no byte outside the
    best-free table; the block it leaves is accepted again, and its table
    fits the unused regions of the block (lengths do not increase, every
    slot is empty or a region, no region is listed twice, a region left
    out is not longer than slot 2).  Slot by slot the lengths are those of
    the table before the scan, and a slot is the very slot of before
    unless both are unused regions of the block of one length at different
    offsets: the scan can only exchange a listed region for another region
    of the same length. *)
Theorem freescan_same_lengths (b : buf) :
  In ops (format_variants ftu ftm) -> block_ok g ops b ->
  verify b = CheckGood ->
  exists b' loghead,
    scxfs_dir2_data_freescan_int g ops b = Some (b', loghead)
    /\ same_outside (data_bestfree_p ops) (data_bestfree_p ops + 12) b b'
    /\ verify b' = CheckGood
    /\ table_fits (bf_table b' (data_bestfree_p ops)) (unused_regions g ops b)
    /\ map snd (bf_table b' (data_bestfree_p ops))
       = map snd (bf_table b (data_bestfree_p ops))
    /\ forall i, In i bf_slots ->
         slot_at b' (data_bestfree_p ops) i = slot_at b (data_bestfree_p ops) i
         \/ (In (slot_at b (data_bestfree_p ops) i) (unused_regions g ops b)
             /\ In (slot_at b' (data_bestfree_p ops) i) (unused_regions g ops b)
             /\ snd (slot_at b' (data_bestfree_p ops) i)
                = snd (slot_at b (data_bestfree_p ops) i)
             /\ fst (slot_at b' (data_bestfree_p ops) i)
                <> fst (slot_at b (data_bestfree_p ops) i)).
Proof.
  intros Hops Hok Hv.
  pose proof (format_variants_layout _ _ _ Hops) as Hlay.
  pose proof Hok as [Hlen HB].
  pose proof Hlay as (L1 & L2 & L3 & L4 & L5 & Hes & _).
  destruct (check_good_inv ftm inoval hash dataptr g ops b Hv)
    as (e & fs0 & He & Hz & S1 & S2 & Hc & Hl).
  destruct (accepted_records ftm inoval hash dataptr g ops b Hlay Hv)
    as (e' & qend & He' & _ & _ & _ & Ht & _).
  clear e' He'.
  destruct (endp_le_blksize g b e He) as [HeB _].
  pose proof (accepted_table_fits b Hlay Hok Hv)
    as Hold.
  change (unused_regions g ops b) with (regions_of (block_records g ops b)).
  set (recs := block_records g ops b) in *.
  set (bf := data_bestfree_p ops) in *.
  assert (Hin : table_in b bf) by (split; lia).
  assert (Hrecs : data_records (scan_fuel g) ops b (data_entry_p ops) (Some e)
                  = recs)
    by (unfold recs, block_records; rewrite He; reflexivity).
  unfold scxfs_dir2_data_freescan_int. fold bf.
  set (b1 := memset0 b bf _).
  assert (F1 : same_outside bf (bf + 12) b b1)
    by (apply same_outside_memset0; [lia|cbn; lia]).
  assert (He1 : scxfs_dir3_data_endp g b1 = Some e).
  { rewrite (endp_same_outside g bf (bf + 12) b b1 F1); auto; try lia.
    unfold scxfs_dir2_block_tail_p, sizeof_scxfs_dir2_block_tail. lia. }
  rewrite He1.
  assert (Hl' : (length (data_records (scan_fuel g) ops b (data_entry_p ops)
                           (Some e)) < scan_fuel g)%nat)
    by (rewrite Hrecs; exact Hl).
  destruct (freescan_loop_table b ops bf e Hes ltac:(lia) (scan_fuel g)
              (data_entry_p ops) b1 1 Hl' F1 Hin ltac:(lia))
    as (b' & lh' & E1 & E2 & E3).
  destruct (freescan_loop_records b ops bf e Hes (scan_fuel g)
              (data_entry_p ops) b1 1 Hl' F1 Hin ltac:(lia))
    as (b2 & lh2 & G1 & _ & G3).
  rewrite E1 in G1. injection G1 as <- <-.
  rewrite Hrecs in E3, G3.
  assert (Hnew : table_fits (bf_table b' bf) (regions_of recs)).
  { rewrite E3. unfold b1. rewrite bf_table_memset0 by exact Hin.
    change (regions_of recs) with ([] ++ regions_of recs).
    apply insert_all_fits.
    - cbn. repeat split; try lia; auto.
      intros s [<-|[<-|[<-|[]]]]; auto.
    - exact (tiled_regions_nodup _ _ _ Ht).
    - intros [o l] Hr. split; [|intros []].
      apply regions_of_in in Hr.
      exact (tiled_positive _ _ _ _ Ht Hr). }
  assert (Hlen' : map snd (bf_table b' bf) = map snd (bf_table b bf)).
  { rewrite G3. unfold b1. rewrite bf_table_memset0 by exact Hin.
    cbn [map snd].
    destruct (zero_slots_inr _ _ _ Hz) as [Hfs Hun].
    unfold recs, block_records in Hc. rewrite He in Hc. rewrite Hrecs in Hc.
    destruct (checked_lengths _ _ _ _ _ _ _ _ _ Hc eq_refl Hfs)
      as (rest & HP & HF).
    rewrite (fold_len_insert_perm _ _ HP) by (cbn; lia).
    fold bf in Hun. rewrite Hun. unfold bf_slots. cbn [map].
    pose proof (get_be16_range b (bf + sizeof_scxfs_dir2_data_free * 2 + 2)) as R.
    fold (bf_length b bf 2) in R.
    rewrite fold_len_insert_table; auto; try lia. }
  exists b', lh'. split; [exact E1|]. split; [exact E2|].
  split.
  { exact (accepted_table_replaced b b' Hops Hok Hv E2 Hnew). }
  split; [exact Hnew|]. split; [exact Hlen'|].
  intros i Hi.
  assert (Hsn : snd (slot_at b' bf i) = snd (slot_at b bf i)).
  { rewrite !bf_table_slots in Hlen'. cbn [map] in Hlen'.
    injection Hlen' as X0 X1 X2.
    destruct (slot_cases i Hi) as [-> | [-> | ->]]; assumption. }
  assert (Hpos : forall s, In s (regions_of recs) -> 0 < snd s).
  { intros [o l] Hr. apply regions_of_in in Hr.
    exact (tiled_positive _ _ _ _ Ht Hr). }
  assert (Ho : slot_at b bf i = (0, 0)
               \/ In (slot_at b bf i) (regions_of recs)).
  { rewrite (bf_table_slots b bf) in Hold.
    destruct Hold as (_ & _ & Hsl & _). apply Hsl.
    destruct (slot_cases i Hi) as [-> | [-> | ->]]; cbn; auto. }
  assert (Hn : slot_at b' bf i = (0, 0)
               \/ In (slot_at b' bf i) (regions_of recs)).
  { rewrite (bf_table_slots b' bf) in Hnew.
    destruct Hnew as (_ & _ & Hsl & _). apply Hsl.
    destruct (slot_cases i Hi) as [-> | [-> | ->]]; cbn; auto. }
  destruct Ho as [Eo|Ro]; destruct Hn as [En|Rn].
  - left. rewrite Eo, En. reflexivity.
  - exfalso. pose proof (Hpos _ Rn) as P. rewrite Hsn, Eo in P. cbn in P. lia.
  - exfalso. pose proof (Hpos _ Ro) as P. rewrite <- Hsn, En in P. cbn in P. lia.
  - destruct (Z.eq_dec (fst (slot_at b' bf i)) (fst (slot_at b bf i))) as [Ef|Ef].
    + left. destruct (slot_at b' bf i), (slot_at b bf i).
      cbn [fst snd] in *. congruence.
    + right. auto.
Qed.

End Rescan.

Lemma freescan_same_lengths_witness :
  (In sample_ops (format_variants 0 9)
   /\ block_ok sample_geo sample_ops sample_block
   /\ sample_verify sample_block = CheckGood
   /\ exists b' loghead,
        scxfs_dir2_data_freescan_int sample_geo sample_ops sample_block
        = Some (b', loghead)
        /\ same_outside 4 16 sample_block b'
        /\ sample_verify b' = CheckGood
        /\ map snd (bf_table b' 4) = [32; 16; 16]
        /\ forall i, In i bf_slots ->
             slot_at b' 4 i = slot_at sample_block 4 i
             \/ (In (slot_at sample_block 4 i)
                    (unused_regions sample_geo sample_ops sample_block)
                 /\ In (slot_at b' 4 i)
                       (unused_regions sample_geo sample_ops sample_block)
                 /\ snd (slot_at b' 4 i) = snd (slot_at sample_block 4 i)
                 /\ fst (slot_at b' 4 i) <> fst (slot_at sample_block 4 i)))
  /\ (block_ok sample_geo sample_ops leaf_block
      /\ sample_verify leaf_block = CheckGood
      /\ exists b' loghead,
           scxfs_dir2_data_freescan_int sample_geo sample_ops leaf_block
           = Some (b', loghead)
           /\ sample_verify b' = CheckGood
           /\ map snd (bf_table b' 4) = [80; 0; 0]).
Proof.
  assert (Hops : In sample_ops (format_variants 0 9))
    by (right; left; reflexivity).
  assert (Hlb : block_ok sample_geo sample_ops leaf_block)
    by (split; [reflexivity|cbn; lia]).
  split.
  - split; [exact Hops|]. split; [exact sample_block_ok|].
    split; [exact sample_accepted|].
    destruct (freescan_same_lengths 0 9 (fun _ => 0) (fun _ => 0)
                (fun _ _ o => o / 8) sample_geo sample_ops sample_block
                Hops sample_block_ok sample_accepted)
      as (b' & lh & H1 & H2 & H3 & _ & H5 & H6).
    exists b', lh. split; [exact H1|]. split; [exact H2|].
    split; [exact H3|]. split; [|exact H6].
    change (data_bestfree_p sample_ops) with 4 in H5. rewrite H5.
    vm_compute. reflexivity.
  - split; [exact Hlb|]. split; [exact leaf_block_accepted|].
    destruct (freescan_same_lengths 0 9 (fun _ => 0) (fun _ => 0)
                (fun _ _ o => o / 8) sample_geo sample_ops leaf_block
                Hops Hlb leaf_block_accepted)
      as (b' & lh & H1 & _ & H3 & _ & H5 & _).
    exists b', lh. split; [exact H1|]. split; [exact H3|].
    change (data_bestfree_p sample_ops) with 4 in H5. rewrite H5.
    vm_compute. reflexivity.
Defined.
